(** * UBX protocol engine of the u-blox driver (main/ublox.c)

    A shallow embedding of the byte-stream demultiplexer [proc_byte], the
    frame encoder [ubx_encode_send], the field codec [ubx_get_*] /
    [ubx_put_*], the configuration request builders, the variable-count
    decoders, the start-up sequence [ublox_init] and the terminal command
    [ubx_poll], followed by the properties stated about them.

    Conventions.
    - A C byte array is a [list Z]; an access outside the array is
      undefined behaviour in C and is [None] here.
    - [uint8_t], [uint16_t], [uint32_t] values are integers reduced modulo
      2^8, 2^16, 2^32; the signed types use the two's-complement window.
    - [int] counters ([ind], [line_pos], [ubx_pos], [ubx_len]) are plain
      integers: the values they reach are bounded by the 16-bit frame
      length plus eight, far from the 32-bit limits. *)

From Stdlib Require Import String ZArith List Bool Lia.
Import ListNotations.
Open Scope Z_scope.

(* ------------------------------------------------------------------ *)
(** ** Settings *)

Definition LINE_BUFFER_SIZE : Z := 256.
Definition UBX_BUFFER_SIZE : Z := 2000.
Definition CFG_ACK_WAIT_MS : Z := 100.

(* ------------------------------------------------------------------ *)
(** ** C integer conversions *)

Definition to_u8 (z : Z) : Z := z mod 256.
Definition to_u16 (z : Z) : Z := z mod 65536.
Definition to_u32 (z : Z) : Z := z mod 4294967296.
Definition to_u64 (z : Z) : Z := z mod 18446744073709551616.
Definition to_i8 (z : Z) : Z := (z + 128) mod 256 - 128.
Definition to_i16 (z : Z) : Z := (z + 32768) mod 65536 - 32768.
Definition to_i32 (z : Z) : Z := (z + 2147483648) mod 4294967296 - 2147483648.

Definition is_byte (z : Z) : Prop := 0 <= z < 256.

(* ------------------------------------------------------------------ *)
(** ** Byte arrays with checked indices *)

Fixpoint upd {A} (n : nat) (v : A) (l : list A) : list A :=
  match l, n with
  | [], _ => []
  | _ :: t, O => v :: t
  | x :: t, S m => x :: upd m v t
  end.

Definition in_bounds {A} (a : list A) (i : Z) : bool :=
  (0 <=? i) && (i <? Z.of_nat (length a)).

(** [a[i]] as an rvalue. *)
Definition load {A} (a : list A) (i : Z) : option A :=
  if in_bounds a i then nth_error a (Z.to_nat i) else None.

(** [a[i] = v]. *)
Definition store {A} (a : list A) (i : Z) (v : A) : option (list A) :=
  if in_bounds a i then Some (upd (Z.to_nat i) v a) else None.

(* ------------------------------------------------------------------ *)
(** ** Field codec: a buffer with an external cursor

    Every getter and putter receives [uint8_t *msg] and [int *ind]; the
    pair is threaded through a state-and-failure monad. *)

Record cursor : Type := Cursor { buf : list Z; ind : Z }.

Definition Codec (A : Type) : Type := cursor -> option (A * cursor).

Definition ret {A} (a : A) : Codec A := fun c => Some (a, c).

Definition bind {A B} (m : Codec A) (k : A -> Codec B) : Codec B :=
  fun c => match m c with
           | Some (a, c') => k a c'
           | None => None
           end.

Declare Scope codec_scope.
Delimit Scope codec_scope with codec.
Notation "x <- m ;; k" := (bind m (fun x => k))
  (at level 61, m at next level, right associativity) : codec_scope.
Notation "m ;;; k" := (bind m (fun _ => k))
  (at level 61, right associativity) : codec_scope.
Open Scope codec_scope.

(** [msg[*ind + off]] *)
Definition peek (off : Z) : Codec Z :=
  fun c => match load (buf c) (ind c + off) with
           | Some b => Some (b, c)
           | None => None
           end.

(** [*ind += n] *)
Definition skip (n : Z) : Codec unit :=
  fun c => Some (tt, Cursor (buf c) (ind c + n)).

(** [msg[( *ind)++]] *)
Definition next_byte : Codec Z :=
  b <- peek 0 ;; skip 1 ;;; ret b.

(** [msg[( *ind)++] = v], the stored value converted to [uint8_t]. *)
Definition emit (v : Z) : Codec unit :=
  fun c => match store (buf c) (ind c) (to_u8 v) with
           | Some b' => Some (tt, Cursor b' (ind c + 1))
           | None => None
           end.

(** A run of consecutive stores [msg[( *ind)++] = v] for [v] in [vs]. *)
Fixpoint emits (vs : list Z) : Codec unit :=
  match vs with
  | [] => ret tt
  | [v] => emit v
  | v :: t => emit v ;;; emits t
  end.

(** *** Getters *)

Definition ubx_get_U1 : Codec Z := next_byte.

Definition ubx_get_I1 : Codec Z := b <- next_byte ;; ret (to_i8 b).

Definition ubx_get_X1 : Codec Z := next_byte.

Definition le16 : Codec Z :=
  b1 <- peek 1 ;; b0 <- peek 0 ;;
  ret (Z.lor (Z.shiftl (to_u16 b1) 8) (to_u16 b0)).

Definition le32 : Codec Z :=
  b3 <- peek 3 ;; b2 <- peek 2 ;; b1 <- peek 1 ;; b0 <- peek 0 ;;
  ret (Z.lor (Z.lor (Z.lor (to_u32 (Z.shiftl (to_u32 b3) 24))
                           (to_u32 (Z.shiftl (to_u32 b2) 16)))
                    (to_u32 (Z.shiftl (to_u32 b1) 8)))
             (to_u32 b0)).

Definition ubx_get_U2 : Codec Z := r <- le16 ;; skip 2 ;;; ret (to_u16 r).
Definition ubx_get_I2 : Codec Z := r <- le16 ;; skip 2 ;;; ret (to_i16 r).
Definition ubx_get_X2 : Codec Z := r <- le16 ;; skip 2 ;;; ret (to_u16 r).
Definition ubx_get_U4 : Codec Z := r <- le32 ;; skip 4 ;;; ret (to_u32 r).
Definition ubx_get_I4 : Codec Z := r <- le32 ;; skip 4 ;;; ret (to_i32 r).
Definition ubx_get_X4 : Codec Z := r <- le32 ;; skip 4 ;;; ret (to_u32 r).

(** [ubx_get_R4] and [ubx_get_R8] assemble the little-endian word and
    reinterpret it through a union; the floating value is represented by
    that bit pattern. *)
Definition ubx_get_R4 : Codec Z := r <- le32 ;; skip 4 ;;; ret (to_u32 r).

Definition ubx_get_R8 : Codec Z :=
  let word (b : Z) (n : Z) := to_u64 (Z.shiftl (to_u64 b) n) in
  b7 <- peek 7 ;; b6 <- peek 6 ;; b5 <- peek 5 ;; b4 <- peek 4 ;;
  b3 <- peek 3 ;; b2 <- peek 2 ;; b1 <- peek 1 ;; b0 <- peek 0 ;;
  skip 8 ;;;
  ret (Z.lor (Z.lor (Z.lor (Z.lor (Z.lor (Z.lor (Z.lor
         (word b7 56) (word b6 48)) (word b5 40)) (word b4 32))
         (word b3 24)) (word b2 16)) (word b1 8)) (to_u64 b0)).

(** *** Putters

    The argument is first converted to the parameter type, then each
    stored byte is the low byte of the (arithmetically) shifted value. *)

Definition ubx_put_U1 (data : Z) : Codec unit := emit (to_u8 data).
Definition ubx_put_I1 (data : Z) : Codec unit := emit (to_i8 data).
Definition ubx_put_X1 (data : Z) : Codec unit := emit (to_u8 data).

Definition put16 (data : Z) : Codec unit :=
  emit data ;;; emit (Z.shiftr data 8).

Definition put32 (data : Z) : Codec unit :=
  emit data ;;; emit (Z.shiftr data 8) ;;;
  emit (Z.shiftr data 16) ;;; emit (Z.shiftr data 24).

Definition ubx_put_U2 (data : Z) : Codec unit := put16 (to_u16 data).
Definition ubx_put_I2 (data : Z) : Codec unit := put16 (to_i16 data).
Definition ubx_put_X2 (data : Z) : Codec unit := put16 (to_u16 data).
Definition ubx_put_U4 (data : Z) : Codec unit := put32 (to_u32 data).
Definition ubx_put_I4 (data : Z) : Codec unit := put32 (to_i32 data).
Definition ubx_put_X4 (data : Z) : Codec unit := put32 (to_u32 data).

(** The nine integer field types, with their getter, putter, size and
    value range. *)
Inductive ubx_type : Type := U1 | I1 | X1 | U2 | I2 | X2 | U4 | I4 | X4.

Definition ubx_get (T : ubx_type) : Codec Z :=
  match T with
  | U1 => ubx_get_U1 | I1 => ubx_get_I1 | X1 => ubx_get_X1
  | U2 => ubx_get_U2 | I2 => ubx_get_I2 | X2 => ubx_get_X2
  | U4 => ubx_get_U4 | I4 => ubx_get_I4 | X4 => ubx_get_X4
  end.

Definition ubx_put (T : ubx_type) (data : Z) : Codec unit :=
  match T with
  | U1 => ubx_put_U1 data | I1 => ubx_put_I1 data | X1 => ubx_put_X1 data
  | U2 => ubx_put_U2 data | I2 => ubx_put_I2 data | X2 => ubx_put_X2 data
  | U4 => ubx_put_U4 data | I4 => ubx_put_I4 data | X4 => ubx_put_X4 data
  end.

Definition sizeof (T : ubx_type) : Z :=
  match T with
  | U1 | I1 | X1 => 1
  | U2 | I2 | X2 => 2
  | U4 | I4 | X4 => 4
  end.

Definition in_range (T : ubx_type) (v : Z) : Prop :=
  match T with
  | U1 | X1 => 0 <= v < 256
  | I1 => -128 <= v < 128
  | U2 | X2 => 0 <= v < 65536
  | I2 => -32768 <= v < 32768
  | U4 | X4 => 0 <= v < 4294967296
  | I4 => -2147483648 <= v < 2147483648
  end.

(** The [n] low-order bytes of [v], least significant first. *)
Fixpoint le_bytes (n : nat) (v : Z) : list Z :=
  match n with
  | O => []
  | S m => v mod 256 :: le_bytes m (v / 256)
  end.

(* ------------------------------------------------------------------ *)
(** ** Frame codec: [ubx_encode_send] *)

(** One step of the running checksum: [ck_a += x; ck_b += ck_a] on two
    [uint8_t] accumulators. *)
Definition ck_step (ck : Z * Z) (x : Z) : Z * Z :=
  let ck_a := to_u8 (fst ck + x) in
  (ck_a, to_u8 (snd ck + ck_a)).

(** [ubx[ind] = v; ck_a += ubx[ind]; ck_b += ck_a; ind++] *)
Definition emit_ck (v : Z) (ck : Z * Z) : Codec (Z * Z) :=
  emit v ;;; ret (ck_step ck (to_u8 v)).

(** [for (int i = 0; i < len; i++) { ubx[ind] = msg[i]; ... }], with [n]
    iterations left and [i] the loop index. *)
Fixpoint encode_payload (n : nat) (i : Z) (msg : list Z) (ck : Z * Z)
  : Codec (Z * Z) :=
  match n with
  | O => ret ck
  | S m => fun c =>
      match load msg i with
      | Some x => (ck' <- emit_ck x ck ;; encode_payload m (i + 1) msg ck') c
      | None => None
      end
  end.

(** [ublox_send(data, len)]: the first [len] bytes of [data] go to the
    transport. *)
Definition ublox_send (data : list Z) (len : Z) : list Z :=
  firstn (Z.to_nat len) data.

(** [ubx_encode_send(class, id, msg, len)].  [ubx] is the content of the
    function's static 2000-byte buffer on entry; the result is its content
    on exit and the bytes handed to the transport. *)
Definition ubx_encode_send (ubx : list Z) (class id : Z) (msg : list Z)
    (len : Z) : option (list Z * list Z) :=
  match (emit 0xB5 ;;; emit 0x62 ;;;
         ck <- emit_ck class (0, 0) ;;
         ck <- emit_ck id ck ;;
         ck <- emit_ck (Z.land len 0xFF) ck ;;
         ck <- emit_ck (Z.land (Z.shiftr len 8) 0xFF) ck ;;
         ck <- encode_payload (Z.to_nat len) 0 msg ck ;;
         emit (fst ck) ;;; emit (snd ck)) (Cursor ubx 0) with
  | Some (_, c) => Some (buf c, ublox_send (buf c) (ind c))
  | None => None
  end.

(** The static send buffer as the C runtime initialises it. *)
Definition send_buffer_init : list Z := repeat 0 (Z.to_nat UBX_BUFFER_SIZE).

(** *** The frame as the wire format describes it *)

(** The running pair accumulated over [bytes] from (0, 0). *)
Definition ubx_checksum (bytes : list Z) : Z * Z :=
  fold_left ck_step bytes (0, 0).

(** Class, id, length low, length high, payload: the checksummed part. *)
Definition ubx_body (class id : Z) (payload : list Z) : list Z :=
  let len := Z.of_nat (length payload) in
  class :: id :: Z.land len 0xFF :: Z.land (Z.shiftr len 8) 0xFF :: payload.

Definition ubx_frame (class id : Z) (payload : list Z) : list Z :=
  let body := ubx_body class id payload in
  0xB5 :: 0x62 :: body
    ++ [fst (ubx_checksum body); snd (ubx_checksum body)].

(** The plain sum of a byte sequence: [ck_a] is this sum modulo 256. *)
Definition zsum (l : list Z) : Z := fold_right Z.add 0 l.

(* ------------------------------------------------------------------ *)
(** ** Stream demultiplexer: [decoder_state] and [proc_byte] *)

Record decoder_state : Type := DecoderState {
  line : list Z;
  ubx : list Z;
  line_pos : Z;
  ubx_pos : Z;
  ubx_class : Z;
  ubx_id : Z;
  ubx_ck_a : Z;
  ubx_ck_b : Z;
  ubx_len : Z
}.

(** What [proc_byte] hands to its two collaborators: the call
    [ubx_decode(class, id, ubx, len)], which receives the whole
    accumulation buffer and the declared length, and the call
    [nmea_decode_string(line)], which receives the NUL-terminated text at
    the start of the line buffer. *)
Inductive event : Type :=
| UbxDecode (class id : Z) (msg : list Z) (len : Z)
| NmeaDecodeString (text : list Z).

Fixpoint c_string (l : list Z) : list Z :=
  match l with
  | [] => []
  | x :: t => if x =? 0 then [] else x :: c_string t
  end.

Definition set_line (l : list Z) (p : Z) (st : decoder_state) :=
  DecoderState l (ubx st) p (ubx_pos st) (ubx_class st) (ubx_id st)
               (ubx_ck_a st) (ubx_ck_b st) (ubx_len st).

Definition set_ubx_pos (p : Z) (st : decoder_state) :=
  DecoderState (line st) (ubx st) (line_pos st) p (ubx_class st) (ubx_id st)
               (ubx_ck_a st) (ubx_ck_b st) (ubx_len st).

Definition set_ubx (u : list Z) (st : decoder_state) :=
  DecoderState (line st) u (line_pos st) (ubx_pos st) (ubx_class st)
               (ubx_id st) (ubx_ck_a st) (ubx_ck_b st) (ubx_len st).

Definition set_ubx_class (v : Z) (st : decoder_state) :=
  DecoderState (line st) (ubx st) (line_pos st) (ubx_pos st) v (ubx_id st)
               (ubx_ck_a st) (ubx_ck_b st) (ubx_len st).

Definition set_ubx_id (v : Z) (st : decoder_state) :=
  DecoderState (line st) (ubx st) (line_pos st) (ubx_pos st) (ubx_class st) v
               (ubx_ck_a st) (ubx_ck_b st) (ubx_len st).

Definition set_ubx_ck (a b : Z) (st : decoder_state) :=
  DecoderState (line st) (ubx st) (line_pos st) (ubx_pos st) (ubx_class st)
               (ubx_id st) a b (ubx_len st).

Definition set_ubx_len (v : Z) (st : decoder_state) :=
  DecoderState (line st) (ubx st) (line_pos st) (ubx_pos st) (ubx_class st)
               (ubx_id st) (ubx_ck_a st) (ubx_ck_b st) v.

(** [memset(&m_decoder_state, 0, sizeof(decoder_state))] *)
Definition reset_decoder_state : decoder_state :=
  DecoderState (repeat 0 (Z.to_nat LINE_BUFFER_SIZE))
               (repeat 0 (Z.to_nat UBX_BUFFER_SIZE)) 0 0 0 0 0 0 0.

(** [ubx_ck_a += ch; ubx_ck_b += ubx_ck_a; ubx_pos++] *)
Definition ck_advance (ch : Z) (st : decoder_state) : decoder_state :=
  let ck := ck_step (ubx_ck_a st, ubx_ck_b st) ch in
  set_ubx_pos (ubx_pos st + 1) (set_ubx_ck (fst ck) (snd ck) st).

(** The [if / else if] chain of the "Ubx" block. *)
Definition ubx_stage (st : decoder_state) (ch : Z)
  : option (decoder_state * list event) :=
  if ubx_pos st =? 0 then
    Some (if ch =? 0xB5 then set_ubx_pos (ubx_pos st + 1) st else st, [])
  else if ubx_pos st =? 1 then
    Some (if ch =? 0x62
          then set_ubx_ck 0 0 (set_ubx_pos (ubx_pos st + 1) st)
          else st, [])
  else if ubx_pos st =? 2 then
    Some (ck_advance ch (set_ubx_class ch st), [])
  else if ubx_pos st =? 3 then
    Some (ck_advance ch (set_ubx_id ch st), [])
  else if ubx_pos st =? 4 then
    Some (ck_advance ch (set_ubx_len ch st), [])
  else if ubx_pos st =? 5 then
    Some (ck_advance ch
            (set_ubx_len (Z.lor (ubx_len st) (Z.shiftl ch 8)) st), [])
  else if ubx_pos st - 6 <? ubx_len st then
    match store (ubx st) (ubx_pos st - 6) ch with
    | Some u => Some (ck_advance ch (set_ubx u st), [])
    | None => None
    end
  else if ubx_pos st - 6 =? ubx_len st then
    Some (if ch =? ubx_ck_a st then set_ubx_pos (ubx_pos st + 1) st else st,
          [])
  else if ubx_pos st - 6 =? ubx_len st + 1 then
    if ch =? ubx_ck_b st
    then Some (set_ubx_pos 0 st,
               [UbxDecode (ubx_class st) (ubx_id st) (ubx st) (ubx_len st)])
    else Some (st, [])
  else Some (st, []).

(** The "NMEA" block. *)
Definition nmea_stage (st : decoder_state) (ch : Z)
  : option (decoder_state * list event) :=
  match store (line st) (line_pos st) ch with
  | None => None
  | Some l1 =>
      let p1 := line_pos st + 1 in
      let p2 := if p1 =? LINE_BUFFER_SIZE then 0 else p1 in
      if 0 <? p2 then
        match load l1 (p2 - 1) with
        | None => None
        | Some last =>
            if last =? 10 then
              match store l1 p2 0 with
              | None => None
              | Some l2 =>
                  Some (set_line l2 0 st, [NmeaDecodeString (c_string l2)])
              end
            else Some (set_line l1 p2 st, [])
        end
      else Some (set_line l1 p2 st, [])
  end.

(** [proc_byte(ch)], [ch] a [uint8_t]. *)
Definition proc_byte (st : decoder_state) (ch : Z)
  : option (decoder_state * list event) :=
  match
    (if line_pos st =? 0 then
       let ubx_pos_last := ubx_pos st in
       match ubx_stage st ch with
       | None => None
       | Some (st1, evs) =>
           if negb (ubx_pos_last =? ubx_pos st1)
           then Some (st1, evs, true)
           else Some (set_ubx_pos 0 st1, evs, false)
       end
     else Some (st, [], false))
  with
  | None => None
  | Some (st2, evs, ch_used) =>
      if ch_used then Some (st2, evs)
      else match nmea_stage st2 ch with
           | None => None
           | Some (st3, evs') => Some (st3, evs ++ evs')
           end
  end.

(** The receive task's loop body applied to a sequence of received bytes. *)
Fixpoint proc_bytes (st : decoder_state) (bytes : list Z)
  : option (decoder_state * list event) :=
  match bytes with
  | [] => Some (st, [])
  | ch :: rest =>
      match proc_byte st ch with
      | None => None
      | Some (st1, evs) =>
          match proc_bytes st1 rest with
          | None => None
          | Some (st2, evs') => Some (st2, evs ++ evs')
          end
      end
  end.

Definition is_dispatch (e : event) : bool :=
  match e with UbxDecode _ _ _ _ => true | NmeaDecodeString _ => false end.

(** The frames delivered to the message dispatcher. *)
Definition dispatched (evs : list event) : list event := filter is_dispatch evs.

(** Both buffers have their declared sizes and the line position is a
    valid index. *)
Definition wf_state (st : decoder_state) : Prop :=
  Z.of_nat (length (line st)) = LINE_BUFFER_SIZE /\
  Z.of_nat (length (ubx st)) = UBX_BUFFER_SIZE /\
  0 <= line_pos st < LINE_BUFFER_SIZE.

(** States the receive task can be in while every access has stayed
    inside the arrays: those produced from the reset state by a sequence
    of received bytes on which [proc_bytes] returns a state.  A store
    past the accumulation buffer is undefined behaviour in C; the states
    of the program after one are not described by this predicate. *)
Definition reachable (st : decoder_state) : Prop :=
  exists bytes evs,
    Forall is_byte bytes /\
    proc_bytes reset_decoder_state bytes = Some (st, evs).

(** Flip bit [bit] of the byte at index [pos]. *)
Fixpoint flip_bit (pos : nat) (bit : Z) (l : list Z) : list Z :=
  match l, pos with
  | [], _ => []
  | x :: t, O => Z.lxor x (Z.shiftl 1 bit) :: t
  | x :: t, S p => x :: flip_bit p bit t
  end.

(* ------------------------------------------------------------------ *)
(** ** What the sources take from elsewhere *)

(** Message class and id macros of [ublox.h] used by the request
    builders.  The header is not among the sources; the values are
    parameters. *)
Class ublox_h : Type := {
  UBX_CLASS_CFG : Z;
  UBX_CFG_PRT : Z;
  UBX_CFG_TMODE3 : Z;
  UBX_CFG_MSG : Z;
  UBX_CFG_RATE : Z;
  UBX_CFG_CFG : Z;
  UBX_CFG_NAV5 : Z;
  UBX_CFG_TP5 : Z;
  UBX_CFG_GNSS : Z;
  UBX_CFG_NMEA : Z;
  UBX_CFG_VALSET : Z
}.

(** Floating-point values and the C operations the sources apply to them:
    a decimal literal [m * 10^e], product, difference, [round], conversion
    from an integer and conversion (truncation) to an integer. *)
Class c_floating : Type := {
  fp : Type;
  fp_lit : Z -> Z -> fp;
  fp_mul : fp -> fp -> fp;
  fp_sub : fp -> fp -> fp;
  fp_round : fp -> fp;
  fp_of_int : Z -> fp;
  fp_to_int : fp -> Z
}.

(** Exact decimal arithmetic on pairs (mantissa, exponent of ten): an
    instance on which the definitions that mention floating values can be
    evaluated.  It is not IEEE-754 arithmetic; no property below depends
    on the instance. *)
Definition decimal_to_int (x : Z * Z) : Z :=
  if 0 <=? snd x then fst x * 10 ^ snd x
  else Z.quot (fst x) (10 ^ (- snd x)).

Definition decimal_sub (x y : Z * Z) : Z * Z :=
  let e := Z.min (snd x) (snd y) in
  (fst x * 10 ^ (snd x - e) - fst y * 10 ^ (snd y - e), e).

Definition decimal_round (x : Z * Z) : Z * Z :=
  if 0 <=? snd x then x
  else ((2 * fst x + Z.sgn (fst x) * 10 ^ (- snd x))
          / (2 * 10 ^ (- snd x)), 0).

#[export] Instance decimal_floating : c_floating := {|
  fp := Z * Z;
  fp_lit := fun m e => (m, e);
  fp_mul := fun x y => (fst x * fst y, snd x + snd y);
  fp_sub := decimal_sub;
  fp_round := decimal_round;
  fp_of_int := fun z => (z, 0);
  fp_to_int := decimal_to_int
|}.

(** The FreeRTOS side of [wait_ack_nak]: the two port constants, the
    outcome of [xSemaphoreTake(wait_sem, ticks) == pdTRUE] and the values
    of the flag [wait_was_ack] at the reads made after it.  The flag is
    [static volatile] and written by the receive task, so every read is a
    value of its own: [wait_was_ack 0] at the first read of a call,
    [wait_was_ack 1] at the second. *)
Class rtos_wait : Type := {
  portMAX_DELAY : Z;
  portTICK_PERIOD_MS : Z;
  xSemaphoreTake : Z -> bool;
  wait_was_ack : nat -> bool
}.

(** The class and id values of the u-blox protocol for the configuration
    messages, and a receive side that never answers (the semaphore is
    never given).  Both serve to evaluate the builders on concrete
    requests; the general statements quantify over every instance. *)
#[export] Instance ubx_protocol_ids : ublox_h := {|
  UBX_CLASS_CFG := 0x06;
  UBX_CFG_PRT := 0x00;
  UBX_CFG_TMODE3 := 0x71;
  UBX_CFG_MSG := 0x01;
  UBX_CFG_RATE := 0x08;
  UBX_CFG_CFG := 0x09;
  UBX_CFG_NAV5 := 0x24;
  UBX_CFG_TP5 := 0x31;
  UBX_CFG_GNSS := 0x3E;
  UBX_CFG_NMEA := 0x17;
  UBX_CFG_VALSET := 0x8A
|}.

#[export] Instance silent_receiver : rtos_wait := {|
  portMAX_DELAY := 0xFFFFFFFF;
  portTICK_PERIOD_MS := 1;
  xSemaphoreTake := fun _ => false;
  wait_was_ack := fun _ => false
|}.

(* ------------------------------------------------------------------ *)
(** ** Message dispatcher: the two variable-count decoders *)

(** Modelled from the spec: the record types [ubx_rxm_rawx] and
    [ubx_nav_sat] are declared in [ublox.h], which is not among the
    sources.  The fields are those the decoders assign; the capacities (40
    raw measurements, 128 satellites) are the ones the spec gives.  A field
    holds the integer the decoder assigns to it; a field filled by
    [ubx_get_R4] or [ubx_get_R8] holds the bit pattern. *)
Record ubx_rxm_rawx_obs : Type := RawxObs {
  pr_mes : Z; cp_mes : Z; do_mes : Z;
  obs_gnss_id : Z; obs_sv_id : Z; freq_id : Z; locktime : Z; obs_cno : Z;
  pr_stdev : Z; cp_stdev : Z; do_stdev : Z;
  pr_valid : Z; cp_valid : Z; half_cyc_valid : Z; half_cyc_sub : Z
}.

Record ubx_rxm_rawx : Type := Rawx {
  rcv_tow : Z; week : Z; leaps : Z; num_meas : Z;
  leap_sec : Z; clk_reset : Z;
  obs : list ubx_rxm_rawx_obs
}.

Definition RAWX_CAPACITY : nat := 40.
Definition NAV_SAT_CAPACITY : nat := 128.

Section Dispatcher.
Context {F : c_floating}.

(** Modelled from the spec: [ubx_nav_sat_info] and [ubx_nav_sat] of
    [ublox.h], with the fields the decoder assigns and room for 128
    satellites. *)
Record ubx_nav_sat_info : Type := SatInfo {
  gnss_id : Z; sv_id : Z; cno : Z; elev : Z; azim : Z; pr_res : fp;
  quality : Z; used : Z; health : Z; diffcorr : Z
}.

Record ubx_nav_sat : Type := NavSat {
  i_tow_ms : Z; num_sv : Z; sats : list ubx_nav_sat_info
}.

(** What the decoders do to the outside: invoke a registered subscriber
    with the record, or print through [commands_printf]. *)
Inductive dispatch_event : Type :=
| CallRxRawx (r : ubx_rxm_rawx)
| CallRxNavSat (s : ubx_nav_sat)
| CommandsPrintf (format : string) (args : list Z).

(** The dispatcher's variables the two decoders touch: whether a callback
    is registered ([rx_rawx], [rx_nav_sat] non-null), the one-shot print
    flags, and the two static records. *)
Record dispatcher : Type := Dispatcher {
  rx_rawx : bool;
  rx_nav_sat : bool;
  m_print_next_rawx : bool;
  m_print_next_nav_sat : bool;
  raw : ubx_rxm_rawx;
  sat : ubx_nav_sat
}.

(** [ind = n] *)
Definition seek (n : Z) : Codec unit := fun c => Some (tt, Cursor (buf c) n).

(** A format string written as its lines, each ended by a newline. *)
Definition lines (l : list string) : string :=
  fold_right (fun x acc => (x ++ String (Ascii.ascii_of_nat 10) acc)%string)
             EmptyString l.

(** One iteration of the measurement loop: the fields of [raw.obs[i]]. *)
Definition rawx_obs_fields : Codec ubx_rxm_rawx_obs :=
  pr <- ubx_get_R8 ;;
  cp <- ubx_get_R8 ;;
  dm <- ubx_get_R4 ;;
  gid <- ubx_get_U1 ;;
  sid <- ubx_get_U1 ;;
  skip 1 ;;;
  fid <- ubx_get_U1 ;;
  lt <- ubx_get_U2 ;;
  cn <- ubx_get_U1 ;;
  prs <- ubx_get_X1 ;;
  cps <- ubx_get_X1 ;;
  dos <- ubx_get_X1 ;;
  flags <- ubx_get_X1 ;;
  skip 1 ;;;
  ret (RawxObs pr cp dm gid sid fid lt cn
         (Z.land prs 0x0F) (Z.land cps 0x0F) (Z.land dos 0x0F)
         (Z.land flags 0x01) (Z.land flags 0x02)
         (Z.land flags 0x04) (Z.land flags 0x08)).

(** [for (int i = 0; i < raw.num_meas; i++)], [n] iterations left. *)
Fixpoint rawx_loop (n : nat) (i : Z) (o : list ubx_rxm_rawx_obs)
  : Codec (list ubx_rxm_rawx_obs) :=
  match n with
  | O => ret o
  | S m =>
      e <- rawx_obs_fields ;;
      match store o i e with
      | Some o' => rawx_loop m (i + 1) o'
      | None => fun _ => None
      end
  end.

Definition rawx_too_many : string :=
  lines ["Too many raw measurements to store in buffer: %d"]%string.

Definition rawx_report : string :=
  lines ["RAWX RX"; "tow: %.3f"; "week: %d"; "leap_sec: %d";
         "num_meas: %d"; "pr_0: %.3f"; "pr_1: %.3f"]%string.

(** [ubx_decode_rawx(msg, len)]; [len] is unused. *)
Definition ubx_decode_rawx (d : dispatcher) (msg : list Z) (len : Z)
  : option (dispatcher * list dispatch_event) :=
  match (tow <- ubx_get_R8 ;;
         wk <- ubx_get_U2 ;;
         lp <- ubx_get_I1 ;;
         nm <- ubx_get_U1 ;;
         flags <- ubx_get_X1 ;;
         seek 16 ;;;
         ret (Rawx tow wk lp nm (Z.land flags 0x01) (Z.land flags 0x02)
                   (obs (raw d)))) (Cursor msg 0) with
  | None => None
  | Some (r, c) =>
      let set_raw r' :=
        Dispatcher (rx_rawx d) (rx_nav_sat d) (m_print_next_rawx d)
                   (m_print_next_nav_sat d) r' (sat d) in
      if 40 <? num_meas r then
        Some (set_raw r, [CommandsPrintf rawx_too_many [num_meas r]])
      else
        match rawx_loop (Z.to_nat (num_meas r)) 0 (obs r) c with
        | None => None
        | Some (o, _) =>
            let r' := Rawx (rcv_tow r) (week r) (leaps r) (num_meas r)
                           (leap_sec r) (clk_reset r) o in
            let calls := if rx_rawx d then [CallRxRawx r'] else [] in
            if m_print_next_rawx d then
              match load o 0, load o 1 with
              | Some o0, Some o1 =>
                  Some (Dispatcher (rx_rawx d) (rx_nav_sat d) false
                                   (m_print_next_nav_sat d) r' (sat d),
                        calls ++
                        [CommandsPrintf rawx_report
                           [rcv_tow r'; week r'; leap_sec r'; num_meas r';
                            pr_mes o0; pr_mes o1]])
              | _, _ => None
              end
            else Some (set_raw r', calls)
        end
  end.

(** One iteration of the satellite loop: the fields of [sat.sats[i]]. *)
Definition nav_sat_fields : Codec ubx_nav_sat_info :=
  gid <- ubx_get_U1 ;;
  sid <- ubx_get_U1 ;;
  cn <- ubx_get_U1 ;;
  el <- ubx_get_I1 ;;
  az <- ubx_get_I2 ;;
  pr <- ubx_get_I2 ;;
  flags <- ubx_get_X4 ;;
  ret (SatInfo gid sid cn el az (fp_mul (fp_of_int pr) (fp_lit 1 (-1)))
         (Z.land (Z.shiftr flags 0) 0x07) (Z.land (Z.shiftr flags 3) 0x01)
         (Z.land (Z.shiftr flags 4) 0x03) (Z.land (Z.shiftr flags 6) 0x01)).

(** [for (int i = 0; i < sat.num_sv; i++)], [n] iterations left. *)
Fixpoint nav_sat_loop (n : nat) (i : Z) (s : list ubx_nav_sat_info)
  : Codec (list ubx_nav_sat_info) :=
  match n with
  | O => ret s
  | S m =>
      e <- nav_sat_fields ;;
      match store s i e with
      | Some s' => nav_sat_loop m (i + 1) s'
      | None => fun _ => None
      end
  end.

(** The counting loop of the one-shot report: satellites of constellation
    [g] among the first [n], all of them or only those used with quality
    at least 4. *)
Definition count_sats (only_used : bool) (g : Z) (n : Z)
    (s : list ubx_nav_sat_info) : Z :=
  Z.of_nat (length (filter
    (fun e => (gnss_id e =? g) &&
              (negb only_used ||
               (negb (used e =? 0) && (4 <=? quality e))))
    (firstn (Z.to_nat n) s))).

Definition nav_sat_report : string :=
  lines ["         Visible   Used";
         "GPS:     %02d        %02d";
         "GLONASS: %02d        %02d";
         "Galileo: %02d        %02d";
         "BeiDou:  %02d        %02d";
         "Total:   %02d        %02d";
         EmptyString]%string.

(** [ubx_decode_nav_sat(msg, len)]; [len] is unused. *)
Definition ubx_decode_nav_sat (d : dispatcher) (msg : list Z) (len : Z)
  : option (dispatcher * list dispatch_event) :=
  match (tow <- ubx_get_U4 ;;
         ubx_get_U1 ;;;
         nsv <- ubx_get_U1 ;;
         ubx_get_U1 ;;;
         ubx_get_U1 ;;;
         ret (tow, nsv)) (Cursor msg 0) with
  | None => None
  | Some ((tow, nsv), c) =>
      let nsv := if 128 <? nsv then 128 else nsv in
      match nav_sat_loop (Z.to_nat nsv) 0 (sats (sat d)) c with
      | None => None
      | Some (s, _) =>
          let r := NavSat tow nsv s in
          let calls := if rx_nav_sat d then [CallRxNavSat r] else [] in
          if m_print_next_nav_sat d then
            let vis g := count_sats false g nsv s in
            let use g := count_sats true g nsv s in
            Some (Dispatcher (rx_rawx d) (rx_nav_sat d)
                             (m_print_next_rawx d) false (raw d) r,
                  calls ++
                  [CommandsPrintf nav_sat_report
                     [vis 0; use 0; vis 6; use 6; vis 2; use 2; vis 3; use 3;
                      vis 0 + vis 6 + vis 2 + vis 3;
                      use 0 + use 6 + use 2 + use 3]])
          else
            Some (Dispatcher (rx_rawx d) (rx_nav_sat d)
                             (m_print_next_rawx d) (m_print_next_nav_sat d)
                             (raw d) r,
                  calls)
      end
  end.

Definition is_callback (e : dispatch_event) : bool :=
  match e with CommandsPrintf _ _ => false | _ => true end.

(** The two static records have their declared capacities. *)
Definition wf_dispatcher (d : dispatcher) : Prop :=
  length (obs (raw d)) = RAWX_CAPACITY /\
  length (sats (sat d)) = NAV_SAT_CAPACITY.

End Dispatcher.

(* ------------------------------------------------------------------ *)
(** ** Configuration protocol: [wait_ack_nak] and the request builders *)

(** Modelled from the spec: the request records ([ubx_cfg_prt_uart],
    [ubx_cfg_tmode3], [ubx_cfg_cfg], [ubx_cfg_nav5], [ubx_cfg_tp5],
    [ubx_cfg_gnss], [ubx_cfg_nmea]) are declared in [ublox.h], which is not
    among the sources.  The fields are those the builders read: a flag
    tested with [? 1 : 0] is a [bool], a floating field an [fp], any other
    an integer. *)
Record ubx_cfg_prt_uart : Type := CfgPrtUart {
  baudrate : Z;
  in_ubx : bool; in_nmea : bool; in_rtcm2 : bool; in_rtcm3 : bool;
  out_ubx : bool; out_nmea : bool; out_rtcm3 : bool
}.

Record ubx_cfg_cfg : Type := CfgCfg {
  clear_io_port : bool; clear_msg_conf : bool; clear_inf_msg : bool;
  clear_nav_conf : bool; clear_rxm_conf : bool; clear_sen_conf : bool;
  clear_rinv_conf : bool; clear_ant_conf : bool; clear_log_conf : bool;
  clear_fts_conf : bool;
  save_io_port : bool; save_msg_conf : bool; save_inf_msg : bool;
  save_nav_conf : bool; save_rxm_conf : bool; save_sen_conf : bool;
  save_rinv_conf : bool; save_ant_conf : bool; save_log_conf : bool;
  save_fts_conf : bool;
  load_io_port : bool; load_msg_conf : bool; load_inf_msg : bool;
  load_nav_conf : bool; load_rxm_conf : bool; load_sen_conf : bool;
  load_rinv_conf : bool; load_ant_conf : bool; load_log_conf : bool;
  load_fts_conf : bool;
  dev_bbr : bool; dev_flash : bool; dev_eeprom : bool; dev_spi_flash : bool
}.

Record ubx_cfg_tp5 : Type := CfgTp5 {
  ant_cable_delay : Z; rf_group_delay : Z;
  freq_period : Z; freq_period_lock : Z;
  pulse_len_ratio : Z; pulse_len_ratio_lock : Z;
  user_config_delay : Z;
  active : bool; lockGnssFreq : bool; lockedOtherSet : bool; isFreq : bool;
  isLength : bool; alignToTow : bool; polarity : bool;
  gridUtcGnss : Z; syncMode : Z
}.

Record ubx_cfg_gnss_block : Type := GnssBlock {
  blk_gnss_id : Z; minTrkCh : Z; maxTrkCh : Z; en : bool; blk_flags : Z
}.

Record ubx_cfg_gnss : Type := CfgGnss {
  num_ch_hw : Z; num_ch_use : Z; num_blocks : Z;
  blocks : list ubx_cfg_gnss_block
}.

Record ubx_cfg_nmea : Type := CfgNmea {
  posFilt : bool; mskPosFilt : bool; timeFilt : bool; dateFilt : bool;
  gpsOnlyFilt : bool; trackFilt : bool;
  nmeaVersion : Z; numSv : Z;
  compat : bool; consider : bool; limit82 : bool; highPrec : bool;
  disableGps : bool; disableSbas : bool; disableQzss : bool;
  disableGlonass : bool; disableBeidou : bool;
  svNumbering : Z; mainTalkerId : Z; gsvTalkerId : Z;
  bdsTalkerId0 : Z; bdsTalkerId1 : Z
}.

(** [(b ? 1 : 0) << n] *)
Definition flag (b : bool) (n : Z) : Z := Z.shiftl (if b then 1 else 0) n.

(** [x = 0; x |= t1; x |= t2; ...] *)
Definition or_all (terms : list Z) : Z := fold_left Z.lor terms 0.

(** The outcome of a request: the static send buffer afterwards, the
    frames handed to the transport, and the returned [int]. *)
Definition outcome : Type := (list Z * list (list Z) * Z)%type.

Section Config.
Context {H : ublox_h} {F : c_floating} {R : rtos_wait}.

(** Modelled from the spec: the two request records of [ublox.h] with
    floating fields, [ubx_cfg_tmode3] and [ubx_cfg_nav5]. *)
Record ubx_cfg_tmode3 : Type := CfgTmode3 {
  lla : bool; mode : Z;
  ecefx_lat : fp; ecefy_lon : fp; ecefz_alt : fp;
  fixed_pos_acc : fp; svin_min_dur : Z; svin_acc_limit : fp
}.

Record ubx_cfg_nav5 : Type := CfgNav5 {
  apply_dyn : bool; apply_min_el : bool; apply_pos_fix_mode : bool;
  apply_pos_mask : bool; apply_time_mask : bool;
  apply_static_hold_mask : bool; apply_dgps : bool; apply_cno : bool;
  apply_utc : bool;
  dyn_model : Z; fix_mode : Z; fixed_alt : fp; fixed_alt_var : fp;
  min_elev : Z; p_dop : fp; t_dop : fp; p_acc : Z; t_acc : Z;
  static_hold_thres : Z; dgnss_timeout : Z; cno_tres_num_sat : Z;
  cno_tres : Z; static_hold_max_dist : Z; utc_standard : Z
}.

(** [wait_ack_nak(timeout_ms)]:
    [if (ret && wait_was_ack) return 0;
     else if (ret && !wait_was_ack) return 1; else return -1;]
    with one read of the volatile flag in each condition. *)
Definition wait_ack_nak (timeout_ms : Z) : Z :=
  let to := to_u32 (if 0 <=? timeout_ms then timeout_ms else portMAX_DELAY) in
  let ret := xSemaphoreTake (to / portTICK_PERIOD_MS) in
  if ret && wait_was_ack 0 then 0
  else if ret && negb (wait_was_ack 1) then 1
  else -1.

(** The common tail of every builder:
    [ubx_encode_send(class, id, buffer, ind); return wait_ack_nak(CFG_ACK_WAIT_MS);]
    after the payload was assembled in a local [buffer] of [size] bytes
    with [ind] starting at 0. *)
Definition send_and_await (ubx : list Z) (class id : Z) (size : Z)
    (payload : Codec unit) : option outcome :=
  match payload (Cursor (repeat 0 (Z.to_nat size)) 0) with
  | None => None
  | Some (_, c) =>
      match ubx_encode_send ubx class id (buf c) (ind c) with
      | None => None
      | Some (ubx', sent) =>
          Some (ubx', [sent], wait_ack_nak CFG_ACK_WAIT_MS)
      end
  end.

Definition ublox_cfg_prt_uart (ubx : list Z) (cfg : ubx_cfg_prt_uart)
  : option outcome :=
  let mode := to_u32 (or_all [Z.shiftl 3 6; Z.shiftl 4 9; Z.shiftl 0 12]) in
  let in_proto := to_u16 (or_all [flag (in_ubx cfg) 0; flag (in_nmea cfg) 1;
                                  flag (in_rtcm2 cfg) 2;
                                  flag (in_rtcm3 cfg) 5]) in
  let out_proto := to_u16 (or_all [flag (out_ubx cfg) 0;
                                   flag (out_nmea cfg) 1;
                                   flag (out_rtcm3 cfg) 5]) in
  send_and_await ubx UBX_CLASS_CFG UBX_CFG_PRT 20
    (ubx_put_U1 1 ;;; ubx_put_U1 0 ;;; ubx_put_X2 0 ;;;
     ubx_put_X4 mode ;;; ubx_put_U4 (baudrate cfg) ;;;
     ubx_put_X2 in_proto ;;; ubx_put_X2 out_proto ;;; ubx_put_X2 0 ;;;
     ubx_put_U1 0 ;;; ubx_put_U1 0).

(** The high-precision remainder [(v - (double)i * unit) * scale]. *)
Definition hp_part (v : fp) (i : Z) (unit_exp scale_exp : Z) : Z :=
  to_i8 (fp_to_int
           (fp_mul (fp_sub v (fp_mul (fp_of_int i) (fp_lit 1 unit_exp)))
                   (fp_lit 1 scale_exp))).

Definition ublox_cfg_tmode3 (ubx : list Z) (cfg : ubx_cfg_tmode3)
  : option outcome :=
  let flags := to_u16 (Z.lor (flag (lla cfg) 8) (mode cfg)) in
  let x_lat := if lla cfg
    then to_i32 (fp_to_int (fp_round (fp_mul (ecefx_lat cfg) (fp_lit 1 7))))
    else to_i32 (fp_to_int (fp_mul (ecefx_lat cfg) (fp_lit 1 2))) in
  let y_lon := if lla cfg
    then to_i32 (fp_to_int (fp_round (fp_mul (ecefy_lon cfg) (fp_lit 1 7))))
    else to_i32 (fp_to_int (fp_mul (ecefy_lon cfg) (fp_lit 1 2))) in
  let z_alt := if lla cfg
    then to_i32 (fp_to_int (fp_round (fp_mul (ecefz_alt cfg) (fp_lit 1 2))))
    else to_i32 (fp_to_int (fp_mul (ecefz_alt cfg) (fp_lit 1 2))) in
  let x_lat_hp := if lla cfg then hp_part (ecefx_lat cfg) x_lat (-7) 9
                  else hp_part (ecefx_lat cfg) x_lat (-2) 4 in
  let y_lon_hp := if lla cfg then hp_part (ecefy_lon cfg) y_lon (-7) 9
                  else hp_part (ecefy_lon cfg) y_lon (-2) 4 in
  let z_alt_hp := hp_part (ecefz_alt cfg) z_alt (-2) 4 in
  send_and_await ubx UBX_CLASS_CFG UBX_CFG_TMODE3 40
    (ubx_put_U1 0 ;;; ubx_put_U1 0 ;;; ubx_put_X2 flags ;;;
     ubx_put_I4 x_lat ;;; ubx_put_I4 y_lon ;;; ubx_put_I4 z_alt ;;;
     ubx_put_I1 x_lat_hp ;;; ubx_put_I1 y_lon_hp ;;; ubx_put_I1 z_alt_hp ;;;
     ubx_put_U1 0 ;;;
     ubx_put_U4 (fp_to_int (fp_mul (fixed_pos_acc cfg) (fp_lit 1 4))) ;;;
     ubx_put_U4 (svin_min_dur cfg) ;;;
     ubx_put_U4 (fp_to_int (fp_mul (svin_acc_limit cfg) (fp_lit 1 4))) ;;;
     ubx_put_U1 0 ;;; ubx_put_U1 0 ;;; ubx_put_U1 0 ;;; ubx_put_U1 0 ;;;
     ubx_put_U1 0 ;;; ubx_put_U1 0 ;;; ubx_put_U1 0 ;;; ubx_put_U1 0).

Definition ublox_cfg_msg (ubx : list Z) (msg_class id rate : Z)
  : option outcome :=
  send_and_await ubx UBX_CLASS_CFG UBX_CFG_MSG 8
    (ubx_put_U1 msg_class ;;; ubx_put_U1 id ;;;
     ubx_put_U1 rate ;;; ubx_put_U1 rate ;;; ubx_put_U1 rate ;;;
     ubx_put_U1 rate ;;; ubx_put_U1 rate ;;; ubx_put_U1 rate).

Definition ublox_cfg_rate (ubx : list Z) (meas_rate_ms nav_rate_ms time_ref : Z)
  : option outcome :=
  send_and_await ubx UBX_CLASS_CFG UBX_CFG_RATE 6
    (ubx_put_U2 meas_rate_ms ;;; ubx_put_U2 nav_rate_ms ;;;
     ubx_put_U2 time_ref).

Definition ublox_cfg_cfg (ubx : list Z) (cfg : ubx_cfg_cfg) : option outcome :=
  let clear := to_u32 (or_all
    [flag (clear_io_port cfg) 0; flag (clear_msg_conf cfg) 1;
     flag (clear_inf_msg cfg) 2; flag (clear_nav_conf cfg) 3;
     flag (clear_rxm_conf cfg) 4; flag (clear_sen_conf cfg) 8;
     flag (clear_rinv_conf cfg) 9; flag (clear_ant_conf cfg) 10;
     flag (clear_log_conf cfg) 11; flag (clear_fts_conf cfg) 12]) in
  let save := to_u32 (or_all
    [flag (save_io_port cfg) 0; flag (save_msg_conf cfg) 1;
     flag (save_inf_msg cfg) 2; flag (save_nav_conf cfg) 3;
     flag (save_rxm_conf cfg) 4; flag (save_sen_conf cfg) 8;
     flag (save_rinv_conf cfg) 9; flag (save_ant_conf cfg) 10;
     flag (save_log_conf cfg) 11; flag (save_fts_conf cfg) 12]) in
  let load := to_u32 (or_all
    [flag (load_io_port cfg) 0; flag (load_msg_conf cfg) 1;
     flag (load_inf_msg cfg) 2; flag (load_nav_conf cfg) 3;
     flag (load_rxm_conf cfg) 4; flag (load_sen_conf cfg) 8;
     flag (load_rinv_conf cfg) 9; flag (load_ant_conf cfg) 10;
     flag (load_log_conf cfg) 11; flag (load_fts_conf cfg) 12]) in
  let device := to_u8 (or_all
    [flag (dev_bbr cfg) 0; flag (dev_flash cfg) 1;
     flag (dev_eeprom cfg) 2; flag (dev_spi_flash cfg) 4]) in
  send_and_await ubx UBX_CLASS_CFG UBX_CFG_CFG 13
    (ubx_put_X4 clear ;;; ubx_put_X4 save ;;; ubx_put_X4 load ;;;
     ubx_put_X1 device).

Definition ublox_cfg_nav5 (ubx : list Z) (cfg : ubx_cfg_nav5)
  : option outcome :=
  let mask := to_u16 (or_all
    [flag (apply_dyn cfg) 0; flag (apply_min_el cfg) 1;
     flag (apply_pos_fix_mode cfg) 2; flag (apply_pos_mask cfg) 4;
     flag (apply_time_mask cfg) 5; flag (apply_static_hold_mask cfg) 6;
     flag (apply_dgps cfg) 7; flag (apply_cno cfg) 8;
     flag (apply_utc cfg) 10]) in
  send_and_await ubx UBX_CLASS_CFG UBX_CFG_NAV5 36
    (ubx_put_X2 mask ;;;
     ubx_put_U1 (dyn_model cfg) ;;; ubx_put_U1 (fix_mode cfg) ;;;
     ubx_put_I4 (fp_to_int (fp_mul (fixed_alt cfg) (fp_lit 100 0))) ;;;
     ubx_put_U4 (fp_to_int (fp_mul (fixed_alt_var cfg) (fp_lit 10000 0))) ;;;
     ubx_put_I1 (min_elev cfg) ;;; ubx_put_U1 0 ;;;
     ubx_put_U2 (fp_to_int (fp_mul (p_dop cfg) (fp_lit 10 0))) ;;;
     ubx_put_U2 (fp_to_int (fp_mul (t_dop cfg) (fp_lit 10 0))) ;;;
     ubx_put_U2 (p_acc cfg) ;;; ubx_put_U2 (t_acc cfg) ;;;
     ubx_put_U1 (static_hold_thres cfg) ;;; ubx_put_U1 (dgnss_timeout cfg) ;;;
     ubx_put_U1 (cno_tres_num_sat cfg) ;;; ubx_put_U1 (cno_tres cfg) ;;;
     ubx_put_U1 0 ;;; ubx_put_U1 0 ;;;
     ubx_put_U2 (static_hold_max_dist cfg) ;;;
     ubx_put_U1 (utc_standard cfg) ;;;
     ubx_put_U1 0 ;;; ubx_put_U1 0 ;;; ubx_put_U1 0 ;;; ubx_put_U1 0 ;;;
     ubx_put_U1 0).

Definition ublox_cfg_tp5 (ubx : list Z) (cfg : ubx_cfg_tp5) : option outcome :=
  let mask := to_u32 (or_all
    [flag (active cfg) 0; flag (lockGnssFreq cfg) 1;
     flag (lockedOtherSet cfg) 2; flag (isFreq cfg) 3;
     flag (isLength cfg) 4; flag (alignToTow cfg) 5; flag (polarity cfg) 6;
     Z.shiftl (Z.land (gridUtcGnss cfg) 15) 7;
     Z.shiftl (Z.land (syncMode cfg) 7) 8]) in
  send_and_await ubx UBX_CLASS_CFG UBX_CFG_TP5 32
    (ubx_put_U1 0 ;;; ubx_put_U1 1 ;;; ubx_put_U1 0 ;;; ubx_put_U1 0 ;;;
     ubx_put_I2 (ant_cable_delay cfg) ;;; ubx_put_I2 (rf_group_delay cfg) ;;;
     ubx_put_U4 (freq_period cfg) ;;; ubx_put_U4 (freq_period_lock cfg) ;;;
     ubx_put_U4 (pulse_len_ratio cfg) ;;;
     ubx_put_U4 (pulse_len_ratio_lock cfg) ;;;
     ubx_put_I4 (user_config_delay cfg) ;;;
     ubx_put_X4 mask).

(** [for (int i = 0; i < gnss->num_blocks; i++)], [n] iterations left. *)
Fixpoint gnss_blocks_loop (n : nat) (i : Z) (bl : list ubx_cfg_gnss_block)
  : Codec unit :=
  match n with
  | O => ret tt
  | S m =>
      match load bl i with
      | None => fun _ => None
      | Some b =>
          ubx_put_U1 (blk_gnss_id b) ;;; ubx_put_U1 (minTrkCh b) ;;;
          ubx_put_U1 (maxTrkCh b) ;;; ubx_put_U1 0 ;;;
          ubx_put_X4 (Z.lor (to_u32 (if en b then 1 else 0))
                            (Z.shiftl (blk_flags b) 16)) ;;;
          gnss_blocks_loop m (i + 1) bl
      end
  end.

Definition ublox_cfg_gnss (ubx : list Z) (gnss : ubx_cfg_gnss)
  : option outcome :=
  if 10 <? num_blocks gnss then Some (ubx, [], -2)
  else
    send_and_await ubx UBX_CLASS_CFG UBX_CFG_GNSS (4 + 8 * num_blocks gnss)
      (ubx_put_U1 0 ;;; ubx_put_U1 (num_ch_hw gnss) ;;;
       ubx_put_U1 (num_ch_use gnss) ;;; ubx_put_U1 (num_blocks gnss) ;;;
       gnss_blocks_loop (Z.to_nat (num_blocks gnss)) 0 (blocks gnss)).

Definition ublox_cfg_nmea (ubx : list Z) (nmea : ubx_cfg_nmea)
  : option outcome :=
  let filter := to_u8 (or_all
    [flag (posFilt nmea) 0; flag (mskPosFilt nmea) 1; flag (timeFilt nmea) 2;
     flag (dateFilt nmea) 3; flag (gpsOnlyFilt nmea) 4;
     flag (trackFilt nmea) 5]) in
  let flags := to_u8 (or_all
    [flag (compat nmea) 0; flag (consider nmea) 1; flag (limit82 nmea) 2;
     flag (highPrec nmea) 3]) in
  let gnss_filter := to_u32 (or_all
    [flag (disableGps nmea) 0; flag (disableSbas nmea) 1;
     flag (disableQzss nmea) 4; flag (disableGlonass nmea) 5;
     flag (disableBeidou nmea) 6]) in
  send_and_await ubx UBX_CLASS_CFG UBX_CFG_NMEA 20
    (ubx_put_X1 filter ;;;
     ubx_put_U1 (nmeaVersion nmea) ;;; ubx_put_U1 (numSv nmea) ;;;
     ubx_put_X1 flags ;;; ubx_put_X4 gnss_filter ;;;
     ubx_put_U1 (svNumbering nmea) ;;; ubx_put_U1 (mainTalkerId nmea) ;;;
     ubx_put_U1 (gsvTalkerId nmea) ;;; ubx_put_U1 1 ;;;
     ubx_put_I1 (bdsTalkerId0 nmea) ;;; ubx_put_I1 (bdsTalkerId1 nmea) ;;;
     ubx_put_U1 0 ;;; ubx_put_U1 0 ;;; ubx_put_U1 0 ;;; ubx_put_U1 0 ;;;
     ubx_put_U1 0 ;;; ubx_put_U1 0).

(** [memcpy(buffer + ind, values, len); ind += len;] *)
Definition memcpy_values (values : list Z) (len : Z) : Codec unit :=
  fun c =>
    if (0 <=? len) && (len <=? Z.of_nat (length values)) &&
       (0 <=? ind c) && (ind c + len <=? Z.of_nat (length (buf c)))
    then Some (tt, Cursor (firstn (Z.to_nat (ind c)) (buf c)
                             ++ firstn (Z.to_nat len) values
                             ++ skipn (Z.to_nat (ind c + len)) (buf c))
                          (ind c + len))
    else None.

Definition ublox_cfg_valset (ubx : list Z) (values : list Z) (len : Z)
    (ram bbr flash : bool) : option outcome :=
  let mask := to_u8 (or_all [flag ram 0; flag bbr 1; flag flash 2]) in
  send_and_await ubx UBX_CLASS_CFG UBX_CFG_VALSET (len + 4)
    (ubx_put_U1 0 ;;; ubx_put_X1 mask ;;; ubx_put_U1 0 ;;; ubx_put_U1 0 ;;;
     memcpy_values values len).

(** The request builders and their arguments. *)
Inductive request : Type :=
| ReqPrtUart (cfg : ubx_cfg_prt_uart)
| ReqTmode3 (cfg : ubx_cfg_tmode3)
| ReqMsg (msg_class id rate : Z)
| ReqRate (meas_rate_ms nav_rate_ms time_ref : Z)
| ReqCfg (cfg : ubx_cfg_cfg)
| ReqNav5 (cfg : ubx_cfg_nav5)
| ReqTp5 (cfg : ubx_cfg_tp5)
| ReqGnss (gnss : ubx_cfg_gnss)
| ReqNmea (nmea : ubx_cfg_nmea)
| ReqValset (values : list Z) (len : Z) (ram bbr flash : bool).

Definition issue (ubx : list Z) (r : request) : option outcome :=
  match r with
  | ReqPrtUart cfg => ublox_cfg_prt_uart ubx cfg
  | ReqTmode3 cfg => ublox_cfg_tmode3 ubx cfg
  | ReqMsg c i r => ublox_cfg_msg ubx c i r
  | ReqRate m n t => ublox_cfg_rate ubx m n t
  | ReqCfg cfg => ublox_cfg_cfg ubx cfg
  | ReqNav5 cfg => ublox_cfg_nav5 ubx cfg
  | ReqTp5 cfg => ublox_cfg_tp5 ubx cfg
  | ReqGnss g => ublox_cfg_gnss ubx g
  | ReqNmea n => ublox_cfg_nmea ubx n
  | ReqValset v l r b f => ublox_cfg_valset ubx v l r b f
  end.

(** The arguments a builder can be run on without leaving its arrays: the
    GNSS block table holds every block the request counts, and the
    key-value bytes exist and leave room for the frame in the send
    buffer. *)
Definition request_ok (r : request) : Prop :=
  match r with
  | ReqGnss g =>
      num_blocks g <= 10 ->
      0 <= num_blocks g <= Z.of_nat (length (blocks g))
  | ReqValset v l _ _ _ =>
      0 <= l <= Z.of_nat (length v) /\ l + 4 + 8 <= UBX_BUFFER_SIZE
  | _ => True
  end.

End Config.
(* ------------------------------------------------------------------ *)
(** ** Polling and the floating-point putters *)

(** [ublox_poll(msg_class, id)]: the frame with an empty payload. *)
Definition ublox_poll (ubx : list Z) (msg_class id : Z)
  : option (list Z * list Z) :=
  ubx_encode_send ubx msg_class id [] 0.

(** [ubx_put_R4]: the [float] is stored through a union with a
    [uint64_t], of which only the four low-order bytes are written out.
    On the little-endian target these are the bit pattern [data] of the
    [float]; the four high-order bytes [upper] of the union are not
    initialised. *)
Definition ubx_put_R4 (upper data : Z) : Codec unit :=
  put32 (to_u64 (to_u32 data + 4294967296 * upper)).

(** [ubx_put_R8]: the eight bytes of the bit pattern of the [double]. *)
Definition ubx_put_R8 (data : Z) : Codec unit :=
  let i := to_u64 data in
  emit i ;;; emit (Z.shiftr i 8) ;;; emit (Z.shiftr i 16) ;;;
  emit (Z.shiftr i 24) ;;; emit (Z.shiftr i 32) ;;; emit (Z.shiftr i 40) ;;;
  emit (Z.shiftr i 48) ;;; emit (Z.shiftr i 56).

(* ------------------------------------------------------------------ *)
(** ** [ublox_init]: constants, key-value items and the start-up sequence *)

(** The baud rates of the file: the two factory defaults that are probed
    and the rate the receiver is switched to. *)
Definition BAUDRATE_UBX_DEFAULT : Z := 9600.
Definition BAUDRATE_UBX_DEFAULT_NEW : Z := 38400.
Definition BAUDRATE : Z := 115200.

(** Message classes and ids, GNSS identifiers and signal flags of
    [ublox.h] named by [ublox_init] and [ubx_terminal_cmd_poll].  The
    header is not among the sources; the values are parameters. *)
Class ublox_h_messages : Type := {
  UBX_CLASS_NAV : Z;
  UBX_CLASS_RXM : Z;
  UBX_CLASS_MON : Z;
  UBX_CLASS_NMEA : Z;
  UBX_NAV_SOL : Z;
  UBX_NAV_RELPOSNED : Z;
  UBX_NAV_SVIN : Z;
  UBX_NAV_SAT : Z;
  UBX_RXM_RAWX : Z;
  UBX_MON_VER : Z;
  UBX_NMEA_GGA : Z;
  UBX_NMEA_GLL : Z;
  UBX_NMEA_GSA : Z;
  UBX_NMEA_GSV : Z;
  UBX_NMEA_RMC : Z;
  UBX_NMEA_VTG : Z;
  UBX_NMEA_GRS : Z;
  UBX_NMEA_GST : Z;
  UBX_NMEA_ZDA : Z;
  UBX_NMEA_GBS : Z;
  UBX_NMEA_DTM : Z;
  UBX_GNSS_ID_GPS : Z;
  UBX_GNSS_ID_SBAS : Z;
  UBX_GNSS_ID_GLONASS : Z;
  UBX_GNSS_ID_BEIDOU : Z;
  UBX_CFG_GNSS_GPS_L1C : Z;
  UBX_CFG_GNSS_SBAS_L1C : Z;
  UBX_CFG_GNSS_GLO_L1 : Z;
  UBX_CFG_GNSS_BDS_B1L : Z
}.

(** Configuration keys of [ublox.h] used by the key-value helpers and by
    [ublox_init]; parameters for the same reason. *)
Class ublox_h_keys : Type := {
  CFG_SIGNAL_GPS_ENA : Z;
  CFG_SIGNAL_GPS_L1C_ENA : Z;
  CFG_SIGNAL_GPS_L2C_ENA : Z;
  CFG_SIGNAL_GAL_ENA : Z;
  CFG_SIGNAL_GAL_E1_ENA : Z;
  CFG_SIGNAL_GAL_E5B_ENA : Z;
  CFG_SIGNAL_BDS_ENA : Z;
  CFG_SIGNAL_BDS_B1_ENA : Z;
  CFG_SIGNAL_BDS_B2_ENA : Z;
  CFG_SIGNAL_GLO_ENA : Z;
  CFG_SIGNAL_GLO_L1_ENA : Z;
  CFG_SIGNAL_GLO_L2_ENA : Z;
  CFG_UART1_BAUDRATE : Z;
  CFG_RATE_MEAS : Z;
  CFG_RATE_NAV : Z;
  CFG_MSGOUT_NMEA_ID_GGA_UART1 : Z;
  CFG_MSGOUT_NMEA_ID_GSV_UART1 : Z;
  CFG_MSGOUT_NMEA_ID_RMC_UART1 : Z;
  CFG_MSGOUT_UBX_NAV_SAT_UART1 : Z;
  CFG_MSGOUT_NMEA_ID_DTM_UART1 : Z;
  CFG_MSGOUT_NMEA_ID_GBS_UART1 : Z;
  CFG_MSGOUT_NMEA_ID_GLL_UART1 : Z;
  CFG_MSGOUT_NMEA_ID_GNS_UART1 : Z;
  CFG_MSGOUT_NMEA_ID_GRS_UART1 : Z;
  CFG_MSGOUT_NMEA_ID_GSA_UART1 : Z;
  CFG_MSGOUT_NMEA_ID_GST_UART1 : Z;
  CFG_MSGOUT_NMEA_ID_RLM_UART1 : Z;
  CFG_MSGOUT_NMEA_ID_VLW_UART1 : Z;
  CFG_MSGOUT_NMEA_ID_VTG_UART1 : Z;
  CFG_MSGOUT_NMEA_ID_ZDA_UART1 : Z;
  CFG_MSGOUT_PUBX_ID_POLYP_UART1 : Z
}.

(** Values on which the definitions that name these macros can be
    evaluated; the general statements quantify over every instance. *)
#[export] Instance ubx_message_ids : ublox_h_messages := {|
  UBX_CLASS_NAV := 0x01;
  UBX_CLASS_RXM := 0x02;
  UBX_CLASS_MON := 0x0A;
  UBX_CLASS_NMEA := 0xF0;
  UBX_NAV_SOL := 0x06;
  UBX_NAV_RELPOSNED := 0x3C;
  UBX_NAV_SVIN := 0x3B;
  UBX_NAV_SAT := 0x35;
  UBX_RXM_RAWX := 0x15;
  UBX_MON_VER := 0x04;
  UBX_NMEA_GGA := 0x00;
  UBX_NMEA_GLL := 0x01;
  UBX_NMEA_GSA := 0x02;
  UBX_NMEA_GSV := 0x03;
  UBX_NMEA_RMC := 0x04;
  UBX_NMEA_VTG := 0x05;
  UBX_NMEA_GRS := 0x06;
  UBX_NMEA_GST := 0x07;
  UBX_NMEA_ZDA := 0x08;
  UBX_NMEA_GBS := 0x09;
  UBX_NMEA_DTM := 0x0A;
  UBX_GNSS_ID_GPS := 0;
  UBX_GNSS_ID_SBAS := 1;
  UBX_GNSS_ID_GLONASS := 6;
  UBX_GNSS_ID_BEIDOU := 3;
  UBX_CFG_GNSS_GPS_L1C := 0x01;
  UBX_CFG_GNSS_SBAS_L1C := 0x01;
  UBX_CFG_GNSS_GLO_L1 := 0x01;
  UBX_CFG_GNSS_BDS_B1L := 0x01
|}.

#[export] Instance ubx_config_keys : ublox_h_keys := {|
  CFG_SIGNAL_GPS_ENA := 0x1031001F;
  CFG_SIGNAL_GPS_L1C_ENA := 0x10310001;
  CFG_SIGNAL_GPS_L2C_ENA := 0x10310003;
  CFG_SIGNAL_GAL_ENA := 0x10310021;
  CFG_SIGNAL_GAL_E1_ENA := 0x10310007;
  CFG_SIGNAL_GAL_E5B_ENA := 0x1031000A;
  CFG_SIGNAL_BDS_ENA := 0x10310022;
  CFG_SIGNAL_BDS_B1_ENA := 0x1031000D;
  CFG_SIGNAL_BDS_B2_ENA := 0x1031000E;
  CFG_SIGNAL_GLO_ENA := 0x10310025;
  CFG_SIGNAL_GLO_L1_ENA := 0x10310018;
  CFG_SIGNAL_GLO_L2_ENA := 0x1031001A;
  CFG_UART1_BAUDRATE := 0x40520001;
  CFG_RATE_MEAS := 0x30210001;
  CFG_RATE_NAV := 0x30210002;
  CFG_MSGOUT_NMEA_ID_GGA_UART1 := 0x209100BB;
  CFG_MSGOUT_NMEA_ID_GSV_UART1 := 0x209100C5;
  CFG_MSGOUT_NMEA_ID_RMC_UART1 := 0x209100AC;
  CFG_MSGOUT_UBX_NAV_SAT_UART1 := 0x20910016;
  CFG_MSGOUT_NMEA_ID_DTM_UART1 := 0x209100A7;
  CFG_MSGOUT_NMEA_ID_GBS_UART1 := 0x209100DE;
  CFG_MSGOUT_NMEA_ID_GLL_UART1 := 0x209100CA;
  CFG_MSGOUT_NMEA_ID_GNS_UART1 := 0x209100B6;
  CFG_MSGOUT_NMEA_ID_GRS_UART1 := 0x209100CF;
  CFG_MSGOUT_NMEA_ID_GSA_UART1 := 0x209100C0;
  CFG_MSGOUT_NMEA_ID_GST_UART1 := 0x209100D4;
  CFG_MSGOUT_NMEA_ID_RLM_UART1 := 0x20910401;
  CFG_MSGOUT_NMEA_ID_VLW_UART1 := 0x209100E8;
  CFG_MSGOUT_NMEA_ID_VTG_UART1 := 0x209100B1;
  CFG_MSGOUT_NMEA_ID_ZDA_UART1 := 0x209100D9;
  CFG_MSGOUT_PUBX_ID_POLYP_UART1 := 0x209100ED
|}.

Section KeyValue.
Context {K : ublox_h_keys}.

(** A [bool] argument passed where a [uint8_t] is expected. *)
Definition of_bool (b : bool) : Z := if b then 1 else 0.

Definition ublox_cfg_append_enable_gps (en en_l1c en_l2c : bool)
  : Codec unit :=
  ubx_put_X4 CFG_SIGNAL_GPS_ENA ;;; ubx_put_U1 (of_bool en) ;;;
  ubx_put_X4 CFG_SIGNAL_GPS_L1C_ENA ;;; ubx_put_U1 (of_bool en_l1c) ;;;
  ubx_put_X4 CFG_SIGNAL_GPS_L2C_ENA ;;; ubx_put_U1 (of_bool en_l2c).

Definition ublox_cfg_append_enable_gal (en en_e1 en_e5b : bool)
  : Codec unit :=
  ubx_put_X4 CFG_SIGNAL_GAL_ENA ;;; ubx_put_U1 (of_bool en) ;;;
  ubx_put_X4 CFG_SIGNAL_GAL_E1_ENA ;;; ubx_put_U1 (of_bool en_e1) ;;;
  ubx_put_X4 CFG_SIGNAL_GAL_E5B_ENA ;;; ubx_put_U1 (of_bool en_e5b).

Definition ublox_cfg_append_enable_bds (en en_b1 en_b2 : bool)
  : Codec unit :=
  ubx_put_X4 CFG_SIGNAL_BDS_ENA ;;; ubx_put_U1 (of_bool en) ;;;
  ubx_put_X4 CFG_SIGNAL_BDS_B1_ENA ;;; ubx_put_U1 (of_bool en_b1) ;;;
  ubx_put_X4 CFG_SIGNAL_BDS_B2_ENA ;;; ubx_put_U1 (of_bool en_b2).

Definition ublox_cfg_append_enable_glo (en en_l1 en_l2 : bool)
  : Codec unit :=
  ubx_put_X4 CFG_SIGNAL_GLO_ENA ;;; ubx_put_U1 (of_bool en) ;;;
  ubx_put_X4 CFG_SIGNAL_GLO_L1_ENA ;;; ubx_put_U1 (of_bool en_l1) ;;;
  ubx_put_X4 CFG_SIGNAL_GLO_L2_ENA ;;; ubx_put_U1 (of_bool en_l2).

Definition ublox_cfg_append_uart1_baud (baud : Z) : Codec unit :=
  ubx_put_X4 CFG_UART1_BAUDRATE ;;; ubx_put_U4 baud.

Definition ublox_cfg_append_rate (meas_ms nav : Z) : Codec unit :=
  ubx_put_X4 CFG_RATE_MEAS ;;; ubx_put_U2 meas_ms ;;;
  ubx_put_X4 CFG_RATE_NAV ;;; ubx_put_U2 nav.

Definition ublox_cfg_append_u1 (key val : Z) : Codec unit :=
  ubx_put_X4 key ;;; ubx_put_U1 val.

End KeyValue.

Section Init.
Context {H : ublox_h} {F : c_floating} {R : rtos_wait}
        {M : ublox_h_messages} {K : ublox_h_keys}.

(** What [ublox_init] does to the outside, in order: one entry per call
    and one per assignment to a flag it shares with the receive task
    ([should_terminate = b], [thd_rx_is_running = b]). *)
Inductive init_action : Type :=
| XSemaphoreCreateBinary
| SetShouldTerminate (b : bool)
| SetThdRxIsRunning (b : bool)
| UartDriverDelete (num : Z)
| UartDriverInstall (num : Z)
| UartParamConfig (num baud_rate : Z)
| UartSetPin (num pin_tx pin_rx : Z)
| XTaskCreate
| VTaskDelay (ticks : Z)
| ResetDecoderState
| Issue (r : request)
| InitPrintf (text : string)
| TerminalRegisterCommand.

(** The run so far: the actions (oldest first), the number of
    configuration requests issued and the number of reads of
    [thd_rx_is_running] made. *)
Record init_state : Type := InitState {
  trace : list init_action;
  asked : nat;
  looked : nat
}.

(** The module variables [ublox_init] assigns. *)
Record init_vars : Type := InitVars {
  m_init_ok : bool;
  sem_init_done : bool;
  m_uart_num : Z
}.

(** How a retry loop ends: by [return false], or with a value of
    [baud_ok]. *)
Inductive loop_end : Type :=
| ReturnFalse
| BaudOk (ok : bool).

(** Where a call of [ublox_init] stands: it has returned, with its
    result and the module variables, or it is still inside one of its two
    loops [while (thd_rx_is_running) { vTaskDelay(1); }]. *)
Inductive init_result : Type :=
| Returned (ret : bool) (v : init_vars) (s : init_state)
| StillWaiting (s : init_state).

(** The two things [ublox_init] learns from outside while it runs: the
    value the [k]-th configuration request returns (0, 1 or -1, decided
    by the receiver and the receive task) and the value of the volatile
    [thd_rx_is_running] at its [k]-th read. *)
Variable reply : nat -> Z.
Variable rx_running : nat -> bool.

Definition act (a : init_action) (s : init_state) : init_state :=
  InitState (trace s ++ [a]) (asked s) (looked s).

(** A call of a request builder: its return value. *)
Definition ask (r : request) (s : init_state) : Z * init_state :=
  (reply (asked s),
   InitState (trace s ++ [Issue r]) (S (asked s)) (looked s)).

Definition thd_rx_is_running (s : init_state) : bool * init_state :=
  (rx_running (looked s), InitState (trace s) (asked s) (S (looked s))).

(** [while (thd_rx_is_running) { vTaskDelay(1); }], followed for at most
    [fuel] reads of the flag.  The loop ends at the first read that gives
    false; nothing in it bounds the number of iterations.  The result is
    [(true, s)] when the loop was left and [(false, s)] when the flag read
    true [fuel] times and the loop is still running. *)
Fixpoint wait_rx_task_end (fuel : nat) (s : init_state)
  : bool * init_state :=
  match fuel with
  | O => (false, s)
  | S f =>
      let (running, s) := thd_rx_is_running s in
      if running then wait_rx_task_end f (act (VTaskDelay 1) s)
      else (true, s)
  end.

(** [vTaskDelay(100 / portTICK_PERIOD_MS); reset_decoder_state();] *)
Definition settle (s : init_state) : init_state :=
  act ResetDecoderState (act (VTaskDelay (100 / portTICK_PERIOD_MS)) s).

(** The retry loop [for (int i = 0; i < 4; i++)], [n] iterations left.
    The loop is written twice in [ublox_init] with the same statements:
    first with the rate request as [probe], the port request as
    [reconfigure] and 9600 baud as [fallback], then with the value-set
    request as both and 38400 baud. *)
Fixpoint baud_loop (num : Z) (probe reconfigure : request) (fallback : Z)
    (n : nat) (s : init_state) : loop_end * init_state :=
  match n with
  | O => (BaudOk false, s)
  | S m =>
      let (running, s) := thd_rx_is_running s in
      if negb running then (ReturnFalse, s)
      else
        let (r, s) := ask probe s in
        if r =? -1 then
          let s := act (UartParamConfig num fallback) s in
          let s := settle s in
          let (_, s) := ask reconfigure s in
          let s := settle s in
          let (_, s) := ask reconfigure s in
          let s := act (UartParamConfig num BAUDRATE) s in
          let s := settle s in
          let (r, s) := ask probe s in
          if negb (r =? -1) then (BaudOk true, s)
          else
            let s := settle s in
            let (r, s) := ask probe s in
            if negb (r =? -1) then (BaudOk true, s)
            else
              let s := act (VTaskDelay (500 / portTICK_PERIOD_MS)) s in
              baud_loop num probe reconfigure fallback m s
        else (BaudOk true, s)
  end.

(** Requests whose return value is not looked at, in order. *)
Definition ask_all (rs : list request) (s : init_state) : init_state :=
  fold_left (fun s r => snd (ask r s)) rs s.

(** [ubx_cfg_prt_uart uart] as [ublox_init] fills it. *)
Definition init_uart : ubx_cfg_prt_uart :=
  CfgPrtUart BAUDRATE true true false false true true false.

(** [memset(&nav5, 0, ...); nav5.apply_dyn = true; nav5.dyn_model = 4;] *)
Definition init_nav5 : ubx_cfg_nav5 :=
  CfgNav5 true false false false false false false false false
          4 0 (fp_of_int 0) (fp_of_int 0) 0 (fp_of_int 0) (fp_of_int 0)
          0 0 0 0 0 0 0 0.

(** [memset(&nmea, 0, ...); nmea.nmeaVersion = 0x41; nmea.numSv = 0;] *)
Definition init_nmea : ubx_cfg_nmea :=
  CfgNmea false false false false false false 0x41 0
          false false false false false false false false false
          0 0 0 0 0.

(** The GNSS table of [ublox_init]: four blocks set, the other six
    zeroed by [memset]. *)
Definition init_gnss : ubx_cfg_gnss :=
  CfgGnss 32 0xFF 4
    [GnssBlock UBX_GNSS_ID_GPS 6 16 true UBX_CFG_GNSS_GPS_L1C;
     GnssBlock UBX_GNSS_ID_SBAS 0 3 true UBX_CFG_GNSS_SBAS_L1C;
     GnssBlock UBX_GNSS_ID_GLONASS 6 16 true UBX_CFG_GNSS_GLO_L1;
     GnssBlock UBX_GNSS_ID_BEIDOU 6 16 false UBX_CFG_GNSS_BDS_B1L;
     GnssBlock 0 0 0 false 0; GnssBlock 0 0 0 false 0;
     GnssBlock 0 0 0 false 0; GnssBlock 0 0 0 false 0;
     GnssBlock 0 0 0 false 0; GnssBlock 0 0 0 false 0].

(** The configuration of a receiver that answered the rate request. *)
Definition legacy_configuration (rate_ms : Z) : list request :=
  [ReqPrtUart init_uart; ReqRate rate_ms 1 0; ReqNav5 init_nav5;
   ReqMsg UBX_CLASS_NAV UBX_NAV_SOL 0;
   ReqMsg UBX_CLASS_NAV UBX_NAV_RELPOSNED 0;
   ReqMsg UBX_CLASS_NAV UBX_NAV_SVIN 0;
   ReqMsg UBX_CLASS_NAV UBX_NAV_SAT 0;
   ReqMsg UBX_CLASS_NMEA UBX_NMEA_GGA 1;
   ReqMsg UBX_CLASS_NMEA UBX_NMEA_GSV 1;
   ReqMsg UBX_CLASS_NMEA UBX_NMEA_RMC 1;
   ReqMsg UBX_CLASS_NMEA UBX_NMEA_GLL 0;
   ReqMsg UBX_CLASS_NMEA UBX_NMEA_GSA 0;
   ReqMsg UBX_CLASS_NMEA UBX_NMEA_VTG 0;
   ReqMsg UBX_CLASS_NMEA UBX_NMEA_GRS 0;
   ReqMsg UBX_CLASS_NMEA UBX_NMEA_GST 0;
   ReqMsg UBX_CLASS_NMEA UBX_NMEA_ZDA 0;
   ReqMsg UBX_CLASS_NMEA UBX_NMEA_GBS 0;
   ReqMsg UBX_CLASS_NMEA UBX_NMEA_DTM 0;
   ReqNmea init_nmea; ReqGnss init_gnss].

(** The key-value pairs appended to [buffer_baud]. *)
Definition baud_keys (rate_ms : Z) : Codec unit :=
  ublox_cfg_append_uart1_baud BAUDRATE ;;;
  ublox_cfg_append_rate rate_ms 1.

(** The key-value pairs appended to [buffer] for a receiver that only
    answered the value-set request. *)
Definition m10_keys : Codec unit :=
  ublox_cfg_append_u1 CFG_MSGOUT_NMEA_ID_GGA_UART1 1 ;;;
  ublox_cfg_append_u1 CFG_MSGOUT_NMEA_ID_GSV_UART1 1 ;;;
  ublox_cfg_append_u1 CFG_MSGOUT_NMEA_ID_RMC_UART1 1 ;;;
  ublox_cfg_append_u1 CFG_MSGOUT_UBX_NAV_SAT_UART1 1 ;;;
  ublox_cfg_append_u1 CFG_MSGOUT_NMEA_ID_DTM_UART1 0 ;;;
  ublox_cfg_append_u1 CFG_MSGOUT_NMEA_ID_GBS_UART1 0 ;;;
  ublox_cfg_append_u1 CFG_MSGOUT_NMEA_ID_GLL_UART1 0 ;;;
  ublox_cfg_append_u1 CFG_MSGOUT_NMEA_ID_GNS_UART1 0 ;;;
  ublox_cfg_append_u1 CFG_MSGOUT_NMEA_ID_GRS_UART1 0 ;;;
  ublox_cfg_append_u1 CFG_MSGOUT_NMEA_ID_GSA_UART1 0 ;;;
  ublox_cfg_append_u1 CFG_MSGOUT_NMEA_ID_GST_UART1 0 ;;;
  ublox_cfg_append_u1 CFG_MSGOUT_NMEA_ID_RLM_UART1 0 ;;;
  ublox_cfg_append_u1 CFG_MSGOUT_NMEA_ID_VLW_UART1 0 ;;;
  ublox_cfg_append_u1 CFG_MSGOUT_NMEA_ID_VTG_UART1 0 ;;;
  ublox_cfg_append_u1 CFG_MSGOUT_NMEA_ID_ZDA_UART1 0 ;;;
  ublox_cfg_append_u1 CFG_MSGOUT_PUBX_ID_POLYP_UART1 0.

(** [ublox_cfg_valset(buffer, ind, BAUDRATE, true, true)] on a local
    buffer of [size] bytes filled by [keys] from index 0: the third
    argument, a [bool] parameter, receives [BAUDRATE]. *)
Definition valset_of (size : Z) (keys : Codec unit) : option request :=
  match keys (Cursor (repeat 0 (Z.to_nat size)) 0) with
  | Some (_, c) =>
      Some (ReqValset (buf c) (ind c) (negb (BAUDRATE =? 0)) true true)
  | None => None
  end.

(** The opening of [ublox_init]: the semaphore is created on the first
    call, the receive task of an earlier call is told to end and awaited
    ([should_terminate = true; while (thd_rx_is_running) vTaskDelay(1);]),
    the UART driver is installed anew at 115200 baud and the receive task
    is started.  [driver_installed] is what [uart_is_driver_installed]
    answers.  The first component tells whether the wait loop was left
    within [fuel] reads of the flag. *)
Definition init_open (fuel : nat) (v : init_vars) (driver_installed : bool)
    (num_uart pin_rx pin_tx : Z) : bool * init_state :=
  let s := InitState [] 0 0 in
  let s := if sem_init_done v then s else act XSemaphoreCreateBinary s in
  let s := act (SetShouldTerminate true) s in
  let (ended, s) := wait_rx_task_end fuel s in
  if negb ended then (false, s)
  else
    let s := if driver_installed then act (UartDriverDelete num_uart) s
             else s in
    let s := act (UartDriverInstall num_uart) s in
    let s := act (UartParamConfig num_uart BAUDRATE) s in
    let s := act (UartSetPin num_uart pin_tx pin_rx) s in
    let s := act (SetShouldTerminate false) s in
    let s := act (SetThdRxIsRunning true) s in
    (true, act XTaskCreate s).

(** The end of [ublox_init] once the baud rate is settled: the check of
    the receive task, the configuration requests (none of whose return
    values is looked at), the terminal command and [m_init_ok = true]. *)
Definition init_configure (num_uart : Z) (rs : list request)
    (s : init_state) : init_result :=
  let (running, s) := thd_rx_is_running s in
  if negb running then Returned false (InitVars false true num_uart) s
  else Returned true (InitVars true true num_uart)
                (act TerminalRegisterCommand (ask_all rs s)).

(** The path taken when no baud rate worked:
    [should_terminate = true; while (thd_rx_is_running) { vTaskDelay(1); }
     if (print) { commands_printf("Could not set baud rate"); }
     return false;] *)
Definition init_give_up (fuel : nat) (print : bool) (num_uart : Z)
    (s : init_state) : init_result :=
  let s := act (SetShouldTerminate true) s in
  let (ended, s) := wait_rx_task_end fuel s in
  if negb ended then StillWaiting s
  else
    let s := if print then act (InitPrintf "Could not set baud rate") s
             else s in
    Returned false (InitVars false true num_uart) s.

(** [ublox_init(print, rate_ms, num_uart, pin_rx, pin_tx)], each of its
    two wait loops followed for at most [fuel] reads of the flag: where
    the call stands then, or [None] when a key-value item was written
    outside its local buffer. *)
Definition ublox_init (fuel : nat) (v : init_vars) (driver_installed : bool)
    (print : bool) (rate_ms num_uart pin_rx pin_tx : Z)
  : option init_result :=
  match init_open fuel v driver_installed num_uart pin_rx pin_tx with
  | (false, s) => Some (StillWaiting s)
  | (true, s) =>
      let failed := InitVars false true num_uart in
      match baud_loop num_uart (ReqRate rate_ms 1 0) (ReqPrtUart init_uart)
                      BAUDRATE_UBX_DEFAULT 4 s with
      | (ReturnFalse, s) => Some (Returned false failed s)
      | (BaudOk true, s) =>
          Some (init_configure num_uart (legacy_configuration rate_ms) s)
      | (BaudOk false, s) =>
          match valset_of 80 (baud_keys rate_ms) with
          | None => None
          | Some probe =>
              match baud_loop num_uart probe probe BAUDRATE_UBX_DEFAULT_NEW
                              4 s with
              | (ReturnFalse, s) => Some (Returned false failed s)
              | (BaudOk false, s) =>
                  Some (init_give_up fuel print num_uart s)
              | (BaudOk true, s) =>
                  match valset_of 90 m10_keys with
                  | None => None
                  | Some config =>
                      Some (init_configure num_uart [config] s)
                  end
              end
          end
      end
  end.

End Init.

(* ------------------------------------------------------------------ *)
(** ** Message dispatcher: [ubx_decode_cfg_gnss] *)

(** What [ubx_decode_cfg_gnss] does to the outside: the subscriber call
    and the lines of the one-shot report. *)
Inductive gnss_event : Type :=
| CallRxGnss (g : ubx_cfg_gnss)
| GnssPrintf (format : string) (args : list Z).

(** One iteration of the block loop: the fields of [cfg.blocks[i]]. *)
Definition cfg_gnss_block_fields : Codec ubx_cfg_gnss_block :=
  gid <- ubx_get_U1 ;;
  mn <- ubx_get_U1 ;;
  mx <- ubx_get_U1 ;;
  ubx_get_U1 ;;;
  flags <- ubx_get_X4 ;;
  ret (GnssBlock gid mn mx (negb (Z.land flags 1 =? 0))
                 (Z.land (Z.shiftr flags 16) 0xFF)).

(** [for (int i = 0; i < cfg.num_blocks; i++)], [n] iterations left. *)
Fixpoint cfg_gnss_loop (n : nat) (i : Z) (bl : list ubx_cfg_gnss_block)
  : Codec (list ubx_cfg_gnss_block) :=
  match n with
  | O => ret bl
  | S m =>
      e <- cfg_gnss_block_fields ;;
      match store bl i e with
      | Some bl' => cfg_gnss_loop m (i + 1) bl'
      | None => fun _ => None
      end
  end.

Definition cfg_gnss_report : string :=
  lines ["CFG_GNSS RX"; "TrkChHw   : %d"; "TrkChUse  : %d";
         "Blocks    : %d"]%string.

Definition cfg_gnss_block_report : string :=
  lines ["GNSS ID: %d, Enabled: %d"; "MinTrkCh  : %d"; "MaxTrkCh  : %d";
         "Flags     : %d"]%string.

(** The printing loop of the one-shot report, [n] iterations left. *)
Fixpoint cfg_gnss_print_loop (n : nat) (i : Z) (bl : list ubx_cfg_gnss_block)
  : option (list gnss_event) :=
  match n with
  | O => Some []
  | S m =>
      match load bl i, cfg_gnss_print_loop m (i + 1) bl with
      | Some b, Some evs =>
          Some (GnssPrintf cfg_gnss_block_report
                  [blk_gnss_id b; if en b then 1 else 0; minTrkCh b;
                   maxTrkCh b; blk_flags b] :: evs)
      | _, _ => None
      end
  end.

(** [ubx_decode_cfg_gnss(msg, len)]; [len] is unused.  [rx_gnss] tells
    whether a subscriber is registered, [m_print_next_cfg_gnss] is the
    one-shot print flag (returned as it is left), and [cfg_blocks] is
    what the block table of the local, uninitialised [cfg] holds on
    entry. *)
Definition ubx_decode_cfg_gnss (rx_gnss m_print_next_cfg_gnss : bool)
    (cfg_blocks : list ubx_cfg_gnss_block) (msg : list Z) (len : Z)
  : option (bool * list gnss_event) :=
  match (ubx_get_U1 ;;;
         hw <- ubx_get_U1 ;;
         use <- ubx_get_U1 ;;
         nb <- ubx_get_U1 ;;
         ret (hw, use, nb)) (Cursor msg 0) with
  | None => None
  | Some ((hw, use, nb), c) =>
      let nb := if 10 <? nb then 10 else nb in
      match cfg_gnss_loop (Z.to_nat nb) 0 cfg_blocks c with
      | None => None
      | Some (bl, _) =>
          let cfg := CfgGnss hw use nb bl in
          let calls := if rx_gnss then [CallRxGnss cfg] else [] in
          if m_print_next_cfg_gnss then
            match cfg_gnss_print_loop (Z.to_nat nb) 0 bl with
            | None => None
            | Some prints =>
                Some (false,
                      calls ++ GnssPrintf cfg_gnss_report [hw; use; nb]
                            :: prints)
            end
          else Some (m_print_next_cfg_gnss, calls)
      end
  end.

(* ------------------------------------------------------------------ *)
(** ** The terminal command [ubx_poll] *)

Section Terminal.
Context {M : ublox_h_messages} {H : ublox_h}.

(** The seven one-shot print flags ([m_print_next_...]). *)
Record print_flags : Type := PrintFlags {
  print_next_nav_sol : bool;
  print_next_relposned : bool;
  print_next_rawx : bool;
  print_next_svin : bool;
  print_next_nav_sat : bool;
  print_next_mon_ver : bool;
  print_next_cfg_gnss : bool
}.

(** [commands_printf(format, ...)] with its string arguments. *)
Inductive terminal_event : Type :=
| TerminalPrintf (format : string) (args : list string).

(** One branch of the command: the flag is set, the message is polled
    and ["OK\n"] is printed. *)
Definition poll_branch (ubx : list Z) (p : print_flags) (msg_class id : Z)
  : option (print_flags * list Z * list (list Z) * list terminal_event) :=
  match ublox_poll ubx msg_class id with
  | Some (ubx', sent) =>
      Some (p, ubx', [sent], [TerminalPrintf (lines ["OK"%string]) []])
  | None => None
  end.

(** [ubx_terminal_cmd_poll(argc, argv)], [argc] being the length of
    [argv].  The result is the print flags and the send buffer
    afterwards, the frames handed to the transport and what is printed. *)
Definition ubx_terminal_cmd_poll (ubx : list Z) (p : print_flags)
    (argv : list string)
  : option (print_flags * list Z * list (list Z) * list terminal_event) :=
  if Z.of_nat (length argv) =? 2 then
    let arg := nth 1 argv EmptyString in
    let '(PrintFlags sol rel rawx svin sat ver gnss) := p in
    if String.eqb arg "UBX_NAV_SOL" then
      poll_branch ubx (PrintFlags true rel rawx svin sat ver gnss)
        UBX_CLASS_NAV UBX_NAV_SOL
    else if String.eqb arg "UBX_NAV_RELPOSNED" then
      poll_branch ubx (PrintFlags sol true rawx svin sat ver gnss)
        UBX_CLASS_NAV UBX_NAV_RELPOSNED
    else if String.eqb arg "UBX_NAV_SVIN" then
      poll_branch ubx (PrintFlags sol rel rawx true sat ver gnss)
        UBX_CLASS_NAV UBX_NAV_SVIN
    else if String.eqb arg "UBX_RXM_RAWX" then
      poll_branch ubx (PrintFlags sol rel true svin sat ver gnss)
        UBX_CLASS_RXM UBX_RXM_RAWX
    else if String.eqb arg "UBX_NAV_SAT" then
      poll_branch ubx (PrintFlags sol rel rawx svin true ver gnss)
        UBX_CLASS_NAV UBX_NAV_SAT
    else if String.eqb arg "UBX_MON_VER" then
      poll_branch ubx (PrintFlags sol rel rawx svin sat true gnss)
        UBX_CLASS_MON UBX_MON_VER
    else if String.eqb arg "UBX_CFG_GNSS" then
      poll_branch ubx (PrintFlags sol rel rawx svin sat ver true)
        UBX_CLASS_CFG UBX_CFG_GNSS
    else
      Some (p, ubx, [],
            [TerminalPrintf (lines ["Wrong argument %s"%string]) [arg]])
  else
    Some (p, ubx, [],
          [TerminalPrintf (lines ["Wrong number of arguments"%string]) []]).

End Terminal.

(* ------------------------------------------------------------------ *)
(** ** Predicates used in the proofs *)

(** The invariant of the demultiplexer: a well-formed state in which the
    UBX parser is at WaitSync1 whenever a line is pending. *)
Definition demux_inv (st : decoder_state) : Prop :=
  wf_state st /\ (line_pos st <> 0 -> ubx_pos st = 0).

(** [runs m n]: from any cursor with [n] bytes of room, [m] succeeds,
    advances the cursor by [n] and keeps the size of the buffer. *)
Definition runs {A} (m : Codec A) (n : Z) : Prop :=
  0 <= n /\
  forall c, 0 <= ind c -> ind c + n <= Z.of_nat (length (buf c)) ->
    exists a c', m c = Some (a, c') /\
                 ind c' = ind c + n /\ length (buf c') = length (buf c).
(** The ranges the fields of the UBX parser stay in: the length is a
    16-bit value (8-bit until its high byte is read), the class, the id
    and the received checksum are bytes, and past the header the
    position is at most one past the end of the payload. *)
Definition demux_bounds (st : decoder_state) : Prop :=
  0 <= ubx_pos st /\
  0 <= ubx_len st < 65536 /\
  (ubx_pos st = 5 -> ubx_len st < 256) /\
  (6 <= ubx_pos st -> ubx_pos st - 6 <= ubx_len st + 1) /\
  is_byte (ubx_class st) /\ is_byte (ubx_id st) /\
  is_byte (ubx_ck_a st) /\ is_byte (ubx_ck_b st).

(** What a receiver sends: a text line or a UBX frame. *)
Inductive stream_item : Type :=
| NmeaLine (text : list Z)
| UbxFrame (class id : Z) (payload : list Z).

(** The bytes of an item: the line with its line feed, or the frame. *)
Definition on_wire (it : stream_item) : list Z :=
  match it with
  | NmeaLine text => text ++ [10]
  | UbxFrame c i p => ubx_frame c i p
  end.

(** Items the demultiplexer can take: a line that fits the line buffer,
    has no line feed or NUL inside and does not start with the first
    sync byte; a frame whose payload fits the accumulation buffer. *)
Definition item_ok (it : stream_item) : Prop :=
  match it with
  | NmeaLine text =>
      Z.of_nat (length text) <= LINE_BUFFER_SIZE - 2 /\
      Forall (fun x => x <> 10 /\ x <> 0) text /\
      hd 0 text <> 0xB5
  | UbxFrame c i p => Z.of_nat (length p) <= UBX_BUFFER_SIZE
  end.

(** The decoder event an item is delivered as. *)
Definition delivered (it : stream_item) (e : event) : Prop :=
  match it with
  | NmeaLine text => e = NmeaDecodeString (text ++ [10])
  | UbxFrame c i p =>
      exists u, e = UbxDecode c i u (Z.of_nat (length p)) /\
                firstn (length p) u = p
  end.

(** The position-weighted sum of a byte sequence: the first byte counts
    as many times as the sequence is long, the last once; [ck_b] is this
    sum modulo 256. *)
Fixpoint wsum (l : list Z) : Z :=
  match l with
  | [] => 0
  | x :: t => Z.of_nat (length l) * x + wsum t
  end.

(** [writes m bs]: wherever the cursor stands, [m] replaces exactly the
    next [length bs] bytes by [bs] and advances the cursor past them. *)
Definition writes (m : Codec unit) (bs : list Z) : Prop :=
  forall pre mid post : list Z,
    length mid = length bs ->
    m (Cursor (pre ++ mid ++ post) (Z.of_nat (length pre)))
    = Some (tt, Cursor (pre ++ bs ++ post)
                       (Z.of_nat (length pre) + Z.of_nat (length bs))).

(** [reads m bs a]: on the bytes [bs], wherever they stand in the
    buffer, [m] returns [a] and advances the cursor past them. *)
Definition reads {A} (m : Codec A) (bs : list Z) (a : A) : Prop :=
  forall pre post : list Z,
    m (Cursor (pre ++ bs ++ post) (Z.of_nat (length pre)))
    = Some (a, Cursor (pre ++ bs ++ post)
                      (Z.of_nat (length pre) + Z.of_nat (length bs))).

(** The wire image of one block of the GNSS table. *)
Definition gnss_block_bytes (b : ubx_cfg_gnss_block) : list Z :=
  [blk_gnss_id b mod 256; minTrkCh b mod 256; maxTrkCh b mod 256; 0]
  ++ le_bytes 4 (Z.lor (to_u32 (if en b then 1 else 0))
                       (Z.shiftl (blk_flags b) 16)).

(** A block whose fields fit the wire format. *)
Definition gnss_block_ok (b : ubx_cfg_gnss_block) : Prop :=
  is_byte (blk_gnss_id b) /\ is_byte (minTrkCh b) /\ is_byte (maxTrkCh b) /\
  is_byte (blk_flags b).

(** The capacity of the block table of [ubx_cfg_gnss]. *)
Definition GNSS_BLOCK_CAPACITY : nat := 10.

(** The events that are calls of the subscriber. *)
Definition is_gnss_call (e : gnss_event) : bool :=
  match e with CallRxGnss _ => true | GnssPrintf _ _ => false end.

Section Requests.
Context {H : ublox_h} {F : c_floating} {R : rtos_wait}.

(** The message id a request is sent under. *)
Definition request_id (r : request) : Z :=
  match r with
  | ReqPrtUart _ => UBX_CFG_PRT
  | ReqTmode3 _ => UBX_CFG_TMODE3
  | ReqMsg _ _ _ => UBX_CFG_MSG
  | ReqRate _ _ _ => UBX_CFG_RATE
  | ReqCfg _ => UBX_CFG_CFG
  | ReqNav5 _ => UBX_CFG_NAV5
  | ReqTp5 _ => UBX_CFG_TP5
  | ReqGnss _ => UBX_CFG_GNSS
  | ReqNmea _ => UBX_CFG_NMEA
  | ReqValset _ _ _ _ _ => UBX_CFG_VALSET
  end.

(** The size of the payload of a request. *)
Definition payload_size (r : request) : Z :=
  match r with
  | ReqPrtUart _ => 20
  | ReqTmode3 _ => 40
  | ReqMsg _ _ _ => 8
  | ReqRate _ _ _ => 6
  | ReqCfg _ => 13
  | ReqNav5 _ => 36
  | ReqTp5 _ => 32
  | ReqGnss g => 4 + 8 * num_blocks g
  | ReqNmea _ => 20
  | ReqValset _ len _ _ _ => len + 4
  end.

(** The arguments on which a builder transmits: at most ten GNSS blocks,
    all present in the table, and key-value bytes that exist, are bytes
    and leave room for the frame in the send buffer. *)
Definition request_sent (r : request) : Prop :=
  match r with
  | ReqGnss g =>
      0 <= num_blocks g <= 10 /\
      num_blocks g <= Z.of_nat (length (blocks g))
  | ReqValset v l _ _ _ =>
      0 <= l <= Z.of_nat (length v) /\ l + 4 + 8 <= UBX_BUFFER_SIZE /\
      Forall is_byte (firstn (Z.to_nat l) v)
  | _ => True
  end.

(** The configuration requests of a run, in order. *)
Definition issued (t : list init_action) : list request :=
  flat_map (fun a => match a with Issue r => [r] | _ => [] end) t.

(** The actions that are a [vTaskDelay]. *)
Definition is_delay (a : init_action) : bool :=
  match a with VTaskDelay _ => true | _ => false end.

(** The five requests of a round that gets no answer. *)
Definition silent_round (probe reconfigure : request) : list request :=
  [probe; reconfigure; reconfigure; probe; probe].

(** A wait loop entered at the read number [from] of the flag
    [thd_rx_is_running] makes exactly [n] delays: the flag reads true [n]
    times and then false. *)
Definition wait_ends (rx_running : nat -> bool) (from n : nat) : Prop :=
  (forall k, (k < n)%nat -> rx_running (from + k)%nat = true) /\
  rx_running (from + n)%nat = false.

(** What [ublox_init] has done when its first retry loop starts, the
    opening wait having made [n] delays. *)
Definition opening (v : init_vars) (driver_installed : bool)
    (num_uart pin_rx pin_tx : Z) (n : nat) : list init_action :=
  (if sem_init_done v then [] else [XSemaphoreCreateBinary])
  ++ SetShouldTerminate true :: repeat (VTaskDelay 1) n
  ++ (if driver_installed then [UartDriverDelete num_uart] else [])
  ++ [UartDriverInstall num_uart; UartParamConfig num_uart BAUDRATE;
      UartSetPin num_uart pin_tx pin_rx; SetShouldTerminate false;
      SetThdRxIsRunning true; XTaskCreate].

End Requests.

Section TerminalPredicates.
Context {M : ublox_h_messages} {H : ublox_h}.

(** The messages the command can poll, by the name given on the command
    line. *)
Definition poll_names : list string :=
  ["UBX_NAV_SOL"; "UBX_NAV_RELPOSNED"; "UBX_NAV_SVIN"; "UBX_RXM_RAWX";
   "UBX_NAV_SAT"; "UBX_MON_VER"; "UBX_CFG_GNSS"]%string.

(** The message identifiers the command uses are bytes. *)
Definition poll_ids_are_bytes : Prop :=
  Forall is_byte
    [UBX_CLASS_NAV; UBX_CLASS_RXM; UBX_CLASS_MON; UBX_CLASS_CFG;
     UBX_NAV_SOL; UBX_NAV_RELPOSNED; UBX_NAV_SVIN; UBX_RXM_RAWX;
     UBX_NAV_SAT; UBX_MON_VER; UBX_CFG_GNSS].

(** The flags as a list, and the order "no flag of [p] is cleared in
    [q]". *)
Definition flag_list (p : print_flags) : list bool :=
  [print_next_nav_sol p; print_next_relposned p; print_next_rawx p;
   print_next_svin p; print_next_nav_sat p; print_next_mon_ver p;
   print_next_cfg_gnss p].

Definition flags_kept (p q : print_flags) : Prop :=
  Forall2 (fun a b => a = true -> b = true) (flag_list p) (flag_list q).

End TerminalPredicates.

(* ================================================================== *)
(** * Properties *)

(* ------------------------------------------------------------------ *)
(** ** Arrays *)

Lemma upd_length {A} (n : nat) (v : A) (l : list A) :
  length (upd n v l) = length l.
Proof.
  revert n; induction l as [|x t IH]; intros [|n]; simpl; auto.
Qed.

Lemma upd_app {A} (pre : list A) (x v : A) (post : list A) :
  upd (length pre) v (pre ++ x :: post) = pre ++ v :: post.
Proof.
  induction pre as [|y pre IH]; simpl; [reflexivity | now rewrite IH].
Qed.

Lemma upd_mid {A} (pre mid post : list A) (k : nat) (v : A) :
  (k < length mid)%nat ->
  upd (length pre + k) v (pre ++ mid ++ post) = pre ++ upd k v mid ++ post.
Proof.
  intros Hk. induction pre as [|y pre IH]; simpl.
  - revert k Hk. induction mid as [|m mid IHm]; intros k Hk; simpl in *.
    + lia.
    + destruct k as [|k]; simpl; [reflexivity|].
      f_equal. apply IHm. lia.
  - now rewrite IH.
Qed.

Lemma nth_error_mid {A} (pre mid post : list A) (k : nat) :
  (k < length mid)%nat ->
  nth_error (pre ++ mid ++ post) (length pre + k) = nth_error mid k.
Proof.
  intros Hk. rewrite nth_error_app2 by lia.
  replace (length pre + k - length pre)%nat with k by lia.
  now rewrite nth_error_app1.
Qed.

Lemma in_bounds_true {A} (a : list A) (i : Z) :
  0 <= i < Z.of_nat (length a) -> in_bounds a i = true.
Proof.
  intros Hi. unfold in_bounds.
  apply andb_true_iff. split; [apply Z.leb_le | apply Z.ltb_lt]; lia.
Qed.

Lemma in_bounds_false {A} (a : list A) (i : Z) :
  Z.of_nat (length a) <= i -> in_bounds a i = false.
Proof.
  intros Hi. unfold in_bounds.
  apply andb_false_iff. right. apply Z.ltb_ge. lia.
Qed.

Lemma store_mid {A} (pre mid post : list A) (k : Z) (v : A) :
  0 <= k < Z.of_nat (length mid) ->
  store (pre ++ mid ++ post) (Z.of_nat (length pre) + k) v
  = Some (pre ++ upd (Z.to_nat k) v mid ++ post).
Proof.
  intros Hk. unfold store.
  rewrite in_bounds_true by (rewrite !length_app; lia).
  replace (Z.to_nat (Z.of_nat (length pre) + k))
    with (length pre + Z.to_nat k)%nat by lia.
  rewrite upd_mid by lia. reflexivity.
Qed.

Lemma load_mid {A} (pre mid post : list A) (k : Z) :
  0 <= k < Z.of_nat (length mid) ->
  load (pre ++ mid ++ post) (Z.of_nat (length pre) + k)
  = nth_error mid (Z.to_nat k).
Proof.
  intros Hk. unfold load.
  rewrite in_bounds_true by (rewrite !length_app; lia).
  replace (Z.to_nat (Z.of_nat (length pre) + k))
    with (length pre + Z.to_nat k)%nat by lia.
  apply nth_error_mid. lia.
Qed.

Lemma store_length {A} (a a' : list A) (i : Z) (v : A) :
  store a i v = Some a' -> length a' = length a.
Proof.
  unfold store. destruct (in_bounds a i); [|discriminate].
  intros E; inversion E. apply upd_length.
Qed.

Lemma store_some {A} (a : list A) (i : Z) (v : A) :
  0 <= i < Z.of_nat (length a) ->
  store a i v = Some (upd (Z.to_nat i) v a).
Proof. intros Hi. unfold store. now rewrite in_bounds_true. Qed.

Lemma store_none {A} (a : list A) (i : Z) (v : A) :
  Z.of_nat (length a) <= i -> store a i v = None.
Proof. intros Hi. unfold store. now rewrite in_bounds_false. Qed.

(** A window of [n] bytes at index [i] splits the array in three. *)
Lemma split_window {A} (a : list A) (i n : Z) :
  0 <= i -> 0 <= n -> i + n <= Z.of_nat (length a) ->
  exists mid,
    a = firstn (Z.to_nat i) a ++ mid ++ skipn (Z.to_nat (i + n)) a /\
    Z.of_nat (length mid) = n /\
    Z.of_nat (length (firstn (Z.to_nat i) a)) = i.
Proof.
  intros Hi Hn Hlen.
  exists (firstn (Z.to_nat n) (skipn (Z.to_nat i) a)).
  repeat split.
  - replace (Z.to_nat (i + n)) with (Z.to_nat n + Z.to_nat i)%nat by lia.
    rewrite <- skipn_skipn.
    rewrite (firstn_skipn (Z.to_nat n) (skipn (Z.to_nat i) a)).
    now rewrite firstn_skipn.
  - rewrite length_firstn, length_skipn. lia.
  - rewrite length_firstn. lia.
Qed.

(* ------------------------------------------------------------------ *)
(** ** Integer conversions and byte assembly *)

Lemma to_u8_byte (z : Z) : is_byte (to_u8 z).
Proof. unfold is_byte, to_u8. apply Z.mod_pos_bound. lia. Qed.

Lemma to_u8_id (z : Z) : is_byte z -> to_u8 z = z.
Proof. unfold is_byte, to_u8. intros Hz. now apply Z.mod_small. Qed.

Lemma lor_shiftl_low (hi lo n : Z) :
  0 <= n -> 0 <= lo < 2 ^ n ->
  Z.lor (Z.shiftl hi n) lo = hi * 2 ^ n + lo.
Proof.
  intros Hn Hlo.
  assert (Hdisj : Z.land (Z.shiftl hi n) lo = 0).
  { apply Z.bits_inj'. intros i Hi.
    rewrite Z.land_spec, Z.bits_0.
    destruct (Z.lt_ge_cases i n) as [Hlt | Hge].
    - now rewrite Z.shiftl_spec_low.
    - rewrite <- (Z.mod_small lo (2 ^ n)) by lia.
      rewrite Z.mod_pow2_bits_high by lia.
      apply andb_false_r. }
  rewrite <- Z.lxor_lor by assumption.
  rewrite <- Z.add_nocarry_lxor by assumption.
  now rewrite Z.shiftl_mul_pow2.
Qed.

Lemma lor_scaled (hi lo n : Z) :
  0 <= n -> 0 <= lo < 2 ^ n -> Z.lor (hi * 2 ^ n) lo = hi * 2 ^ n + lo.
Proof.
  intros Hn Hlo. rewrite <- (lor_shiftl_low hi lo n) by assumption.
  now rewrite Z.shiftl_mul_pow2.
Qed.

Lemma assemble16 (b0 b1 : Z) :
  is_byte b0 -> is_byte b1 ->
  Z.lor (Z.shiftl (to_u16 b1) 8) (to_u16 b0) = b1 * 256 + b0.
Proof.
  unfold is_byte, to_u16. intros H0 H1.
  rewrite !Z.mod_small by lia.
  rewrite lor_shiftl_low by (simpl; lia). reflexivity.
Qed.

Lemma assemble32 (b0 b1 b2 b3 : Z) :
  is_byte b0 -> is_byte b1 -> is_byte b2 -> is_byte b3 ->
  Z.lor (Z.lor (Z.lor (to_u32 (Z.shiftl (to_u32 b3) 24))
                      (to_u32 (Z.shiftl (to_u32 b2) 16)))
               (to_u32 (Z.shiftl (to_u32 b1) 8)))
        (to_u32 b0)
  = b3 * 16777216 + b2 * 65536 + b1 * 256 + b0.
Proof.
  unfold is_byte, to_u32. intros H0 H1 H2 H3.
  rewrite !Z.shiftl_mul_pow2 by lia.
  rewrite (Z.mod_small b0), (Z.mod_small b1), (Z.mod_small b2),
          (Z.mod_small b3) by lia.
  rewrite !Z.mod_small by (change (2 ^ 24) with 16777216;
    change (2 ^ 16) with 65536; change (2 ^ 8) with 256; lia).
  rewrite (lor_scaled b3 (b2 * 2 ^ 16) 24)
    by (change (2 ^ 24) with 16777216; change (2 ^ 16) with 65536; lia).
  replace (b3 * 2 ^ 24 + b2 * 2 ^ 16) with ((b3 * 256 + b2) * 2 ^ 16)
    by (change (2 ^ 24) with 16777216; change (2 ^ 16) with 65536; lia).
  rewrite (lor_scaled _ (b1 * 2 ^ 8) 16)
    by (change (2 ^ 16) with 65536; change (2 ^ 8) with 256; lia).
  replace ((b3 * 256 + b2) * 2 ^ 16 + b1 * 2 ^ 8)
    with ((b3 * 65536 + b2 * 256 + b1) * 2 ^ 8)
    by (change (2 ^ 16) with 65536; change (2 ^ 8) with 256; lia).
  rewrite (lor_scaled _ b0 8) by (change (2 ^ 8) with 256; lia).
  change (2 ^ 8) with 256. lia.
Qed.

(* ------------------------------------------------------------------ *)
(** ** Field codec *)

Lemma emit_window (pre : list Z) (x : Z) (post : list Z) (v : Z) :
  emit v (Cursor (pre ++ x :: post) (Z.of_nat (length pre)))
  = Some (tt, Cursor (pre ++ to_u8 v :: post) (Z.of_nat (length pre) + 1)).
Proof.
  unfold emit; simpl.
  rewrite store_some by (rewrite length_app; simpl; lia).
  rewrite Nat2Z.id, upd_app. reflexivity.
Qed.

Lemma emits_window (vs pre mid post : list Z) :
  length mid = length vs ->
  emits vs (Cursor (pre ++ mid ++ post) (Z.of_nat (length pre)))
  = Some (tt, Cursor (pre ++ map to_u8 vs ++ post)
                     (Z.of_nat (length pre) + Z.of_nat (length vs))).
Proof.
  revert pre mid. induction vs as [|v vs IH]; intros pre mid Hlen.
  - destruct mid; [|discriminate]. simpl. unfold ret.
    now rewrite Z.add_0_r.
  - destruct mid as [|x mid]; [discriminate|].
    injection Hlen as Hlen.
    assert (Hstep : forall c, emits (v :: vs) c = (emit v ;;; emits vs) c).
    { intros c. destruct vs; [|reflexivity].
      simpl. unfold bind, ret.
      destruct (emit v c) as [[[] c']|]; reflexivity. }
    rewrite Hstep. unfold bind.
    change (pre ++ (x :: mid) ++ post) with (pre ++ x :: mid ++ post).
    rewrite emit_window.
    replace (pre ++ to_u8 v :: mid ++ post)
      with ((pre ++ [to_u8 v]) ++ mid ++ post)
      by (rewrite <- app_assoc; reflexivity).
    replace (Z.of_nat (length pre) + 1)
      with (Z.of_nat (length (pre ++ [to_u8 v])))
      by (rewrite length_app; simpl; lia).
    rewrite (IH _ mid) by assumption.
    rewrite <- app_assoc. simpl.
    do 3 f_equal. rewrite length_app. simpl length. lia.
Qed.

Lemma peek_window (pre mid post : list Z) (k b : Z) :
  nth_error mid (Z.to_nat k) = Some b -> 0 <= k ->
  peek k (Cursor (pre ++ mid ++ post) (Z.of_nat (length pre)))
  = Some (b, Cursor (pre ++ mid ++ post) (Z.of_nat (length pre))).
Proof.
  intros Hb Hk. unfold peek; simpl.
  assert (Z.to_nat k < length mid)%nat
    by (apply nth_error_Some; congruence).
  rewrite load_mid by lia. now rewrite Hb.
Qed.

Lemma le_sum16 (v : Z) :
  (v / 256) mod 256 * 256 + v mod 256 = v mod 65536.
Proof.
  pose proof (Z.div_mod v 256 ltac:(lia)).
  pose proof (Z.div_mod (v / 256) 256 ltac:(lia)).
  pose proof (Z.mod_pos_bound v 256 ltac:(lia)).
  pose proof (Z.mod_pos_bound (v / 256) 256 ltac:(lia)).
  apply Z.mod_unique with (q := v / 256 / 256); lia.
Qed.

Lemma le_sum32 (v : Z) :
  (v / 256 / 256 / 256) mod 256 * 16777216 + (v / 256 / 256) mod 256 * 65536
  + (v / 256) mod 256 * 256 + v mod 256 = v mod 4294967296.
Proof.
  pose proof (Z.div_mod v 256 ltac:(lia)).
  pose proof (Z.div_mod (v / 256) 256 ltac:(lia)).
  pose proof (Z.div_mod (v / 256 / 256) 256 ltac:(lia)).
  pose proof (Z.div_mod (v / 256 / 256 / 256) 256 ltac:(lia)).
  pose proof (Z.mod_pos_bound v 256 ltac:(lia)).
  pose proof (Z.mod_pos_bound (v / 256) 256 ltac:(lia)).
  pose proof (Z.mod_pos_bound (v / 256 / 256) 256 ltac:(lia)).
  pose proof (Z.mod_pos_bound (v / 256 / 256 / 256) 256 ltac:(lia)).
  apply Z.mod_unique with (q := v / 256 / 256 / 256 / 256); lia.
Qed.

Lemma shiftr_bytes (v : Z) :
  Z.shiftr v 8 = v / 256 /\ Z.shiftr v 16 = v / 256 / 256 /\
  Z.shiftr v 24 = v / 256 / 256 / 256.
Proof.
  rewrite !Z.shiftr_div_pow2 by lia.
  rewrite !Z.div_div by lia.
  repeat split; reflexivity.
Qed.

Lemma mod_byte (v : Z) : is_byte (v mod 256).
Proof. apply to_u8_byte. Qed.

Lemma window1 (mid : list Z) :
  Z.of_nat (length mid) = 1 -> exists x0, mid = [x0].
Proof. destruct mid as [|x0 [|]]; simpl; intros; try lia; eauto. Qed.

Lemma window2 (mid : list Z) :
  Z.of_nat (length mid) = 2 -> exists x0 x1, mid = [x0; x1].
Proof. destruct mid as [|x0 [|x1 [|]]]; simpl; intros; try lia; eauto. Qed.

Lemma window4 (mid : list Z) :
  Z.of_nat (length mid) = 4 -> exists x0 x1 x2 x3, mid = [x0; x1; x2; x3].
Proof.
  destruct mid as [|x0 [|x1 [|x2 [|x3 [|]]]]]; simpl; intros; try lia.
  eauto.
Qed.

Section GetPut.
Variables (pre post : list Z).

Let at_pre (mid : list Z) : cursor :=
  Cursor (pre ++ mid ++ post) (Z.of_nat (length pre)).
Let past (mid : list Z) (n : Z) : cursor :=
  Cursor (pre ++ mid ++ post) (Z.of_nat (length pre) + n).

Lemma put8_window (d x0 : Z) :
  emit d (at_pre [x0]) = Some (tt, past [d mod 256] 1).
Proof. apply (emits_window [d] pre [x0] post). reflexivity. Qed.

Lemma put16_window (d x0 x1 : Z) :
  put16 d (at_pre [x0; x1])
  = Some (tt, past [d mod 256; (d / 256) mod 256] 2).
Proof.
  change (put16 d) with (emits [d; Z.shiftr d 8]).
  unfold at_pre. rewrite emits_window by reflexivity.
  destruct (shiftr_bytes d) as (-> & _). reflexivity.
Qed.

Lemma put32_window (d x0 x1 x2 x3 : Z) :
  put32 d (at_pre [x0; x1; x2; x3])
  = Some (tt, past [d mod 256; (d / 256) mod 256; (d / 256 / 256) mod 256;
                    (d / 256 / 256 / 256) mod 256] 4).
Proof.
  change (put32 d)
    with (emits [d; Z.shiftr d 8; Z.shiftr d 16; Z.shiftr d 24]).
  unfold at_pre. rewrite emits_window by reflexivity.
  destruct (shiftr_bytes d) as (-> & -> & ->). reflexivity.
Qed.

Lemma get8_window (b0 : Z) :
  next_byte (at_pre [b0]) = Some (b0, past [b0] 1).
Proof.
  unfold next_byte, bind, at_pre.
  rewrite (peek_window pre [b0] post 0 b0) by (reflexivity || lia).
  reflexivity.
Qed.

Lemma le16_window (d : Z) :
  le16 (at_pre [d mod 256; (d / 256) mod 256])
  = Some (d mod 65536, at_pre [d mod 256; (d / 256) mod 256]).
Proof.
  unfold le16, bind, at_pre.
  rewrite (peek_window pre _ post 1 ((d / 256) mod 256))
    by (reflexivity || lia).
  rewrite (peek_window pre _ post 0 (d mod 256)) by (reflexivity || lia).
  unfold ret. rewrite assemble16 by apply mod_byte.
  now rewrite le_sum16.
Qed.

Lemma le32_window (d : Z) :
  let bytes := [d mod 256; (d / 256) mod 256; (d / 256 / 256) mod 256;
                (d / 256 / 256 / 256) mod 256] in
  le32 (at_pre bytes) = Some (d mod 4294967296, at_pre bytes).
Proof.
  intros bytes. unfold le32, bind, at_pre, bytes.
  rewrite (peek_window pre _ post 3 ((d / 256 / 256 / 256) mod 256))
    by (reflexivity || lia).
  rewrite (peek_window pre _ post 2 ((d / 256 / 256) mod 256))
    by (reflexivity || lia).
  rewrite (peek_window pre _ post 1 ((d / 256) mod 256))
    by (reflexivity || lia).
  rewrite (peek_window pre _ post 0 (d mod 256)) by (reflexivity || lia).
  unfold ret. rewrite assemble32 by apply mod_byte.
  now rewrite le_sum32.
Qed.

End GetPut.

Lemma unsigned_fix (v m : Z) : 0 <= v < m -> v mod m = v.
Proof. intros. now apply Z.mod_small. Qed.

Lemma signed_fix (v m h : Z) :
  m = 2 * h -> - h <= v < h -> (v mod m + h) mod m - h = v.
Proof.
  intros -> Hv.
  rewrite Zplus_mod_idemp_l.
  rewrite Z.mod_small; lia.
Qed.

Lemma signed_window (v m h : Z) :
  m = 2 * h -> - h <= v < h -> (v + h) mod m - h = v.
Proof. intros -> Hv. rewrite Z.mod_small; lia. Qed.

(** ** C10 *)

(** C10.  For each of the nine integer field types, a value of the type
    and a buffer with room at the cursor: the putter replaces exactly the
    [sizeof T] bytes at the cursor by the value's little-endian bytes,
    leaves every other byte alone and advances the cursor by [sizeof T];
    the getter run on the result from the same cursor returns the value
    (two's complement for the signed types) and advances the cursor by
    [sizeof T]. *)
Theorem get_after_put (T : ubx_type) (v : Z) (msg : list Z) (i : Z) :
  in_range T v -> 0 <= i -> i + sizeof T <= Z.of_nat (length msg) ->
  let msg' := firstn (Z.to_nat i) msg
              ++ le_bytes (Z.to_nat (sizeof T)) v
              ++ skipn (Z.to_nat (i + sizeof T)) msg in
  ubx_put T v (Cursor msg i) = Some (tt, Cursor msg' (i + sizeof T)) /\
  ubx_get T (Cursor msg' i) = Some (v, Cursor msg' (i + sizeof T)).
Proof.
  intros Hv Hi Hroom.
  destruct (split_window msg i (sizeof T)) as (mid & Hmsg & Hmid & Hpre);
    [lia | destruct T; simpl; lia | lia |].
  remember (firstn (Z.to_nat i) msg) as pre eqn:Epre.
  remember (skipn (Z.to_nat (i + sizeof T)) msg) as post eqn:Epost.
  clear Epre Epost. intros msg'; subst msg'. subst msg i.
  destruct T; cbn [sizeof in_range] in Hmid, Hv; cbn [sizeof ubx_put ubx_get].
  all: try (destruct (window1 mid Hmid) as (x0 & ->)).
  all: try (destruct (window2 mid Hmid) as (x0 & x1 & ->)).
  all: try (destruct (window4 mid Hmid) as (x0 & x1 & x2 & x3 & ->)).
  all: unfold ubx_put_U1, ubx_put_I1, ubx_put_X1, ubx_put_U2, ubx_put_I2,
         ubx_put_X2, ubx_put_U4, ubx_put_I4, ubx_put_X4,
         ubx_get_U1, ubx_get_I1, ubx_get_X1, ubx_get_U2, ubx_get_I2,
         ubx_get_X2, ubx_get_U4, ubx_get_I4, ubx_get_X4,
         to_u8, to_i8, to_u16, to_i16, to_u32, to_i32.
  all: change (Pos.to_nat 1) with 1%nat; change (Pos.to_nat 2) with 2%nat;
       change (Pos.to_nat 4) with 4%nat; simpl le_bytes.
  all: rewrite ?(unsigned_fix v) by lia;
       rewrite ?(signed_window v 256 128), ?(signed_window v 65536 32768),
               ?(signed_window v 4294967296 2147483648) by lia.
  all: rewrite ?put8_window, ?put16_window, ?put32_window.
  all: rewrite ?(unsigned_fix v 256) by lia.
  all: split; [reflexivity|].
  all: unfold bind; rewrite ?get8_window, ?le16_window;
       try rewrite (le32_window pre post v); unfold skip, ret; simpl.
  all: repeat f_equal.
  all: rewrite ?(unsigned_fix v) by lia; try reflexivity.
  all: try (apply (signed_fix v 256 128); lia).
  all: try (apply (signed_fix v 65536 32768); lia).
  all: try (apply (signed_fix v 4294967296 2147483648); lia).
Qed.

(** The put-then-get round trip at INT32_MIN in the middle of a buffer. *)
Lemma get_after_put_witness :
  ubx_put I4 (-2147483648) (Cursor [9; 9; 9; 9; 9; 9] 1)
    = Some (tt, Cursor [9; 0; 0; 0; 128; 9] 5) /\
  ubx_get I4 (Cursor [9; 0; 0; 0; 128; 9] 1)
    = Some (-2147483648, Cursor [9; 0; 0; 0; 128; 9] 5).
Proof.
  apply (get_after_put I4 (-2147483648) [9; 9; 9; 9; 9; 9] 1); simpl; lia.
Defined.

(* ------------------------------------------------------------------ *)
(** ** Frame codec *)

Lemma ck_step_bytes (ck : Z * Z) (x : Z) :
  is_byte (fst (ck_step ck x)) /\ is_byte (snd (ck_step ck x)).
Proof. unfold ck_step; simpl. split; apply to_u8_byte. Qed.

Lemma fold_ck_bytes (l : list Z) (ck : Z * Z) :
  is_byte (fst ck) -> is_byte (snd ck) ->
  is_byte (fst (fold_left ck_step l ck)) /\
  is_byte (snd (fold_left ck_step l ck)).
Proof.
  revert ck. induction l as [|x l IH]; intros ck Ha Hb; simpl.
  - now split.
  - apply IH; apply ck_step_bytes.
Qed.

Lemma ubx_checksum_bytes (l : list Z) :
  is_byte (fst (ubx_checksum l)) /\ is_byte (snd (ubx_checksum l)).
Proof. apply fold_ck_bytes; unfold is_byte; simpl; lia. Qed.

Lemma map_to_u8_bytes (l : list Z) : Forall is_byte l -> map to_u8 l = l.
Proof.
  induction 1 as [|x l Hx _ IH]; simpl; [reflexivity|].
  now rewrite to_u8_id, IH.
Qed.

Lemma to_u8_idem (z : Z) : to_u8 (to_u8 z) = to_u8 z.
Proof. apply to_u8_id, to_u8_byte. Qed.

(** One checksummed store moves the next free byte into the written
    prefix. *)
Lemma emit_ck_window (pre : list Z) (x : Z) (post : list Z) (v : Z)
    (ck : Z * Z) :
  emit_ck v ck (Cursor (pre ++ x :: post) (Z.of_nat (length pre)))
  = Some (ck_step ck (to_u8 v),
          Cursor ((pre ++ [to_u8 v]) ++ post)
                 (Z.of_nat (length (pre ++ [to_u8 v])))).
Proof.
  unfold emit_ck, bind. rewrite emit_window. unfold ret.
  rewrite <- app_assoc, length_app. simpl.
  repeat f_equal. lia.
Qed.

Lemma emit_step (pre : list Z) (x : Z) (post : list Z) (v : Z) :
  emit v (Cursor (pre ++ x :: post) (Z.of_nat (length pre)))
  = Some (tt, Cursor ((pre ++ [to_u8 v]) ++ post)
                     (Z.of_nat (length (pre ++ [to_u8 v])))).
Proof.
  rewrite emit_window, <- app_assoc, length_app. simpl.
  repeat f_equal. lia.
Qed.

(** The payload loop copies [todo] = [msg[i .. i+n)] into the next [n]
    free bytes and folds it into the checksum. *)
Lemma encode_payload_window (todo : list Z) :
  forall (pre mid post done rest : list Z) (ck : Z * Z),
    length mid = length todo ->
    encode_payload (length todo) (Z.of_nat (length done))
                   (done ++ todo ++ rest) ck
                   (Cursor (pre ++ mid ++ post) (Z.of_nat (length pre)))
    = Some (fold_left ck_step (map to_u8 todo) ck,
            Cursor ((pre ++ map to_u8 todo) ++ post)
                   (Z.of_nat (length (pre ++ map to_u8 todo)))).
Proof.
  induction todo as [|x todo IH]; intros pre mid post done rest ck Hlen.
  - destruct mid; [|discriminate]. simpl. unfold ret.
    now rewrite app_nil_r.
  - destruct mid as [|m mid]; [discriminate|]. injection Hlen as Hlen.
    cbn [length encode_payload].
    replace (load (done ++ (x :: todo) ++ rest) (Z.of_nat (length done)))
      with (Some x).
    2:{ rewrite <- (Z.add_0_r (Z.of_nat (length done))).
        rewrite (load_mid done (x :: todo) rest 0) by (simpl; lia).
        reflexivity. }
    unfold bind at 1.
    change (pre ++ (m :: mid) ++ post) with (pre ++ m :: mid ++ post).
    rewrite emit_ck_window.
    replace (done ++ (x :: todo) ++ rest)
      with ((done ++ [x]) ++ todo ++ rest)
      by (rewrite <- app_assoc; reflexivity).
    replace (Z.of_nat (length done) + 1)
      with (Z.of_nat (length (done ++ [x])))
      by (rewrite length_app; simpl; lia).
    rewrite (IH (pre ++ [to_u8 x]) mid post (done ++ [x]) rest) by assumption.
    cbn [map fold_left].
    rewrite <- !app_assoc. reflexivity.
Qed.

Lemma frame_window (w : list Z) (n : nat) :
  length w = (6 + n + 2)%nat ->
  exists h0 h1 h2 h3 h4 h5 mid t0 t1,
    w = h0 :: h1 :: h2 :: h3 :: h4 :: h5 :: mid ++ [t0; t1] /\
    length mid = n.
Proof.
  destruct w as [|h0 [|h1 [|h2 [|h3 [|h4 [|h5 r]]]]]]; simpl; try lia.
  intros Hlen.
  assert (Hr : length r = (n + 2)%nat) by lia.
  pose proof (firstn_skipn n r) as Hsplit.
  assert (Htail : length (skipn n r) = 2%nat) by (rewrite length_skipn; lia).
  destruct (skipn n r) as [|t0 [|t1 [|]]]; simpl in Htail; try lia.
  exists h0, h1, h2, h3, h4, h5, (firstn n r), t0, t1.
  split; [now rewrite Hsplit | rewrite length_firstn; lia].
Qed.

(** The encoder on a send buffer with room for the frame: the frame
    replaces the first [len + 8] bytes of the buffer and is what the
    transport receives. *)
Lemma ubx_encode_send_frame (ubx : list Z) (class id : Z) (msg : list Z)
    (len : Z) :
  is_byte class -> is_byte id ->
  0 <= len <= Z.of_nat (length msg) ->
  Forall is_byte (firstn (Z.to_nat len) msg) ->
  len + 8 <= Z.of_nat (length ubx) ->
  let frame := ubx_frame class id (firstn (Z.to_nat len) msg) in
  ubx_encode_send ubx class id msg len
  = Some (frame ++ skipn (Z.to_nat (len + 8)) ubx, frame).
Proof.
  intros Hc Hi Hlen Hbytes Hroom frame. subst frame.
  pose proof (firstn_skipn (Z.to_nat (len + 8)) ubx) as Hubx.
  assert (Hw : length (firstn (Z.to_nat (len + 8)) ubx)
               = (6 + Z.to_nat len + 2)%nat)
    by (rewrite length_firstn; lia).
  remember (skipn (Z.to_nat (len + 8)) ubx) as post eqn:Epost.
  destruct (frame_window _ _ Hw) as
    (h0 & h1 & h2 & h3 & h4 & h5 & mid & t0 & t1 & Ew & Hmid).
  rewrite Ew in Hubx. clear Epost Ew Hw. subst ubx.
  pose proof (firstn_skipn (Z.to_nat len) msg) as Hmsg.
  assert (Htodo : length (firstn (Z.to_nat len) msg) = Z.to_nat len)
    by (rewrite length_firstn; lia).
  remember (firstn (Z.to_nat len) msg) as todo eqn:Etodo.
  remember (skipn (Z.to_nat len) msg) as rest eqn:Erest.
  clear Etodo Erest. subst msg.
  unfold ubx_encode_send.
  change (Cursor ((h0 :: h1 :: h2 :: h3 :: h4 :: h5 :: mid ++ [t0; t1])
                  ++ post) 0)
    with (Cursor ([] ++ h0 :: h1 :: h2 :: h3 :: h4 :: h5
                     :: (mid ++ [t0; t1]) ++ post)
                 (Z.of_nat (length (@nil Z)))).
  unfold bind.
  rewrite emit_step, emit_step.
  rewrite !emit_ck_window.
  replace (Z.to_nat len) with (length todo) by lia.
  rewrite <- (app_assoc mid [t0; t1] post).
  change (todo ++ rest) with ([] ++ todo ++ rest).
  change 0 with (Z.of_nat (length (@nil Z))) at 1.
  rewrite (encode_payload_window todo _ mid _ [] rest) by lia.
  change (([t0; t1]) ++ post) with (t0 :: t1 :: post).
  rewrite emit_step. rewrite emit_step.
  cbn [buf ind]. unfold ublox_send. rewrite Nat2Z.id.
  rewrite firstn_app, firstn_all, Nat.sub_diag, firstn_O, app_nil_r.
  assert (Hlen' : Z.of_nat (length todo) = len) by lia.
  assert (Hlo : is_byte (Z.land len 255)).
  { change 255 with (Z.ones 8). rewrite Z.land_ones by lia. apply mod_byte. }
  assert (Hhi : is_byte (Z.land (Z.shiftr len 8) 255)).
  { change 255 with (Z.ones 8). rewrite Z.land_ones by lia. apply mod_byte. }
  rewrite (map_to_u8_bytes todo) by assumption.
  rewrite !(to_u8_id class), !(to_u8_id id), !(to_u8_id (Z.land len 255)),
    !(to_u8_id (Z.land (Z.shiftr len 8) 255)) by assumption.
  change (to_u8 181) with 181. change (to_u8 98) with 98.
  assert (Hck : fold_left ck_step todo
                  (ck_step (ck_step (ck_step (ck_step (0, 0) class) id)
                                    (Z.land len 255))
                           (Z.land (Z.shiftr len 8) 255))
                = ubx_checksum (ubx_body class id todo)).
  { unfold ubx_checksum, ubx_body. rewrite Hlen'. reflexivity. }
  rewrite Hck.
  destruct (ubx_checksum_bytes (ubx_body class id todo)) as [Ha Hb].
  rewrite (to_u8_id _ Ha), (to_u8_id _ Hb).
  assert (Hframe : (((((((([] ++ [181]) ++ [98]) ++ [class]) ++ [id])
                        ++ [Z.land len 255])
                       ++ [Z.land (Z.shiftr len 8) 255]) ++ todo)
                     ++ [fst (ubx_checksum (ubx_body class id todo))])
                   ++ [snd (ubx_checksum (ubx_body class id todo))]
                   = ubx_frame class id todo).
  { unfold ubx_frame. cbv zeta.
    set (ck := ubx_checksum (ubx_body class id todo)).
    unfold ubx_body. rewrite Hlen'.
    rewrite <- !app_assoc. reflexivity. }
  rewrite Hframe. reflexivity.
Qed.

Lemma Forall_byte_repeat (b : Z) (n : nat) :
  is_byte b -> Forall is_byte (repeat b n).
Proof.
  intros Hb. apply Forall_forall. intros x Hx.
  apply repeat_spec in Hx. now subst.
Qed.

Lemma none_not_some {A} (x : A) : None = Some x -> False.
Proof. discriminate. Qed.

(** ** C1 *)

(** C1, as amended.  For a class byte, an id byte and a payload of at most
    1992 bytes (the frame then fits the 2000-byte static send buffer), the
    encoder hands the transport exactly 0xB5, 0x62, class, id, len & 0xFF,
    (len >> 8) & 0xFF, the payload, ck_a, ck_b, where (ck_a, ck_b) is the
    running pair started at (0, 0) and accumulated modulo 256 over class,
    id, both length bytes and the payload. *)
Theorem ubx_encode_send_emits_frame (ubx : list Z) (class id : Z)
    (payload : list Z) :
  Z.of_nat (length ubx) = UBX_BUFFER_SIZE ->
  is_byte class -> is_byte id -> Forall is_byte payload ->
  Z.of_nat (length payload) <= 1992 ->
  let len := Z.of_nat (length payload) in
  let body :=
    class :: id :: Z.land len 0xFF :: Z.land (Z.shiftr len 8) 0xFF
          :: payload in
  let ck := fold_left ck_step body (0, 0) in
  let frame := 0xB5 :: 0x62 :: body ++ [fst ck; snd ck] in
  ubx_encode_send ubx class id payload len
  = Some (frame ++ skipn (Z.to_nat (len + 8)) ubx, frame).
Proof.
  intros Hubx Hc Hi Hp Hlen len body ck frame.
  pose proof (ubx_encode_send_frame ubx class id payload len Hc Hi) as E.
  cbv zeta in E. subst len.
  rewrite Nat2Z.id, firstn_all in E.
  apply E; [lia | assumption | unfold UBX_BUFFER_SIZE in Hubx; lia].
Qed.

(** The end-to-end example: class 0x06, id 0x01 and the eight payload
    bytes 01 06 01 01 01 01 01 01 give the 16-byte frame
    B5 62 06 01 08 00 01 06 01 01 01 01 01 01 1C EA. *)
Lemma ubx_encode_send_emits_frame_witness :
  ubx_encode_send send_buffer_init 0x06 0x01 [1; 6; 1; 1; 1; 1; 1; 1] 8
  = Some ([0xB5; 0x62; 0x06; 0x01; 0x08; 0x00;
           0x01; 0x06; 0x01; 0x01; 0x01; 0x01; 0x01; 0x01; 0x1C; 0xEA]
            ++ skipn 16 send_buffer_init,
          [0xB5; 0x62; 0x06; 0x01; 0x08; 0x00;
           0x01; 0x06; 0x01; 0x01; 0x01; 0x01; 0x01; 0x01; 0x1C; 0xEA]).
Proof.
  apply (ubx_encode_send_emits_frame send_buffer_init 6 1
           [1; 6; 1; 1; 1; 1; 1; 1]).
  - reflexivity.
  - unfold is_byte; lia.
  - unfold is_byte; lia.
  - repeat constructor; unfold is_byte; lia.
  - simpl; lia.
Defined.

(** C1 as stated fails: a payload of 1993 bytes is within the 16-bit
    length range, but the frame's last checksum byte would be stored at
    index 2000 of the 2000-byte send buffer. *)
Lemma ubx_encode_send_overflows :
  ~ (forall (class id : Z) (payload : list Z),
        is_byte class -> is_byte id -> Forall is_byte payload ->
        Z.of_nat (length payload) <= 65535 ->
        exists ubx',
          ubx_encode_send send_buffer_init class id payload
                          (Z.of_nat (length payload))
          = Some (ubx', ubx_frame class id payload)).
Proof.
  intros Hall.
  destruct (Hall 6 1 (repeat 0 1993)) as [ubx' E].
  - unfold is_byte; lia.
  - unfold is_byte; lia.
  - apply Forall_byte_repeat; unfold is_byte; lia.
  - rewrite repeat_length; lia.
  - rewrite repeat_length in E.
    assert (Hnone : ubx_encode_send send_buffer_init 6 1 (repeat 0 1993)
                                    (Z.of_nat 1993) = None)
      by (vm_compute; reflexivity).
    rewrite Hnone in E. exact (none_not_some _ E).
Qed.

(* ------------------------------------------------------------------ *)
(** ** Stream demultiplexer: single steps *)

Ltac fields :=
  cbn [line ubx line_pos ubx_pos ubx_class ubx_id ubx_ck_a ubx_ck_b ubx_len
       set_line set_ubx_pos set_ubx set_ubx_class set_ubx_id set_ubx_ck
       set_ubx_len ck_advance] in *.

Ltac expose :=
  unfold ck_advance, set_line, set_ubx_pos, set_ubx, set_ubx_class,
    set_ubx_id, set_ubx_ck, set_ubx_len in *; fields.

Ltac no_test t :=
  lazymatch t with
  | context [Z.eqb _ _] => fail
  | context [Z.ltb _ _] => fail
  | _ => idtac
  end.

Ltac decide_tests :=
  repeat (fields;
          match goal with
          | |- context [Z.eqb ?a ?b] =>
              no_test a; no_test b;
              destruct (Z.eqb_spec a b); try lia; try congruence
          | |- context [Z.ltb ?a ?b] =>
              no_test a; no_test b;
              destruct (Z.ltb_spec a b); try lia
          end); fields.

Ltac step_ubx st :=
  destruct st; fields; subst; unfold proc_byte, ubx_stage; fields;
  decide_tests; cbn [negb].

Lemma nmea_tail (r : option (decoder_state * list event)) :
  match r with
  | Some (st3, evs') => Some (st3, [] ++ evs')
  | None => None
  end = r.
Proof. destruct r as [[st3 evs']|]; reflexivity. Qed.

(** With a partial line pending the "Ubx" block is skipped. *)
Lemma proc_byte_line_pending (st : decoder_state) (ch : Z) :
  line_pos st <> 0 -> proc_byte st ch = nmea_stage st ch.
Proof.
  intros Hlp. unfold proc_byte.
  destruct (Z.eqb_spec (line_pos st) 0); [contradiction|].
  apply nmea_tail.
Qed.

Lemma proc_byte_sync1 (st : decoder_state) :
  line_pos st = 0 -> ubx_pos st = 0 ->
  proc_byte st 0xB5 = Some (set_ubx_pos 1 st, []).
Proof. intros Hlp Hup. step_ubx st. reflexivity. Qed.

Lemma proc_byte_no_sync1 (st : decoder_state) (ch : Z) :
  line_pos st = 0 -> ubx_pos st = 0 -> ch <> 0xB5 ->
  proc_byte st ch = nmea_stage (set_ubx_pos 0 st) ch.
Proof. intros Hlp Hup Hch. step_ubx st. apply nmea_tail. Qed.

Lemma proc_byte_sync2 (st : decoder_state) :
  line_pos st = 0 -> ubx_pos st = 1 ->
  proc_byte st 0x62 = Some (set_ubx_ck 0 0 (set_ubx_pos 2 st), []).
Proof. intros Hlp Hup. step_ubx st. reflexivity. Qed.

Lemma proc_byte_no_sync2 (st : decoder_state) (ch : Z) :
  line_pos st = 0 -> ubx_pos st = 1 -> ch <> 0x62 ->
  proc_byte st ch = nmea_stage (set_ubx_pos 0 st) ch.
Proof. intros Hlp Hup Hch. step_ubx st. apply nmea_tail. Qed.

Lemma proc_byte_payload (st : decoder_state) (ch : Z) :
  line_pos st = 0 -> 6 <= ubx_pos st ->
  ubx_pos st - 6 < ubx_len st ->
  ubx_pos st - 6 < Z.of_nat (length (ubx st)) ->
  proc_byte st ch
  = Some (ck_advance ch
            (set_ubx (upd (Z.to_nat (ubx_pos st - 6)) ch (ubx st)) st), []).
Proof.
  intros Hlp Hpos Hlen Hroom. step_ubx st.
  rewrite store_some by lia. fields. decide_tests. reflexivity.
Qed.

Lemma proc_byte_payload_overflow (st : decoder_state) (ch : Z) :
  line_pos st = 0 -> 6 <= ubx_pos st ->
  ubx_pos st - 6 < ubx_len st ->
  Z.of_nat (length (ubx st)) <= ubx_pos st - 6 ->
  proc_byte st ch = None.
Proof.
  intros Hlp Hpos Hlen Hroom. step_ubx st.
  now rewrite store_none by lia.
Qed.

Lemma proc_byte_ck_a_match (st : decoder_state) (ch : Z) :
  line_pos st = 0 -> 6 <= ubx_pos st -> ubx_pos st - 6 = ubx_len st ->
  ch = ubx_ck_a st ->
  proc_byte st ch = Some (set_ubx_pos (ubx_pos st + 1) st, []).
Proof. intros Hlp Hpos Hlen Hch. step_ubx st. reflexivity. Qed.

Lemma proc_byte_ck_a_mismatch (st : decoder_state) (ch : Z) :
  line_pos st = 0 -> 6 <= ubx_pos st -> ubx_pos st - 6 = ubx_len st ->
  ch <> ubx_ck_a st ->
  proc_byte st ch = nmea_stage (set_ubx_pos 0 st) ch.
Proof. intros Hlp Hpos Hlen Hch. step_ubx st. apply nmea_tail. Qed.

Lemma proc_byte_ck_b_match (st : decoder_state) (ch : Z) :
  line_pos st = 0 -> 6 <= ubx_pos st -> ubx_pos st - 6 = ubx_len st + 1 ->
  ch = ubx_ck_b st ->
  proc_byte st ch
  = Some (set_ubx_pos 0 st,
          [UbxDecode (ubx_class st) (ubx_id st) (ubx st) (ubx_len st)]).
Proof. intros Hlp Hpos Hlen Hch. step_ubx st. reflexivity. Qed.

Lemma proc_byte_ck_b_mismatch (st : decoder_state) (ch : Z) :
  line_pos st = 0 -> 6 <= ubx_pos st -> ubx_pos st - 6 = ubx_len st + 1 ->
  ch <> ubx_ck_b st ->
  proc_byte st ch = nmea_stage (set_ubx_pos 0 st) ch.
Proof. intros Hlp Hpos Hlen Hch. step_ubx st. apply nmea_tail. Qed.

(* ------------------------------------------------------------------ *)
(** ** The NMEA block *)

Lemma nth_error_upd_same {A} (n : nat) (v : A) (l : list A) :
  (n < length l)%nat -> nth_error (upd n v l) n = Some v.
Proof.
  revert n. induction l as [|x t IH]; intros [|n] Hn; simpl in *;
    try lia; [reflexivity | apply IH; lia].
Qed.

Lemma load_upd_same {A} (a : list A) (i : Z) (v : A) :
  0 <= i < Z.of_nat (length a) ->
  load (upd (Z.to_nat i) v a) i = Some v.
Proof.
  intros Hi. unfold load.
  rewrite in_bounds_true by (rewrite upd_length; lia).
  apply nth_error_upd_same. lia.
Qed.

Ltac step_nmea st :=
  destruct st; fields; unfold nmea_stage, LINE_BUFFER_SIZE in *; fields.

(** A byte other than line-feed, stored below the last index. *)
Lemma nmea_stage_append (st : decoder_state) (ch : Z) :
  Z.of_nat (length (line st)) = LINE_BUFFER_SIZE ->
  0 <= line_pos st < LINE_BUFFER_SIZE - 1 -> ch <> 10 ->
  nmea_stage st ch
  = Some (set_line (upd (Z.to_nat (line_pos st)) ch (line st))
                   (line_pos st + 1) st, []).
Proof.
  intros Hlen Hlp Hch. step_nmea st.
  rewrite store_some by lia. decide_tests.
  replace (line_pos0 + 1 - 1) with line_pos0 by lia.
  rewrite load_upd_same by lia. decide_tests; try reflexivity.
Qed.

(** A line-feed stored below the last index. *)
Lemma nmea_stage_line_feed (st : decoder_state) :
  Z.of_nat (length (line st)) = LINE_BUFFER_SIZE ->
  0 <= line_pos st < LINE_BUFFER_SIZE - 1 ->
  let text := upd (Z.to_nat (line_pos st + 1)) 0
                  (upd (Z.to_nat (line_pos st)) 10 (line st)) in
  nmea_stage st 10
  = Some (set_line text 0 st, [NmeaDecodeString (c_string text)]).
Proof.
  intros Hlen Hlp text. subst text. step_nmea st.
  rewrite store_some by lia. decide_tests.
  replace (line_pos0 + 1 - 1) with line_pos0 by lia.
  rewrite load_upd_same by lia. decide_tests.
  rewrite store_some by (rewrite upd_length; lia). reflexivity.
Qed.

(** Any byte stored at the last index: the position wraps to 0 and the
    line-feed test is not reached. *)
Lemma nmea_stage_wrap (st : decoder_state) (ch : Z) :
  Z.of_nat (length (line st)) = LINE_BUFFER_SIZE ->
  line_pos st = LINE_BUFFER_SIZE - 1 ->
  nmea_stage st ch
  = Some (set_line (upd (Z.to_nat (line_pos st)) ch (line st)) 0 st, []).
Proof.
  intros Hlen Hlp. step_nmea st.
  rewrite store_some by lia. subst line_pos0. reflexivity.
Qed.

(** ** C8 *)

(** C8, as amended.  For every byte offered to the NMEA path (buffer of
    256 bytes, write position inside it): the byte is stored at the write
    position; a byte stored at the last index (255) wraps the position to
    0 without error and hands nothing over, whatever the byte is; a byte
    other than line-feed stored below the last index advances the position
    by one and hands nothing over; a line-feed stored below the last index
    is followed by a terminating 0, the text is handed to the NMEA
    collaborator exactly once and the position returns to 0. *)
Theorem nmea_stage_spec (st : decoder_state) (ch : Z) :
  Z.of_nat (length (line st)) = LINE_BUFFER_SIZE ->
  0 <= line_pos st < LINE_BUFFER_SIZE ->
  let stored := upd (Z.to_nat (line_pos st)) ch (line st) in
  let text := upd (Z.to_nat (line_pos st + 1)) 0 stored in
  nmea_stage st ch =
    if line_pos st =? LINE_BUFFER_SIZE - 1 then
      Some (set_line stored 0 st, [])
    else if ch =? 10 then
      Some (set_line text 0 st, [NmeaDecodeString (c_string text)])
    else
      Some (set_line stored (line_pos st + 1) st, []).
Proof.
  intros Hlen Hlp stored text. subst stored text.
  destruct (Z.eqb_spec (line_pos st) (LINE_BUFFER_SIZE - 1)) as [Hlast|Hlow].
  - now apply nmea_stage_wrap.
  - destruct (Z.eqb_spec ch 10) as [->|Hch].
    + apply nmea_stage_line_feed; [assumption | lia].
    + apply nmea_stage_append; [assumption | lia | assumption].
Qed.

(** A line-feed appended at position 2 of a line holding "GP": the text
    "GP\n" is handed over and the position returns to 0. *)
Lemma nmea_stage_spec_witness :
  nmea_stage (DecoderState (71 :: 80 :: repeat 0 254) [] 2 0 0 0 0 0 0) 10
  = Some (DecoderState (71 :: 80 :: 10 :: repeat 0 253) [] 0 0 0 0 0 0 0,
          [NmeaDecodeString [71; 80; 10]]).
Proof.
  apply (nmea_stage_spec
           (DecoderState (71 :: 80 :: repeat 0 254) [] 2 0 0 0 0 0 0) 10).
  - reflexivity.
  - simpl; unfold LINE_BUFFER_SIZE; lia.
Defined.

(* ------------------------------------------------------------------ *)
(** ** Stream demultiplexer: runs *)

Lemma proc_bytes_cons (st st1 st2 : decoder_state) (ch : Z) (l : list Z)
    (e1 e2 : list event) :
  proc_byte st ch = Some (st1, e1) ->
  proc_bytes st1 l = Some (st2, e2) ->
  proc_bytes st (ch :: l) = Some (st2, e1 ++ e2).
Proof. intros E1 E2. simpl. now rewrite E1, E2. Qed.

Lemma proc_bytes_app (st st1 st2 : decoder_state) (l1 l2 : list Z)
    (e1 e2 : list event) :
  proc_bytes st l1 = Some (st1, e1) ->
  proc_bytes st1 l2 = Some (st2, e2) ->
  proc_bytes st (l1 ++ l2) = Some (st2, e1 ++ e2).
Proof.
  revert st e1. induction l1 as [|ch l1 IH]; intros st e1 E1 E2; simpl in *.
  - injection E1 as <- <-. assumption.
  - destruct (proc_byte st ch) as [[sa ea]|]; [|discriminate].
    destruct (proc_bytes sa l1) as [[sb eb]|] eqn:Eb; [|discriminate].
    injection E1 as <- <-.
    rewrite (IH sa eb Eb E2). now rewrite app_assoc.
Qed.

Lemma proc_bytes_none (st st1 : decoder_state) (l1 l2 : list Z)
    (e1 : list event) :
  proc_bytes st l1 = Some (st1, e1) ->
  proc_bytes st1 l2 = None ->
  proc_bytes st (l1 ++ l2) = None.
Proof.
  revert st e1. induction l1 as [|ch l1 IH]; intros st e1 E1 E2; simpl in *.
  - injection E1 as <- <-. assumption.
  - destruct (proc_byte st ch) as [[sa ea]|]; [|discriminate].
    destruct (proc_bytes sa l1) as [[sb eb]|] eqn:Eb; [|discriminate].
    injection E1 as <- <-.
    now rewrite (IH sa eb Eb E2).
Qed.

(** The six header bytes taken from the sync-1 position with no line
    pending. *)
Lemma proc_bytes_header (st : decoder_state) (c i lo hi : Z) :
  line_pos st = 0 -> ubx_pos st = 0 ->
  let ck := fold_left ck_step [c; i; lo; hi] (0, 0) in
  proc_bytes st [0xB5; 0x62; c; i; lo; hi]
  = Some (DecoderState (line st) (ubx st) 0 6 c i (fst ck) (snd ck)
                       (Z.lor lo (Z.shiftl hi 8)), []).
Proof.
  intros Hlp Hup ck. subst ck.
  destruct st; fields; subst. reflexivity.
Qed.

(** Payload bytes taken while the declared length is not reached and the
    accumulation buffer has room. *)
Lemma proc_bytes_payload (bs : list Z) :
  forall (l pre mid post : list Z) (c i a b len : Z),
    length mid = length bs ->
    Z.of_nat (length pre) + Z.of_nat (length bs) <= len ->
    let ck := fold_left ck_step bs (a, b) in
    proc_bytes (DecoderState l (pre ++ mid ++ post) 0
                  (6 + Z.of_nat (length pre)) c i a b len) bs
    = Some (DecoderState l ((pre ++ bs) ++ post) 0
              (6 + Z.of_nat (length (pre ++ bs))) c i (fst ck) (snd ck) len,
            []).
Proof.
  induction bs as [|x bs IH]; intros l pre mid post c i a b len Hmid Hlen ck;
    subst ck.
  - destruct mid; [|discriminate]. simpl. now rewrite !app_nil_r.
  - destruct mid as [|m mid]; [discriminate|]. injection Hmid as Hmid.
    simpl length in Hlen.
    eapply (proc_bytes_cons _
              (DecoderState l ((pre ++ [x]) ++ mid ++ post) 0
                 (6 + Z.of_nat (length (pre ++ [x]))) c i
                 (fst (ck_step (a, b) x)) (snd (ck_step (a, b) x)) len)
              _ _ _ []).
    + rewrite proc_byte_payload;
        [|fields; rewrite ?length_app; simpl length; lia ..].
      expose.
      replace (Z.to_nat (6 + Z.of_nat (length pre) - 6))
        with (length pre + 0)%nat by lia.
      rewrite (upd_mid pre (m :: mid) post 0 x) by (simpl; lia).
      cbn [upd]. do 2 f_equal.
      f_equal; try (rewrite <- app_assoc; reflexivity).
      rewrite length_app; simpl length; lia.
    + rewrite (IH l (pre ++ [x]) mid post) by
        (try assumption; rewrite length_app; simpl length; lia).
      rewrite <- !app_assoc. reflexivity.
Qed.

(* ------------------------------------------------------------------ *)
(** ** Invariants of the demultiplexer *)

(** The three ways through the NMEA block, by write position and byte. *)
Lemma nmea_stage_cases (st : decoder_state) (ch : Z) :
  Z.of_nat (length (line st)) = LINE_BUFFER_SIZE ->
  0 <= line_pos st < LINE_BUFFER_SIZE ->
  let stored := upd (Z.to_nat (line_pos st)) ch (line st) in
  let text := upd (Z.to_nat (line_pos st + 1)) 0 stored in
  nmea_stage st ch =
    if line_pos st =? LINE_BUFFER_SIZE - 1 then
      Some (set_line stored 0 st, [])
    else if ch =? 10 then
      Some (set_line text 0 st, [NmeaDecodeString (c_string text)])
    else
      Some (set_line stored (line_pos st + 1) st, []).
Proof.
  intros Hlen Hlp stored text. subst stored text.
  destruct (Z.eqb_spec (line_pos st) (LINE_BUFFER_SIZE - 1)) as [Hlast|Hlow].
  - now apply nmea_stage_wrap.
  - destruct (Z.eqb_spec ch 10) as [->|Hch].
    + apply nmea_stage_line_feed; [assumption | lia].
    + apply nmea_stage_append; [assumption | lia | assumption].
Qed.

(** What the NMEA block guarantees on a well-formed state: it succeeds,
    keeps the state well formed, leaves every UBX field alone, stores the
    byte at the old line position and dispatches no frame. *)
Lemma nmea_stage_total (st : decoder_state) (ch : Z) :
  wf_state st ->
  exists st' evs,
    nmea_stage st ch = Some (st', evs) /\
    wf_state st' /\
    ubx st' = ubx st /\ ubx_pos st' = ubx_pos st /\
    ubx_len st' = ubx_len st /\ ubx_ck_a st' = ubx_ck_a st /\
    ubx_ck_b st' = ubx_ck_b st /\
    load (line st') (line_pos st) = Some ch /\
    dispatched evs = [] /\
    (ch <> 10 -> evs = []) /\
    (ch <> 10 -> line_pos st < LINE_BUFFER_SIZE - 1 ->
     line_pos st' = line_pos st + 1).
Proof.
  intros (Hline & Hubx & Hlp).
  pose proof (nmea_stage_cases st ch Hline Hlp) as E. cbv zeta in E.
  rewrite E. clear E.
  assert (Hsame : load (upd (Z.to_nat (line_pos st)) ch (line st))
                       (line_pos st) = Some ch)
    by (apply load_upd_same; lia).
  unfold wf_state, LINE_BUFFER_SIZE in *.
  destruct (Z.eqb_spec (line_pos st) (256 - 1)).
  - eexists; eexists; split; [reflexivity|].
    destruct st; fields. rewrite !upd_length.
    repeat split; try assumption; try reflexivity; lia.
  - destruct (Z.eqb_spec ch 10).
    + eexists; eexists; split; [reflexivity|].
      destruct st; fields. rewrite !upd_length.
      repeat split; try assumption; try reflexivity; try lia.
      unfold load. rewrite in_bounds_true by (rewrite !upd_length; lia).
      unfold load in Hsame.
      rewrite in_bounds_true in Hsame by (rewrite !upd_length; lia).
      clear - Hsame Hlp n.
      assert (Hne : Z.to_nat (line_pos0 + 1) <> Z.to_nat line_pos0) by lia.
      revert Hsame Hne.
      generalize (upd (Z.to_nat line_pos0) ch line0).
      generalize (Z.to_nat (line_pos0 + 1)), (Z.to_nat line_pos0).
      intros a b l. revert a b.
      induction l as [|x l IHl]; intros [|a] [|b]; simpl; intros; try lia;
        try congruence; eauto.
    + eexists; eexists; split; [reflexivity|].
      destruct st; fields. rewrite !upd_length.
      repeat split; try assumption; try reflexivity; lia.
Qed.

(** The "Ubx" block never touches the line buffer and keeps the size of
    the accumulation buffer. *)
Lemma ubx_stage_frame (st st1 : decoder_state) (ch : Z) (evs : list event) :
  ubx_stage st ch = Some (st1, evs) ->
  line st1 = line st /\ line_pos st1 = line_pos st /\
  length (ubx st1) = length (ubx st).
Proof.
  unfold ubx_stage. intros E.
  destruct st. fields.
  repeat match type of E with
         | context [Z.eqb ?a ?b] => destruct (Z.eqb a b)
         | context [Z.ltb ?a ?b] => destruct (Z.ltb a b)
         end;
    try (injection E as <- <-; repeat split; reflexivity).
  all: destruct (store ubx0 (ubx_pos0 - 6) ch) as [u|] eqn:Es;
    [|discriminate].
  all: injection E as <- <-; apply store_length in Es.
  all: repeat split; assumption.
Qed.

Lemma demux_inv_reset : demux_inv reset_decoder_state.
Proof.
  unfold demux_inv, wf_state, reset_decoder_state; fields.
  rewrite !repeat_length. unfold LINE_BUFFER_SIZE, UBX_BUFFER_SIZE.
  repeat split; lia.
Qed.

Lemma proc_byte_inv (st st' : decoder_state) (ch : Z) (evs : list event) :
  demux_inv st -> proc_byte st ch = Some (st', evs) -> demux_inv st'.
Proof.
  intros [Hwf Hidle] E. unfold proc_byte in E.
  destruct (Z.eqb_spec (line_pos st) 0) as [Hz|Hnz].
  - destruct (ubx_stage st ch) as [[st1 e1]|] eqn:Eu; [|discriminate].
    destruct (ubx_stage_frame _ _ _ _ Eu) as (Hl & Hp & Hu).
    assert (Hwf1 : wf_state st1).
    { destruct Hwf as (? & ? & ?). unfold wf_state.
      rewrite Hl, Hp, Hu. auto. }
    destruct (negb (ubx_pos st =? ubx_pos st1)).
    + injection E as <- <-. split; [assumption|]. intros Hc. congruence.
    + assert (Hwf0 : wf_state (set_ubx_pos 0 st1)) by exact Hwf1.
      destruct (nmea_stage_total (set_ubx_pos 0 st1) ch Hwf0)
        as (s & e & En & Hwfs & _ & Hpos & _).
      rewrite En in E. injection E as <- <-.
      split; [assumption|]. intros _. exact Hpos.
  - destruct (nmea_stage_total st ch Hwf)
      as (s & e & En & Hwfs & _ & Hpos & _).
    rewrite En in E. injection E as <- <-.
    split; [assumption|]. intros _. rewrite Hpos. auto.
Qed.

Lemma proc_bytes_inv (bytes : list Z) :
  forall (st st' : decoder_state) (evs : list event),
    demux_inv st -> proc_bytes st bytes = Some (st', evs) -> demux_inv st'.
Proof.
  induction bytes as [|ch rest IH]; intros st st' evs Hinv E; simpl in E.
  - now injection E as <- <-.
  - destruct (proc_byte st ch) as [[s1 e1]|] eqn:E1; [|discriminate].
    destruct (proc_bytes s1 rest) as [[s2 e2]|] eqn:E2; [|discriminate].
    injection E as <- <-.
    eapply IH; [eapply proc_byte_inv|]; eassumption.
Qed.

Lemma reachable_inv (st : decoder_state) : reachable st -> demux_inv st.
Proof.
  intros (bytes & evs & _ & E).
  eapply proc_bytes_inv; [apply demux_inv_reset | exact E].
Qed.

Lemma set_ubx_pos_same (st : decoder_state) :
  set_ubx_pos (ubx_pos st) st = st.
Proof. now destruct st. Qed.

Lemma nmea_stage_keeps_ubx_pos (st st' : decoder_state) (ch : Z)
    (evs : list event) :
  nmea_stage st ch = Some (st', evs) ->
  ubx_pos st' = ubx_pos st /\ dispatched evs = [].
Proof.
  unfold nmea_stage. intros E.
  destruct (store (line st) (line_pos st) ch) as [l1|]; [|discriminate].
  destruct (0 <? _).
  - destruct (load l1 _) as [last|]; [|discriminate].
    destruct (last =? 10).
    + destruct (store l1 _ 0) as [l2|]; [|discriminate].
      injection E as <- <-. now split.
    + injection E as <- <-. now split.
  - injection E as <- <-. now split.
Qed.

Lemma reachable_after (bytes : list Z) (st : decoder_state)
    (evs : list event) :
  Forall is_byte bytes ->
  proc_bytes reset_decoder_state bytes = Some (st, evs) -> reachable st.
Proof. intros Hb E. exists bytes, evs. now split. Qed.

(** ** C3 *)

(** C3, as amended.  With the UBX parser at WaitSync1 ([ubx_pos = 0]): when
    no partial NMEA line is pending ([line_pos = 0]) the byte 0xB5 moves
    the parser to WaitSync2 and is not stored in the line buffer, and any
    other byte goes to the NMEA block; when a partial line is pending
    ([line_pos <> 0]) every byte, 0xB5 included, goes to the NMEA block.
    Whenever the byte goes to the NMEA block the parser stays at
    WaitSync1 and no frame is dispatched. *)
Theorem wait_sync1_step (st : decoder_state) (ch : Z) :
  ubx_pos st = 0 ->
  proc_byte st ch
  = (if (line_pos st =? 0) && (ch =? 0xB5)
     then Some (set_ubx_pos 1 st, [])
     else nmea_stage st ch) /\
  (forall st' evs,
      nmea_stage st ch = Some (st', evs) ->
      ubx_pos st' = 0 /\ dispatched evs = []).
Proof.
  intros Hup. split.
  - destruct (Z.eqb_spec (line_pos st) 0) as [Hlp|Hlp]; cbn [andb].
    + destruct (Z.eqb_spec ch 0xB5) as [->|Hch].
      * now apply proc_byte_sync1.
      * rewrite proc_byte_no_sync1 by assumption.
        now rewrite <- Hup, set_ubx_pos_same.
    + now apply proc_byte_line_pending.
  - intros st' evs E.
    destruct (nmea_stage_keeps_ubx_pos _ _ _ _ E) as [Hp Hd].
    split; [congruence | assumption].
Qed.

(** The state after the single byte '$': a line is pending, and 0xB5 is
    stored as its second character. *)
Lemma wait_sync1_step_witness :
  proc_byte (DecoderState (36 :: repeat 0 255) [] 1 0 0 0 0 0 0) 0xB5
  = Some (DecoderState (36 :: 0xB5 :: repeat 0 254) [] 2 0 0 0 0 0 0, []).
Proof.
  apply (proj1 (wait_sync1_step
                  (DecoderState (36 :: repeat 0 255) [] 1 0 0 0 0 0 0) 0xB5
                  eq_refl)).
Defined.

(** C3 as stated fails: after the byte '$' the parser is at WaitSync1 with
    one character of a line accumulated, and 0xB5 does not advance it. *)
Lemma sync_byte_inside_line_not_claimed :
  ~ (forall st : decoder_state,
        reachable st -> ubx_pos st = 0 ->
        proc_byte st 0xB5 = Some (set_ubx_pos 1 st, [])).
Proof.
  intros Hall.
  destruct (proc_bytes reset_decoder_state [36]) as [[st evs]|] eqn:E;
    [|vm_compute in E; discriminate].
  assert (Hr : reachable st).
  { apply (reachable_after [36] st evs); [|exact E].
    repeat constructor; unfold is_byte; lia. }
  assert (Hst : ubx_pos st = 0 /\ line_pos st = 1).
  { vm_compute in E. injection E as <- _. now split. }
  destruct Hst as [Hup Hlp].
  specialize (Hall st Hr Hup).
  rewrite proc_byte_line_pending in Hall by lia.
  apply nmea_stage_keeps_ubx_pos in Hall.
  destruct Hall as [Hpos _]. cbn in Hpos. lia.
Qed.

(** ** C4 *)

(** C4, as amended.  In a state the receive task can reach, with the
    parser at the CkA or the CkB position and a byte that differs from the
    accumulated checksum value: no line is pending, the frame is aborted
    (the parser returns to WaitSync1) and nothing is dispatched; the byte
    is not claimed by the UBX path but handed to the NMEA block in the
    same call, which stores it at index 0 of the line buffer. *)
Theorem checksum_mismatch_step (st : decoder_state) (ch : Z) :
  reachable st -> 6 <= ubx_pos st ->
  (ubx_pos st - 6 = ubx_len st /\ ch <> ubx_ck_a st) \/
  (ubx_pos st - 6 = ubx_len st + 1 /\ ch <> ubx_ck_b st) ->
  line_pos st = 0 /\
  proc_byte st ch = nmea_stage (set_ubx_pos 0 st) ch /\
  exists st' evs,
    proc_byte st ch = Some (st', evs) /\
    ubx_pos st' = 0 /\ dispatched evs = [] /\
    load (line st') 0 = Some ch.
Proof.
  intros Hr Hpos Hmis.
  destruct (reachable_inv st Hr) as [Hwf Hidle].
  assert (Hlp : line_pos st = 0).
  { destruct (Z.eq_dec (line_pos st) 0) as [|Hn]; [assumption|].
    specialize (Hidle Hn). lia. }
  assert (E : proc_byte st ch = nmea_stage (set_ubx_pos 0 st) ch).
  { destruct Hmis as [[Hl Hc]|[Hl Hc]].
    - now apply proc_byte_ck_a_mismatch.
    - now apply proc_byte_ck_b_mismatch. }
  split; [assumption|]. split; [assumption|].
  assert (Hwf0 : wf_state (set_ubx_pos 0 st)) by exact Hwf.
  destruct (nmea_stage_total (set_ubx_pos 0 st) ch Hwf0)
    as (s & e & En & _ & _ & Hp & _ & _ & _ & Hload & Hd & _).
  exists s, e. rewrite E.
  repeat split; try assumption.
  change (line_pos (set_ubx_pos 0 st)) with (line_pos st) in Hload.
  now rewrite Hlp in Hload.
Qed.

(** The header B5 62 01 02 00 00 leaves the parser at CkA expecting 3; the
    byte 0 is stored as the first character of a line. *)
Lemma checksum_mismatch_step_witness :
  let st := DecoderState (repeat 0 256) (repeat 0 2000) 0 6 1 2 3 10 0 in
  line_pos st = 0 /\
  proc_byte st 0 = nmea_stage (set_ubx_pos 0 st) 0 /\
  exists st' evs,
    proc_byte st 0 = Some (st', evs) /\
    ubx_pos st' = 0 /\ dispatched evs = [] /\
    load (line st') 0 = Some 0.
Proof.
  intros st. apply (checksum_mismatch_step st 0).
  - exists [0xB5; 0x62; 1; 2; 0; 0], []. split.
    + repeat constructor; unfold is_byte; lia.
    + vm_compute. reflexivity.
  - simpl. lia.
  - left. simpl. split; lia.
Defined.

(** C4 as stated fails: the mismatching byte is stored in the line buffer
    and the line position becomes 1. *)
Lemma checksum_mismatch_byte_not_discarded :
  ~ (forall (st st' : decoder_state) (ch : Z) (evs : list event),
        reachable st -> 6 <= ubx_pos st ->
        ubx_pos st - 6 = ubx_len st -> ch <> ubx_ck_a st ->
        proc_byte st ch = Some (st', evs) ->
        ubx_pos st' = 0 /\ line st' = line st /\ line_pos st' = line_pos st).
Proof.
  intros Hall.
  destruct (proc_bytes reset_decoder_state [0xB5; 0x62; 1; 2; 0; 0])
    as [[st evs]|] eqn:E; [|vm_compute in E; discriminate].
  assert (Hr : reachable st).
  { apply (reachable_after [0xB5; 0x62; 1; 2; 0; 0] st evs); [|exact E].
    repeat constructor; unfold is_byte; lia. }
  assert (Hst : ubx_pos st = 6 /\ ubx_len st = 0 /\ ubx_ck_a st = 3 /\
                line_pos st = 0 /\ line st = repeat 0 256).
  { vm_compute in E. injection E as <- _. repeat split. }
  destruct Hst as (Hpos & Hlen & Hck & Hlp & Hline).
  assert (Es : proc_byte st 7
               = Some (set_line (upd (Z.to_nat (line_pos st)) 7 (line st))
                                (line_pos st + 1) (set_ubx_pos 0 st), [])).
  { rewrite proc_byte_ck_a_mismatch by lia.
    apply (nmea_stage_append (set_ubx_pos 0 st) 7); fields.
    - rewrite Hline. reflexivity.
    - unfold LINE_BUFFER_SIZE. lia.
    - lia. }
  pose proof (fun H1 H2 H3 => Hall st _ 7 [] Hr H1 H2 H3 Es) as Hbad.
  destruct Hbad as (_ & _ & Hsame); try lia.
  cbn in Hsame. lia.
Qed.

(** ** C8, the case that fails *)

(** C8 as stated fails at the last index: after 255 characters the
    line-feed is stored at index 255, the position wraps to 0 and no line
    is handed to the NMEA collaborator. *)
Lemma line_feed_at_last_index_not_delivered :
  ~ (forall st : decoder_state,
        reachable st -> line_pos st <> 0 ->
        exists st' text,
          proc_byte st 10 = Some (st', [NmeaDecodeString text]) /\
          line_pos st' = 0).
Proof.
  intros Hall.
  destruct (proc_bytes reset_decoder_state (repeat 65 255))
    as [[st evs]|] eqn:E; [|vm_compute in E; discriminate].
  assert (Hr : reachable st).
  { apply (reachable_after (repeat 65 255) st evs); [|exact E].
    apply Forall_byte_repeat. unfold is_byte; lia. }
  assert (Hst : line_pos st = 255).
  { vm_compute in E. injection E as <- _. reflexivity. }
  destruct (reachable_inv st Hr) as [(Hline & _ & _) _].
  destruct (Hall st Hr) as (st' & text & Es & _); [lia|].
  rewrite proc_byte_line_pending in Es by lia.
  rewrite nmea_stage_wrap in Es by (unfold LINE_BUFFER_SIZE in *; lia).
  injection Es as _ Hevs. discriminate Hevs.
Qed.

(** ** C5 *)

(** A header declaring more payload than the accumulation buffer holds,
    followed by as many payload bytes as the buffer holds: every byte is
    accepted, and the next payload byte would be stored past the end. *)
Lemma payload_fills_buffer (c i lo hi : Z) (payload : list Z) (ch : Z) :
  Z.of_nat (length payload) = UBX_BUFFER_SIZE ->
  UBX_BUFFER_SIZE < Z.lor lo (Z.shiftl hi 8) ->
  exists st,
    proc_bytes reset_decoder_state ([0xB5; 0x62; c; i; lo; hi] ++ payload)
    = Some (st, []) /\
    ubx_pos st - 6 = UBX_BUFFER_SIZE /\
    ubx_len st = Z.lor lo (Z.shiftl hi 8) /\
    proc_byte st ch = None.
Proof.
  intros Hlen Hdecl. unfold UBX_BUFFER_SIZE in *.
  eexists. split; [|split; [|split]].
  - eapply (proc_bytes_app _ _ _ _ _ [] []).
    + apply proc_bytes_header; reflexivity.
    + cbn [line ubx reset_decoder_state].
      apply (proc_bytes_payload payload _ []
               (repeat 0 (Z.to_nat UBX_BUFFER_SIZE)) []).
      * rewrite repeat_length. unfold UBX_BUFFER_SIZE. lia.
      * simpl length. lia.
  - fields. simpl app. lia.
  - reflexivity.
  - apply proc_byte_payload_overflow; fields; simpl app;
      rewrite ?app_nil_r; lia.
Qed.

(** C5 is violated by the code.  The stream B5 62 01 02 D1 07 (declared
    length 0x07D1 = 2001) followed by 2000 payload bytes is accepted byte
    by byte; the parser then stands at payload index 2000 with 2001 bytes
    declared, so the next byte is written to [ubx[2000]], one past the
    2000-byte buffer. *)
Theorem payload_write_index_reaches_capacity :
  exists st,
    proc_bytes reset_decoder_state
               ([0xB5; 0x62; 1; 2; 0xD1; 0x07] ++ repeat 0 2000)
    = Some (st, []) /\
    ubx_pos st - 6 = UBX_BUFFER_SIZE /\
    ubx_len st = 2001 /\
    proc_byte st 0 = None /\
    proc_bytes reset_decoder_state
               ([0xB5; 0x62; 1; 2; 0xD1; 0x07] ++ repeat 0 2001) = None.
Proof.
  destruct (payload_fills_buffer 1 2 0xD1 0x07 (repeat 0 2000) 0)
    as (st & E & Hpos & Hlen & Hnone).
  - rewrite repeat_length. reflexivity.
  - unfold UBX_BUFFER_SIZE. simpl. lia.
  - exists st.
    split; [exact E|]. split; [exact Hpos|]. split; [exact Hlen|].
    split; [exact Hnone|].
    change (repeat 0 2001) with (repeat 0 (2000 + 1)).
    rewrite repeat_app, app_assoc.
    apply (proc_bytes_none _ _ _ _ _ E).
    simpl. now rewrite Hnone.
Qed.

(* ------------------------------------------------------------------ *)
(** ** Codec programs that stay inside the buffer *)

Lemma runs_ret {A} (a : A) : runs (ret a) 0.
Proof.
  split; [lia|]. intros c _ _. exists a, c. repeat split. lia.
Qed.

Lemma runs_bind {A B} (m : Codec A) (k : A -> Codec B) (a b : Z) :
  runs m a -> (forall x, runs (k x) b) -> runs (bind m k) (a + b).
Proof.
  intros [Ha Hm] Hk.
  assert (Hb : 0 <= b).
  { destruct (Hm (Cursor (repeat 0 (Z.to_nat a)) 0)) as (x & _ & _);
      [simpl; lia | simpl; rewrite repeat_length; lia |].
    apply (Hk x). }
  split; [lia|]. intros c Hi Hroom.
  destruct (Hm c) as (x & c1 & E1 & Hi1 & Hl1); [lia | lia |].
  destruct (Hk x) as [_ Hkx].
  destruct (Hkx c1) as (y & c2 & E2 & Hi2 & Hl2); [lia | lia |].
  exists y, c2. unfold bind. rewrite E1, E2.
  repeat split; [lia | congruence].
Qed.

Lemma runs_eq {A} (m : Codec A) (n n' : Z) : runs m n -> n = n' -> runs m n'.
Proof. now intros H <-. Qed.

Lemma runs_skip (n : Z) : 0 <= n -> runs (skip n) n.
Proof.
  intros Hn. split; [assumption|]. intros c _ _.
  eexists; eexists. split; [reflexivity|]. now split.
Qed.

Lemma runs_emit (v : Z) : runs (emit v) 1.
Proof.
  split; [lia|]. intros c Hi Hroom. unfold emit.
  rewrite store_some by lia.
  eexists; eexists. split; [reflexivity|].
  split; [reflexivity | apply upd_length].
Qed.

Lemma load_nth (a : list Z) (i : Z) :
  0 <= i < Z.of_nat (length a) -> load a i = Some (nth (Z.to_nat i) a 0).
Proof.
  intros Hi. unfold load. rewrite in_bounds_true by assumption.
  apply nth_error_nth'. lia.
Qed.

Lemma peek_nth (k : Z) (c : cursor) :
  0 <= ind c + k < Z.of_nat (length (buf c)) ->
  peek k c = Some (nth (Z.to_nat (ind c + k)) (buf c) 0, c).
Proof. intros Hk. unfold peek. now rewrite load_nth. Qed.

Lemma next_byte_nth (c : cursor) :
  0 <= ind c < Z.of_nat (length (buf c)) ->
  next_byte c
  = Some (nth (Z.to_nat (ind c)) (buf c) 0, Cursor (buf c) (ind c + 1)).
Proof.
  intros Hi. unfold next_byte, bind.
  rewrite peek_nth by lia. rewrite Z.add_0_r. reflexivity.
Qed.

Lemma runs_next_byte : runs next_byte 1.
Proof.
  split; [lia|]. intros c Hi Hroom. rewrite next_byte_nth by lia.
  eexists; eexists. split; [reflexivity|]. now split.
Qed.

Lemma runs_le16 (f : Z -> Z) :
  runs (r <- le16 ;; skip 2 ;;; ret (f r)) 2.
Proof.
  split; [lia|]. intros c Hi Hroom. unfold bind, le16, bind.
  rewrite !peek_nth by lia.
  eexists; eexists. split; [reflexivity|]. now split.
Qed.

Lemma runs_le32 (f : Z -> Z) :
  runs (r <- le32 ;; skip 4 ;;; ret (f r)) 4.
Proof.
  split; [lia|]. intros c Hi Hroom. unfold bind, le32, bind.
  rewrite !peek_nth by lia.
  eexists; eexists. split; [reflexivity|]. now split.
Qed.

Lemma runs_get_R8 : runs ubx_get_R8 8.
Proof.
  split; [lia|]. intros c Hi Hroom. unfold ubx_get_R8, bind.
  rewrite !peek_nth by lia.
  eexists; eexists. split; [reflexivity|]. now split.
Qed.

Lemma runs_get (T : ubx_type) : runs (ubx_get T) (sizeof T).
Proof.
  destruct T; cbn [ubx_get sizeof];
    first [ apply runs_next_byte | apply runs_le16 | apply runs_le32 | idtac ].
  change 1 with (1 + 0). apply runs_bind; [apply runs_next_byte|].
  intros x. apply runs_ret.
Qed.

Lemma runs_put (T : ubx_type) (v : Z) : runs (ubx_put T v) (sizeof T).
Proof.
  destruct T; cbn [ubx_put sizeof];
    unfold ubx_put_U1, ubx_put_I1, ubx_put_X1, ubx_put_U2, ubx_put_I2,
      ubx_put_X2, ubx_put_U4, ubx_put_I4, ubx_put_X4, put16, put32;
    try apply runs_emit.
  all: try (change 2 with (1 + 1);
            apply runs_bind; [apply runs_emit | intros; apply runs_emit]).
  all: change 4 with (1 + (1 + (1 + 1)));
    repeat (apply runs_bind; [apply runs_emit | intros _]);
    apply runs_emit.
Qed.

Ltac runs_chain :=
  repeat first
    [ apply runs_ret
    | apply runs_emit
    | apply (runs_get U1) | apply (runs_get I1) | apply (runs_get X1)
    | apply (runs_get U2) | apply (runs_get I2) | apply (runs_get X2)
    | apply (runs_get U4) | apply (runs_get I4) | apply (runs_get X4)
    | apply (runs_get U4 : runs ubx_get_R4 4)
    | apply runs_get_R8
    | apply (runs_put U1) | apply (runs_put I1) | apply (runs_put X1)
    | apply (runs_put U2) | apply (runs_put I2) | apply (runs_put X2)
    | apply (runs_put U4) | apply (runs_put I4) | apply (runs_put X4)
    | apply runs_skip; lia
    | eapply runs_bind; [|intros ?] ].

(* ------------------------------------------------------------------ *)
(** ** Message dispatcher *)

Section DispatcherFacts.
Context {F : c_floating}.

Lemma runs_rawx_obs_fields : runs rawx_obs_fields 32.
Proof.
  unfold rawx_obs_fields.
  eapply runs_eq; [runs_chain | reflexivity].
Qed.

Lemma runs_nav_sat_fields : runs nav_sat_fields 12.
Proof.
  unfold nav_sat_fields.
  eapply runs_eq; [runs_chain | reflexivity].
Qed.

Lemma store_total {A} (a : list A) (i : Z) (v : A) :
  0 <= i < Z.of_nat (length a) ->
  exists a', store a i v = Some a' /\ length a' = length a.
Proof.
  intros Hi. rewrite store_some by assumption.
  eexists. split; [reflexivity | apply upd_length].
Qed.

Lemma rawx_loop_total (n : nat) :
  forall (i : Z) (o : list ubx_rxm_rawx_obs) (c : cursor),
    0 <= i -> i + Z.of_nat n <= Z.of_nat (length o) ->
    0 <= ind c -> ind c + 32 * Z.of_nat n <= Z.of_nat (length (buf c)) ->
    exists o' c', rawx_loop n i o c = Some (o', c') /\
                  length o' = length o.
Proof.
  induction n as [|n IH]; intros i o c Hi Ho Hc Hroom.
  - exists o, c. now split.
  - cbn [rawx_loop]. unfold bind at 1.
    destruct runs_rawx_obs_fields as [_ Hf].
    destruct (Hf c) as (e & c1 & E1 & Hi1 & Hl1); [lia | lia |].
    rewrite E1.
    destruct (store_total o i e) as (o1 & Es & Hlo); [lia|].
    rewrite Es.
    destruct (IH (i + 1) o1 c1) as (o2 & c2 & E2 & Hl2); try lia.
    exists o2, c2. split; [assumption | congruence].
Qed.

Lemma nav_sat_loop_total (n : nat) :
  forall (i : Z) (s : list ubx_nav_sat_info) (c : cursor),
    0 <= i -> i + Z.of_nat n <= Z.of_nat (length s) ->
    0 <= ind c -> ind c + 12 * Z.of_nat n <= Z.of_nat (length (buf c)) ->
    exists s' c', nav_sat_loop n i s c = Some (s', c') /\
                  length s' = length s.
Proof.
  induction n as [|n IH]; intros i s c Hi Hs Hc Hroom.
  - exists s, c. now split.
  - cbn [nav_sat_loop]. unfold bind at 1.
    destruct runs_nav_sat_fields as [_ Hf].
    destruct (Hf c) as (e & c1 & E1 & Hi1 & Hl1); [lia | lia |].
    rewrite E1.
    destruct (store_total s i e) as (s1 & Es & Hls); [lia|].
    rewrite Es.
    destruct (IH (i + 1) s1 c1) as (s2 & c2 & E2 & Hl2); try lia.
    exists s2, c2. split; [assumption | congruence].
Qed.

(** The five header reads of the raw-measurement decoder. *)
Lemma rawx_header (msg : list Z) (o : list ubx_rxm_rawx_obs) :
  13 <= Z.of_nat (length msg) ->
  exists tow wk lp fl,
    (tow <- ubx_get_R8 ;;
     wk <- ubx_get_U2 ;;
     lp <- ubx_get_I1 ;;
     nm <- ubx_get_U1 ;;
     flags <- ubx_get_X1 ;;
     seek 16 ;;;
     ret (Rawx tow wk lp nm (Z.land flags 0x01) (Z.land flags 0x02) o))
      (Cursor msg 0)
    = Some (Rawx tow wk lp (nth 11 msg 0) fl (Z.land (nth 12 msg 0) 0x02) o,
            Cursor msg 16).
Proof.
  intros Hlen.
  unfold bind, ubx_get_R8, ubx_get_U2, ubx_get_I1, ubx_get_U1, ubx_get_X1,
    le16, bind, skip, seek, ret.
  repeat (first [rewrite next_byte_nth by (cbn [buf ind]; lia)
                | rewrite peek_nth by (cbn [buf ind]; lia)];
          cbn [buf ind]).
  do 4 eexists. reflexivity.
Qed.

(** The five header reads of the satellite-report decoder. *)
Lemma nav_sat_header (msg : list Z) :
  8 <= Z.of_nat (length msg) ->
  exists tow,
    (tow <- ubx_get_U4 ;;
     ubx_get_U1 ;;;
     nsv <- ubx_get_U1 ;;
     ubx_get_U1 ;;;
     ubx_get_U1 ;;;
     ret (tow, nsv)) (Cursor msg 0)
    = Some ((tow, nth 5 msg 0), Cursor msg 8).
Proof.
  intros Hlen.
  unfold bind, ubx_get_U4, ubx_get_U1, le32, bind, skip, ret.
  repeat (first [rewrite next_byte_nth by (cbn [buf ind]; lia)
                | rewrite peek_nth by (cbn [buf ind]; lia)];
          cbn [buf ind]).
  eexists. reflexivity.
Qed.

(** ** C7 *)

(** C7.  On a message held in the 2000-byte accumulation buffer, with the
    two static records at their declared capacities: a raw-measurement
    message whose count byte (offset 11) exceeds 40 produces exactly one
    diagnostic and no subscriber call; a satellite report has its count
    byte (offset 5) clamped to 128 before the per-entry loop, the record
    then holds the clamped count and the registered subscriber is called
    with that record (no call only when no subscriber is registered). *)
Theorem count_overflow_policies (d : dispatcher) (msg : list Z) (len : Z) :
  wf_dispatcher d ->
  Z.of_nat (length msg) = UBX_BUFFER_SIZE ->
  (40 < nth 11 msg 0 ->
   exists d',
     ubx_decode_rawx d msg len
     = Some (d', [CommandsPrintf rawx_too_many [nth 11 msg 0]])) /\
  (exists d' evs,
     ubx_decode_nav_sat d msg len = Some (d', evs) /\
     num_sv (sat d') = Z.min (nth 5 msg 0) 128 /\
     filter is_callback evs
     = if rx_nav_sat d then [CallRxNavSat (sat d')] else []).
Proof.
  intros [Hobs Hsats] Hlen. unfold UBX_BUFFER_SIZE in Hlen. split.
  - intros Hmany. unfold ubx_decode_rawx.
    destruct (rawx_header msg (obs (raw d))) as (tow & wk & lp & fl & E);
      [lia|].
    rewrite E. cbn [num_meas].
    destruct (Z.ltb_spec 40 (nth 11 msg 0)); [|lia].
    eexists. reflexivity.
  - unfold ubx_decode_nav_sat.
    destruct (nav_sat_header msg) as (tow & E); [lia|].
    rewrite E.
    set (nsv := if 128 <? nth 5 msg 0 then 128 else nth 5 msg 0).
    assert (Hnsv : nsv = Z.min (nth 5 msg 0) 128).
    { subst nsv. destruct (Z.ltb_spec 128 (nth 5 msg 0)); lia. }
    destruct (nav_sat_loop_total (Z.to_nat nsv) 0 (sats (sat d))
                (Cursor msg 8)) as (s & c' & El & Hls);
      try (cbn [buf ind]; unfold NAV_SAT_CAPACITY in *; lia).
    rewrite El.
    destruct (m_print_next_nav_sat d); destruct (rx_nav_sat d);
      eexists; eexists; (split; [reflexivity|]);
      cbn [sat num_sv]; split; try assumption; reflexivity.
Qed.

End DispatcherFacts.

(** A raw-measurement message declaring 41 measurements and a satellite
    report declaring 200 satellites, both subscribers registered. *)
Lemma count_overflow_policies_witness :
  let msg := upd 11 41 (upd 5 200 (repeat 0 2000)) in
  let d := Dispatcher true true false false
             (Rawx 0 0 0 0 0 0
                (repeat (RawxObs 0 0 0 0 0 0 0 0 0 0 0 0 0 0 0) 40))
             (NavSat 0 0
                (repeat (SatInfo 0 0 0 0 0 (fp_lit 0 0) 0 0 0 0) 128)) in
  (exists d',
      ubx_decode_rawx d msg 0
      = Some (d', [CommandsPrintf rawx_too_many [41]])) /\
  (exists d' evs,
      ubx_decode_nav_sat d msg 0 = Some (d', evs) /\
      num_sv (sat d') = 128 /\
      filter is_callback evs = [CallRxNavSat (sat d')]).
Proof.
  intros msg d.
  destruct (count_overflow_policies d msg 0) as [Hrawx Hsat].
  - split; reflexivity.
  - vm_compute. reflexivity.
  - split; [|exact Hsat].
    apply Hrawx. vm_compute. reflexivity.
Defined.

(* ------------------------------------------------------------------ *)
(** ** Configuration protocol *)

Lemma runs_emit_ck (v : Z) (ck : Z * Z) : runs (emit_ck v ck) 1.
Proof.
  unfold emit_ck. eapply runs_eq; [runs_chain | reflexivity].
Qed.

Lemma runs_encode_payload (n : nat) :
  forall (i : Z) (msg : list Z) (ck : Z * Z),
    0 <= i -> i + Z.of_nat n <= Z.of_nat (length msg) ->
    runs (encode_payload n i msg ck) (Z.of_nat n).
Proof.
  induction n as [|n IH]; intros i msg ck Hi Hmsg.
  - apply runs_ret.
  - assert (Hrest : forall x,
               runs (ck' <- emit_ck x ck ;; encode_payload n (i + 1) msg ck')
                    (1 + Z.of_nat n)).
    { intros x. apply runs_bind; [apply runs_emit_ck|].
      intros ck'. apply IH; lia. }
    split; [lia|]. intros c Hc Hroom. cbn [encode_payload].
    rewrite load_nth by lia.
    destruct (Hrest (nth (Z.to_nat i) msg 0)) as [_ Hr].
    destruct (Hr c) as (a & c' & E & Hi' & Hl'); [lia | lia |].
    exists a, c'. split; [assumption|]. split; [lia | assumption].
Qed.

(** The encoder succeeds whenever the payload is there and the frame fits
    the send buffer. *)
Lemma ubx_encode_send_total (ubx : list Z) (class id : Z) (msg : list Z)
    (len : Z) :
  0 <= len <= Z.of_nat (length msg) ->
  len + 8 <= Z.of_nat (length ubx) ->
  exists ubx' sent, ubx_encode_send ubx class id msg len = Some (ubx', sent).
Proof.
  intros Hlen Hroom. unfold ubx_encode_send.
  assert (Hruns : runs
    (emit 0xB5 ;;; emit 0x62 ;;;
     ck <- emit_ck class (0, 0) ;;
     ck <- emit_ck id ck ;;
     ck <- emit_ck (Z.land len 0xFF) ck ;;
     ck <- emit_ck (Z.land (Z.shiftr len 8) 0xFF) ck ;;
     ck <- encode_payload (Z.to_nat len) 0 msg ck ;;
     emit (fst ck) ;;; emit (snd ck))
    (1 + (1 + (1 + (1 + (1 + (1 + (Z.of_nat (Z.to_nat len) + (1 + 1))))))))).
  { repeat (apply runs_bind;
            [first [apply runs_emit | apply runs_emit_ck
                   | apply runs_encode_payload; lia] | intros ?]).
    apply runs_emit. }
  destruct Hruns as [_ Hr].
  destruct (Hr (Cursor ubx 0)) as (a & c' & E & _ & _);
    [cbn [buf ind]; lia | cbn [buf ind]; lia |].
  rewrite E. eexists; eexists; reflexivity.
Qed.

Section ConfigFacts.
Context {H : ublox_h} {F : c_floating} {R : rtos_wait}.

(** [wait_ack_nak] returns 0, 1 or -1: 0 exactly when the semaphore was
    obtained and the flag read true, 1 exactly when it was obtained and
    the flag read false at both reads, and -1 whenever the semaphore was
    not obtained within the ticks. *)
Lemma wait_ack_nak_tristate (timeout_ms : Z) :
  let ticks :=
    to_u32 (if 0 <=? timeout_ms then timeout_ms else portMAX_DELAY)
      / portTICK_PERIOD_MS in
  let ret := wait_ack_nak timeout_ms in
  (ret = 0 \/ ret = 1 \/ ret = -1) /\
  (ret = 0 <-> xSemaphoreTake ticks = true /\ wait_was_ack 0%nat = true) /\
  (ret = 1 <-> xSemaphoreTake ticks = true /\
               wait_was_ack 0%nat = false /\ wait_was_ack 1%nat = false) /\
  (xSemaphoreTake ticks = false -> ret = -1).
Proof.
  intros ticks ret. subst ret. unfold wait_ack_nak. fold ticks.
  destruct (xSemaphoreTake ticks), (wait_was_ack 0%nat),
    (wait_was_ack 1%nat); cbn;
    repeat split; auto; try discriminate; try tauto;
    intros (? & ? & ?) || intros (? & ?) || intros ?; discriminate.
Qed.

(** The flag is read twice: a wait that was released while the flag read
    false and then, at the second read, true, returns -1. *)
Lemma wait_ack_nak_flag_changed (timeout_ms : Z) :
  let ticks :=
    to_u32 (if 0 <=? timeout_ms then timeout_ms else portMAX_DELAY)
      / portTICK_PERIOD_MS in
  xSemaphoreTake ticks = true ->
  wait_was_ack 0%nat = false -> wait_was_ack 1%nat = true ->
  wait_ack_nak timeout_ms = -1.
Proof.
  intros ticks Htake H0 H1. unfold wait_ack_nak. fold ticks.
  now rewrite Htake, H0, H1.
Qed.

Lemma send_and_await_total (ubx : list Z) (class id size n : Z)
    (payload : Codec unit) :
  runs payload n -> n <= size ->
  size + 8 <= Z.of_nat (length ubx) ->
  exists ubx' frame,
    send_and_await ubx class id size payload
    = Some (ubx', [frame], wait_ack_nak CFG_ACK_WAIT_MS).
Proof.
  intros [Hn Hp] Hsize Hroom. unfold send_and_await.
  destruct (Hp (Cursor (repeat 0 (Z.to_nat size)) 0))
    as ([] & c' & E & Hi & Hl);
    [cbn [buf ind]; lia | cbn [buf ind]; rewrite repeat_length; lia |].
  rewrite E. cbn [buf ind] in Hi, Hl. rewrite repeat_length in Hl.
  destruct (ubx_encode_send_total ubx class id (buf c') (ind c'))
    as (ubx' & sent & Es); [lia | lia |].
  rewrite Es. eexists; eexists; reflexivity.
Qed.

Lemma runs_gnss_blocks_loop (n : nat) :
  forall (i : Z) (bl : list ubx_cfg_gnss_block),
    0 <= i -> i + Z.of_nat n <= Z.of_nat (length bl) ->
    runs (gnss_blocks_loop n i bl) (8 * Z.of_nat n).
Proof.
  induction n as [|n IH]; intros i bl Hi Hbl.
  - apply runs_ret.
  - cbn [gnss_blocks_loop].
    assert (Hload : exists b, load bl i = Some b).
    { unfold load. rewrite in_bounds_true by lia.
      destruct (nth_error bl (Z.to_nat i)) as [b|] eqn:E; [eauto|].
      apply nth_error_None in E. lia. }
    destruct Hload as [b ->].
    eapply runs_eq.
    + repeat (eapply runs_bind;
              [first [apply (runs_put U1) | apply (runs_put X4)]
              | intros _]).
      apply IH; lia.
    + cbn [sizeof]. lia.
Qed.

Lemma runs_memcpy_values (values : list Z) (len : Z) :
  0 <= len <= Z.of_nat (length values) ->
  runs (memcpy_values values len) len.
Proof.
  intros Hlen. split; [lia|]. intros c Hi Hroom. unfold memcpy_values.
  replace ((0 <=? len) && (len <=? Z.of_nat (length values)) &&
           (0 <=? ind c) && (ind c + len <=? Z.of_nat (length (buf c))))
    with true.
  2:{ symmetry. rewrite !andb_true_iff, !Z.leb_le. lia. }
  eexists; eexists. split; [reflexivity|]. split; [reflexivity|].
  cbn [buf]. rewrite !length_app, !length_firstn, length_skipn. lia.
Qed.

(** ** C6 *)

(** C6, as amended.  Every request builder, run on arguments that keep it
    inside its arrays, returns to the caller: it hands one frame to the
    transport and returns what [wait_ack_nak] returns, one of 0, 1 and
    -1: 0 exactly when the wait is released (the semaphore is obtained)
    and the acknowledgement flag reads true, 1 exactly when it is released
    and the flag reads false at both of the two reads the code makes of
    it, and -1 when the bounded wait elapses first; the single exception
    is the GNSS block-table request with more than 10 blocks, which sends
    nothing and returns the fourth value -2. *)
Theorem request_return_values (ubx : list Z) (r : request) :
  Z.of_nat (length ubx) = UBX_BUFFER_SIZE -> request_ok r ->
  let ticks := to_u32 CFG_ACK_WAIT_MS / portTICK_PERIOD_MS in
  exists ubx' sent ret,
    issue ubx r = Some (ubx', sent, ret) /\
    ((exists frame, sent = [frame]) /\
     (ret = 0 \/ ret = 1 \/ ret = -1) /\
     (ret = 0 <->
      xSemaphoreTake ticks = true /\ wait_was_ack 0%nat = true) /\
     (ret = 1 <->
      xSemaphoreTake ticks = true /\
      wait_was_ack 0%nat = false /\ wait_was_ack 1%nat = false) /\
     (xSemaphoreTake ticks = false -> ret = -1)
     \/
     (exists gnss, r = ReqGnss gnss /\ 10 < num_blocks gnss) /\
     sent = [] /\ ret = -2).
Proof.
  intros Hubx Hok ticks. unfold UBX_BUFFER_SIZE in *.
  assert (Hsent : forall class id size n payload,
             runs payload n -> n <= size -> size + 8 <= 2000 ->
             exists ubx' sent ret,
               send_and_await ubx class id size payload
               = Some (ubx', sent, ret) /\
               ((exists frame, sent = [frame]) /\
                (ret = 0 \/ ret = 1 \/ ret = -1) /\
                (ret = 0 <->
                 xSemaphoreTake ticks = true /\ wait_was_ack 0%nat = true) /\
                (ret = 1 <->
                 xSemaphoreTake ticks = true /\
                 wait_was_ack 0%nat = false /\ wait_was_ack 1%nat = false) /\
                (xSemaphoreTake ticks = false -> ret = -1)
                \/
                (exists gnss, r = ReqGnss gnss /\ 10 < num_blocks gnss) /\
                sent = [] /\ ret = -2)).
  { intros class id size n payload Hruns Hn Hsize.
    destruct (send_and_await_total ubx class id size n payload)
      as (ubx' & frame & E); [assumption | assumption | lia |].
    exists ubx', [frame], (wait_ack_nak CFG_ACK_WAIT_MS).
    split; [assumption|]. left. split; [now exists frame|].
    exact (wait_ack_nak_tristate CFG_ACK_WAIT_MS). }
  destruct r; cbn [issue request_ok] in *.
  - unfold ublox_cfg_prt_uart.
    eapply Hsent;
      [eapply runs_eq; [runs_chain | reflexivity] | cbn [sizeof]; lia | lia].
  - unfold ublox_cfg_tmode3.
    eapply Hsent;
      [eapply runs_eq; [runs_chain | reflexivity] | cbn [sizeof]; lia | lia].
  - unfold ublox_cfg_msg.
    eapply Hsent;
      [eapply runs_eq; [runs_chain | reflexivity] | cbn [sizeof]; lia | lia].
  - unfold ublox_cfg_rate.
    eapply Hsent;
      [eapply runs_eq; [runs_chain | reflexivity] | cbn [sizeof]; lia | lia].
  - unfold ublox_cfg_cfg.
    eapply Hsent;
      [eapply runs_eq; [runs_chain | reflexivity] | cbn [sizeof]; lia | lia].
  - unfold ublox_cfg_nav5.
    eapply Hsent;
      [eapply runs_eq; [runs_chain | reflexivity] | cbn [sizeof]; lia | lia].
  - unfold ublox_cfg_tp5.
    eapply Hsent;
      [eapply runs_eq; [runs_chain | reflexivity] | cbn [sizeof]; lia | lia].
  - unfold ublox_cfg_gnss.
    destruct (Z.ltb_spec 10 (num_blocks gnss)) as [Hmany|Hfew].
    + exists ubx, [], (-2). split; [reflexivity|]. right.
      split; [now exists gnss | now split].
    + specialize (Hok Hfew).
      apply (Hsent _ _ _ (1 + (1 + (1 + (1 + 8 * Z.of_nat
                                (Z.to_nat (num_blocks gnss))))))).
      * repeat (apply runs_bind; [apply (runs_put U1) | intros _]).
        apply runs_gnss_blocks_loop; lia.
      * lia.
      * lia.
  - unfold ublox_cfg_nmea.
    eapply Hsent;
      [eapply runs_eq; [runs_chain | reflexivity] | cbn [sizeof]; lia | lia].
  - unfold ublox_cfg_valset. unfold UBX_BUFFER_SIZE in Hok.
    apply (Hsent _ _ _ (1 + (1 + (1 + (1 + len))))).
    + repeat (apply runs_bind;
              [first [apply (runs_put U1) | apply (runs_put X1)]
              | intros _]).
      apply runs_memcpy_values; lia.
    + lia.
    + lia.
Qed.

End ConfigFacts.

(* ------------------------------------------------------------------ *)
(** ** Stream demultiplexer: whole frames *)

Lemma land_255 (z : Z) : Z.land z 0xFF = z mod 256.
Proof. change 0xFF with (Z.ones 8). now rewrite Z.land_ones by lia. Qed.

Lemma length_bytes_reassemble (len : Z) :
  0 <= len < 65536 ->
  Z.lor (Z.land len 0xFF) (Z.shiftl (Z.land (Z.shiftr len 8) 0xFF) 8) = len.
Proof.
  intros Hlen. rewrite !land_255, Z.shiftr_div_pow2 by lia.
  change (2 ^ 8) with 256.
  rewrite Z.lor_comm, lor_shiftl_low
    by (try lia; change (2 ^ 8) with 256; apply Z.mod_pos_bound; lia).
  change (2 ^ 8) with 256.
  rewrite (Z.mod_small (len / 256)).
  - pose proof (Z.div_mod len 256). lia.
  - split; [apply Z.div_pos; lia | apply Z.div_lt_upper_bound; lia].
Qed.

(** Sync bytes, a raw header and payload bytes, from the idle state: the
    parser stands behind the last payload byte with the checksum of
    everything after the sync bytes. *)
Lemma proc_bytes_frame_prefix (st : decoder_state) (c i lo hi : Z)
    (p : list Z) :
  line_pos st = 0 -> ubx_pos st = 0 ->
  Z.of_nat (length p) <= Z.lor lo (Z.shiftl hi 8) ->
  Z.of_nat (length p) <= Z.of_nat (length (ubx st)) ->
  let ck := ubx_checksum (c :: i :: lo :: hi :: p) in
  proc_bytes st ([0xB5; 0x62; c; i; lo; hi] ++ p)
  = Some (DecoderState (line st) (p ++ skipn (length p) (ubx st)) 0
                       (6 + Z.of_nat (length p)) c i (fst ck) (snd ck)
                       (Z.lor lo (Z.shiftl hi 8)), []).
Proof.
  intros Hlp Hup Hdecl Hroom ck. subst ck.
  eapply (proc_bytes_app _ _ _ _ _ [] []).
  - now apply proc_bytes_header.
  - rewrite <- (firstn_skipn (length p) (ubx st)) at 1.
    pose proof (proc_bytes_payload p (line st) []
                  (firstn (length p) (ubx st))
                  (skipn (length p) (ubx st)) c i) as Hp.
    cbn [app length] in Hp. cbv zeta in Hp.
    rewrite Hp; [reflexivity | rewrite length_firstn; lia | lia].
Qed.

(** The same for a well-formed header: the two length bytes of the
    encoder, declaring exactly the payload. *)
Lemma proc_bytes_body (st : decoder_state) (c i : Z) (p : list Z) :
  line_pos st = 0 -> ubx_pos st = 0 ->
  Z.of_nat (length p) <= Z.of_nat (length (ubx st)) ->
  Z.of_nat (length p) < 65536 ->
  let ck := ubx_checksum (ubx_body c i p) in
  proc_bytes st (0xB5 :: 0x62 :: ubx_body c i p)
  = Some (DecoderState (line st) (p ++ skipn (length p) (ubx st)) 0
                       (6 + Z.of_nat (length p)) c i (fst ck) (snd ck)
                       (Z.of_nat (length p)), []).
Proof.
  intros Hlp Hup Hroom Hlen ck. subst ck.
  pose proof (proc_bytes_frame_prefix st c i
                (Z.land (Z.of_nat (length p)) 0xFF)
                (Z.land (Z.shiftr (Z.of_nat (length p)) 8) 0xFF) p
                Hlp Hup) as E.
  rewrite length_bytes_reassemble in E by lia.
  apply E; lia.
Qed.

(** Frame round trip: a frame of the encoder's shape, fed to an idle
    parser, is dispatched with its class, id, declared length and payload
    at the start of the accumulation buffer, and the parser is idle
    again. *)
Lemma proc_bytes_valid_frame (st : decoder_state) (c i : Z) (p : list Z) :
  line_pos st = 0 -> ubx_pos st = 0 ->
  Z.of_nat (length p) <= Z.of_nat (length (ubx st)) ->
  Z.of_nat (length p) < 65536 ->
  let ck := ubx_checksum (ubx_body c i p) in
  let u := p ++ skipn (length p) (ubx st) in
  proc_bytes st (ubx_frame c i p)
  = Some (DecoderState (line st) u 0 0 c i (fst ck) (snd ck)
                       (Z.of_nat (length p)),
          [UbxDecode c i u (Z.of_nat (length p))]).
Proof.
  intros Hlp Hup Hroom Hlen ck u. subst ck u. unfold ubx_frame.
  change (0xB5 :: 0x62 :: ubx_body c i p ++ ?t)
    with ((0xB5 :: 0x62 :: ubx_body c i p) ++ t).
  eapply (proc_bytes_app _ _ _ _ _ []).
  - now apply proc_bytes_body.
  - cbn [proc_bytes].
    rewrite proc_byte_ck_a_match by (fields; try reflexivity; lia).
    rewrite proc_byte_ck_b_match by (fields; try reflexivity; lia).
    reflexivity.
Qed.

(** While a line is pending and neither a line-feed nor the end of the
    line buffer comes, every byte is added to the line and nothing is
    handed over. *)
Lemma proc_bytes_absorbed (bs : list Z) :
  forall st : decoder_state,
    Z.of_nat (length (line st)) = LINE_BUFFER_SIZE ->
    0 < line_pos st ->
    line_pos st + Z.of_nat (length bs) < LINE_BUFFER_SIZE ->
    Forall (fun x => x <> 10) bs ->
    exists st',
      proc_bytes st bs = Some (st', []) /\
      line_pos st' = line_pos st + Z.of_nat (length bs) /\
      ubx_pos st' = ubx_pos st.
Proof.
  induction bs as [|x bs IH]; intros st Hline Hlp Hroom Hnl.
  - exists st. simpl. repeat split. lia.
  - inversion Hnl as [|? ? Hx Hrest]; subst.
    simpl length in Hroom.
    assert (E : proc_byte st x
                = Some (set_line (upd (Z.to_nat (line_pos st)) x (line st))
                                 (line_pos st + 1) st, [])).
    { rewrite proc_byte_line_pending by lia.
      apply nmea_stage_append; [assumption | lia | assumption]. }
    destruct (IH (set_line (upd (Z.to_nat (line_pos st)) x (line st))
                           (line_pos st + 1) st))
      as (st' & E' & Hlp' & Hup'); fields;
      try (rewrite upd_length); try assumption; try lia.
    exists st'. split.
    + apply (proc_bytes_cons _ _ _ _ _ [] [] E E').
    + fields. simpl length. split; [lia | assumption].
Qed.

(** A byte at the sync-1 position never dispatches. *)
Lemma idle_step_no_dispatch (st : decoder_state) (ch : Z) :
  wf_state st -> ubx_pos st = 0 ->
  exists st' evs,
    proc_byte st ch = Some (st', evs) /\ dispatched evs = [] /\
    wf_state st'.
Proof.
  intros Hwf Hup.
  destruct (nmea_stage_total st ch Hwf)
    as (s & e & En & Hwfs & _ & _ & _ & _ & _ & _ & Hd & _).
  destruct (Z.eq_dec (line_pos st) 0) as [Hlp|Hlp].
  - destruct (Z.eq_dec ch 0xB5) as [->|Hch].
    + rewrite proc_byte_sync1 by assumption.
      eexists; eexists. repeat split; try reflexivity; apply Hwf.
    + rewrite proc_byte_no_sync1 by assumption.
      rewrite <- Hup, set_ubx_pos_same. eauto.
  - rewrite proc_byte_line_pending by assumption. eauto.
Qed.

(** A mismatching checksum byte followed by bytes that contain no
    line-feed and fit the line buffer: everything is added to the line. *)
Lemma mismatch_then_absorbed (st : decoder_state) (x : Z) (rest : list Z) :
  wf_state st -> line_pos st = 0 -> 6 <= ubx_pos st ->
  (ubx_pos st - 6 = ubx_len st /\ x <> ubx_ck_a st) \/
  (ubx_pos st - 6 = ubx_len st + 1 /\ x <> ubx_ck_b st) ->
  Forall (fun y => y <> 10) (x :: rest) ->
  1 + Z.of_nat (length rest) < LINE_BUFFER_SIZE ->
  exists st',
    proc_bytes st (x :: rest) = Some (st', []) /\
    ubx_pos st' = 0 /\ line_pos st' = 1 + Z.of_nat (length rest).
Proof.
  intros (Hline & Hubx & _) Hlp Hpos Hmis Hnl Hroom.
  inversion Hnl as [|? ? Hx Hrest]; subst.
  assert (E : proc_byte st x
              = Some (set_line (upd (Z.to_nat (line_pos st)) x (line st))
                               (line_pos st + 1) (set_ubx_pos 0 st), [])).
  { replace (proc_byte st x) with (nmea_stage (set_ubx_pos 0 st) x).
    - apply (nmea_stage_append (set_ubx_pos 0 st) x); fields;
        try assumption. unfold LINE_BUFFER_SIZE. lia.
    - symmetry. destruct Hmis as [[Hl Hc]|[Hl Hc]].
      + now apply proc_byte_ck_a_mismatch.
      + now apply proc_byte_ck_b_mismatch. }
  destruct (proc_bytes_absorbed rest
              (set_line (upd (Z.to_nat (line_pos st)) x (line st))
                        (line_pos st + 1) (set_ubx_pos 0 st)))
    as (st' & E' & Hlp' & Hup'); fields;
    try (rewrite upd_length); try assumption; try lia.
  exists st'. split; [apply (proc_bytes_cons _ _ _ _ _ [] [] E E')|].
  fields. split; [assumption | lia].
Qed.

(* ------------------------------------------------------------------ *)
(** ** Checksum sensitivity *)

Lemma fold_ck_fst (l : list Z) :
  forall a b,
    fst (fold_left ck_step l (a, b))
    = match l with [] => a | _ => (a + zsum l) mod 256 end.
Proof.
  induction l as [|x l IH]; intros a b; [reflexivity|].
  cbn [fold_left]. unfold ck_step at 2. cbn [fst snd].
  rewrite IH. unfold to_u8. destruct l as [|y l].
  - cbn [zsum fold_right]. now rewrite Z.add_0_r.
  - rewrite Zplus_mod_idemp_l. f_equal. cbn [zsum fold_right]. lia.
Qed.

Lemma ubx_checksum_fst (x : Z) (l : list Z) :
  fst (ubx_checksum (x :: l)) = zsum (x :: l) mod 256.
Proof. unfold ubx_checksum. now rewrite fold_ck_fst. Qed.

Lemma land_pow2_clear (x k : Z) :
  0 <= k -> Z.testbit x k = false -> Z.land x (2 ^ k) = 0.
Proof.
  intros Hk Hbit. apply Z.bits_inj'. intros n Hn.
  rewrite Z.land_spec, Z.bits_0, Z.pow2_bits_eqb by assumption.
  destruct (Z.eqb_spec k n) as [<-|_].
  - now rewrite Hbit.
  - apply andb_false_r.
Qed.

Lemma lxor_pow2_clear (x k : Z) :
  0 <= k -> Z.testbit x k = false -> Z.lxor x (Z.shiftl 1 k) = x + 2 ^ k.
Proof.
  intros Hk Hbit. rewrite Z.shiftl_1_l.
  symmetry. apply Z.add_nocarry_lxor. now apply land_pow2_clear.
Qed.

Lemma lxor_pow2_set (x k : Z) :
  0 <= k -> Z.testbit x k = true -> Z.lxor x (Z.shiftl 1 k) = x - 2 ^ k.
Proof.
  intros Hk Hbit.
  assert (Hclear : Z.testbit (Z.lxor x (Z.shiftl 1 k)) k = false).
  { rewrite Z.lxor_spec, Z.shiftl_1_l, Z.pow2_bits_true, Hbit by assumption.
    reflexivity. }
  pose proof (lxor_pow2_clear _ k Hk Hclear) as E.
  rewrite Z.lxor_assoc, Z.lxor_nilpotent, Z.lxor_0_r in E. lia.
Qed.

(** Flipping one bit moves the value by plus or minus that power of two. *)
Lemma lxor_pow2 (x k : Z) :
  0 <= k ->
  exists d, (d = 2 ^ k \/ d = - 2 ^ k) /\ Z.lxor x (Z.shiftl 1 k) = x + d.
Proof.
  intros Hk. destruct (Z.testbit x k) eqn:Hbit.
  - exists (- 2 ^ k). split; [now right|].
    rewrite lxor_pow2_set by assumption. lia.
  - exists (2 ^ k). split; [now left|].
    now apply lxor_pow2_clear.
Qed.

Lemma pow2_below_256 (k : Z) : 0 <= k < 8 -> 0 < 2 ^ k < 256.
Proof.
  intros Hk. split; [apply Z.pow_pos_nonneg; lia|].
  change 256 with (2 ^ 8). apply Z.pow_lt_mono_r; lia.
Qed.

Lemma is_byte_high_bits (z : Z) :
  is_byte z <-> (forall n, 8 <= n -> Z.testbit z n = false).
Proof.
  unfold is_byte. split.
  - intros Hz n Hn. rewrite <- (Z.mod_small z (2 ^ 8)) by (simpl; lia).
    apply Z.mod_pow2_bits_high. lia.
  - intros Hhigh.
    assert (E : z = z mod 2 ^ 8).
    { apply Z.bits_inj'. intros n Hn.
      destruct (Z.lt_ge_cases n 8) as [Hlt|Hge].
      - now rewrite Z.mod_pow2_bits_low.
      - rewrite Z.mod_pow2_bits_high by lia. now apply Hhigh. }
    rewrite E. apply Z.mod_pos_bound. simpl. lia.
Qed.

Lemma is_byte_flip (x k : Z) :
  is_byte x -> 0 <= k < 8 -> is_byte (Z.lxor x (Z.shiftl 1 k)).
Proof.
  intros Hx Hk. apply is_byte_high_bits. intros n Hn.
  rewrite Z.lxor_spec, Z.shiftl_1_l, Z.pow2_bits_false by lia.
  rewrite (proj1 (is_byte_high_bits x) Hx n Hn). reflexivity.
Qed.

Lemma sum_moved_mod (s d k : Z) :
  0 <= k < 8 -> d = 2 ^ k \/ d = - 2 ^ k -> (s + d) mod 256 <> s mod 256.
Proof.
  intros Hk Hd E.
  pose proof (pow2_below_256 k Hk).
  pose proof (Z.div_mod (s + d) 256). pose proof (Z.div_mod s 256).
  destruct Hd; lia.
Qed.

Lemma flip_bit_length (l : list Z) :
  forall j k, length (flip_bit j k l) = length l.
Proof.
  induction l as [|x l IH]; intros [|j] k; simpl; auto.
Qed.

Lemma flip_bit_app_l (l1 l2 : list Z) :
  forall j k, (j < length l1)%nat ->
    flip_bit j k (l1 ++ l2) = flip_bit j k l1 ++ l2.
Proof.
  induction l1 as [|x l1 IH]; intros [|j] k Hj; simpl in *; try lia;
    [reflexivity | rewrite IH by lia; reflexivity].
Qed.

Lemma flip_bit_app_r (l1 l2 : list Z) :
  forall j k, (length l1 <= j)%nat ->
    flip_bit j k (l1 ++ l2) = l1 ++ flip_bit (j - length l1) k l2.
Proof.
  induction l1 as [|x l1 IH]; intros j k Hj; simpl in *.
  - now rewrite Nat.sub_0_r.
  - destruct j as [|j]; [lia|]. simpl. rewrite IH by lia. reflexivity.
Qed.

Lemma flip_bit_sum (l : list Z) :
  forall j k, (j < length l)%nat -> 0 <= k ->
    exists d, (d = 2 ^ k \/ d = - 2 ^ k) /\
              zsum (flip_bit j k l) = zsum l + d.
Proof.
  induction l as [|x l IH]; intros [|j] k Hj Hk; simpl in Hj; try lia.
  - destruct (lxor_pow2 x k Hk) as (d & Hd & E).
    exists d. split; [assumption|].
    cbn [flip_bit zsum fold_right]. rewrite E. lia.
  - destruct (IH j k ltac:(lia) Hk) as (d & Hd & E).
    exists d. split; [assumption|].
    cbn [flip_bit zsum fold_right]. fold (zsum (flip_bit j k l)).
    fold (zsum l). rewrite E. lia.
Qed.

Lemma flip_bit_bytes (l : list Z) :
  forall j k, Forall is_byte l -> 0 <= k < 8 ->
    Forall is_byte (flip_bit j k l).
Proof.
  induction l as [|x l IH]; intros [|j] k Hl Hk; simpl;
    inversion Hl; subst; constructor; auto using is_byte_flip.
Qed.

(* ------------------------------------------------------------------ *)
(** ** Frames that are not dispatched *)

Lemma dispatched_app (e1 e2 : list event) :
  dispatched e1 = [] -> dispatched e2 = [] -> dispatched (e1 ++ e2) = [].
Proof. unfold dispatched. intros H1 H2. now rewrite filter_app, H1, H2. Qed.

Lemma wf_after_prefix (st : decoder_state) (u : list Z) (c i a b len : Z)
    (pos : Z) :
  wf_state st -> length u = length (ubx st) -> line_pos st = 0 ->
  wf_state (DecoderState (line st) u 0 pos c i a b len).
Proof.
  intros (Hl & Hu & Hp) Hlen Hlp. unfold wf_state. fields.
  rewrite Hlen. repeat split; try assumption; unfold LINE_BUFFER_SIZE; lia.
Qed.

Lemma length_prefix_written (p u : list Z) :
  (length p <= length u)%nat ->
  length (p ++ skipn (length p) u) = length u.
Proof. intros H. rewrite length_app, length_skipn. lia. Qed.

(** A stream of the frame's shape whose header declares exactly the
    payload but whose checksum bytes are not the accumulated pair. *)
Lemma bad_checksum_no_dispatch (st : decoder_state) (c i lo hi : Z)
    (p : list Z) (a b : Z) :
  wf_state st -> line_pos st = 0 -> ubx_pos st = 0 ->
  Z.lor lo (Z.shiftl hi 8) = Z.of_nat (length p) ->
  Z.of_nat (length p) <= UBX_BUFFER_SIZE ->
  let ck := ubx_checksum (c :: i :: lo :: hi :: p) in
  a <> fst ck \/ b <> snd ck ->
  exists st' evs,
    proc_bytes st (0xB5 :: 0x62 :: c :: i :: lo :: hi :: p ++ [a; b])
    = Some (st', evs) /\
    dispatched evs = [].
Proof.
  intros Hwf Hlp Hup Hdecl Hlen ck Hbad.
  pose proof Hwf as (_ & Hu & _). unfold UBX_BUFFER_SIZE in *.
  pose proof (proc_bytes_frame_prefix st c i lo hi p Hlp Hup) as E.
  cbv zeta in E. fold ck in E. rewrite Hdecl in E.
  specialize (E ltac:(lia) ltac:(lia)).
  set (st6 := DecoderState (line st) (p ++ skipn (length p) (ubx st)) 0
                (6 + Z.of_nat (length p)) c i (fst ck) (snd ck)
                (Z.of_nat (length p))) in *.
  assert (Hwf6 : forall pos, wf_state (set_ubx_pos pos st6)).
  { intros pos. apply (wf_after_prefix st); try assumption.
    apply length_prefix_written. lia. }
  change (0xB5 :: 0x62 :: c :: i :: lo :: hi :: p ++ [a; b])
    with ([0xB5; 0x62; c; i; lo; hi] ++ p ++ [a; b]).
  rewrite app_assoc.
  destruct (Z.eq_dec a (fst ck)) as [Ha|Ha].
  - assert (Hb : b <> snd ck) by (destruct Hbad; congruence).
    destruct (nmea_stage_total (set_ubx_pos 0 st6) b (Hwf6 0))
      as (s & e & En & _ & _ & _ & _ & _ & _ & _ & Hd & _).
    exists s, e. split; [|assumption].
    apply (proc_bytes_app _ _ _ _ _ [] e E).
    cbn [proc_bytes].
    rewrite proc_byte_ck_a_match by (unfold st6; fields; lia).
    rewrite proc_byte_ck_b_mismatch by (unfold st6; fields; lia).
    change (set_ubx_pos 0 (set_ubx_pos (ubx_pos st6 + 1) st6))
      with (set_ubx_pos 0 st6).
    rewrite En. now rewrite app_nil_r.
  - destruct (nmea_stage_total (set_ubx_pos 0 st6) a (Hwf6 0))
      as (s1 & e1 & En & Hwf1 & _ & Hup1 & _ & _ & _ & _ & Hd1 & _).
    destruct (idle_step_no_dispatch s1 b Hwf1 Hup1)
      as (s2 & e2 & E2 & Hd2 & _).
    exists s2, (e1 ++ e2). split; [|now apply dispatched_app].
    apply (proc_bytes_app _ _ _ _ _ [] (e1 ++ e2) E).
    cbn [proc_bytes].
    rewrite proc_byte_ck_a_mismatch by (unfold st6; fields; lia).
    rewrite En, E2. now rewrite app_nil_r.
Qed.

(** A stream of the frame's shape whose header declares more than the
    payload that follows: the checksum bytes are taken as payload, and the
    stream ends before the declared frame does. *)
Lemma long_length_no_dispatch (st : decoder_state) (c i lo hi : Z)
    (p : list Z) (a b : Z) :
  wf_state st -> line_pos st = 0 -> ubx_pos st = 0 ->
  Z.of_nat (length p) < Z.lor lo (Z.shiftl hi 8) ->
  Z.of_nat (length p) + 2 <= UBX_BUFFER_SIZE ->
  exists st' evs,
    proc_bytes st (0xB5 :: 0x62 :: c :: i :: lo :: hi :: p ++ [a; b])
    = Some (st', evs) /\
    dispatched evs = [].
Proof.
  intros Hwf Hlp Hup Hdecl Hlen.
  pose proof Hwf as (_ & Hu & _). unfold UBX_BUFFER_SIZE in *.
  change (0xB5 :: 0x62 :: c :: i :: lo :: hi :: p ++ [a; b])
    with ([0xB5; 0x62; c; i; lo; hi] ++ p ++ [a; b]).
  destruct (Z.le_gt_cases (Z.of_nat (length p) + 2)
                          (Z.lor lo (Z.shiftl hi 8))) as [Hfar|Hnear].
  - pose proof (proc_bytes_frame_prefix st c i lo hi (p ++ [a; b]) Hlp Hup)
      as E.
    cbv zeta in E. rewrite length_app in E. simpl length in E.
    specialize (E ltac:(lia) ltac:(lia)).
    eexists; eexists. split; [exact E | reflexivity].
  - pose proof (proc_bytes_frame_prefix st c i lo hi (p ++ [a]) Hlp Hup)
      as E.
    cbv zeta in E.
    assert (Hpa : Z.of_nat (length (p ++ [a])) = Z.of_nat (length p) + 1)
      by (rewrite length_app; simpl length; lia).
    specialize (E ltac:(lia) ltac:(lia)).
    set (ck := ubx_checksum (c :: i :: lo :: hi :: p ++ [a])) in *.
    set (st7 := DecoderState (line st)
                  ((p ++ [a]) ++ skipn (length (p ++ [a])) (ubx st)) 0
                  (6 + Z.of_nat (length (p ++ [a]))) c i (fst ck) (snd ck)
                  (Z.lor lo (Z.shiftl hi 8))) in *.
    replace (p ++ [a; b]) with ((p ++ [a]) ++ [b])
      by (rewrite <- app_assoc; reflexivity).
    rewrite app_assoc.
    destruct (Z.eq_dec b (fst ck)) as [Hb|Hb].
    + exists (set_ubx_pos (ubx_pos st7 + 1) st7), []. split; [|reflexivity].
      apply (proc_bytes_app _ _ _ _ _ [] [] E).
      cbn [proc_bytes].
      rewrite proc_byte_ck_a_match by (unfold st7; fields; lia).
      reflexivity.
    + assert (Hwf7 : wf_state (set_ubx_pos 0 st7)).
      { apply (wf_after_prefix st); try assumption.
        apply length_prefix_written. lia. }
      destruct (nmea_stage_total (set_ubx_pos 0 st7) b Hwf7)
        as (s & e & En & _ & _ & _ & _ & _ & _ & _ & Hd & _).
      exists s, e. split; [|assumption].
      apply (proc_bytes_app _ _ _ _ _ [] e E).
      cbn [proc_bytes].
      rewrite proc_byte_ck_a_mismatch by (unfold st7; fields; lia).
      rewrite En. now rewrite app_nil_r.
Qed.

(** ** C2 *)

(** C2, as amended.  A corrupted frame (good sync bytes, a header
    declaring its payload of at most 2000 bytes, a checksum byte that
    differs from the accumulated value), fed byte by byte to a
    demultiplexer in the reset state, causes no dispatch.  When a valid
    frame follows it immediately: the first mismatching checksum byte is
    handed to the NMEA block and opens a line, and when neither it nor any
    later byte is a line-feed and these bytes number fewer than 256, every
    one of them, the whole valid frame included, is added to that line; no
    frame is dispatched, no line is handed to the NMEA collaborator, and
    the parser ends at WaitSync1 with the line pending. *)
Theorem corrupted_then_valid_absorbed (c i : Z) (p : list Z) (a b : Z)
    (c2 i2 : Z) (p2 : list Z) :
  Z.of_nat (length p) <= UBX_BUFFER_SIZE ->
  let ck := ubx_checksum (ubx_body c i p) in
  a <> fst ck \/ b <> snd ck ->
  let corrupted := 0xB5 :: 0x62 :: ubx_body c i p ++ [a; b] in
  let valid := ubx_frame c2 i2 p2 in
  let absorbed := (if a =? fst ck then [b] else [a; b]) ++ valid in
  (exists st evs,
      proc_bytes reset_decoder_state corrupted = Some (st, evs) /\
      dispatched evs = []) /\
  (Forall (fun x => x <> 10) absorbed ->
   Z.of_nat (length absorbed) < LINE_BUFFER_SIZE ->
   exists st,
     proc_bytes reset_decoder_state (corrupted ++ valid) = Some (st, []) /\
     ubx_pos st = 0 /\
     line_pos st = Z.of_nat (length absorbed)).
Proof.
  intros Hlen ck Hbad corrupted valid absorbed.
  split.
  { subst corrupted. unfold ubx_body in *.
    destruct demux_inv_reset as [Hwf _].
    apply bad_checksum_no_dispatch; try assumption; try reflexivity.
    apply length_bytes_reassemble. unfold UBX_BUFFER_SIZE in Hlen. lia. }
  intros Hnl Hroom.
  unfold UBX_BUFFER_SIZE in Hlen.
  assert (Hreset : Z.of_nat (length (ubx reset_decoder_state)) = 2000).
  { cbn [ubx reset_decoder_state]. now rewrite repeat_length. }
  pose proof (proc_bytes_body reset_decoder_state c i p eq_refl eq_refl)
    as Ebody.
  cbv zeta in Ebody. fold ck in Ebody.
  specialize (Ebody ltac:(lia) ltac:(lia)).
  set (st6 := DecoderState (line reset_decoder_state)
                (p ++ skipn (length p) (ubx reset_decoder_state)) 0
                (6 + Z.of_nat (length p)) c i (fst ck) (snd ck)
                (Z.of_nat (length p))) in *.
  assert (Hwf6 : wf_state st6).
  { unfold wf_state, st6, LINE_BUFFER_SIZE, UBX_BUFFER_SIZE. fields.
    cbn [line reset_decoder_state].
    rewrite length_app, length_skipn, repeat_length.
    unfold LINE_BUFFER_SIZE. lia. }
  subst corrupted.
  change ((0xB5 :: 0x62 :: ubx_body c i p ++ [a; b]) ++ valid)
    with (0xB5 :: 0x62 :: (ubx_body c i p ++ [a; b]) ++ valid).
  rewrite <- app_assoc.
  change (0xB5 :: 0x62 :: ubx_body c i p ++ [a; b] ++ valid)
    with ((0xB5 :: 0x62 :: ubx_body c i p) ++ [a; b] ++ valid).
  subst absorbed.
  destruct (Z.eqb_spec a (fst ck)) as [Ha|Ha].
  - assert (Hb : b <> snd ck) by (destruct Hbad; congruence).
    assert (Ea : proc_byte st6 a = Some (set_ubx_pos (ubx_pos st6 + 1) st6,
                                         []))
      by (apply proc_byte_ck_a_match; unfold st6; fields; lia).
    destruct (mismatch_then_absorbed (set_ubx_pos (ubx_pos st6 + 1) st6)
                b valid) as (st & Es & Hup & Hlp);
      try assumption; unfold st6; fields; try lia.
    all: try (right; split; [lia | assumption]).
    all: try (cbn [app length] in Hroom; lia).
    exists st. split.
    + apply (proc_bytes_app _ _ _ _ _ [] [] Ebody).
      apply (proc_bytes_cons _ _ _ _ _ [] [] Ea Es).
    + split; [assumption|]. cbn [app length]. lia.
  - destruct (mismatch_then_absorbed st6 a (b :: valid))
      as (st & Es & Hup & Hlp);
      try assumption; unfold st6; fields; try lia.
    all: try (left; split; [lia | assumption]).
    all: try (cbn [app length] in Hroom |- *; lia).
    exists st. split.
    + apply (proc_bytes_app _ _ _ _ _ [] [] Ebody Es).
    + split; [assumption|]. cbn [app length] in *. lia.
Qed.

(** The corrupted frame B5 62 01 02 00 00 00 04 (the accumulated checksum
    is 03 0A) followed by the valid frame of class 1, id 2 and payload
    03 0B: nothing is dispatched and twelve bytes are pending as a line. *)
Lemma corrupted_then_valid_absorbed_witness :
  (exists st evs,
      proc_bytes reset_decoder_state [0xB5; 0x62; 1; 2; 0; 0; 0; 4]
      = Some (st, evs) /\
      dispatched evs = []) /\
  exists st,
    proc_bytes reset_decoder_state
      ([0xB5; 0x62; 1; 2; 0; 0; 0; 4] ++ ubx_frame 1 2 [3; 11])
    = Some (st, []) /\
    ubx_pos st = 0 /\ line_pos st = 12.
Proof.
  destruct (corrupted_then_valid_absorbed 1 2 [] 0 4 1 2 [3; 11])
    as [Halone Hboth].
  - simpl. unfold UBX_BUFFER_SIZE. lia.
  - left. vm_compute. discriminate.
  - split; [exact Halone|].
    apply Hboth.
    + vm_compute. repeat constructor; discriminate.
    + vm_compute. reflexivity.
Defined.

(** C2 as stated fails: on that input the valid frame is not dispatched. *)
Lemma valid_frame_after_corrupted_not_dispatched :
  ~ (forall (c i : Z) (p : list Z) (a b c2 i2 : Z) (p2 : list Z),
        Forall is_byte (c :: i :: a :: b :: c2 :: i2 :: p ++ p2) ->
        Z.of_nat (length p) <= UBX_BUFFER_SIZE ->
        Z.of_nat (length p2) <= UBX_BUFFER_SIZE ->
        (a, b) <> ubx_checksum (ubx_body c i p) ->
        exists st u,
          proc_bytes reset_decoder_state
            ((0xB5 :: 0x62 :: ubx_body c i p ++ [a; b]) ++ ubx_frame c2 i2 p2)
          = Some (st, [UbxDecode c2 i2 u (Z.of_nat (length p2))])).
Proof.
  intros Hall.
  destruct (Hall 1 2 [] 0 4 1 2 [3; 11]) as (st & u & E).
  - repeat constructor; unfold is_byte; lia.
  - simpl. unfold UBX_BUFFER_SIZE. lia.
  - simpl. unfold UBX_BUFFER_SIZE. lia.
  - vm_compute. discriminate.
  - assert (Hev : option_map snd
                    (proc_bytes reset_decoder_state
                       ((0xB5 :: 0x62 :: ubx_body 1 2 [] ++ [0; 4])
                          ++ ubx_frame 1 2 [3; 11]))
                  = Some []) by (vm_compute; reflexivity).
    rewrite E in Hev. cbn [option_map snd] in Hev.
    injection Hev as Hev. discriminate Hev.
Qed.

Lemma lor_length_bytes (lo hi : Z) :
  is_byte lo -> Z.lor lo (Z.shiftl hi 8) = hi * 256 + lo.
Proof.
  intros Hlo. rewrite Z.lor_comm.
  apply (lor_shiftl_low hi lo 8); [lia | exact Hlo].
Qed.

Lemma ck_a_moved (x x' : Z) (l l' : list Z) (d k : Z) :
  0 <= k < 8 -> d = 2 ^ k \/ d = - 2 ^ k ->
  zsum (x' :: l') = zsum (x :: l) + d ->
  fst (ubx_checksum (x :: l)) <> fst (ubx_checksum (x' :: l')).
Proof.
  intros Hk Hd Hsum. rewrite !ubx_checksum_fst, Hsum. intros E.
  now apply (sum_moved_mod (zsum (x :: l)) d k).
Qed.

Lemma flipped_differs (x k : Z) :
  0 <= k < 8 -> Z.lxor x (Z.shiftl 1 k) <> x.
Proof.
  intros Hk. destruct (lxor_pow2 x k) as (d & Hd & ->); [lia|].
  pose proof (pow2_below_256 k Hk). destruct Hd; lia.
Qed.

(** ** C9 *)

(** C9, as amended.  For every frame the encoder produces and every flip
    of a single bit at byte index 2 or beyond, except a flip that clears a
    set bit of one of the two length bytes (indices 4 and 5): the modified
    byte sequence, fed to a demultiplexer in the reset state, dispatches no
    frame.  This covers class, id, payload and both checksum bytes, and
    the length-byte flips that raise the declared length. *)
Theorem single_bit_flip_not_dispatched (ubx0 ubx1 : list Z) (c i : Z)
    (p frame : list Z) (pos : nat) (bit : Z) :
  Z.of_nat (length ubx0) = UBX_BUFFER_SIZE ->
  is_byte c -> is_byte i -> Forall is_byte p ->
  Z.of_nat (length p) <= 1992 ->
  ubx_encode_send ubx0 c i p (Z.of_nat (length p)) = Some (ubx1, frame) ->
  (2 <= pos < length frame)%nat -> 0 <= bit < 8 ->
  ((pos = 4 \/ pos = 5)%nat -> Z.testbit (nth pos frame 0) bit = false) ->
  exists st evs,
    proc_bytes reset_decoder_state (flip_bit pos bit frame)
    = Some (st, evs) /\
    dispatched evs = [].
Proof.
  intros Hubx Hc Hi Hp Hlen Henc Hpos Hbit Hexcl.
  unfold UBX_BUFFER_SIZE in Hubx.
  pose proof (ubx_encode_send_frame ubx0 c i p (Z.of_nat (length p)) Hc Hi)
    as Ef.
  cbv zeta in Ef. rewrite Nat2Z.id, firstn_all in Ef.
  rewrite Ef in Henc by (try assumption; lia).
  injection Henc as _ <-. clear Ef.
  unfold ubx_frame, ubx_body in *.
  set (lo := Z.land (Z.of_nat (length p)) 255) in *.
  set (hi := Z.land (Z.shiftr (Z.of_nat (length p)) 8) 255) in *.
  set (ck := ubx_checksum (c :: i :: lo :: hi :: p)) in *.
  cbn [app] in *.
  assert (Hlo : is_byte lo) by (unfold lo; rewrite land_255; apply mod_byte).
  assert (Hhi : is_byte hi) by (unfold hi; rewrite land_255; apply mod_byte).
  assert (Hdecl : Z.lor lo (Z.shiftl hi 8) = Z.of_nat (length p))
    by (apply length_bytes_reassemble; lia).
  destruct demux_inv_reset as [Hwf _].
  cbn [length] in Hpos. rewrite length_app in Hpos. cbn [length] in Hpos.
  destruct pos as [|[|[|[|[|[|j]]]]]]; try lia; cbn [flip_bit].
  - (* class *)
    destruct (lxor_pow2 c bit) as (d & Hd & E); [lia|].
    apply bad_checksum_no_dispatch; try assumption; try reflexivity;
      [unfold UBX_BUFFER_SIZE; lia|].
    left. apply (ck_a_moved _ _ _ _ d bit); try assumption.
    rewrite E. cbn [zsum fold_right]. lia.
  - (* id *)
    destruct (lxor_pow2 i bit) as (d & Hd & E); [lia|].
    apply bad_checksum_no_dispatch; try assumption; try reflexivity;
      [unfold UBX_BUFFER_SIZE; lia|].
    left. apply (ck_a_moved _ _ _ _ d bit); try assumption.
    rewrite E. cbn [zsum fold_right]. lia.
  - (* length, low byte *)
    specialize (Hexcl (or_introl eq_refl)). cbn [nth] in Hexcl.
    pose proof (pow2_below_256 bit Hbit).
    apply long_length_no_dispatch; try assumption; try reflexivity;
      [|unfold UBX_BUFFER_SIZE; lia].
    rewrite lor_length_bytes by (apply is_byte_flip; assumption).
    rewrite lor_length_bytes in Hdecl by assumption.
    rewrite lxor_pow2_clear by (try assumption; lia). lia.
  - (* length, high byte *)
    specialize (Hexcl (or_intror eq_refl)). cbn [nth] in Hexcl.
    pose proof (pow2_below_256 bit Hbit).
    apply long_length_no_dispatch; try assumption; try reflexivity;
      [|unfold UBX_BUFFER_SIZE; lia].
    rewrite lor_length_bytes by assumption.
    rewrite lor_length_bytes in Hdecl by assumption.
    rewrite lxor_pow2_clear by (try assumption; lia). lia.
  - destruct (Nat.lt_ge_cases j (length p)) as [Hin|Hout].
    + (* payload *)
      rewrite flip_bit_app_l by assumption.
      destruct (flip_bit_sum p j bit Hin) as (d & Hd & E); [lia|].
      apply bad_checksum_no_dispatch; try assumption; try reflexivity;
        rewrite ?flip_bit_length; try assumption;
        [unfold UBX_BUFFER_SIZE; lia|].
      left. apply (ck_a_moved _ _ _ _ d bit); try assumption.
      cbn [zsum fold_right] in *. fold (zsum (flip_bit j bit p)).
      fold (zsum p). rewrite E. lia.
    + rewrite flip_bit_app_r by assumption.
      destruct (j - length p)%nat as [|[|n]] eqn:Ej; [| |lia];
        cbn [flip_bit].
      * (* ck_a *)
        apply bad_checksum_no_dispatch; try assumption; try reflexivity;
          [unfold UBX_BUFFER_SIZE; lia|].
        left. now apply flipped_differs.
      * (* ck_b *)
        apply bad_checksum_no_dispatch; try assumption; try reflexivity;
          [unfold UBX_BUFFER_SIZE; lia|].
        right. now apply flipped_differs.
Qed.

(** The frame of the end-to-end example with the lowest bit of its second
    payload byte flipped. *)
Lemma single_bit_flip_not_dispatched_witness :
  exists st evs,
    proc_bytes reset_decoder_state
      (flip_bit 7 0 [0xB5; 0x62; 0x06; 0x01; 0x08; 0x00;
                     0x01; 0x06; 0x01; 0x01; 0x01; 0x01; 0x01; 0x01;
                     0x1C; 0xEA])
    = Some (st, evs) /\
    dispatched evs = [].
Proof.
  apply (single_bit_flip_not_dispatched send_buffer_init
           ([0xB5; 0x62; 0x06; 0x01; 0x08; 0x00;
             0x01; 0x06; 0x01; 0x01; 0x01; 0x01; 0x01; 0x01; 0x1C; 0xEA]
              ++ skipn 16 send_buffer_init)
           6 1 [1; 6; 1; 1; 1; 1; 1; 1]).
  - reflexivity.
  - unfold is_byte; lia.
  - unfold is_byte; lia.
  - repeat constructor; unfold is_byte; lia.
  - simpl; lia.
  - vm_compute. reflexivity.
  - simpl; lia.
  - lia.
  - intros [E|E]; discriminate E.
Defined.

(** C9 as stated fails on the length bytes.  The encoder's frame for class
    1, id 2 and payload 03 0A is B5 62 01 02 02 00 03 0A ...; clearing bit
    1 of the low length byte declares an empty payload, and 03 0A are the
    checksum bytes of that empty frame, so a frame is dispatched. *)
Lemma length_bit_flip_dispatched :
  ~ (forall (c i : Z) (p ubx1 frame : list Z) (pos : nat) (bit : Z),
        is_byte c -> is_byte i -> Forall is_byte p ->
        ubx_encode_send send_buffer_init c i p (Z.of_nat (length p))
        = Some (ubx1, frame) ->
        (2 <= pos < length frame)%nat -> 0 <= bit < 8 ->
        forall st evs,
          proc_bytes reset_decoder_state (flip_bit pos bit frame)
          = Some (st, evs) ->
          dispatched evs = []).
Proof.
  intros Hall.
  assert (Henc : ubx_encode_send send_buffer_init 1 2 [3; 10] 2
                 = Some (ubx_frame 1 2 [3; 10]
                           ++ skipn 10 send_buffer_init,
                         ubx_frame 1 2 [3; 10]))
    by (vm_compute; reflexivity).
  assert (Hd : option_map (fun r => length (dispatched (snd r)))
                 (proc_bytes reset_decoder_state
                    (flip_bit 4 1 (ubx_frame 1 2 [3; 10])))
               = Some 1%nat) by (vm_compute; reflexivity).
  destruct (proc_bytes reset_decoder_state
              (flip_bit 4 1 (ubx_frame 1 2 [3; 10])))
    as [[st evs]|] eqn:E; [|discriminate Hd].
  assert (Hnone : dispatched evs = []).
  { apply (Hall 1 2 [3; 10] _ _ 4%nat 1 ltac:(unfold is_byte; lia)
             ltac:(unfold is_byte; lia)
             ltac:(repeat constructor; unfold is_byte; lia)
             Henc ltac:(simpl; lia) ltac:(lia) st evs E). }
  cbn [option_map snd] in Hd. rewrite Hnone in Hd. discriminate Hd.
Qed.

(* ------------------------------------------------------------------ *)
(** ** C6, concrete requests *)

(** A rate request while the receiver never answers: one frame is sent
    and the wait elapses. *)
Lemma request_return_values_witness :
  let ticks := to_u32 CFG_ACK_WAIT_MS / portTICK_PERIOD_MS in
  exists ubx' sent ret,
    issue send_buffer_init (ReqRate 1000 1 0) = Some (ubx', sent, ret) /\
    ((exists frame, sent = [frame]) /\
     (ret = 0 \/ ret = 1 \/ ret = -1) /\
     (ret = 0 <->
      xSemaphoreTake ticks = true /\ wait_was_ack 0%nat = true) /\
     (ret = 1 <->
      xSemaphoreTake ticks = true /\
      wait_was_ack 0%nat = false /\ wait_was_ack 1%nat = false) /\
     (xSemaphoreTake ticks = false -> ret = -1)
     \/
     (exists gnss, ReqRate 1000 1 0 = ReqGnss gnss /\ 10 < num_blocks gnss) /\
     sent = [] /\ ret = -2).
Proof.
  apply (request_return_values send_buffer_init (ReqRate 1000 1 0)).
  - reflexivity.
  - exact I.
Defined.

(** C6 as stated fails: the GNSS block-table request with eleven blocks
    returns -2. *)
Lemma gnss_request_returns_minus_two :
  ~ (forall (ubx ubx' : list Z) (r : request) (sent : list (list Z))
            (ret : Z),
        Z.of_nat (length ubx) = UBX_BUFFER_SIZE -> request_ok r ->
        issue ubx r = Some (ubx', sent, ret) ->
        ret = 0 \/ ret = 1 \/ ret = -1).
Proof.
  intros Hall.
  assert (E : issue send_buffer_init (ReqGnss (CfgGnss 32 255 11 []))
              = Some (send_buffer_init, [], -2)) by reflexivity.
  specialize (Hall send_buffer_init send_buffer_init
                (ReqGnss (CfgGnss 32 255 11 [])) [] (-2) eq_refl).
  cbn [request_ok num_blocks] in Hall.
  specialize (Hall ltac:(intros; lia) E). lia.
Qed.
(* ------------------------------------------------------------------ *)
(** ** Bounds of the demultiplexer state *)

Lemma nmea_stage_ubx_fields (st st' : decoder_state) (ch : Z)
    (evs : list event) :
  nmea_stage st ch = Some (st', evs) ->
  ubx st' = ubx st /\ ubx_pos st' = ubx_pos st /\
  ubx_class st' = ubx_class st /\ ubx_id st' = ubx_id st /\
  ubx_ck_a st' = ubx_ck_a st /\ ubx_ck_b st' = ubx_ck_b st /\
  ubx_len st' = ubx_len st.
Proof.
  unfold nmea_stage. intros E.
  destruct (store (line st) (line_pos st) ch) as [l1|]; [|discriminate].
  destruct (0 <? _).
  - destruct (load l1 _) as [last|]; [|discriminate].
    destruct (last =? 10).
    + destruct (store l1 _ 0) as [l2|]; [|discriminate].
      injection E as <- <-. now repeat split.
    + injection E as <- <-. now repeat split.
  - injection E as <- <-. now repeat split.
Qed.

Lemma demux_bounds_idle (st : decoder_state) :
  demux_bounds st -> demux_bounds (set_ubx_pos 0 st).
Proof.
  unfold demux_bounds, is_byte. fields.
  intros (? & ? & ? & ? & ? & ? & ? & ?).
  repeat split; try assumption; try lia.
Qed.

Lemma lor_length_bound (lo hi : Z) :
  0 <= lo < 256 -> is_byte hi -> 0 <= Z.lor lo (Z.shiftl hi 8) < 65536.
Proof.
  intros Hlo Hhi. unfold is_byte in Hhi.
  rewrite Z.lor_comm, Z.shiftl_mul_pow2 by lia.
  rewrite lor_scaled by (change (2 ^ 8) with 256; lia).
  change (2 ^ 8) with 256. lia.
Qed.

Lemma ubx_stage_bounds (st st1 : decoder_state) (ch : Z) (evs : list event) :
  demux_bounds st -> is_byte ch ->
  ubx_stage st ch = Some (st1, evs) -> demux_bounds st1.
Proof.
  intros (Hpos & Hlen & H5 & H6 & Hc & Hi & Ha & Hb) Hch E.
  destruct st as [l u lp up uc ui ua ub ul].
  unfold ubx_stage in E. cbn [ubx_pos ubx_len ubx_ck_a ubx_ck_b ubx] in *.
  pose proof (to_u8_byte (ua + ch)) as Ha'.
  pose proof (to_u8_byte (ub + to_u8 (ua + ch))) as Hb'.
  assert (Hl5 : 0 <= ul < 256 -> 0 <= Z.lor ul (Z.shiftl ch 8) < 65536)
    by (intros; now apply lor_length_bound).
  set (len5 := Z.lor ul (Z.shiftl ch 8)) in *.
  unfold is_byte in *.
  repeat match type of E with
         | context [Z.eqb ?a ?b] =>
             no_test a; no_test b; destruct (Z.eqb_spec a b)
         | context [Z.ltb ?a ?b] =>
             no_test a; no_test b; destruct (Z.ltb_spec a b)
         | context [store ?a ?i ?v] => destruct (store a i v)
         end;
    try discriminate; injection E as <- <-;
    unfold demux_bounds, is_byte; expose; unfold ck_step; cbn [fst snd];
    repeat split; try assumption; try lia.
Qed.

Lemma proc_byte_bounds (st st' : decoder_state) (ch : Z) (evs : list event) :
  demux_bounds st -> is_byte ch ->
  proc_byte st ch = Some (st', evs) -> demux_bounds st'.
Proof.
  intros Hb Hch E. unfold proc_byte in E.
  assert (Hn : forall s s' e,
             demux_bounds s -> nmea_stage (set_ubx_pos 0 s) ch = Some (s', e) ->
             demux_bounds s').
  { intros s s' e Hs En. apply nmea_stage_ubx_fields in En.
    destruct En as (_ & E1 & E2 & E3 & E4 & E5 & E6).
    apply demux_bounds_idle in Hs. unfold demux_bounds in *.
    now rewrite E1, E2, E3, E4, E5, E6. }
  destruct (Z.eqb_spec (line_pos st) 0) as [Hz|Hnz].
  - destruct (ubx_stage st ch) as [[st1 e1]|] eqn:Eu; [|discriminate].
    pose proof (ubx_stage_bounds _ _ _ _ Hb Hch Eu) as Hb1.
    destruct (negb (ubx_pos st =? ubx_pos st1)).
    + now injection E as <- <-.
    + destruct (nmea_stage (set_ubx_pos 0 st1) ch) as [[s e]|] eqn:En;
        [|discriminate].
      injection E as <- <-. eapply Hn; eassumption.
  - destruct (nmea_stage st ch) as [[s e]|] eqn:En; [|discriminate].
    injection E as <- <-.
    apply nmea_stage_ubx_fields in En.
    destruct En as (_ & E1 & E2 & E3 & E4 & E5 & E6).
    unfold demux_bounds in *. now rewrite E1, E2, E3, E4, E5, E6.
Qed.

Lemma proc_bytes_bounds (bytes : list Z) :
  forall (st st' : decoder_state) (evs : list event),
    demux_bounds st -> Forall is_byte bytes ->
    proc_bytes st bytes = Some (st', evs) -> demux_bounds st'.
Proof.
  induction bytes as [|ch rest IH]; intros st st' evs Hb Hbytes E;
    simpl in E.
  - now injection E as <- <-.
  - inversion Hbytes as [|? ? Hch Hrest]; subst.
    destruct (proc_byte st ch) as [[s1 e1]|] eqn:E1; [|discriminate].
    destruct (proc_bytes s1 rest) as [[s2 e2]|] eqn:E2; [|discriminate].
    injection E as <- <-.
    eapply IH; [eapply proc_byte_bounds| |]; eassumption.
Qed.

Lemma demux_bounds_reset : demux_bounds reset_decoder_state.
Proof.
  unfold demux_bounds, reset_decoder_state, is_byte; fields.
  repeat split; lia.
Qed.

(** Outside an overflowing payload store the "Ubx" block succeeds. *)
Lemma ubx_stage_some (st : decoder_state) (ch : Z) :
  0 <= ubx_pos st ->
  ~ (UBX_BUFFER_SIZE <= ubx_pos st - 6 < ubx_len st) ->
  Z.of_nat (length (ubx st)) = UBX_BUFFER_SIZE ->
  exists st1 evs, ubx_stage st ch = Some (st1, evs).
Proof.
  intros Hpos Hfit Hu. unfold ubx_stage, UBX_BUFFER_SIZE in *.
  destruct st as [l u lp up uc ui ua ub ul].
  cbn [ubx_pos ubx_len ubx_ck_a ubx_ck_b ubx] in *.
  repeat match goal with
         | |- context [Z.eqb ?a ?b] =>
             no_test a; no_test b; destruct (Z.eqb_spec a b)
         | |- context [Z.ltb ?a ?b] =>
             no_test a; no_test b; destruct (Z.ltb_spec a b)
         end; try (exfalso; lia); try (eexists; eexists; reflexivity).
  all: rewrite store_some by lia; eexists; eexists; reflexivity.
Qed.

(** On a state that satisfies the invariant, the only step that leaves
    the arrays is the store of a payload byte past the full accumulation
    buffer. *)
Lemma proc_byte_none_iff (st : decoder_state) (ch : Z) :
  demux_inv st -> 0 <= ubx_pos st ->
  (proc_byte st ch = None <->
   UBX_BUFFER_SIZE <= ubx_pos st - 6 < ubx_len st).
Proof.
  intros (Hwf & Hidle) Hpos.
  pose proof Hwf as (Hl & Hu & Hp).
  split.
  - intros Hnone.
    destruct (Z_le_dec UBX_BUFFER_SIZE (ubx_pos st - 6)) as [Hfull|Hroom];
      [destruct (Z_lt_dec (ubx_pos st - 6) (ubx_len st)) as [Hin|Hout]|];
      [lia | |].
    all: exfalso; unfold proc_byte in Hnone.
    all: destruct (Z.eqb_spec (line_pos st) 0) as [Hz|Hnz];
      [destruct (ubx_stage_some st ch Hpos ltac:(lia) Hu)
         as (st1 & e1 & Eu); rewrite Eu in Hnone;
       destruct (ubx_stage_frame _ _ _ _ Eu) as (Hl1 & Hp1 & Hu1);
       destruct (negb (ubx_pos st =? ubx_pos st1)); [discriminate|];
       assert (Hwf1 : wf_state (set_ubx_pos 0 st1))
         by (unfold wf_state; fields; rewrite Hl1, Hp1, Hu1; exact Hwf);
       destruct (nmea_stage_total _ ch Hwf1) as (s & e & En & _)
      |destruct (nmea_stage_total _ ch Hwf) as (s & e & En & _)];
      rewrite En in Hnone; discriminate.
  - intros Hover. unfold UBX_BUFFER_SIZE in *.
    apply proc_byte_payload_overflow; lia.
Qed.

(** Every stream splits into a prefix processed inside the arrays and a
    rest that is empty or starts with a byte stored past the buffer. *)
Lemma proc_bytes_prefix_in_bounds (bytes : list Z) :
  forall st0 : decoder_state,
    demux_inv st0 -> demux_bounds st0 -> Forall is_byte bytes ->
    exists pre rest st evs,
      bytes = pre ++ rest /\
      proc_bytes st0 pre = Some (st, evs) /\
      demux_inv st /\ demux_bounds st /\
      (rest = [] \/ UBX_BUFFER_SIZE <= ubx_pos st - 6 < ubx_len st).
Proof.
  induction bytes as [|ch tl IH]; intros st0 Hinv Hb Hbytes.
  - exists [], [], st0, []. split; [reflexivity|]. split; [reflexivity|].
    split; [assumption|]. split; [assumption|]. now left.
  - inversion Hbytes as [|? ? Hch Htl]; subst.
    destruct (proc_byte st0 ch) as [[s1 e1]|] eqn:E1.
    + assert (Hinv1 : demux_inv s1) by (eapply proc_byte_inv; eassumption).
      assert (Hb1 : demux_bounds s1)
        by (eapply proc_byte_bounds; eassumption).
      destruct (IH s1 Hinv1 Hb1 Htl)
        as (pre & rest & st & evs & -> & E & Hi & Hbd & Hrest).
      exists (ch :: pre), rest, st, (e1 ++ evs).
      split; [reflexivity|].
      split; [cbn [proc_bytes]; now rewrite E1, E|].
      split; [assumption|]. split; assumption.
    + exists [], (ch :: tl), st0, [].
      split; [reflexivity|]. split; [reflexivity|].
      split; [assumption|]. split; [assumption|]. right.
      apply (proc_byte_none_iff st0 ch Hinv); [apply Hb | exact E1].
Qed.

(** X2. Every stream of bytes, received from the reset state, is
    processed inside the arrays either to its end or up to a byte that
    would be stored past the full accumulation buffer ([2000 <= ubx_pos -
    6 < ubx_len], the store of C5).  The state at that point (so every
    state reached before any such store; nothing is said of the states
    after one) keeps both buffers at their sizes, the line position
    inside the line buffer, the UBX parser at the first sync position
    whenever a line is pending, the frame position between 0 and the
    declared length plus 7, the declared length below 65536 and the
    class, id and received checksum bytes within a byte. *)
Theorem stream_state_bounds (bytes : list Z) :
  Forall is_byte bytes ->
  exists pre rest st evs,
    bytes = pre ++ rest /\
    proc_bytes reset_decoder_state pre = Some (st, evs) /\
    (rest = [] \/ UBX_BUFFER_SIZE <= ubx_pos st - 6 < ubx_len st) /\
    Z.of_nat (length (line st)) = LINE_BUFFER_SIZE /\
    Z.of_nat (length (ubx st)) = UBX_BUFFER_SIZE /\
    0 <= line_pos st < LINE_BUFFER_SIZE /\
    (line_pos st <> 0 -> ubx_pos st = 0) /\
    0 <= ubx_pos st <= ubx_len st + 7 /\
    0 <= ubx_len st < 65536 /\
    is_byte (ubx_class st) /\ is_byte (ubx_id st) /\
    is_byte (ubx_ck_a st) /\ is_byte (ubx_ck_b st).
Proof.
  intros Hbytes.
  destruct (proc_bytes_prefix_in_bounds bytes reset_decoder_state
              demux_inv_reset demux_bounds_reset Hbytes)
    as (pre & rest & st & evs & Hsplit & E & Hinv & Hbd & Hrest).
  exists pre, rest, st, evs.
  destruct Hinv as ((Hl & Hu & Hp) & Hidle).
  destruct Hbd as (Hpos & Hlen & _ & H6 & Hc & Hi & Ha & Hb).
  unfold is_byte in *.
  repeat split; try assumption; try lia.
Qed.

(** The stream of C5: the header and 2000 payload bytes are processed,
    the 2001st payload byte is the one stored past the buffer. *)
Lemma stream_state_bounds_witness :
  exists pre rest st evs,
    [0xB5; 0x62; 1; 2; 0xD1; 0x07] ++ repeat 0 2001 = pre ++ rest /\
    proc_bytes reset_decoder_state pre = Some (st, evs) /\
    (rest = [] \/ UBX_BUFFER_SIZE <= ubx_pos st - 6 < ubx_len st) /\
    Z.of_nat (length (line st)) = LINE_BUFFER_SIZE /\
    Z.of_nat (length (ubx st)) = UBX_BUFFER_SIZE /\
    0 <= line_pos st < LINE_BUFFER_SIZE /\
    (line_pos st <> 0 -> ubx_pos st = 0) /\
    0 <= ubx_pos st <= ubx_len st + 7 /\
    0 <= ubx_len st < 65536 /\
    is_byte (ubx_class st) /\ is_byte (ubx_id st) /\
    is_byte (ubx_ck_a st) /\ is_byte (ubx_ck_b st).
Proof.
  apply (stream_state_bounds ([0xB5; 0x62; 1; 2; 0xD1; 0x07]
                              ++ repeat 0 2001)).
  apply Forall_app. split.
  - repeat (apply Forall_cons; [unfold is_byte; lia|]). apply Forall_nil.
  - apply Forall_forall. intros x Hx. apply repeat_spec in Hx. subst x.
    unfold is_byte. lia.
Defined.

(** X3. When a stream of bytes received from the reset state has been
    processed inside the arrays and has left the demultiplexer in the
    state [st], the next byte takes [proc_byte] outside its arrays
    exactly when it is a payload byte of a frame whose declared length
    exceeds the accumulation buffer and the buffer is full
    ([2000 <= ubx_pos - 6 < ubx_len]); every other step succeeds. *)
Theorem proc_byte_fails_iff_payload_overflow (bytes : list Z)
    (st : decoder_state) (evs : list event) (ch : Z) :
  Forall is_byte bytes ->
  proc_bytes reset_decoder_state bytes = Some (st, evs) ->
  (proc_byte st ch = None <->
   UBX_BUFFER_SIZE <= ubx_pos st - 6 < ubx_len st).
Proof.
  intros Hbytes E.
  assert (Hinv : demux_inv st)
    by (eapply proc_bytes_inv; [apply demux_inv_reset | exact E]).
  destruct (proc_bytes_bounds bytes _ _ _ demux_bounds_reset Hbytes E)
    as (Hpos & _).
  now apply proc_byte_none_iff.
Qed.

(** The state after the header B5 62 01 02 D1 07 (2001 bytes declared)
    and 2000 payload bytes: the buffer is full, a payload byte is still
    due, and the step on it leaves the arrays. *)
Lemma proc_byte_fails_iff_payload_overflow_witness :
  exists st,
    proc_bytes reset_decoder_state
               ([0xB5; 0x62; 1; 2; 0xD1; 0x07] ++ repeat 0 2000)
    = Some (st, []) /\
    ubx_pos st - 6 = UBX_BUFFER_SIZE /\ ubx_len st = 2001 /\
    proc_byte st 0 = None /\
    (proc_byte st 0 = None <->
     UBX_BUFFER_SIZE <= ubx_pos st - 6 < ubx_len st).
Proof.
  destruct (payload_fills_buffer 1 2 0xD1 0x07 (repeat 0 2000) 0)
    as (st & E & Hpos & Hlen & Hnone);
    [reflexivity | unfold UBX_BUFFER_SIZE; reflexivity |].
  exists st. split; [exact E|]. split; [exact Hpos|].
  split; [exact Hlen|]. split; [exact Hnone|].
  apply (proc_byte_fails_iff_payload_overflow
           ([0xB5; 0x62; 1; 2; 0xD1; 0x07] ++ repeat 0 2000) st [] 0);
    [|exact E].
  apply Forall_app. split.
  - repeat (apply Forall_cons; [unfold is_byte; lia|]). apply Forall_nil.
  - apply Forall_forall. intros x Hx. apply repeat_spec in Hx. subst x.
    unfold is_byte. lia.
Defined.

(* ------------------------------------------------------------------ *)
(** ** Lines and frames delivered from a stream *)

Lemma set_ubx_pos_idle (st : decoder_state) :
  ubx_pos st = 0 -> set_ubx_pos 0 st = st.
Proof. intros <-. apply set_ubx_pos_same. Qed.

Lemma set_line_set_line (l1 l2 : list Z) (p1 p2 : Z) (st : decoder_state) :
  set_line l2 p2 (set_line l1 p1 st) = set_line l2 p2 st.
Proof. now destruct st. Qed.

Lemma c_string_text (t rest : list Z) :
  Forall (fun x => x <> 0) t -> c_string (t ++ 0 :: rest) = t.
Proof.
  induction 1 as [|x t Hx _ IH]; cbn [app c_string].
  - reflexivity.
  - destruct (Z.eqb_spec x 0); [contradiction | now rewrite IH].
Qed.

(** Bytes other than line-feed taken while a line is pending and the
    line buffer has room: they extend the line where it stands. *)
Lemma proc_bytes_line_run (bs : list Z) :
  forall (st : decoder_state) (pre mid post : list Z),
    line st = pre ++ mid ++ post ->
    line_pos st = Z.of_nat (length pre) -> (0 < length pre)%nat ->
    length mid = length bs ->
    Z.of_nat (length (line st)) = LINE_BUFFER_SIZE ->
    Z.of_nat (length pre) + Z.of_nat (length bs) < LINE_BUFFER_SIZE ->
    Forall (fun x => x <> 10) bs ->
    proc_bytes st bs
    = Some (set_line ((pre ++ bs) ++ post)
                     (Z.of_nat (length (pre ++ bs))) st, []).
Proof.
  induction bs as [|x bs IH];
    intros st pre mid post Hline Hpos Hpre Hmid Hlen Hroom Hnl.
  - destruct mid; [|discriminate]. cbn [proc_bytes].
    rewrite !app_nil_r. rewrite <- Hpos.
    cbn [app] in Hline. rewrite <- Hline. now destruct st.
  - destruct mid as [|m mid]; [discriminate|]. injection Hmid as Hmid.
    inversion Hnl as [|? ? Hx Hrest]; subst. simpl length in Hroom.
    assert (E : proc_byte st x
                = Some (set_line ((pre ++ [x]) ++ mid ++ post)
                                 (Z.of_nat (length (pre ++ [x]))) st, [])).
    { rewrite proc_byte_line_pending by lia.
      rewrite nmea_stage_append by (try assumption; lia).
      rewrite Hline, Hpos, Nat2Z.id.
      change ((m :: mid) ++ post) with (m :: mid ++ post).
      rewrite upd_app, <- app_assoc, length_app. cbn [app length].
      do 3 f_equal. lia. }
    apply (proc_bytes_cons _ _ _ _ _ [] [] E).
    rewrite (IH _ (pre ++ [x]) mid post).
    + rewrite set_line_set_line, <- !app_assoc. reflexivity.
    + reflexivity.
    + reflexivity.
    + rewrite length_app. cbn [length]. lia.
    + assumption.
    + fields. rewrite <- app_assoc. cbn [app]. rewrite <- Hlen, Hline.
      rewrite !length_app. cbn [length]. rewrite !length_app. reflexivity.
    + rewrite length_app. cbn [length]. lia.
    + assumption.
Qed.

(** A line-feed stored behind [pre] in the line buffer. *)
Lemma nmea_stage_end_of_line (st : decoder_state) (pre : list Z) (a b : Z)
    (post : list Z) :
  line st = pre ++ a :: b :: post ->
  line_pos st = Z.of_nat (length pre) ->
  Z.of_nat (length (line st)) = LINE_BUFFER_SIZE ->
  nmea_stage st 10
  = Some (set_line (pre ++ 10 :: 0 :: post) 0 st,
          [NmeaDecodeString (c_string (pre ++ 10 :: 0 :: post))]).
Proof.
  intros Hline Hpos Hlen.
  assert (Hroom : 0 <= line_pos st < LINE_BUFFER_SIZE - 1).
  { rewrite Hline, length_app in Hlen. cbn [length] in Hlen. lia. }
  rewrite nmea_stage_line_feed by assumption. cbv zeta.
  rewrite Hline, Hpos, Nat2Z.id, upd_app.
  replace (Z.to_nat (Z.of_nat (length pre) + 1))
    with (length (pre ++ [10])) by (rewrite length_app; cbn [length]; lia).
  change (pre ++ 10 :: b :: post) with (pre ++ [10] ++ b :: post).
  rewrite app_assoc, upd_app, <- app_assoc. reflexivity.
Qed.

(** A line of text and its line-feed, from the idle state. *)
Lemma proc_bytes_line (st : decoder_state) (text : list Z) :
  wf_state st -> line_pos st = 0 -> ubx_pos st = 0 ->
  Z.of_nat (length text) <= LINE_BUFFER_SIZE - 2 ->
  Forall (fun x => x <> 10 /\ x <> 0) text ->
  hd 0 text <> 0xB5 ->
  exists l,
    proc_bytes st (text ++ [10])
    = Some (set_line l 0 st, [NmeaDecodeString (text ++ [10])]) /\
    length l = length (line st).
Proof.
  intros (Hl & Hu & _) Hlp Hup Hlen Htext Hhd.
  unfold LINE_BUFFER_SIZE in *.
  assert (Hstr : forall post,
             c_string (text ++ 10 :: 0 :: post) = text ++ [10]).
  { intros post.
    change (text ++ 10 :: 0 :: post) with (text ++ [10] ++ 0 :: post).
    rewrite app_assoc. apply c_string_text.
    apply Forall_app. split.
    - eapply Forall_impl; [|exact Htext]. now intros x [_ Hx].
    - repeat constructor. lia. }
  assert (Hnl : Forall (fun x => x <> 10) text)
    by (eapply Forall_impl; [|exact Htext]; now intros x [Hx _]).
  destruct text as [|x rest].
  - destruct (line st) as [|a [|b post]] eqn:Eline;
      cbn [length] in Hl; try lia.
    exists (10 :: 0 :: post). cbn [app proc_bytes]. split; [|reflexivity].
    rewrite proc_byte_no_sync1 by (try assumption; lia).
    rewrite set_ubx_pos_idle by assumption.
    rewrite (nmea_stage_end_of_line st [] a b post)
      by (try assumption; unfold LINE_BUFFER_SIZE; rewrite ?Eline;
          cbn [length]; lia).
    pose proof (Hstr post) as Hs. cbn [app] in *. rewrite Hs. reflexivity.
  - cbn [hd] in Hhd. inversion Hnl as [|? ? Hx Hrest]; subst.
    cbn [length] in Hlen.
    destruct (line st) as [|a0 tl] eqn:Eline; cbn [length] in Hl; try lia.
    assert (Hw : exists mid a b post,
               tl = mid ++ a :: b :: post /\ length mid = length rest).
    { exists (firstn (length rest) tl).
      pose proof (firstn_skipn (length rest) tl) as Hs.
      assert (Hk : (2 <= length (skipn (length rest) tl))%nat)
        by (rewrite length_skipn; lia).
      destruct (skipn (length rest) tl) as [|a [|b post]];
        cbn [length] in Hk; try lia.
      exists a, b, post. split; [now rewrite Hs|].
      rewrite length_firstn. lia. }
    destruct Hw as (mid & a & b & post & -> & Hmid).
    exists (x :: rest ++ 10 :: 0 :: post).
    split; [|cbn [length]; rewrite !length_app; cbn [length]; lia].
    set (st1 := set_line (x :: mid ++ a :: b :: post) 1 st).
    assert (E1 : proc_byte st x = Some (st1, [])).
    { rewrite proc_byte_no_sync1 by assumption.
      rewrite set_ubx_pos_idle by assumption.
      rewrite nmea_stage_append
        by (try assumption; unfold LINE_BUFFER_SIZE;
            rewrite ?Eline, ?Hlp; cbn [length]; lia).
      rewrite Eline, Hlp. reflexivity. }
    assert (E2 : proc_bytes st1 rest
                 = Some (set_line (([x] ++ rest) ++ a :: b :: post)
                           (Z.of_nat (length ([x] ++ rest))) st1, [])).
    { rewrite length_app in Hl. cbn [length] in Hl.
      apply (proc_bytes_line_run rest st1 [x] mid (a :: b :: post));
        unfold st1, LINE_BUFFER_SIZE; fields; try reflexivity;
        try assumption; cbn [length]; rewrite ?length_app; cbn [length];
        lia. }
    unfold st1 in E2. rewrite set_line_set_line in E2. fold st1 in E2.
    change ((x :: rest) ++ [10]) with (x :: rest ++ [10]).
    apply (proc_bytes_cons _ _ _ _ _ [] _ E1).
    apply (proc_bytes_app _ _ _ _ _ [] _ E2).
    cbn [proc_bytes].
    rewrite proc_byte_line_pending by (fields; cbn [app length]; lia).
    rewrite (nmea_stage_end_of_line _ ([x] ++ rest) a b post)
      by (unfold LINE_BUFFER_SIZE; fields; try reflexivity;
          rewrite <- ?app_assoc; cbn [app length]; rewrite ?length_app;
          cbn [length]; rewrite ?length_app in Hl; cbn [length] in Hl;
          lia).
    rewrite set_line_set_line.
    pose proof (Hstr post) as Hs. cbn [app] in *. rewrite Hs. reflexivity.
Qed.

Lemma wf_state_set_line (st : decoder_state) (l : list Z) :
  wf_state st -> length l = length (line st) -> wf_state (set_line l 0 st).
Proof.
  intros (Hl & Hu & Hp) Hlen. unfold wf_state, LINE_BUFFER_SIZE in *.
  fields. rewrite Hlen. repeat split; try assumption; lia.
Qed.

(** X4. A line of text followed by a line-feed, received while the
    demultiplexer is idle: when the text holds no line-feed and no NUL,
    does not start with the sync byte 0xB5 and leaves room for the
    line-feed and the terminator (at most 254 bytes), the text with its
    line-feed is handed to the NMEA collaborator exactly once, nothing
    else is handed over, and the demultiplexer is idle again. *)
Theorem nmea_line_delivered (st : decoder_state) (text : list Z) :
  wf_state st -> line_pos st = 0 -> ubx_pos st = 0 ->
  Z.of_nat (length text) <= LINE_BUFFER_SIZE - 2 ->
  Forall (fun x => x <> 10 /\ x <> 0) text ->
  hd 0 text <> 0xB5 ->
  exists st',
    proc_bytes st (text ++ [10])
    = Some (st', [NmeaDecodeString (text ++ [10])]) /\
    wf_state st' /\ line_pos st' = 0 /\ ubx_pos st' = 0 /\
    ubx st' = ubx st.
Proof.
  intros Hwf Hlp Hup Hlen Htext Hhd.
  destruct (proc_bytes_line st text Hwf Hlp Hup Hlen Htext Hhd)
    as (l & E & Hl).
  exists (set_line l 0 st). split; [exact E|].
  split; [now apply wf_state_set_line|].
  fields. repeat split; try reflexivity; assumption.
Qed.

Lemma nmea_line_delivered_witness :
  exists st',
    proc_bytes reset_decoder_state ([36; 71; 80] ++ [10])
    = Some (st', [NmeaDecodeString ([36; 71; 80] ++ [10])]) /\
    wf_state st' /\ line_pos st' = 0 /\ ubx_pos st' = 0 /\
    ubx st' = ubx reset_decoder_state.
Proof.
  apply (nmea_line_delivered reset_decoder_state [36; 71; 80]).
  - apply demux_inv_reset.
  - reflexivity.
  - reflexivity.
  - cbn [length]. unfold LINE_BUFFER_SIZE. lia.
  - repeat constructor; lia.
  - cbn [hd]. lia.
Defined.

Lemma proc_bytes_frame_idle (st : decoder_state) (c i : Z) (p : list Z) :
  wf_state st -> line_pos st = 0 -> ubx_pos st = 0 ->
  Z.of_nat (length p) <= UBX_BUFFER_SIZE ->
  exists st' u,
    proc_bytes st (ubx_frame c i p)
    = Some (st', [UbxDecode c i u (Z.of_nat (length p))]) /\
    firstn (length p) u = p /\
    wf_state st' /\ line_pos st' = 0 /\ ubx_pos st' = 0.
Proof.
  intros Hwf Hlp Hup Hlen. pose proof Hwf as (Hl & Hu & _).
  unfold UBX_BUFFER_SIZE in *.
  pose proof (proc_bytes_valid_frame st c i p Hlp Hup ltac:(lia) ltac:(lia))
    as E. cbv zeta in E.
  eexists; eexists. split; [exact E|].
  split; [|split; [|split; reflexivity]].
  - rewrite firstn_app, firstn_all, Nat.sub_diag. cbn [firstn].
    apply app_nil_r.
  - apply (wf_after_prefix st); try assumption.
    apply length_prefix_written. lia.
Qed.

(** X5. A stream made of NMEA lines and UBX frames in any order, received
    from the idle state: every line (no line-feed or NUL inside, not
    starting with 0xB5, at most 254 bytes) and every frame (payload of at
    most 2000 bytes) is handed over exactly once, in the order of the
    stream, a frame with its class, id, length and payload; nothing else
    is handed over and the demultiplexer ends idle. *)
Theorem interleaved_stream_delivered (items : list stream_item) :
  forall st : decoder_state,
    wf_state st -> line_pos st = 0 -> ubx_pos st = 0 ->
    Forall item_ok items ->
    exists st' evs,
      proc_bytes st (concat (map on_wire items)) = Some (st', evs) /\
      Forall2 delivered items evs /\
      wf_state st' /\ line_pos st' = 0 /\ ubx_pos st' = 0.
Proof.
  induction items as [|it items IH]; intros st Hwf Hlp Hup Hok.
  - exists st, []. cbn [map concat proc_bytes].
    repeat split; try assumption; try constructor; apply Hwf.
  - inversion Hok as [|? ? Hit Hrest]; subst.
    assert (Hone : exists s1 e,
               proc_bytes st (on_wire it) = Some (s1, [e]) /\
               delivered it e /\
               wf_state s1 /\ line_pos s1 = 0 /\ ubx_pos s1 = 0).
    { destruct it as [text|c i p]; cbn [on_wire item_ok delivered] in *.
      - destruct Hit as (Hlen & Htext & Hhd).
        destruct (proc_bytes_line st text Hwf Hlp Hup Hlen Htext Hhd)
          as (l & E & Hl).
        exists (set_line l 0 st), (NmeaDecodeString (text ++ [10])).
        split; [exact E|]. split; [reflexivity|].
        split; [now apply wf_state_set_line|].
        fields. split; [reflexivity | assumption].
      - destruct (proc_bytes_frame_idle st c i p Hwf Hlp Hup Hit)
          as (s1 & u & E & Hu & Hwf1 & Hlp1 & Hup1).
        exists s1, (UbxDecode c i u (Z.of_nat (length p))).
        split; [exact E|]. split; [now exists u|]. auto. }
    destruct Hone as (s1 & e & E1 & Hd & Hwf1 & Hlp1 & Hup1).
    destruct (IH s1 Hwf1 Hlp1 Hup1 Hrest)
      as (s2 & evs & E2 & Hds & Hwf2 & Hlp2 & Hup2).
    exists s2, ([e] ++ evs). cbn [map concat].
    split; [apply (proc_bytes_app _ _ _ _ _ _ _ E1 E2)|].
    split; [now constructor|]. auto.
Qed.

Lemma interleaved_stream_delivered_witness :
  exists st' evs,
    proc_bytes reset_decoder_state
      (concat (map on_wire [UbxFrame 1 7 [5]; NmeaLine [36; 71];
                            UbxFrame 5 1 [6; 1]]))
    = Some (st', evs) /\
    Forall2 delivered [UbxFrame 1 7 [5]; NmeaLine [36; 71];
                       UbxFrame 5 1 [6; 1]] evs /\
    wf_state st' /\ line_pos st' = 0 /\ ubx_pos st' = 0.
Proof.
  apply (interleaved_stream_delivered
           [UbxFrame 1 7 [5]; NmeaLine [36; 71]; UbxFrame 5 1 [6; 1]]
           reset_decoder_state).
  - apply demux_inv_reset.
  - reflexivity.
  - reflexivity.
  - repeat (apply Forall_cons || apply Forall_nil || split);
      unfold item_ok, UBX_BUFFER_SIZE, LINE_BUFFER_SIZE; simpl; lia.
Defined.

(** X1. Frame round trip: whatever [ubx_encode_send] hands to the
    transport for a class, an id and a payload of bytes that fits its
    2000-byte buffer ([len + 8 <= 2000]) is, when received by an idle
    demultiplexer, dispatched exactly once with the same class, id and
    length and with the payload at the start of the accumulation buffer;
    the demultiplexer is idle again. *)
Theorem encoded_frame_round_trip (ubx0 : list Z) (st : decoder_state)
    (class id : Z) (msg : list Z) (len : Z) :
  Z.of_nat (length ubx0) = UBX_BUFFER_SIZE ->
  is_byte class -> is_byte id ->
  0 <= len <= Z.of_nat (length msg) ->
  Forall is_byte (firstn (Z.to_nat len) msg) ->
  len + 8 <= UBX_BUFFER_SIZE ->
  wf_state st -> line_pos st = 0 -> ubx_pos st = 0 ->
  exists ubx1 sent st' u,
    ubx_encode_send ubx0 class id msg len = Some (ubx1, sent) /\
    proc_bytes st sent = Some (st', [UbxDecode class id u len]) /\
    firstn (Z.to_nat len) u = firstn (Z.to_nat len) msg /\
    wf_state st' /\ line_pos st' = 0 /\ ubx_pos st' = 0.
Proof.
  intros Hbuf Hc Hi Hlen Hbytes Hroom Hwf Hlp Hup.
  unfold UBX_BUFFER_SIZE in *.
  pose proof (ubx_encode_send_frame ubx0 class id msg len Hc Hi Hlen Hbytes
                ltac:(lia)) as Es. cbv zeta in Es.
  assert (Hp : Z.of_nat (length (firstn (Z.to_nat len) msg)) = len)
    by (rewrite length_firstn; lia).
  destruct (proc_bytes_frame_idle st class id (firstn (Z.to_nat len) msg)
              Hwf Hlp Hup ltac:(unfold UBX_BUFFER_SIZE; lia))
    as (st' & u & E & Hu & Hwf' & Hlp' & Hup').
  rewrite Hp in E.
  eexists; eexists; exists st', u. split; [exact Es|].
  split; [exact E|]. split; [|auto].
  assert (Hn : length (firstn (Z.to_nat len) msg) = Z.to_nat len)
    by (rewrite length_firstn; lia).
  rewrite Hn in Hu. exact Hu.
Qed.

Lemma encoded_frame_round_trip_witness :
  exists ubx1 sent st' u,
    ubx_encode_send send_buffer_init 6 1 [1; 7; 1; 1; 1; 1; 1; 1] 8
    = Some (ubx1, sent) /\
    proc_bytes reset_decoder_state sent
    = Some (st', [UbxDecode 6 1 u 8]) /\
    firstn (Z.to_nat 8) u = firstn (Z.to_nat 8) [1; 7; 1; 1; 1; 1; 1; 1] /\
    wf_state st' /\ line_pos st' = 0 /\ ubx_pos st' = 0.
Proof.
  apply (encoded_frame_round_trip send_buffer_init reset_decoder_state
           6 1 [1; 7; 1; 1; 1; 1; 1; 1] 8).
  - reflexivity.
  - unfold is_byte; lia.
  - unfold is_byte; lia.
  - cbn [length]; lia.
  - repeat constructor; unfold is_byte; lia.
  - unfold UBX_BUFFER_SIZE; lia.
  - apply demux_inv_reset.
  - reflexivity.
  - reflexivity.
Defined.

(* ------------------------------------------------------------------ *)
(** ** The checksum in closed form *)

Lemma zsum_cons (x : Z) (l : list Z) : zsum (x :: l) = x + zsum l.
Proof. reflexivity. Qed.

Lemma zsum_app (l1 l2 : list Z) : zsum (l1 ++ l2) = zsum l1 + zsum l2.
Proof.
  induction l1 as [|x l1 IH]; [reflexivity|].
  cbn [app]. rewrite !zsum_cons, IH. lia.
Qed.

Lemma wsum_cons (x : Z) (l : list Z) :
  wsum (x :: l) = (Z.of_nat (length l) + 1) * x + wsum l.
Proof. cbn [wsum length]. lia. Qed.

Lemma wsum_app (l1 l2 : list Z) :
  wsum (l1 ++ l2) = wsum l1 + Z.of_nat (length l2) * zsum l1 + wsum l2.
Proof.
  induction l1 as [|x l1 IH]; [cbn [app wsum zsum fold_right]; lia|].
  cbn [app]. rewrite !wsum_cons, zsum_cons, IH, length_app. lia.
Qed.

Lemma fold_ck_closed (l : list Z) :
  forall a b,
    fold_left ck_step l (a mod 256, b mod 256)
    = ((a + zsum l) mod 256,
       (b + Z.of_nat (length l) * a + wsum l) mod 256).
Proof.
  induction l as [|x l IH]; intros a b.
  - cbn [fold_left zsum fold_right wsum length]. do 2 f_equal; lia.
  - cbn [fold_left]. unfold ck_step at 2. cbn [fst snd]. unfold to_u8.
    rewrite (Zplus_mod_idemp_l a x 256).
    rewrite (Zplus_mod_idemp_l b ((a + x) mod 256) 256).
    rewrite (Zplus_mod_idemp_r (a + x) b 256).
    rewrite IH, zsum_cons, wsum_cons. cbn [length].
    f_equal; f_equal; lia.
Qed.

(** X6. The two checksum bytes in closed form: over any byte sequence,
    [ck_a] is the sum of the bytes modulo 256 and [ck_b] the
    position-weighted sum modulo 256 (the first byte weighted by the
    length of the sequence, the last by one). *)
Theorem ubx_checksum_closed_form (l : list Z) :
  ubx_checksum l = (zsum l mod 256, wsum l mod 256).
Proof.
  unfold ubx_checksum.
  change (0, 0) with (0 mod 256, 0 mod 256).
  rewrite fold_ck_closed. f_equal; f_equal; lia.
Qed.

Lemma mod_256_moved (s d : Z) :
  -256 < d < 256 -> d <> 0 -> (s + d) mod 256 <> s mod 256.
Proof.
  intros Hd Hnz E.
  pose proof (Z.div_mod (s + d) 256). pose proof (Z.div_mod s 256). lia.
Qed.

Lemma ubx_checksum_pair (l : list Z) :
  fst (ubx_checksum l) = zsum l mod 256 /\
  snd (ubx_checksum l) = wsum l mod 256.
Proof.
  unfold ubx_checksum.
  change (0, 0) with (0 mod 256, 0 mod 256).
  rewrite fold_ck_closed. cbn [fst snd]. split; f_equal; lia.
Qed.

Lemma same_shape_length {A} (pre post : list A) (x x' : A) :
  length (pre ++ x' :: post) = length (pre ++ x :: post).
Proof. now rewrite !length_app. Qed.

(** X7. A frame in which one byte of the class, the id or the payload was
    replaced by a different byte value, with the length and checksum
    bytes left as the encoder wrote them, is never dispatched: the
    running sum [ck_a] no longer matches. *)
Theorem byte_substitution_not_dispatched (st : decoder_state)
    (c i : Z) (p : list Z) (c' i' : Z) (p' : list Z)
    (pre : list Z) (x x' : Z) (post : list Z) :
  wf_state st -> line_pos st = 0 -> ubx_pos st = 0 ->
  Z.of_nat (length p) <= UBX_BUFFER_SIZE ->
  c :: i :: p = pre ++ x :: post ->
  c' :: i' :: p' = pre ++ x' :: post ->
  is_byte x -> is_byte x' -> x <> x' ->
  exists st' evs,
    proc_bytes st
      (0xB5 :: 0x62 :: c' :: i'
         :: Z.land (Z.of_nat (length p)) 0xFF
         :: Z.land (Z.shiftr (Z.of_nat (length p)) 8) 0xFF
         :: p' ++ [fst (ubx_checksum (ubx_body c i p));
                   snd (ubx_checksum (ubx_body c i p))])
    = Some (st', evs) /\
    dispatched evs = [].
Proof.
  intros Hwf Hlp Hup Hlen Hold Hnew Hx Hx' Hne.
  unfold UBX_BUFFER_SIZE, is_byte, ubx_body in *.
  assert (Hsame : length p' = length p).
  { pose proof (same_shape_length pre post x x') as Hs.
    rewrite <- Hold, <- Hnew in Hs. cbn [length] in Hs. lia. }
  set (lo := Z.land (Z.of_nat (length p)) 255).
  set (hi := Z.land (Z.shiftr (Z.of_nat (length p)) 8) 255).
  apply bad_checksum_no_dispatch; try assumption.
  - rewrite Hsame. apply length_bytes_reassemble. lia.
  - unfold UBX_BUFFER_SIZE. lia.
  - left.
    rewrite (proj1 (ubx_checksum_pair (c :: i :: lo :: hi :: p))).
    rewrite (proj1 (ubx_checksum_pair (c' :: i' :: lo :: hi :: p'))).
    assert (Es : zsum (c :: i :: lo :: hi :: p)
                 = zsum (c' :: i' :: lo :: hi :: p') + (x - x')).
    { assert (E1 : zsum (c :: i :: p) = zsum pre + x + zsum post)
        by (rewrite Hold, zsum_app, zsum_cons; lia).
      assert (E2 : zsum (c' :: i' :: p') = zsum pre + x' + zsum post)
        by (rewrite Hnew, zsum_app, zsum_cons; lia).
      rewrite !zsum_cons in *. lia. }
    rewrite Es. apply mod_256_moved; lia.
Qed.

Lemma byte_substitution_not_dispatched_witness :
  exists st' evs,
    proc_bytes reset_decoder_state
      (0xB5 :: 0x62 :: 6 :: 1
         :: Z.land (Z.of_nat (length [1; 7; 1])) 0xFF
         :: Z.land (Z.shiftr (Z.of_nat (length [1; 7; 1])) 8) 0xFF
         :: [1; 200; 1] ++ [fst (ubx_checksum (ubx_body 6 1 [1; 7; 1]));
                            snd (ubx_checksum (ubx_body 6 1 [1; 7; 1]))])
    = Some (st', evs) /\
    dispatched evs = [].
Proof.
  apply (byte_substitution_not_dispatched reset_decoder_state
           6 1 [1; 7; 1] 6 1 [1; 200; 1] [6; 1; 1] 7 200 [1]).
  - apply demux_inv_reset.
  - reflexivity.
  - reflexivity.
  - unfold UBX_BUFFER_SIZE. simpl. lia.
  - reflexivity.
  - reflexivity.
  - unfold is_byte. lia.
  - unfold is_byte. lia.
  - lia.
Defined.

(** X8. A frame in which two adjacent payload bytes of different value
    were exchanged, everything else left as the encoder wrote it, is
    never dispatched: the sum [ck_a] still matches, the position-weighted
    sum [ck_b] does not. *)
Theorem adjacent_swap_not_dispatched (st : decoder_state) (c i : Z)
    (pre : list Z) (x y : Z) (post : list Z) :
  wf_state st -> line_pos st = 0 -> ubx_pos st = 0 ->
  Z.of_nat (length (pre ++ x :: y :: post)) <= UBX_BUFFER_SIZE ->
  is_byte x -> is_byte y -> x <> y ->
  let p := pre ++ x :: y :: post in
  let p' := pre ++ y :: x :: post in
  fst (ubx_checksum (ubx_body c i p')) = fst (ubx_checksum (ubx_body c i p))
  /\
  exists st' evs,
    proc_bytes st
      (0xB5 :: 0x62 :: c :: i
         :: Z.land (Z.of_nat (length p)) 0xFF
         :: Z.land (Z.shiftr (Z.of_nat (length p)) 8) 0xFF
         :: p' ++ [fst (ubx_checksum (ubx_body c i p));
                   snd (ubx_checksum (ubx_body c i p))])
    = Some (st', evs) /\
    dispatched evs = [].
Proof.
  intros Hwf Hlp Hup Hlen Hx Hy Hne p p'.
  unfold UBX_BUFFER_SIZE, is_byte in *.
  assert (Hsame : length p' = length p)
    by (unfold p, p'; rewrite !length_app; reflexivity).
  assert (Hlen' : Z.of_nat (length p) <= 2000) by exact Hlen.
  assert (Hbody : ubx_body c i p'
                  = c :: i :: Z.land (Z.of_nat (length p)) 255
                      :: Z.land (Z.shiftr (Z.of_nat (length p)) 8) 255 :: p')
    by (unfold ubx_body; now rewrite Hsame).
  unfold ubx_body in *.
  set (lo := Z.land (Z.of_nat (length p)) 255) in *.
  set (hi := Z.land (Z.shiftr (Z.of_nat (length p)) 8) 255) in *.
  assert (Hz : zsum (c :: i :: lo :: hi :: p')
               = zsum (c :: i :: lo :: hi :: p)).
  { unfold p, p'. rewrite !zsum_cons, !zsum_app, !zsum_cons. lia. }
  assert (Hw : wsum (c :: i :: lo :: hi :: p)
               = wsum (c :: i :: lo :: hi :: p') + (x - y)).
  { change (c :: i :: lo :: hi :: p) with ([c; i; lo; hi] ++ p).
    change (c :: i :: lo :: hi :: p') with ([c; i; lo; hi] ++ p').
    rewrite !(wsum_app [c; i; lo; hi]), Hsame.
    unfold p, p'. rewrite !wsum_app, !wsum_cons. cbn [length].
    rewrite !Nat2Z.inj_succ. ring. }
  split.
  - rewrite Hbody.
    rewrite (proj1 (ubx_checksum_pair (c :: i :: lo :: hi :: p'))).
    rewrite (proj1 (ubx_checksum_pair (c :: i :: lo :: hi :: p))).
    now rewrite Hz.
  - apply bad_checksum_no_dispatch; try assumption.
    + rewrite Hsame. apply length_bytes_reassemble. lia.
    + unfold UBX_BUFFER_SIZE. lia.
    + right.
      rewrite (proj2 (ubx_checksum_pair (c :: i :: lo :: hi :: p))).
      rewrite (proj2 (ubx_checksum_pair (c :: i :: lo :: hi :: p'))).
      rewrite Hw. apply mod_256_moved; lia.
Qed.

Lemma adjacent_swap_not_dispatched_witness :
  fst (ubx_checksum (ubx_body 6 1 ([1] ++ 9 :: 7 :: [1])))
  = fst (ubx_checksum (ubx_body 6 1 ([1] ++ 7 :: 9 :: [1])))
  /\
  exists st' evs,
    proc_bytes reset_decoder_state
      (0xB5 :: 0x62 :: 6 :: 1
         :: Z.land (Z.of_nat (length ([1] ++ 7 :: 9 :: [1]))) 0xFF
         :: Z.land (Z.shiftr (Z.of_nat (length ([1] ++ 7 :: 9 :: [1]))) 8)
                   0xFF
         :: ([1] ++ 9 :: 7 :: [1])
            ++ [fst (ubx_checksum (ubx_body 6 1 ([1] ++ 7 :: 9 :: [1])));
                snd (ubx_checksum (ubx_body 6 1 ([1] ++ 7 :: 9 :: [1])))])
    = Some (st', evs) /\
    dispatched evs = [].
Proof.
  apply (adjacent_swap_not_dispatched reset_decoder_state 6 1 [1] 7 9 [1]).
  - apply demux_inv_reset.
  - reflexivity.
  - reflexivity.
  - unfold UBX_BUFFER_SIZE. simpl. lia.
  - unfold is_byte. lia.
  - unfold is_byte. lia.
  - lia.
Defined.

(* ------------------------------------------------------------------ *)
(** ** Field sequences and the frames of the builders *)

Lemma writes_eq (m : Codec unit) (bs bs' : list Z) :
  writes m bs -> bs = bs' -> writes m bs'.
Proof. now intros H <-. Qed.

Lemma writes_emit (v : Z) : writes (emit v) [v mod 256].
Proof.
  intros pre mid post Hmid.
  destruct mid as [|x [|]]; try discriminate.
  apply emit_window.
Qed.

Lemma writes_seq (m1 m2 : Codec unit) (b1 b2 : list Z) :
  writes m1 b1 -> writes m2 b2 -> writes (m1 ;;; m2) (b1 ++ b2).
Proof.
  intros H1 H2 pre mid post Hmid. rewrite length_app in Hmid.
  pose proof (firstn_skipn (length b1) mid) as Hs.
  assert (L1 : length (firstn (length b1) mid) = length b1)
    by (rewrite length_firstn; lia).
  assert (L2 : length (skipn (length b1) mid) = length b2)
    by (rewrite length_skipn; lia).
  rewrite <- Hs, <- app_assoc. unfold bind.
  rewrite (H1 pre _ _ L1).
  replace (Z.of_nat (length pre) + Z.of_nat (length b1))
    with (Z.of_nat (length (pre ++ b1))) by (rewrite length_app; lia).
  rewrite (app_assoc pre b1).
  rewrite (H2 (pre ++ b1) _ _ L2).
  rewrite <- !app_assoc, !length_app. do 3 f_equal. lia.
Qed.

Lemma length_le_bytes (n : nat) : forall v, length (le_bytes n v) = n.
Proof. induction n as [|n IH]; intros v; cbn [le_bytes length]; auto. Qed.

Lemma Forall_le_bytes (n : nat) : forall v, Forall is_byte (le_bytes n v).
Proof.
  induction n as [|n IH]; intros v; cbn [le_bytes]; constructor;
    [apply mod_byte | apply IH].
Qed.

(** The little-endian bytes only depend on the value modulo [256 ^ n]. *)
Lemma le_bytes_shift (n : nat) :
  forall v k, le_bytes n (v + 256 ^ Z.of_nat n * k) = le_bytes n v.
Proof.
  induction n as [|n IH]; intros v k; [reflexivity|].
  cbn [le_bytes]. rewrite Nat2Z.inj_succ, Z.pow_succ_r by lia.
  replace (v + 256 * 256 ^ Z.of_nat n * k)
    with (v + (256 ^ Z.of_nat n * k) * 256) by lia.
  rewrite Z_mod_plus_full, Z_div_plus_full by lia.
  now rewrite IH.
Qed.

Lemma le_bytes_mod (n : nat) (v m : Z) :
  m = 256 ^ Z.of_nat n -> le_bytes n (v mod m) = le_bytes n v.
Proof.
  intros ->.
  assert (Hp : 0 < 256 ^ Z.of_nat n) by (apply Z.pow_pos_nonneg; lia).
  rewrite (Z.mod_eq v) by lia.
  replace (v - 256 ^ Z.of_nat n * (v / 256 ^ Z.of_nat n))
    with (v + 256 ^ Z.of_nat n * - (v / 256 ^ Z.of_nat n)) by lia.
  apply le_bytes_shift.
Qed.

Lemma le_bytes_signed (n : nat) (v m h : Z) :
  m = 256 ^ Z.of_nat n -> le_bytes n ((v + h) mod m - h) = le_bytes n v.
Proof.
  intros ->.
  assert (Hp : 0 < 256 ^ Z.of_nat n) by (apply Z.pow_pos_nonneg; lia).
  rewrite (Z.mod_eq (v + h)) by lia.
  replace (v + h - 256 ^ Z.of_nat n * ((v + h) / 256 ^ Z.of_nat n) - h)
    with (v + 256 ^ Z.of_nat n * - ((v + h) / 256 ^ Z.of_nat n)) by lia.
  apply le_bytes_shift.
Qed.

Lemma writes_put16 (d : Z) : writes (put16 d) (le_bytes 2 d).
Proof.
  unfold put16. eapply writes_eq.
  - apply writes_seq; apply writes_emit.
  - cbn [le_bytes app]. now destruct (shiftr_bytes d) as (-> & _).
Qed.

Lemma writes_put32 (d : Z) : writes (put32 d) (le_bytes 4 d).
Proof.
  unfold put32. eapply writes_eq.
  - repeat (apply writes_seq; [apply writes_emit|]). apply writes_emit.
  - cbn [le_bytes app]. now destruct (shiftr_bytes d) as (-> & -> & ->).
Qed.

(** Every putter writes the little-endian bytes of its argument, whatever
    the argument: the conversion to the parameter type keeps them. *)
Lemma writes_put (T : ubx_type) (v : Z) :
  writes (ubx_put T v) (le_bytes (Z.to_nat (sizeof T)) v).
Proof.
  destruct T; cbn [ubx_put sizeof];
    change (Z.to_nat 1) with 1%nat; change (Z.to_nat 2) with 2%nat;
    change (Z.to_nat 4) with 4%nat;
    unfold ubx_put_U1, ubx_put_I1, ubx_put_X1, ubx_put_U2, ubx_put_I2,
      ubx_put_X2, ubx_put_U4, ubx_put_I4, ubx_put_X4,
      to_u8, to_i8, to_u16, to_i16, to_u32, to_i32.
  - eapply writes_eq; [apply writes_emit|].
    change [v mod 256 mod 256] with (le_bytes 1 (v mod 256)).
    now apply le_bytes_mod.
  - eapply writes_eq; [apply writes_emit|].
    change [((v + 128) mod 256 - 128) mod 256]
      with (le_bytes 1 ((v + 128) mod 256 - 128)).
    now apply le_bytes_signed.
  - eapply writes_eq; [apply writes_emit|].
    change [v mod 256 mod 256] with (le_bytes 1 (v mod 256)).
    now apply le_bytes_mod.
  - eapply writes_eq; [apply writes_put16 | now apply le_bytes_mod].
  - eapply writes_eq; [apply writes_put16 | now apply le_bytes_signed].
  - eapply writes_eq; [apply writes_put16 | now apply le_bytes_mod].
  - eapply writes_eq; [apply writes_put32 | now apply le_bytes_mod].
  - eapply writes_eq; [apply writes_put32 | now apply le_bytes_signed].
  - eapply writes_eq; [apply writes_put32 | now apply le_bytes_mod].
Qed.

Lemma writes_U1 (v : Z) : writes (ubx_put_U1 v) [v mod 256].
Proof. apply (writes_put U1). Qed.
Lemma writes_I1 (v : Z) : writes (ubx_put_I1 v) [v mod 256].
Proof. apply (writes_put I1). Qed.
Lemma writes_X1 (v : Z) : writes (ubx_put_X1 v) [v mod 256].
Proof. apply (writes_put X1). Qed.
Lemma writes_U2 (v : Z) : writes (ubx_put_U2 v) (le_bytes 2 v).
Proof. apply (writes_put U2). Qed.
Lemma writes_I2 (v : Z) : writes (ubx_put_I2 v) (le_bytes 2 v).
Proof. apply (writes_put I2). Qed.
Lemma writes_X2 (v : Z) : writes (ubx_put_X2 v) (le_bytes 2 v).
Proof. apply (writes_put X2). Qed.
Lemma writes_U4 (v : Z) : writes (ubx_put_U4 v) (le_bytes 4 v).
Proof. apply (writes_put U4). Qed.
Lemma writes_I4 (v : Z) : writes (ubx_put_I4 v) (le_bytes 4 v).
Proof. apply (writes_put I4). Qed.
Lemma writes_X4 (v : Z) : writes (ubx_put_X4 v) (le_bytes 4 v).
Proof. apply (writes_put X4). Qed.

Ltac writes_field :=
  first [ apply writes_U1 | apply writes_I1 | apply writes_X1
        | apply writes_U2 | apply writes_I2 | apply writes_X2
        | apply writes_U4 | apply writes_I4 | apply writes_X4 ].

Ltac writes_fields :=
  repeat (eapply writes_seq; [writes_field|]); try writes_field.

Section BuilderFacts.
Context {H : ublox_h} {F : c_floating} {R : rtos_wait}.

(** A builder whose field sequence writes [bs] hands the transport the
    frame with payload [bs]. *)
Lemma send_and_await_frame (ubx : list Z) (class id size : Z)
    (payload : Codec unit) (bs : list Z) :
  writes payload bs -> Forall is_byte bs ->
  Z.of_nat (length bs) <= size ->
  is_byte class -> is_byte id ->
  Z.of_nat (length bs) + 8 <= Z.of_nat (length ubx) ->
  send_and_await ubx class id size payload
  = Some (ubx_frame class id bs
            ++ skipn (Z.to_nat (Z.of_nat (length bs) + 8)) ubx,
          [ubx_frame class id bs], wait_ack_nak CFG_ACK_WAIT_MS).
Proof.
  intros Hw Hbytes Hsize Hc Hi Hroom. unfold send_and_await.
  replace (repeat 0 (Z.to_nat size))
    with ([] ++ repeat 0 (length bs)
             ++ repeat 0 (Z.to_nat size - length bs))
    by (cbn [app]; rewrite <- repeat_app; f_equal; lia).
  change 0 with (Z.of_nat (length (@nil Z))) at 3.
  rewrite (Hw [] _ _ (repeat_length 0 (length bs))).
  cbn [app buf ind length]. rewrite Z.add_0_l.
  pose proof (ubx_encode_send_frame ubx class id
                (bs ++ repeat 0 (Z.to_nat size - length bs))
                (Z.of_nat (length bs)) Hc Hi) as E.
  cbv zeta in E. rewrite Nat2Z.id, firstn_app, firstn_all, Nat.sub_diag in E.
  cbn [firstn] in E. rewrite app_nil_r in E.
  rewrite E; [reflexivity | rewrite length_app; lia | assumption | lia].
Qed.

(** X9. A poll request ([ublox_poll]) is the eight-byte frame
    [B5 62 class id 00 00 ck_a ck_b] with [ck_a = (class + id) mod 256] and
    [ck_b = (4 * class + 3 * id) mod 256]; the rest of the send buffer is
    left alone. *)
Theorem ublox_poll_frame (ubx : list Z) (msg_class id : Z) :
  is_byte msg_class -> is_byte id -> 8 <= Z.of_nat (length ubx) ->
  let frame := [0xB5; 0x62; msg_class; id; 0; 0;
                (msg_class + id) mod 256; (4 * msg_class + 3 * id) mod 256] in
  ublox_poll ubx msg_class id = Some (frame ++ skipn 8 ubx, frame).
Proof.
  intros Hc Hi Hroom frame. unfold ublox_poll.
  rewrite (ubx_encode_send_frame ubx msg_class id [] 0 Hc Hi);
    [|cbn [length]; lia | constructor | lia].
  cbn [firstn Z.to_nat]. unfold ubx_frame, ubx_body. cbn [length].
  change (Z.land (Z.of_nat 0) 255) with 0.
  change (Z.land (Z.shiftr (Z.of_nat 0) 8) 255) with 0.
  destruct (ubx_checksum_pair [msg_class; id; 0; 0]) as (-> & ->).
  cbn [zsum fold_right wsum length app].
  replace (msg_class + (id + (0 + (0 + 0)))) with (msg_class + id) by lia.
  replace (Z.of_nat 4 * msg_class
           + (Z.of_nat 3 * id + (Z.of_nat 2 * 0 + (Z.of_nat 1 * 0 + 0))))
    with (4 * msg_class + 3 * id) by lia.
  reflexivity.
Qed.

Lemma ublox_poll_frame_witness :
  ublox_poll send_buffer_init 1 0x35
  = Some ([0xB5; 0x62; 1; 0x35; 0; 0; (1 + 0x35) mod 256;
           (4 * 1 + 3 * 0x35) mod 256] ++ skipn 8 send_buffer_init,
          [0xB5; 0x62; 1; 0x35; 0; 0; (1 + 0x35) mod 256;
           (4 * 1 + 3 * 0x35) mod 256]).
Proof.
  apply (ublox_poll_frame send_buffer_init 1 0x35).
  - unfold is_byte; lia.
  - unfold is_byte; lia.
  - unfold send_buffer_init, UBX_BUFFER_SIZE. rewrite repeat_length. lia.
Defined.

(** X10. The message-rate request ([ublox_cfg_msg]) sends one frame of
    class CFG, id MSG whose eight payload bytes are the message class,
    the message id and the rate repeated for the six ports; it returns
    the outcome of the wait (100 ms) for the acknowledgement. *)
Theorem ublox_cfg_msg_frame (ubx : list Z) (msg_class id rate : Z) :
  is_byte UBX_CLASS_CFG -> is_byte UBX_CFG_MSG ->
  is_byte msg_class -> is_byte id -> is_byte rate ->
  16 <= Z.of_nat (length ubx) ->
  let frame := ubx_frame UBX_CLASS_CFG UBX_CFG_MSG
                 [msg_class; id; rate; rate; rate; rate; rate; rate] in
  ublox_cfg_msg ubx msg_class id rate
  = Some (frame ++ skipn 16 ubx, [frame], wait_ack_nak 100).
Proof.
  intros Hcls Hid Hc Hi Hr Hroom frame. unfold ublox_cfg_msg.
  assert (Hw : writes
    (ubx_put_U1 msg_class ;;; ubx_put_U1 id ;;;
     ubx_put_U1 rate ;;; ubx_put_U1 rate ;;; ubx_put_U1 rate ;;;
     ubx_put_U1 rate ;;; ubx_put_U1 rate ;;; ubx_put_U1 rate)
    [msg_class; id; rate; rate; rate; rate; rate; rate]).
  { eapply writes_eq; [writes_fields|].
    cbn [app]. unfold is_byte in *. now rewrite !Z.mod_small by lia. }
  rewrite (send_and_await_frame _ _ _ _ _ _ Hw);
    try assumption; try (cbn [length]; lia); [reflexivity|].
  repeat (apply Forall_cons; [assumption|]). apply Forall_nil.
Qed.

(** X11. The rate request ([ublox_cfg_rate]), whatever its three arguments,
    sends one frame of class CFG, id RATE whose six payload bytes are
    the measurement rate, the navigation rate and the time reference,
    each as two little-endian bytes of the value modulo 65536. *)
Theorem ublox_cfg_rate_frame (ubx : list Z)
    (meas_rate_ms nav_rate_ms time_ref : Z) :
  is_byte UBX_CLASS_CFG -> is_byte UBX_CFG_RATE ->
  14 <= Z.of_nat (length ubx) ->
  let frame := ubx_frame UBX_CLASS_CFG UBX_CFG_RATE
                 (le_bytes 2 meas_rate_ms ++ le_bytes 2 nav_rate_ms
                  ++ le_bytes 2 time_ref) in
  ublox_cfg_rate ubx meas_rate_ms nav_rate_ms time_ref
  = Some (frame ++ skipn 14 ubx, [frame], wait_ack_nak 100).
Proof.
  intros Hcls Hid Hroom frame. unfold ublox_cfg_rate.
  assert (Hw : writes
    (ubx_put_U2 meas_rate_ms ;;; ubx_put_U2 nav_rate_ms ;;;
     ubx_put_U2 time_ref)
    (le_bytes 2 meas_rate_ms ++ le_bytes 2 nav_rate_ms
     ++ le_bytes 2 time_ref)) by writes_fields.
  rewrite (send_and_await_frame _ _ _ _ _ _ Hw);
    try assumption; try (cbn [length le_bytes app]; lia); [reflexivity|].
  repeat (apply Forall_app; split); apply Forall_le_bytes.
Qed.

End BuilderFacts.

Lemma ublox_cfg_msg_frame_witness :
  ublox_cfg_msg send_buffer_init 0xF0 0x00 1
  = Some (ubx_frame UBX_CLASS_CFG UBX_CFG_MSG [0xF0; 0x00; 1; 1; 1; 1; 1; 1]
            ++ skipn 16 send_buffer_init,
          [ubx_frame UBX_CLASS_CFG UBX_CFG_MSG
             [0xF0; 0x00; 1; 1; 1; 1; 1; 1]],
          wait_ack_nak 100).
Proof.
  apply (ublox_cfg_msg_frame send_buffer_init 0xF0 0x00 1);
    try (unfold is_byte; cbn; lia).
  all: unfold send_buffer_init, UBX_BUFFER_SIZE; rewrite repeat_length; lia.
Defined.

Lemma ublox_cfg_rate_frame_witness :
  ublox_cfg_rate send_buffer_init 1000 1 0
  = Some (ubx_frame UBX_CLASS_CFG UBX_CFG_RATE
            (le_bytes 2 1000 ++ le_bytes 2 1 ++ le_bytes 2 0)
            ++ skipn 14 send_buffer_init,
          [ubx_frame UBX_CLASS_CFG UBX_CFG_RATE
             (le_bytes 2 1000 ++ le_bytes 2 1 ++ le_bytes 2 0)],
          wait_ack_nak 100).
Proof.
  apply (ublox_cfg_rate_frame send_buffer_init 1000 1 0);
    try (unfold is_byte; cbn; lia).
  all: unfold send_buffer_init, UBX_BUFFER_SIZE; rewrite repeat_length; lia.
Defined.

(* ------------------------------------------------------------------ *)
(** ** The GNSS table: decoder and round trip *)

Lemma reads_ret {A} (a : A) : reads (ret a) [] a.
Proof.
  intros pre post. unfold ret. cbn [length]. now rewrite Z.add_0_r.
Qed.

Lemma reads_bind {A B} (m : Codec A) (k : A -> Codec B) (b1 b2 : list Z)
    (a : A) (r : B) :
  reads m b1 a -> reads (k a) b2 r -> reads (bind m k) (b1 ++ b2) r.
Proof.
  intros H1 H2 pre post. unfold bind.
  rewrite <- app_assoc. rewrite (H1 pre (b2 ++ post)).
  replace (Z.of_nat (length pre) + Z.of_nat (length b1))
    with (Z.of_nat (length (pre ++ b1))) by (rewrite length_app; lia).
  rewrite (app_assoc pre b1). rewrite (H2 (pre ++ b1) post).
  rewrite !length_app. do 3 f_equal. lia.
Qed.

Lemma reads_eq {A} (m : Codec A) (bs bs' : list Z) (a a' : A) :
  reads m bs a -> bs = bs' -> a = a' -> reads m bs' a'.
Proof. now intros H <- <-. Qed.

Lemma reads_next_byte (b : Z) : reads next_byte [b] b.
Proof. intros pre post. apply get8_window. Qed.

Lemma reads_U1 (b : Z) : reads ubx_get_U1 [b] b.
Proof. apply reads_next_byte. Qed.

Lemma reads_X4 (d : Z) : reads ubx_get_X4 (le_bytes 4 d) (d mod 4294967296).
Proof.
  intros pre post. unfold ubx_get_X4, bind. cbn [le_bytes].
  pose proof (le32_window pre post d) as E. cbv zeta in E.
  rewrite E. unfold skip, ret, to_u32. cbn [buf ind length].
  rewrite Z.mod_mod by lia. reflexivity.
Qed.

Lemma reads_U4 (d : Z) : reads ubx_get_U4 (le_bytes 4 d) (d mod 4294967296).
Proof. apply reads_X4. Qed.

Lemma reads_U2 (d : Z) : reads ubx_get_U2 (le_bytes 2 d) (d mod 65536).
Proof.
  intros pre post. unfold ubx_get_U2, bind. cbn [le_bytes].
  rewrite (le16_window pre post d). unfold skip, ret, to_u16.
  cbn [buf ind length]. rewrite Z.mod_mod by lia. reflexivity.
Qed.

Lemma land_1 (z : Z) : Z.land z 1 = z mod 2.
Proof. change (Z.land z 1) with (Z.land z (Z.ones 1)). now rewrite Z.land_ones. Qed.

Lemma gnss_flags_word (e : bool) (f : Z) :
  is_byte f ->
  let w := Z.lor (to_u32 (if e then 1 else 0)) (Z.shiftl f 16) in
  w mod 4294967296 = w /\
  negb (Z.land w 1 =? 0) = e /\
  Z.land (Z.shiftr w 16) 0xFF = f.
Proof.
  intros Hf w. unfold is_byte in Hf.
  assert (Hw : w = f * 65536 + (if e then 1 else 0)).
  { unfold w. rewrite Z.lor_comm. unfold to_u32.
    rewrite Z.mod_small by (destruct e; lia).
    rewrite lor_shiftl_low by (destruct e; simpl; lia). reflexivity. }
  rewrite Hw. split; [|split].
  - apply Z.mod_small. destruct e; lia.
  - rewrite land_1.
    replace (f * 65536 + (if e then 1 else 0))
      with ((if e then 1 else 0) + (f * 32768) * 2) by lia.
    rewrite Z_mod_plus_full. now destruct e.
  - rewrite Z.shiftr_div_pow2 by lia. change (2 ^ 16) with 65536.
    rewrite land_255.
    replace (f * 65536 + (if e then 1 else 0))
      with ((if e then 1 else 0) + f * 65536) by lia.
    rewrite Z_div_plus_full by lia.
    rewrite (Z.div_small (if e then 1 else 0)) by (destruct e; lia).
    apply Z.mod_small. lia.
Qed.

Lemma reads_cfg_gnss_block (b : ubx_cfg_gnss_block) :
  gnss_block_ok b -> reads cfg_gnss_block_fields (gnss_block_bytes b) b.
Proof.
  intros (Hg & Hmn & Hmx & Hf).
  destruct (gnss_flags_word (en b) (blk_flags b) Hf) as (Hw & He & Hfl).
  unfold cfg_gnss_block_fields, gnss_block_bytes.
  unfold is_byte in *.
  rewrite !Z.mod_small by lia.
  eapply reads_eq.
  - do 4 (eapply reads_bind; [apply reads_U1|]).
    eapply reads_bind; [apply reads_X4 | apply reads_ret].
  - cbn [app]. rewrite app_nil_r. reflexivity.
  - rewrite Hw, He, Hfl. now destruct b.
Qed.

Lemma writes_gnss_block (b : ubx_cfg_gnss_block) :
  writes (ubx_put_U1 (blk_gnss_id b) ;;; ubx_put_U1 (minTrkCh b) ;;;
          ubx_put_U1 (maxTrkCh b) ;;; ubx_put_U1 0 ;;;
          ubx_put_X4 (Z.lor (to_u32 (if en b then 1 else 0))
                            (Z.shiftl (blk_flags b) 16)))
         (gnss_block_bytes b).
Proof. eapply writes_eq; [writes_fields | reflexivity]. Qed.

Lemma writes_assoc (m1 m2 m3 : Codec unit) (bs : list Z) :
  writes (m1 ;;; (m2 ;;; m3)) bs -> writes ((m1 ;;; m2) ;;; m3) bs.
Proof.
  intros Hw pre mid post Hmid. rewrite <- (Hw pre mid post Hmid).
  unfold bind. destruct (m1 _) as [[[] c1]|]; reflexivity.
Qed.

Lemma load_some_nth {A} (a : list A) (i : Z) (d : A) :
  0 <= i < Z.of_nat (length a) -> load a i = Some (nth (Z.to_nat i) a d).
Proof.
  intros Hi. unfold load. rewrite in_bounds_true by assumption.
  apply nth_error_nth'. lia.
Qed.

(** The block loop of the builder writes the wire images of the blocks
    it walks over. *)
Lemma writes_gnss_blocks_loop (src : list ubx_cfg_gnss_block) :
  forall (pre : list ubx_cfg_gnss_block) (post : list ubx_cfg_gnss_block),
    writes (gnss_blocks_loop (length src) (Z.of_nat (length pre))
              (pre ++ src ++ post))
           (concat (map gnss_block_bytes src)).
Proof.
  induction src as [|b src IH]; intros pre post.
  - cbn [length gnss_blocks_loop map concat].
    intros p mid q Hmid. destruct mid; [|discriminate].
    unfold ret. cbn [app length]. now rewrite Z.add_0_r.
  - cbn [length gnss_blocks_loop map concat].
    assert (Hload : load (pre ++ (b :: src) ++ post) (Z.of_nat (length pre))
                    = Some b).
    { unfold load. rewrite in_bounds_true
        by (rewrite !length_app; cbn [length]; lia).
      rewrite Nat2Z.id, nth_error_app2, Nat.sub_diag by lia. reflexivity. }
    rewrite Hload.
    assert (Hrest : writes
              (gnss_blocks_loop (length src) (Z.of_nat (length pre) + 1)
                 (pre ++ (b :: src) ++ post))
              (concat (map gnss_block_bytes src))).
    { replace (Z.of_nat (length pre) + 1)
        with (Z.of_nat (length (pre ++ [b])))
        by (rewrite length_app; cbn [length]; lia).
      replace (pre ++ (b :: src) ++ post) with ((pre ++ [b]) ++ src ++ post)
        by (rewrite <- app_assoc; reflexivity).
      apply IH. }
    pose proof (writes_seq _ _ _ _ (writes_gnss_block b) Hrest) as Hw.
    intros p mid q Hmid. rewrite <- (Hw p mid q Hmid).
    unfold bind.
    repeat match goal with
           | |- context [match ?m ?c with _ => _ end] =>
               destruct (m c) as [[[] ?]|]; try reflexivity
           end.
Qed.

Lemma store_app {A} (pre : list A) (x v : A) (post : list A) :
  store (pre ++ x :: post) (Z.of_nat (length pre)) v
  = Some (pre ++ v :: post).
Proof.
  rewrite store_some by (rewrite length_app; cbn [length]; lia).
  now rewrite Nat2Z.id, upd_app.
Qed.

(** The block loop of the decoder stores the decoded blocks where it
    walks, and leaves the rest of the table alone. *)
Lemma reads_cfg_gnss_loop (src : list ubx_cfg_gnss_block) :
  forall (pre old post : list ubx_cfg_gnss_block),
    length old = length src ->
    Forall gnss_block_ok src ->
    reads (cfg_gnss_loop (length src) (Z.of_nat (length pre))
             (pre ++ old ++ post))
          (concat (map gnss_block_bytes src))
          (pre ++ src ++ post).
Proof.
  induction src as [|b src IH]; intros pre old post Hold Hok.
  - destruct old; [|discriminate]. cbn [length cfg_gnss_loop map concat].
    apply reads_ret.
  - destruct old as [|o old]; [discriminate|]. injection Hold as Hold.
    inversion Hok as [|? ? Hb Hrest]; subst.
    cbn [length cfg_gnss_loop map concat].
    apply (reads_bind _ _ _ _ _ _ (reads_cfg_gnss_block b Hb)).
    cbv beta. change ((o :: old) ++ post) with (o :: old ++ post).
    rewrite store_app.
    replace (Z.of_nat (length pre) + 1)
      with (Z.of_nat (length (pre ++ [b])))
      by (rewrite length_app; cbn [length]; lia).
    replace (pre ++ b :: old ++ post) with ((pre ++ [b]) ++ old ++ post)
      by (rewrite <- app_assoc; reflexivity).
    replace (pre ++ (b :: src) ++ post) with ((pre ++ [b]) ++ src ++ post)
      by (rewrite <- app_assoc; reflexivity).
    now apply IH.
Qed.

Lemma runs_cfg_gnss_block_fields : runs cfg_gnss_block_fields 8.
Proof.
  unfold cfg_gnss_block_fields.
  eapply runs_eq; [runs_chain | reflexivity].
Qed.

Lemma cfg_gnss_loop_total (n : nat) :
  forall (i : Z) (bl : list ubx_cfg_gnss_block) (c : cursor),
    0 <= i -> i + Z.of_nat n <= Z.of_nat (length bl) ->
    0 <= ind c -> ind c + 8 * Z.of_nat n <= Z.of_nat (length (buf c)) ->
    exists bl' c', cfg_gnss_loop n i bl c = Some (bl', c') /\
                   length bl' = length bl.
Proof.
  induction n as [|n IH]; intros i bl c Hi Hbl Hc Hroom.
  - exists bl, c. now split.
  - cbn [cfg_gnss_loop]. unfold bind at 1.
    destruct runs_cfg_gnss_block_fields as [_ Hf].
    destruct (Hf c) as (e & c1 & E1 & Hi1 & Hl1); [lia | lia |].
    rewrite E1.
    destruct (store_total bl i e) as (b1 & Es & Hlb); [lia|].
    rewrite Es.
    destruct (IH (i + 1) b1 c1) as (b2 & c2 & E2 & Hl2); try lia.
    exists b2, c2. split; [assumption | congruence].
Qed.

Lemma cfg_gnss_print_loop_total (n : nat) :
  forall (i : Z) (bl : list ubx_cfg_gnss_block),
    0 <= i -> i + Z.of_nat n <= Z.of_nat (length bl) ->
    exists evs, cfg_gnss_print_loop n i bl = Some evs /\ length evs = n.
Proof.
  induction n as [|n IH]; intros i bl Hi Hbl.
  - exists []. now split.
  - cbn [cfg_gnss_print_loop].
    rewrite (load_some_nth bl i (GnssBlock 0 0 0 false 0)) by lia.
    destruct (IH (i + 1) bl) as (evs & -> & Hlen); try lia.
    eexists. split; [reflexivity|]. cbn [length]. now rewrite Hlen.
Qed.

Lemma cfg_gnss_header (msg : list Z) :
  4 <= Z.of_nat (length msg) ->
  (ubx_get_U1 ;;;
   hw <- ubx_get_U1 ;;
   use <- ubx_get_U1 ;;
   nb <- ubx_get_U1 ;;
   ret (hw, use, nb)) (Cursor msg 0)
  = Some ((nth 1 msg 0, nth 2 msg 0, nth 3 msg 0), Cursor msg 4).
Proof.
  intros Hlen. unfold bind, ubx_get_U1, ret.
  repeat (rewrite next_byte_nth by (cbn [buf ind]; lia); cbn [buf ind]).
  reflexivity.
Qed.

Lemma cfg_gnss_print_loop_prints (n : nat) :
  forall (i : Z) (bl : list ubx_cfg_gnss_block) (evs : list gnss_event),
    cfg_gnss_print_loop n i bl = Some evs ->
    filter is_gnss_call evs = [] /\
    filter (fun e => negb (is_gnss_call e)) evs = evs.
Proof.
  induction n as [|n IH]; intros i bl evs E; cbn [cfg_gnss_print_loop] in E.
  - injection E as <-. now split.
  - destruct (load bl i); [|discriminate].
    destruct (cfg_gnss_print_loop n (i + 1) bl) as [evs'|] eqn:En;
      [|discriminate].
    injection E as <-. destruct (IH _ _ _ En) as [H1 H2].
    cbn [filter is_gnss_call negb]. now rewrite H1, H2.
Qed.

(** X15. [ubx_decode_cfg_gnss] on a message held in the 2000-byte
    accumulation buffer, whatever its bytes: the block count (offset 3)
    is clamped to 10 before the block loop, so the ten-entry block table
    is never left; the subscriber, when one is registered, is called
    exactly once with the clamped count and a table of ten entries; the
    one-shot report is one header line and one line per block, printed
    only when the print flag is set, and the flag is clear afterwards. *)
Theorem cfg_gnss_count_clamped (rx_gnss print : bool)
    (cfg_blocks : list ubx_cfg_gnss_block) (msg : list Z) (len : Z) :
  length cfg_blocks = GNSS_BLOCK_CAPACITY ->
  Z.of_nat (length msg) = UBX_BUFFER_SIZE ->
  is_byte (nth 3 msg 0) ->
  exists evs bl,
    ubx_decode_cfg_gnss rx_gnss print cfg_blocks msg len = Some (false, evs) /\
    length bl = GNSS_BLOCK_CAPACITY /\
    filter is_gnss_call evs
    = (if rx_gnss
       then [CallRxGnss (CfgGnss (nth 1 msg 0) (nth 2 msg 0)
                                 (Z.min (nth 3 msg 0) 10) bl)]
       else []) /\
    Z.of_nat (length (filter (fun e => negb (is_gnss_call e)) evs))
    = if print then 1 + Z.min (nth 3 msg 0) 10 else 0.
Proof.
  intros Hcap Hmsg Hnb.
  unfold GNSS_BLOCK_CAPACITY, UBX_BUFFER_SIZE, is_byte in *.
  unfold ubx_decode_cfg_gnss. rewrite cfg_gnss_header by lia.
  set (nb := if 10 <? nth 3 msg 0 then 10 else nth 3 msg 0).
  assert (Enb : nb = Z.min (nth 3 msg 0) 10)
    by (subst nb; destruct (Z.ltb_spec 10 (nth 3 msg 0)); lia).
  destruct (cfg_gnss_loop_total (Z.to_nat nb) 0 cfg_blocks (Cursor msg 4))
    as (bl & c' & El & Hbl); try (cbn [buf ind]; lia).
  rewrite El. rewrite <- Enb.
  destruct print.
  - destruct (cfg_gnss_print_loop_total (Z.to_nat nb) 0 bl)
      as (prints & Ep & Hp); try lia.
    rewrite Ep.
    pose proof (cfg_gnss_print_loop_prints _ _ _ _ Ep) as Hcalls.
    exists ((if rx_gnss
             then [CallRxGnss (CfgGnss (nth 1 msg 0) (nth 2 msg 0) nb bl)]
             else [])
            ++ GnssPrintf cfg_gnss_report [nth 1 msg 0; nth 2 msg 0; nb]
            :: prints), bl.
    split; [reflexivity|]. split; [congruence|].
    rewrite !filter_app. cbn [filter is_gnss_call negb].
    destruct Hcalls as [-> ->].
    destruct rx_gnss; cbn [filter is_gnss_call negb app length];
      (split; [reflexivity|]); lia.
  - exists (if rx_gnss
            then [CallRxGnss (CfgGnss (nth 1 msg 0) (nth 2 msg 0) nb bl)]
            else []), bl.
    split; [reflexivity|]. split; [congruence|].
    destruct rx_gnss; cbn [filter is_gnss_call negb length]; split;
      reflexivity.
Qed.

Lemma cfg_gnss_count_clamped_witness :
  exists evs bl,
    ubx_decode_cfg_gnss true true
      (repeat (GnssBlock 0 0 0 false 0) 10)
      (upd 3 200 (repeat 0 2000)) 0 = Some (false, evs) /\
    length bl = GNSS_BLOCK_CAPACITY /\
    filter is_gnss_call evs
    = [CallRxGnss (CfgGnss (nth 1 (upd 3 200 (repeat 0 2000)) 0)
                           (nth 2 (upd 3 200 (repeat 0 2000)) 0)
                           (Z.min (nth 3 (upd 3 200 (repeat 0 2000)) 0) 10)
                           bl)] /\
    Z.of_nat (length (filter (fun e => negb (is_gnss_call e)) evs))
    = 1 + Z.min (nth 3 (upd 3 200 (repeat 0 2000)) 0) 10.
Proof.
  apply (cfg_gnss_count_clamped true true
           (repeat (GnssBlock 0 0 0 false 0) 10)
           (upd 3 200 (repeat 0 2000)) 0).
  - reflexivity.
  - rewrite upd_length, repeat_length. reflexivity.
  - unfold is_byte. cbn. lia.
Defined.

Lemma length_gnss_bytes (src : list ubx_cfg_gnss_block) :
  length (concat (map gnss_block_bytes src)) = (8 * length src)%nat.
Proof.
  induction src as [|b src IH]; [reflexivity|].
  cbn [map concat]. rewrite length_app, IH.
  unfold gnss_block_bytes. rewrite length_app, length_le_bytes.
  cbn [length]. lia.
Qed.

Lemma Forall_gnss_bytes (src : list ubx_cfg_gnss_block) :
  Forall is_byte (concat (map gnss_block_bytes src)).
Proof.
  induction src as [|b src IH]; [constructor|].
  cbn [map concat]. apply Forall_app. split; [|assumption].
  unfold gnss_block_bytes. apply Forall_app. split.
  - repeat (apply Forall_cons; [apply mod_byte || (unfold is_byte; lia)|]).
    apply Forall_nil.
  - apply Forall_le_bytes.
Qed.

Section GnssRoundTrip.
Context {H : ublox_h} {F : c_floating} {R : rtos_wait}.

(** X16. Round trip of the GNSS table: for a configuration of at most ten
    blocks whose fields fit a byte, the payload [ublox_cfg_gnss] sends
    (four header bytes and eight bytes per block) is decoded by
    [ubx_decode_cfg_gnss], wherever it is followed by other bytes, into
    the same channel counts, the same block count and the same blocks;
    the entries of the receiving table beyond the count are left as they
    were. *)
Theorem cfg_gnss_round_trip (ubx : list Z) (g : ubx_cfg_gnss)
    (cfg_blocks : list ubx_cfg_gnss_block) (rest : list Z) (len : Z) :
  is_byte UBX_CLASS_CFG -> is_byte UBX_CFG_GNSS ->
  Z.of_nat (length ubx) = UBX_BUFFER_SIZE ->
  is_byte (num_ch_hw g) -> is_byte (num_ch_use g) ->
  0 <= num_blocks g <= 10 ->
  length (blocks g) = GNSS_BLOCK_CAPACITY ->
  length cfg_blocks = GNSS_BLOCK_CAPACITY ->
  Forall gnss_block_ok (firstn (Z.to_nat (num_blocks g)) (blocks g)) ->
  exists payload ubx',
    ublox_cfg_gnss ubx g
    = Some (ubx', [ubx_frame UBX_CLASS_CFG UBX_CFG_GNSS payload],
            wait_ack_nak CFG_ACK_WAIT_MS) /\
    Z.of_nat (length payload) = 4 + 8 * num_blocks g /\
    ubx_decode_cfg_gnss true false cfg_blocks (payload ++ rest) len
    = Some (false,
            [CallRxGnss
               (CfgGnss (num_ch_hw g) (num_ch_use g) (num_blocks g)
                  (firstn (Z.to_nat (num_blocks g)) (blocks g)
                   ++ skipn (Z.to_nat (num_blocks g)) cfg_blocks))]).
Proof.
  intros Hcls Hid Hubx Hhw Huse Hn Hcap Hcap' Hok.
  unfold GNSS_BLOCK_CAPACITY, UBX_BUFFER_SIZE in *.
  set (n := Z.to_nat (num_blocks g)) in *.
  set (src := firstn n (blocks g)) in *.
  assert (Hsrc : length src = n) by (unfold src; rewrite length_firstn; lia).
  set (header := [0; num_ch_hw g; num_ch_use g; num_blocks g]).
  set (payload := header ++ concat (map gnss_block_bytes src)).
  assert (Hlen_blocks : length (concat (map gnss_block_bytes src))
                        = (8 * n)%nat).
  { rewrite length_gnss_bytes. lia. }
  assert (Hlen : Z.of_nat (length payload) = 4 + 8 * num_blocks g).
  { unfold payload, header. rewrite length_app, Hlen_blocks.
    cbn [length]. lia. }
  assert (Hbytes : Forall is_byte payload).
  { unfold payload, header. apply Forall_app. split.
    - unfold is_byte in *. repeat (apply Forall_cons; [lia|]).
      apply Forall_nil.
    - apply Forall_gnss_bytes. }
  exists payload. eexists. split; [|split; [exact Hlen|]].
  - unfold ublox_cfg_gnss.
    destruct (Z.ltb_spec 10 (num_blocks g)); [lia|].
    assert (Hw : writes
      (ubx_put_U1 0 ;;; ubx_put_U1 (num_ch_hw g) ;;;
       ubx_put_U1 (num_ch_use g) ;;; ubx_put_U1 (num_blocks g) ;;;
       gnss_blocks_loop (Z.to_nat (num_blocks g)) 0 (blocks g))
      payload).
    { eapply writes_eq.
      - do 4 (eapply writes_seq; [writes_field|]).
        fold n. rewrite <- Hsrc.
        rewrite <- (firstn_skipn n (blocks g)). fold src.
        apply (writes_gnss_blocks_loop src [] (skipn n (blocks g))).
      - unfold payload, header, is_byte in *.
        rewrite !Z.mod_small by lia. reflexivity. }
    rewrite (send_and_await_frame _ _ _ _ _ _ Hw);
      try assumption; try lia. reflexivity.
  - unfold ubx_decode_cfg_gnss.
    assert (Eh : (ubx_get_U1 ;;;
                  hw <- ubx_get_U1 ;;
                  use <- ubx_get_U1 ;;
                  nb <- ubx_get_U1 ;;
                  ret (hw, use, nb)) (Cursor (payload ++ rest) 0)
                 = Some ((num_ch_hw g, num_ch_use g, num_blocks g),
                         Cursor (payload ++ rest) 4)).
    { assert (Hr : reads (ubx_get_U1 ;;;
                          hw <- ubx_get_U1 ;;
                          use <- ubx_get_U1 ;;
                          nb <- ubx_get_U1 ;;
                          ret (hw, use, nb))
                         header
                         (num_ch_hw g, num_ch_use g, num_blocks g)).
      { eapply reads_eq.
        - do 4 (eapply reads_bind; [apply reads_U1|]). apply reads_ret.
        - reflexivity.
        - reflexivity. }
      unfold payload. rewrite <- app_assoc.
      apply (Hr [] (concat (map gnss_block_bytes src) ++ rest)). }
    rewrite Eh.
    destruct (Z.ltb_spec 10 (num_blocks g)); [lia|]. fold n.
    pose proof (reads_cfg_gnss_loop src [] (firstn n cfg_blocks)
                  (skipn n cfg_blocks)) as Hl.
    rewrite firstn_skipn in Hl. rewrite Hsrc in Hl.
    specialize (Hl ltac:(rewrite length_firstn; lia) Hok).
    specialize (Hl header rest). unfold header in Hl.
    cbn [length app] in Hl.
    change (Z.of_nat 4) with 4 in Hl. change (Z.of_nat 0) with 0 in Hl.
    unfold payload, header. rewrite <- app_assoc. cbn [app].
    rewrite Hl. reflexivity.
Qed.

End GnssRoundTrip.

Lemma cfg_gnss_round_trip_witness :
  let g := CfgGnss 32 255 2
             (GnssBlock 0 6 16 true 1 :: GnssBlock 6 6 16 false 1
                :: repeat (GnssBlock 0 0 0 false 0) 8) in
  exists payload ubx',
    ublox_cfg_gnss send_buffer_init g
    = Some (ubx', [ubx_frame UBX_CLASS_CFG UBX_CFG_GNSS payload],
            wait_ack_nak CFG_ACK_WAIT_MS) /\
    Z.of_nat (length payload) = 4 + 8 * num_blocks g /\
    ubx_decode_cfg_gnss true false (repeat (GnssBlock 9 9 9 true 9) 10)
      (payload ++ [7; 7]) 0
    = Some (false,
            [CallRxGnss
               (CfgGnss (num_ch_hw g) (num_ch_use g) (num_blocks g)
                  (firstn (Z.to_nat (num_blocks g)) (blocks g)
                   ++ skipn (Z.to_nat (num_blocks g))
                        (repeat (GnssBlock 9 9 9 true 9) 10)))]).
Proof.
  intros g.
  apply (cfg_gnss_round_trip send_buffer_init g
           (repeat (GnssBlock 9 9 9 true 9) 10) [7; 7] 0);
    try (unfold is_byte; cbn; lia); try reflexivity.
  repeat (apply Forall_cons || apply Forall_nil);
    unfold gnss_block_ok, is_byte; cbn; lia.
Defined.

(* ------------------------------------------------------------------ *)
(** ** Every request is one frame *)

Lemma writes_memcpy_values (values : list Z) (len : Z) :
  0 <= len <= Z.of_nat (length values) ->
  writes (memcpy_values values len) (firstn (Z.to_nat len) values).
Proof.
  intros Hlen pre mid post Hmid. unfold memcpy_values. cbn [buf ind].
  rewrite length_firstn in Hmid.
  assert (Hc : (0 <=? len) && (len <=? Z.of_nat (length values)) &&
               (0 <=? Z.of_nat (length pre)) &&
               (Z.of_nat (length pre) + len
                <=? Z.of_nat (length (pre ++ mid ++ post))) = true).
  { repeat (apply andb_true_intro; split); apply Z.leb_le;
      rewrite ?length_app; lia. }
  rewrite Hc, Nat2Z.id.
  rewrite firstn_app, firstn_all, Nat.sub_diag. cbn [firstn].
  rewrite app_nil_r.
  replace (Z.to_nat (Z.of_nat (length pre) + len))
    with (length pre + length mid)%nat by lia.
  rewrite (app_assoc pre mid post), skipn_app.
  rewrite skipn_all2 by (rewrite length_app; lia).
  rewrite length_app.
  replace (length pre + length mid - (length pre + length mid))%nat
    with 0%nat by lia.
  cbn [skipn app]. rewrite length_firstn. do 3 f_equal. lia.
Qed.

Lemma length_concat_le_bytes_tail (bs : list Z) (n : nat) (v : Z) :
  length (le_bytes n v ++ bs) = (n + length bs)%nat.
Proof. now rewrite length_app, length_le_bytes. Qed.

Ltac bytes_of_fields :=
  repeat first [ apply Forall_nil
               | apply Forall_le_bytes
               | apply Forall_cons; [apply mod_byte|]
               | apply Forall_app; split ].

Ltac size_of_fields :=
  rewrite ?length_app, ?length_le_bytes; cbn [length]; try lia.

Section RequestFacts.
Context {H : ublox_h} {F : c_floating} {R : rtos_wait}.

(** X12. Every configuration request that transmits hands the transport
    exactly one well-formed UBX frame: class CFG, the id of its message
    and a payload of bytes of the size the message has (20 for the port,
    40 for the time mode, 8 for a message rate, 6 for the rate, 13 for
    save/load, 36 for the navigation engine, 32 for the time pulse,
    4 + 8 per block for the GNSS table, 20 for NMEA, 4 + the key-value
    bytes for a value set), and returns the outcome of the wait for the
    acknowledgement. *)
Theorem request_sends_one_frame (ubx : list Z) (r : request) :
  is_byte UBX_CLASS_CFG -> is_byte (request_id r) ->
  Z.of_nat (length ubx) = UBX_BUFFER_SIZE ->
  request_sent r ->
  exists payload ubx',
    issue ubx r
    = Some (ubx', [ubx_frame UBX_CLASS_CFG (request_id r) payload],
            wait_ack_nak CFG_ACK_WAIT_MS) /\
    Z.of_nat (length payload) = payload_size r /\
    Forall is_byte payload.
Proof.
  intros Hcls Hid Hubx Hsent. unfold UBX_BUFFER_SIZE in *.
  assert (Hgen : forall id size (payload : Codec unit) (bs : list Z),
             writes payload bs -> Forall is_byte bs ->
             Z.of_nat (length bs) = size -> size + 8 <= 2000 ->
             is_byte id ->
             exists p ubx',
               send_and_await ubx UBX_CLASS_CFG id size payload
               = Some (ubx', [ubx_frame UBX_CLASS_CFG id p],
                       wait_ack_nak CFG_ACK_WAIT_MS) /\
               Z.of_nat (length p) = size /\ Forall is_byte p).
  { intros id size payload bs Hw Hb Hs Hroom Hi.
    exists bs. eexists. split; [|split; assumption].
    apply send_and_await_frame; try assumption; lia. }
  destruct r as [cfg|cfg|c i rt|m nv t|cfg|cfg|cfg|g|nm|v l ram bbr flash];
    cbn [issue request_id payload_size request_sent] in *.
  - unfold ublox_cfg_prt_uart. cbv zeta.
    eapply Hgen; [writes_fields | bytes_of_fields | size_of_fields
                 | lia | assumption].
  - unfold ublox_cfg_tmode3. cbv zeta.
    eapply Hgen; [writes_fields | bytes_of_fields | size_of_fields
                 | lia | assumption].
  - unfold ublox_cfg_msg.
    eapply Hgen; [writes_fields | bytes_of_fields | size_of_fields
                 | lia | assumption].
  - unfold ublox_cfg_rate.
    eapply Hgen; [writes_fields | bytes_of_fields | size_of_fields
                 | lia | assumption].
  - unfold ublox_cfg_cfg. cbv zeta.
    eapply Hgen; [writes_fields | bytes_of_fields | size_of_fields
                 | lia | assumption].
  - unfold ublox_cfg_nav5. cbv zeta.
    eapply Hgen; [writes_fields | bytes_of_fields | size_of_fields
                 | lia | assumption].
  - unfold ublox_cfg_tp5. cbv zeta.
    eapply Hgen; [writes_fields | bytes_of_fields | size_of_fields
                 | lia | assumption].
  - destruct Hsent as (Hn & Hbl). unfold ublox_cfg_gnss.
    destruct (Z.ltb_spec 10 (num_blocks g)); [lia|].
    set (n := Z.to_nat (num_blocks g)).
    eapply Hgen; [| | | lia | assumption].
    + do 4 (eapply writes_seq; [writes_field|]).
      rewrite <- (firstn_skipn n (blocks g)).
      replace n with (length (firstn n (blocks g))) at 1
        by (rewrite length_firstn; lia).
      apply (writes_gnss_blocks_loop (firstn n (blocks g)) []).
    + bytes_of_fields. apply Forall_gnss_bytes.
    + size_of_fields. rewrite length_gnss_bytes, length_firstn. lia.
  - unfold ublox_cfg_nmea. cbv zeta.
    eapply Hgen; [writes_fields | bytes_of_fields | size_of_fields
                 | lia | assumption].
  - destruct Hsent as (Hl & Hroom & Hb). unfold ublox_cfg_valset. cbv zeta.
    eapply Hgen; [| | | unfold UBX_BUFFER_SIZE in Hroom; lia | assumption].
    + do 4 (eapply writes_seq; [writes_field|]).
      now apply writes_memcpy_values.
    + bytes_of_fields. assumption.
    + size_of_fields. rewrite length_firstn. lia.
Qed.

End RequestFacts.

(* ------------------------------------------------------------------ *)
(** ** [ublox_init] *)

Section InitFacts.
Context {H : ublox_h} {F : c_floating} {R : rtos_wait}
        {M : ublox_h_messages} {K : ublox_h_keys}.

Lemma valset_of_writes (size : Z) (keys : Codec unit) (bs : list Z) :
  writes keys bs -> Z.of_nat (length bs) <= size ->
  valset_of size keys
  = Some (ReqValset (bs ++ repeat 0 (Z.to_nat size - length bs))
                    (Z.of_nat (length bs)) true true true).
Proof.
  intros Hw Hsize. unfold valset_of.
  replace (repeat 0 (Z.to_nat size))
    with ([] ++ repeat 0 (length bs)
             ++ repeat 0 (Z.to_nat size - length bs))
    by (cbn [app]; rewrite <- repeat_app; f_equal; lia).
  change 0 with (Z.of_nat (length (@nil Z))) at 3.
  rewrite (Hw [] _ _ (repeat_length 0 (length bs))).
  cbn [app buf ind length]. reflexivity.
Qed.

Lemma writes_append_u1 (key val : Z) :
  writes (ublox_cfg_append_u1 key val) (le_bytes 4 key ++ [val mod 256]).
Proof. unfold ublox_cfg_append_u1. writes_fields. Qed.

Lemma writes_baud_keys (rate_ms : Z) :
  writes (baud_keys rate_ms)
    (le_bytes 4 CFG_UART1_BAUDRATE ++ le_bytes 4 BAUDRATE
     ++ le_bytes 4 CFG_RATE_MEAS ++ le_bytes 2 rate_ms
     ++ le_bytes 4 CFG_RATE_NAV ++ le_bytes 2 1).
Proof.
  unfold baud_keys, ublox_cfg_append_uart1_baud, ublox_cfg_append_rate.
  eapply writes_eq.
  - apply writes_seq; [writes_fields | writes_fields].
  - rewrite <- !app_assoc. reflexivity.
Qed.

Lemma issued_app (t1 t2 : list init_action) :
  issued (t1 ++ t2) = issued t1 ++ issued t2.
Proof. unfold issued. apply flat_map_app. Qed.

Lemma issued_delays (n : nat) : issued (repeat (VTaskDelay 1) n) = [].
Proof. induction n as [|n IH]; [reflexivity | exact IH]. Qed.

Lemma delays_delays (n : nat) :
  length (filter is_delay (repeat (VTaskDelay 1) n)) = n.
Proof.
  induction n as [|n IH]; [reflexivity|].
  cbn [repeat filter is_delay length]. now rewrite IH.
Qed.

Lemma not_registered_delays (n : nat) :
  ~ In TerminalRegisterCommand (repeat (VTaskDelay 1) n).
Proof. intros Hin. apply repeat_spec in Hin. discriminate. Qed.

Variable reply : nat -> Z.
Variable rx_running : nat -> bool.

(** ** The wait loops *)

(** The first read of the flag that gives false, when there is one. *)
Lemma first_false (n : nat) :
  forall k, rx_running (k + n)%nat = false ->
            exists m, (m <= n)%nat /\ wait_ends rx_running k m.
Proof.
  induction n as [|n IH]; intros k Hf.
  - exists 0%nat. split; [lia|]. split; [intros j Hj; lia | exact Hf].
  - destruct (rx_running k) eqn:Ek.
    + destruct (IH (S k)) as (m & Hm & Ht & Hfm).
      { replace (S k + n)%nat with (k + S n)%nat by lia. exact Hf. }
      exists (S m). split; [lia|]. split.
      * intros j Hj. destruct j as [|j]; [now rewrite Nat.add_0_r|].
        replace (k + S j)%nat with (S k + j)%nat by lia. apply Ht. lia.
      * replace (k + S m)%nat with (S k + m)%nat by lia. exact Hfm.
    + exists 0%nat. split; [lia|].
      split; [intros j Hj; lia | now rewrite Nat.add_0_r].
Qed.

(** A wait loop that sees the flag clear at its [n]-th read is left after
    [n] delays, once followed that far. *)
Lemma wait_rx_task_end_ends (fuel : nat) :
  forall (n : nat) (s : init_state),
    wait_ends rx_running (looked s) n -> (n < fuel)%nat ->
    wait_rx_task_end rx_running fuel s
    = (true, InitState (trace s ++ repeat (VTaskDelay 1) n) (asked s)
                       (S (looked s + n))).
Proof.
  induction fuel as [|f IH]; intros n [t a l] (Htrue & Hfalse) Hn; [lia|].
  cbn [trace asked looked] in *. cbn [wait_rx_task_end].
  cbv [thd_rx_is_running act trace asked looked].
  destruct n as [|n].
  - rewrite Nat.add_0_r in Hfalse. rewrite Hfalse. cbn [repeat].
    now rewrite app_nil_r, Nat.add_0_r.
  - pose proof (Htrue 0%nat ltac:(lia)) as H0. rewrite Nat.add_0_r in H0.
    rewrite H0.
    rewrite (IH n (InitState (t ++ [VTaskDelay 1]) a (S l))).
    + cbn [trace asked looked repeat]. rewrite <- app_assoc. cbn [app].
      do 2 f_equal. lia.
    + cbn [looked]. split.
      * intros k Hk. replace (S l + k)%nat with (l + S k)%nat by lia.
        apply Htrue. lia.
      * replace (S l + n)%nat with (l + S n)%nat by lia. exact Hfalse.
    + lia.
Qed.

(** A wait loop is not left while the flag reads true. *)
Lemma wait_rx_task_end_spins (fuel : nat) :
  forall s : init_state,
    (forall k, (k < fuel)%nat -> rx_running (looked s + k)%nat = true) ->
    wait_rx_task_end rx_running fuel s
    = (false, InitState (trace s ++ repeat (VTaskDelay 1) fuel) (asked s)
                        (looked s + fuel)).
Proof.
  induction fuel as [|f IH]; intros [t a l] Htrue;
    cbn [trace asked looked] in *.
  - cbn [wait_rx_task_end repeat]. now rewrite app_nil_r, Nat.add_0_r.
  - cbn [wait_rx_task_end].
    cbv [thd_rx_is_running act trace asked looked].
    pose proof (Htrue 0%nat ltac:(lia)) as H0. rewrite Nat.add_0_r in H0.
    rewrite H0.
    rewrite (IH (InitState (t ++ [VTaskDelay 1]) a (S l))).
    + cbn [trace asked looked repeat]. rewrite <- app_assoc. cbn [app].
      do 2 f_equal. lia.
    + cbn [looked]. intros k Hk.
      replace (S l + k)%nat with (l + S k)%nat by lia. apply Htrue. lia.
Qed.

(** Whatever the flag reads, a wait loop only adds delays, one for each
    read that gave true. *)
Lemma wait_rx_task_end_adds (fuel : nat) :
  forall (s s' : init_state) (ended : bool),
    wait_rx_task_end rx_running fuel s = (ended, s') ->
    exists n,
      trace s' = trace s ++ repeat (VTaskDelay 1) n /\
      asked s' = asked s /\ (looked s + n <= looked s')%nat.
Proof.
  induction fuel as [|f IH]; intros [t a l] s' ended E;
    cbn [wait_rx_task_end] in E.
  - injection E as <- <-. exists 0%nat. cbn [trace asked looked repeat].
    rewrite app_nil_r. repeat split. lia.
  - cbv [thd_rx_is_running act trace asked looked] in E.
    destruct (rx_running l).
    + apply IH in E. destruct E as (n & Et & Ea & El).
      cbn [trace asked looked] in *. exists (S n).
      rewrite Et, <- app_assoc. cbn [app repeat]. repeat split; [assumption|].
      lia.
    + injection E as <- <-. exists 0%nat. cbn [trace asked looked repeat].
      rewrite app_nil_r. repeat split. lia.
Qed.

(** ** The retry loops *)

Ltac leaf Hnot :=
  eexists;
  split; [cbn [trace];
          first [ symmetry; apply app_nil_r
                | rewrite <- ?app_assoc; cbn [app]; reflexivity ] |];
  split; [cbn; lia|]; split; [cbn; lia|]; split; [cbn; lia|];
  split; [cbn; lia|];
  split; [cbn; repeat (apply Forall_cons; [auto|]); apply Forall_nil
         | apply Hnot; reflexivity].

(** What a run of the retry loop adds, whatever the receiver and the
    receive task do: at most five requests and five delays per round,
    every request the probe or the reconfiguration. *)
Lemma baud_loop_adds (num : Z) (probe reconfigure : request) (fallback : Z)
    (n : nat) :
  forall (s s' : init_state) (e : loop_end),
    baud_loop reply rx_running num probe reconfigure fallback n s = (e, s') ->
    exists extra,
      trace s' = trace s ++ extra /\
      asked s' = (asked s + length (issued extra))%nat /\
      (looked s <= looked s')%nat /\
      (length (issued extra) <= 5 * n)%nat /\
      (length (filter is_delay extra) <= 5 * n)%nat /\
      Forall (fun r => r = probe \/ r = reconfigure) (issued extra) /\
      ~ In TerminalRegisterCommand extra.
Proof.
  assert (Hnot : forall l : list init_action,
             forallb (fun a => match a with
                               | TerminalRegisterCommand => false
                               | _ => true
                               end) l = true ->
             ~ In TerminalRegisterCommand l).
  { intros l Hl Hin. rewrite forallb_forall in Hl.
    specialize (Hl _ Hin). discriminate. }
  induction n as [|n IH]; intros [t a l] s' e E; cbn [baud_loop] in E.
  - injection E as <- <-. leaf Hnot.
  - cbv [thd_rx_is_running ask settle act trace asked looked fst snd] in E.
    destruct (rx_running l); cbn [negb] in E.
    2:{ injection E as <- <-. leaf Hnot. }
    destruct (reply a =? -1).
    2:{ injection E as <- <-. leaf Hnot. }
    destruct (reply (S (S (S a))) =? -1); cbn [negb] in E.
    2:{ injection E as <- <-. leaf Hnot. }
    destruct (reply (S (S (S (S a)))) =? -1); cbn [negb] in E.
    2:{ injection E as <- <-. leaf Hnot. }
    apply IH in E.
    destruct E as (extra & Et & Ea & El & Hn & Hd & Hr & Ht).
    cbn [trace asked looked] in Et, Ea, El |- *.
    rewrite <- !app_assoc in Et. cbn [app] in Et.
    eexists. split; [exact Et|].
    change (issued (?x :: ?y)) with (issued [x] ++ issued y).
    cbn [issued flat_map app filter is_delay length].
    fold (issued extra).
    repeat split; try lia.
    + repeat (apply Forall_cons; [auto|]). assumption.
    + intros Hin. repeat (destruct Hin as [Hin|Hin]; [discriminate|]).
      now apply Ht.
Qed.

(** The retry loop while the receive task is seen running: it ends with
    [baud_ok] set exactly when, in one of its rounds, the first, fourth or
    fifth request was answered by something other than a timeout; when
    no round succeeds it has issued the five requests of every round. *)
Lemma baud_loop_outcome (num : Z) (probe reconfigure : request)
    (fallback : Z) (n : nat) :
  forall s : init_state,
    (forall k, (k < n)%nat -> rx_running (looked s + k)%nat = true) ->
    exists ok s',
      baud_loop reply rx_running num probe reconfigure fallback n s
      = (BaudOk ok, s') /\
      (ok = true <->
       exists j c, (j < n)%nat /\ (c = 0 \/ c = 3 \/ c = 4)%nat /\
                   reply (asked s + 5 * j + c)%nat <> -1) /\
      (looked s <= looked s' <= looked s + n)%nat /\
      (ok = false ->
       asked s' = (asked s + 5 * n)%nat /\
       looked s' = (looked s + n)%nat /\
       exists extra,
         trace s' = trace s ++ extra /\
         issued extra
         = concat (repeat (silent_round probe reconfigure) n) /\
         ~ In TerminalRegisterCommand extra).
Proof.
  induction n as [|n IH]; intros [t a l] Hrun.
  - exists false. eexists. split; [reflexivity|]. split.
    + split; [discriminate|]. intros (j & c & Hj & _). lia.
    + cbn [asked trace looked]. split; [lia|]. intros _.
      split; [lia|]. split; [lia|]. exists [].
      rewrite app_nil_r. repeat split. intros [].
  - destruct (baud_loop reply rx_running num probe reconfigure fallback
                (S n) (InitState t a l)) as [e s'] eqn:E.
    cbn [baud_loop] in E.
    cbv [thd_rx_is_running ask settle act trace asked looked fst snd] in E.
    cbn [looked] in Hrun.
    pose proof (Hrun 0%nat ltac:(lia)) as H0. rewrite Nat.add_0_r in H0.
    rewrite H0 in E. cbn [negb asked trace looked] in *.
    destruct (Z.eqb_spec (reply a) (-1)) as [E0|E0].
    2:{ injection E as <- <-.
        exists true. eexists. split; [reflexivity|]. split.
        - split; [|reflexivity]. intros _. exists 0%nat, 0%nat.
          replace (a + 5 * 0 + 0)%nat with a by lia.
          repeat split; auto; lia.
        - cbn [looked]. split; [lia | discriminate]. }
    destruct (Z.eqb_spec (reply (S (S (S a)))) (-1)) as [E3|E3];
      cbn [negb] in E.
    2:{ injection E as <- <-.
        exists true. eexists. split; [reflexivity|]. split.
        - split; [|reflexivity]. intros _. exists 0%nat, 3%nat.
          replace (a + 5 * 0 + 3)%nat with (S (S (S a))) by lia.
          repeat split; auto; lia.
        - cbn [looked]. split; [lia | discriminate]. }
    destruct (Z.eqb_spec (reply (S (S (S (S a))))) (-1)) as [E4|E4];
      cbn [negb] in E.
    2:{ injection E as <- <-.
        exists true. eexists. split; [reflexivity|]. split.
        - split; [|reflexivity]. intros _. exists 0%nat, 4%nat.
          replace (a + 5 * 0 + 4)%nat with (S (S (S (S a)))) by lia.
          repeat split; auto; lia.
        - cbn [looked]. split; [lia | discriminate]. }
    match type of E with
    | baud_loop _ _ _ _ _ _ n ?st = _ =>
        destruct (IH st) as (ok & s'' & E' & Hiff & Hlook & Hfail)
    end.
    { cbn [looked]. intros k Hk.
      replace (S l + k)%nat with (l + S k)%nat by lia. apply Hrun. lia. }
    rewrite E' in E. injection E as <- <-.
    exists ok, s''. split; [reflexivity|].
    cbn [asked trace looked] in *. split; [|split; [lia|]].
    + rewrite Hiff. split.
      * intros (j & c & Hj & Hc & Hr). exists (S j), c.
        split; [lia|]. split; [assumption|].
        replace (a + 5 * S j + c)%nat with (S (S (S (S (S a)))) + 5 * j + c)%nat
          by lia.
        assumption.
      * intros (j & c & Hj & Hc & Hr). destruct j as [|j].
        -- exfalso. apply Hr.
           destruct Hc as [-> | [-> | ->]];
             [replace (a + 5 * 0 + 0)%nat with a by lia
             |replace (a + 5 * 0 + 3)%nat with (S (S (S a))) by lia
             |replace (a + 5 * 0 + 4)%nat with (S (S (S (S a)))) by lia];
             assumption.
        -- exists j, c. split; [lia|]. split; [assumption|].
           replace (S (S (S (S (S a)))) + 5 * j + c)%nat
             with (a + 5 * S j + c)%nat by lia.
           assumption.
    + intros Hok. destruct (Hfail Hok) as (Ha & Hl & extra & Et & Ei & Hn).
      split; [lia|]. split; [lia|].
      rewrite <- !app_assoc in Et. cbn [app] in Et.
      eexists. split; [exact Et|]. split.
      * change (issued (?x :: ?y)) with (issued [x] ++ issued y).
        cbn [issued flat_map app]. fold (issued extra). rewrite Ei.
        reflexivity.
      * intros Hin. repeat (destruct Hin as [Hin|Hin]; [discriminate|]).
        now apply Hn.
Qed.

Lemma baud_loop_first_answer (num : Z) (probe reconfigure : request)
    (fallback : Z) (n : nat) (s : init_state) :
  rx_running (looked s) = true -> reply (asked s) <> -1 ->
  baud_loop reply rx_running num probe reconfigure fallback (S n) s
  = (BaudOk true,
     InitState (trace s ++ [Issue probe]) (S (asked s)) (S (looked s))).
Proof.
  destruct s as [t a l]. cbn [trace asked looked]. intros Hrun Hans.
  cbn [baud_loop].
  cbv [thd_rx_is_running ask settle act trace asked looked fst snd].
  rewrite Hrun. cbn [negb].
  destruct (Z.eqb_spec (reply a) (-1)) as [E|_]; [contradiction|].
  reflexivity.
Qed.

Lemma ask_all_adds (rs : list request) :
  forall s : init_state,
    trace (ask_all reply rs s) = trace s ++ map Issue rs /\
    asked (ask_all reply rs s) = (asked s + length rs)%nat /\
    looked (ask_all reply rs s) = looked s.
Proof.
  unfold ask_all.
  induction rs as [|r rs IH]; intros [t a l]; cbn [fold_left map length].
  - cbn [trace asked looked]. rewrite app_nil_r. repeat split. lia.
  - cbv [ask snd]. cbn [trace asked looked].
    destruct (IH (InitState (t ++ [Issue r]) (S a) l)) as (Et & Ea & El).
    cbv [ask snd] in Et, Ea, El. cbn [trace asked looked] in Et, Ea, El.
    rewrite Et, Ea, El, <- app_assoc. repeat split. lia.
Qed.

Lemma issued_issues (rs : list request) : issued (map Issue rs) = rs.
Proof.
  induction rs as [|r rs IH]; [reflexivity|].
  cbn [map]. change (issued (Issue r :: map Issue rs))
    with (r :: issued (map Issue rs)). now rewrite IH.
Qed.

Lemma no_delay_issues (rs : list request) :
  filter is_delay (map Issue rs) = [].
Proof. induction rs as [|r rs IH]; [reflexivity | exact IH]. Qed.

Lemma writes_m10_keys :
  exists bs, writes m10_keys bs /\ length bs = 80%nat /\ Forall is_byte bs.
Proof.
  eexists. split; [|split].
  - unfold m10_keys.
    repeat (eapply writes_seq; [apply writes_append_u1|]).
    apply writes_append_u1.
  - rewrite ?length_app, ?length_le_bytes. reflexivity.
  - repeat first [ apply Forall_nil | apply Forall_le_bytes
                 | apply Forall_cons; [apply mod_byte|]
                 | apply Forall_app; split ].
Qed.

(** ** The opening and the two ways out *)

Lemma init_open_ends (fuel n : nat) (v : init_vars)
    (driver_installed : bool) (num_uart pin_rx pin_tx : Z) :
  wait_ends rx_running 0 n -> (n < fuel)%nat ->
  init_open rx_running fuel v driver_installed num_uart pin_rx pin_tx
  = (true, InitState (opening v driver_installed num_uart pin_rx pin_tx n)
                     0 (S n)).
Proof.
  intros Hw Hn. unfold init_open, opening.
  rewrite (wait_rx_task_end_ends fuel n)
    by (destruct (sem_init_done v); cbv [act looked]; assumption || lia).
  cbn [negb].
  destruct (sem_init_done v), driver_installed;
    cbv [act trace asked looked]; cbn [app Nat.add];
    rewrite <- ?app_assoc; cbn [app]; reflexivity.
Qed.

Lemma init_open_spins (fuel : nat) (v : init_vars)
    (driver_installed : bool) (num_uart pin_rx pin_tx : Z) :
  (forall k, (k < fuel)%nat -> rx_running k = true) ->
  init_open rx_running fuel v driver_installed num_uart pin_rx pin_tx
  = (false,
     InitState ((if sem_init_done v then [] else [XSemaphoreCreateBinary])
                ++ SetShouldTerminate true :: repeat (VTaskDelay 1) fuel)
               0 fuel).
Proof.
  intros Hrun. unfold init_open.
  rewrite (wait_rx_task_end_spins fuel)
    by (destruct (sem_init_done v); cbv [act looked]; exact Hrun).
  cbn [negb].
  destruct (sem_init_done v); cbv [act trace asked looked];
    cbn [app Nat.add]; rewrite <- ?app_assoc; reflexivity.
Qed.

(** The opening issues no request, whatever the flag reads, and makes
    at most one delay for each read of the flag. *)
Lemma init_open_facts (fuel : nat) (v : init_vars) (driver_installed : bool)
    (num_uart pin_rx pin_tx : Z) :
  exists ended s,
    init_open rx_running fuel v driver_installed num_uart pin_rx pin_tx
    = (ended, s) /\
    asked s = 0%nat /\ issued (trace s) = [] /\
    (length (filter is_delay (trace s)) <= looked s)%nat /\
    ~ In TerminalRegisterCommand (trace s).
Proof.
  unfold init_open.
  set (s0 := act (SetShouldTerminate true)
               (if sem_init_done v then InitState [] 0 0
                else act XSemaphoreCreateBinary (InitState [] 0 0))).
  assert (H0 : asked s0 = 0%nat /\ looked s0 = 0%nat /\
               issued (trace s0) = [] /\ filter is_delay (trace s0) = [] /\
               ~ In TerminalRegisterCommand (trace s0)).
  { subst s0. destruct (sem_init_done v); cbv; repeat split;
      intros Hin; repeat (destruct Hin as [Hin|Hin]; [discriminate|]);
      exact Hin. }
  destruct H0 as (Ha0 & Hl0 & Hi0 & Hd0 & Hn0).
  destruct (wait_rx_task_end rx_running fuel s0) as [ended s1] eqn:E.
  apply wait_rx_task_end_adds in E. destruct E as (n & Et & Ea & El).
  assert (H1 : asked s1 = 0%nat /\ issued (trace s1) = [] /\
               length (filter is_delay (trace s1)) = n /\
               ~ In TerminalRegisterCommand (trace s1)).
  { rewrite Et, Ea, issued_app, filter_app, Hi0, Hd0, issued_delays.
    cbn [app]. rewrite delays_delays. repeat split; try assumption.
    rewrite in_app_iff. intros [Hin|Hin]; [now apply Hn0|].
    now apply not_registered_delays in Hin. }
  destruct H1 as (Ha1 & Hi1 & Hd1 & Hn1).
  destruct ended; cbn [negb].
  - eexists; eexists. split; [reflexivity|].
    assert (Hs : forall tail s2,
               issued tail = [] -> filter is_delay tail = [] ->
               ~ In TerminalRegisterCommand tail ->
               trace s2 = trace s1 ++ tail -> asked s2 = asked s1 ->
               looked s2 = looked s1 ->
               asked s2 = 0%nat /\ issued (trace s2) = [] /\
               (length (filter is_delay (trace s2)) <= looked s2)%nat /\
               ~ In TerminalRegisterCommand (trace s2)).
    { intros tail s2 Hi Hd Hn -> -> ->.
      rewrite issued_app, filter_app, Hi, Hd, Hi1, !app_nil_r, Hd1.
      repeat split; [assumption | lia |].
      rewrite in_app_iff. tauto. }
    destruct driver_installed.
    + apply (Hs [UartDriverDelete num_uart; UartDriverInstall num_uart;
                 UartParamConfig num_uart BAUDRATE;
                 UartSetPin num_uart pin_tx pin_rx; SetShouldTerminate false;
                 SetThdRxIsRunning true; XTaskCreate]);
        try reflexivity.
      * intros Hin.
        repeat (destruct Hin as [Hin|Hin]; [discriminate|]). exact Hin.
      * cbv [act]. cbn [trace]. rewrite <- !app_assoc. reflexivity.
    + apply (Hs [UartDriverInstall num_uart;
                 UartParamConfig num_uart BAUDRATE;
                 UartSetPin num_uart pin_tx pin_rx; SetShouldTerminate false;
                 SetThdRxIsRunning true; XTaskCreate]);
        try reflexivity.
      * intros Hin.
        repeat (destruct Hin as [Hin|Hin]; [discriminate|]). exact Hin.
      * cbv [act]. cbn [trace]. rewrite <- !app_assoc. reflexivity.
  - exists false, s1. split; [reflexivity|]. repeat split; try assumption.
    lia.
Qed.

Lemma init_configure_facts (num_uart : Z) (rs : list request)
    (s : init_state) :
  exists b s',
    init_configure reply rx_running num_uart rs s
    = Returned b (InitVars b true num_uart) s' /\
    b = rx_running (looked s) /\
    looked s' = S (looked s) /\
    trace s'
    = trace s ++ (if b then map Issue rs ++ [TerminalRegisterCommand]
                  else []).
Proof.
  unfold init_configure. destruct s as [t a l].
  cbv [thd_rx_is_running trace asked looked].
  destruct (rx_running l); cbn [negb].
  - eexists; eexists. split; [reflexivity|]. split; [reflexivity|].
    destruct (ask_all_adds rs (InitState t a (S l))) as (Et & _ & El).
    cbv [act]. cbn [trace asked looked] in *. rewrite Et, El.
    split; [reflexivity|]. now rewrite <- app_assoc.
  - eexists; eexists. split; [reflexivity|]. split; [reflexivity|].
    cbn [trace looked]. split; [reflexivity|]. now rewrite app_nil_r.
Qed.

(** The way out when no baud rate worked: never a success, no request,
    no terminal command, one delay at most for each read of the flag. *)
Lemma init_give_up_facts (fuel : nat) (print : bool) (num_uart : Z)
    (s : init_state) :
  exists s' extra,
    (init_give_up rx_running fuel print num_uart s
     = Returned false (InitVars false true num_uart) s' \/
     init_give_up rx_running fuel print num_uart s = StillWaiting s') /\
    trace s' = trace s ++ extra /\ issued extra = [] /\
    (length (filter is_delay extra) + looked s <= looked s')%nat /\
    ~ In TerminalRegisterCommand extra.
Proof.
  unfold init_give_up.
  destruct (wait_rx_task_end rx_running fuel (act (SetShouldTerminate true) s))
    as [ended s1] eqn:E.
  apply wait_rx_task_end_adds in E. destruct E as (n & Et & Ea & El).
  cbv [act] in Et, Ea, El. cbn [trace asked looked] in Et, Ea, El.
  rewrite <- app_assoc in Et. cbn [app] in Et.
  assert (Hd : forall tail,
             issued tail = [] -> filter is_delay tail = [] ->
             ~ In TerminalRegisterCommand tail ->
             issued (SetShouldTerminate true
                       :: repeat (VTaskDelay 1) n ++ tail) = [] /\
             (length (filter is_delay
                        (SetShouldTerminate true
                           :: repeat (VTaskDelay 1) n ++ tail))
              + looked s <= looked s1)%nat /\
             ~ In TerminalRegisterCommand
                  (SetShouldTerminate true
                     :: repeat (VTaskDelay 1) n ++ tail)).
  { intros tail Hi Hf Hn.
    change (issued (?x :: ?y)) with (issued [x] ++ issued y).
    rewrite issued_app, issued_delays, Hi.
    cbn [issued flat_map app filter is_delay].
    rewrite filter_app, Hf, app_nil_r, delays_delays.
    repeat split; [lia|].
    intros [Hin|Hin]; [discriminate|].
    rewrite in_app_iff in Hin. destruct Hin as [Hin|Hin];
      [now apply not_registered_delays in Hin | now apply Hn]. }
  destruct ended; cbn [negb].
  - destruct print.
    + exists (act (InitPrintf "Could not set baud rate") s1),
        (SetShouldTerminate true :: repeat (VTaskDelay 1) n
           ++ [InitPrintf "Could not set baud rate"]).
      split; [left; reflexivity|].
      split; [cbv [act]; cbn [trace]; rewrite Et, <- app_assoc;
              reflexivity|].
      apply Hd; try reflexivity.
      intros [Hin|[]]. discriminate.
    + exists s1, (SetShouldTerminate true :: repeat (VTaskDelay 1) n ++ []).
      split; [left; reflexivity|].
      split; [rewrite app_nil_r; exact Et|].
      apply Hd; try reflexivity. intros [].
  - exists s1, (SetShouldTerminate true :: repeat (VTaskDelay 1) n ++ []).
    split; [right; reflexivity|].
    split; [rewrite app_nil_r; exact Et|].
    apply Hd; try reflexivity. intros [].
Qed.

Lemma init_give_up_ends (fuel n : nat) (print : bool) (num_uart : Z)
    (s : init_state) :
  wait_ends rx_running (looked s) n -> (n < fuel)%nat ->
  init_give_up rx_running fuel print num_uart s
  = Returned false (InitVars false true num_uart)
      (InitState (trace s ++ SetShouldTerminate true
                          :: repeat (VTaskDelay 1) n
                          ++ (if print
                              then [InitPrintf "Could not set baud rate"]
                              else []))
                 (asked s) (S (looked s + n))).
Proof.
  intros Hw Hn. unfold init_give_up.
  rewrite (wait_rx_task_end_ends fuel n) by assumption. cbn [negb].
  destruct print; cbv [act trace asked looked];
    rewrite <- ?app_assoc; cbn [app]; rewrite ?app_nil_r; reflexivity.
Qed.

Lemma init_give_up_spins (fuel : nat) (print : bool) (num_uart : Z)
    (s : init_state) :
  (forall k, (k < fuel)%nat -> rx_running (looked s + k)%nat = true) ->
  init_give_up rx_running fuel print num_uart s
  = StillWaiting
      (InitState (trace s ++ SetShouldTerminate true
                          :: repeat (VTaskDelay 1) fuel)
                 (asked s) (looked s + fuel)).
Proof.
  intros Hrun. unfold init_give_up.
  rewrite (wait_rx_task_end_spins fuel) by exact Hrun. cbn [negb].
  cbv [act trace asked looked]. now rewrite <- app_assoc.
Qed.

Lemma request_sent_baud_probe (rate_ms : Z) :
  exists probe,
    valset_of 80 (baud_keys rate_ms) = Some probe /\ request_sent probe.
Proof.
  eexists. split.
  - apply (valset_of_writes 80 _ _ (writes_baud_keys rate_ms)).
    rewrite ?length_app, ?length_le_bytes. cbn [length Nat.add]. lia.
  - cbn [request_sent]. rewrite Nat2Z.id, firstn_app, firstn_all, Nat.sub_diag.
    cbn [firstn]. rewrite app_nil_r.
    rewrite ?length_app, ?length_le_bytes, ?repeat_length.
    unfold UBX_BUFFER_SIZE. cbn [length Nat.add].
    repeat split; try lia.
    repeat first [ apply Forall_nil | apply Forall_le_bytes
                 | apply Forall_app; split ].
Qed.

Lemma request_sent_m10_config :
  exists config,
    valset_of 90 m10_keys = Some config /\ request_sent config.
Proof.
  destruct writes_m10_keys as (bs & Hw & Hlen & Hb).
  eexists. split.
  - apply (valset_of_writes 90 _ _ Hw). lia.
  - cbn [request_sent]. rewrite Nat2Z.id, firstn_app, firstn_all, Nat.sub_diag.
    cbn [firstn]. rewrite app_nil_r, length_app, repeat_length, Hlen.
    unfold UBX_BUFFER_SIZE. repeat split; try lia. assumption.
Qed.

Lemma request_sent_legacy (rate_ms : Z) :
  Forall request_sent (legacy_configuration rate_ms).
Proof.
  unfold legacy_configuration.
  repeat (apply Forall_cons; [exact I|]).
  apply Forall_cons; [|apply Forall_nil].
  cbn [request_sent init_gnss num_blocks blocks length]. lia.
Qed.

Lemma Forall_either {A} (P : A -> Prop) (x y : A) (l : list A) :
  P x -> P y -> Forall (fun r => r = x \/ r = y) l -> Forall P l.
Proof.
  intros Hx Hy Hl. eapply Forall_impl; [|exact Hl].
  intros r [-> | ->]; assumption.
Qed.

(** Counting the requests and the delays of a trace given by parts. *)
Ltac tally Hopening :=
  rewrite ?issued_app, ?filter_app, ?length_app, ?issued_issues,
    ?no_delay_issues, ?Hopening, ?app_nil_r;
  cbn [issued flat_map filter is_delay app length legacy_configuration map];
  rewrite ?app_nil_r, ?length_app; cbn [length].

(** Once the opening wait is over, [ublox_init] stands where its first
    retry loop starts. *)
Lemma opening_facts (v : init_vars) (driver_installed : bool)
    (num_uart pin_rx pin_tx : Z) (n0 : nat) :
  wait_ends rx_running 0 n0 ->
  issued (opening v driver_installed num_uart pin_rx pin_tx n0) = [] /\
  (length (filter is_delay
             (opening v driver_installed num_uart pin_rx pin_tx n0))
   <= S n0)%nat /\
  ~ In TerminalRegisterCommand
       (opening v driver_installed num_uart pin_rx pin_tx n0).
Proof.
  intros Hw.
  destruct (init_open_facts (S n0) v driver_installed num_uart pin_rx pin_tx)
    as (ended & s & E & _ & Hi & Hd & Hn).
  rewrite (init_open_ends (S n0) n0) in E by (assumption || lia).
  injection E as <- <-. cbn [trace looked] in *. auto.
Qed.

(** X18. [ublox_init] returns provided each of its two wait loops, when
    entered, sees the flag [thd_rx_is_running] clear at some read (the
    loops themselves have no bound): the value returned is then the one
    it leaves in [m_init_ok], at most 41 configuration requests were
    issued, every one of them one that is transmitted as a well-formed
    frame (the GNSS table has four blocks, the key-value buffers hold 20
    and 80 bytes), and besides one delay for each read of the flag at
    most 40 calls of [vTaskDelay] were made.  The result no longer
    depends on how far the wait loops are followed. *)
Theorem ublox_init_returns (v : init_vars) (driver_installed print : bool)
    (rate_ms num_uart pin_rx pin_tx : Z) :
  (forall k, exists n, rx_running (k + n)%nat = false) ->
  exists fuel b s,
    (forall fuel', (fuel <= fuel')%nat ->
       ublox_init reply rx_running fuel' v driver_installed print rate_ms
                  num_uart pin_rx pin_tx
       = Some (Returned b (InitVars b true num_uart) s)) /\
    (length (issued (trace s)) <= 41)%nat /\
    (length (filter is_delay (trace s)) <= 40 + looked s)%nat /\
    Forall request_sent (issued (trace s)).
Proof.
  intros Hends.
  destruct (Hends 0%nat) as (n & Hn).
  destruct (first_false n 0 Hn) as (n0 & _ & Hw0).
  destruct (opening_facts v driver_installed num_uart pin_rx pin_tx n0 Hw0)
    as (Hi0 & Hd0 & _).
  set (s0 := InitState (opening v driver_installed num_uart pin_rx pin_tx n0)
                       0 (S n0)).
  assert (Hopen : forall fuel', (S n0 <= fuel')%nat ->
             init_open rx_running fuel' v driver_installed num_uart
                       pin_rx pin_tx = (true, s0))
    by (intros fuel' Hf; apply init_open_ends; [assumption | lia]).
  destruct (baud_loop reply rx_running num_uart (ReqRate rate_ms 1 0)
              (ReqPrtUart init_uart) BAUDRATE_UBX_DEFAULT 4 s0)
    as [e1 s1] eqn:E1.
  pose proof E1 as A1. apply baud_loop_adds in A1.
  destruct A1 as (x1 & Et1 & Ea1 & El1 & Hn1 & Hd1 & Hr1 & _).
  apply (Forall_either request_sent) in Hr1; [|exact I|exact I].
  change (trace s0)
    with (opening v driver_installed num_uart pin_rx pin_tx n0) in Et1.
  change (looked s0) with (S n0) in El1.
  destruct e1 as [|[|]].
  - exists (S n0), false, s1. split.
    + intros fuel' Hf. unfold ublox_init. now rewrite Hopen, E1.
    + rewrite Et1. tally Hi0. repeat split; try lia. assumption.
  - destruct (init_configure_facts num_uart (legacy_configuration rate_ms) s1)
      as (b & s' & Ec & _ & El' & Et').
    exists (S n0), b, s'. split.
    + intros fuel' Hf. unfold ublox_init. now rewrite Hopen, E1, Ec.
    + rewrite Et', Et1, El'. destruct b; tally Hi0; repeat split; try lia;
        repeat (apply Forall_app; split); try assumption;
        try apply Forall_nil.
      apply request_sent_legacy.
  - destruct (request_sent_baud_probe rate_ms) as (probe & Ep & Hp).
    destruct (baud_loop reply rx_running num_uart probe probe
                BAUDRATE_UBX_DEFAULT_NEW 4 s1) as [e2 s2] eqn:E2.
    pose proof E2 as A2. apply baud_loop_adds in A2.
    destruct A2 as (x2 & Et2 & Ea2 & El2 & Hn2 & Hd2 & Hr2 & _).
    apply (Forall_either request_sent) in Hr2; [|exact Hp|exact Hp].
    destruct e2 as [|[|]].
    + exists (S n0), false, s2. split.
      * intros fuel' Hf. unfold ublox_init. now rewrite Hopen, E1, Ep, E2.
      * rewrite Et2, Et1. tally Hi0. repeat split; try lia.
        apply Forall_app. split; assumption.
    + destruct request_sent_m10_config as (config & Ek & Hc).
      destruct (init_configure_facts num_uart [config] s2)
        as (b & s' & Ec & _ & El' & Et').
      exists (S n0), b, s'. split.
      * intros fuel' Hf. unfold ublox_init.
        now rewrite Hopen, E1, Ep, E2, Ek, Ec.
      * rewrite Et', Et2, Et1, El'.
        destruct b; tally Hi0; repeat split; try lia;
          repeat (apply Forall_app; split); try assumption;
          try apply Forall_nil.
        apply Forall_cons; [assumption | apply Forall_nil].
    + destruct (Hends (looked s2)) as (m & Hm).
      destruct (first_false m (looked s2) Hm) as (n1 & _ & Hw1).
      eexists (S (Nat.max n0 n1)), false, _. split.
      * intros fuel' Hf. unfold ublox_init.
        rewrite Hopen, E1, Ep, E2 by lia.
        now rewrite (init_give_up_ends fuel' n1) by (assumption || lia).
      * cbn [trace looked]. rewrite Et2, Et1.
        change (SetShouldTerminate true :: ?y)
          with ([SetShouldTerminate true] ++ y).
        destruct print; tally Hi0; rewrite ?issued_delays, ?delays_delays;
          cbn [app length]; repeat split; try lia;
          repeat (apply Forall_app; split); try assumption;
          try apply Forall_nil.
Qed.

(** X19. While the receive task is seen running (the opening wait ends
    after [n0] delays and the flag [thd_rx_is_running] reads true at the
    nine reads that can follow), [ublox_init] returns true exactly when
    one of the requests whose return value it tests (the first, fourth
    and fifth request of each of the at most eight retry rounds: four
    with the rate request, then four with the value-set request) returns
    something other than the timeout -1; a NAK counts like an ACK, and
    the return values of all other requests have no influence.
    Otherwise it returns false or is still waiting for the receive task
    to end. *)
Theorem ublox_init_succeeds_iff (fuel n0 : nat) (v : init_vars)
    (driver_installed print : bool) (rate_ms num_uart pin_rx pin_tx : Z) :
  wait_ends rx_running 0 n0 -> (n0 < fuel)%nat ->
  (forall k, (n0 < k <= n0 + 9)%nat -> rx_running k = true) ->
  exists r,
    ublox_init reply rx_running fuel v driver_installed print rate_ms
               num_uart pin_rx pin_tx = Some r /\
    ((exists s, r = Returned true (InitVars true true num_uart) s) <->
     exists j c, (j < 8)%nat /\ (c = 0 \/ c = 3 \/ c = 4)%nat /\
                 reply (5 * j + c)%nat <> -1).
Proof.
  intros Hw0 Hfuel Hrun. unfold ublox_init.
  rewrite (init_open_ends fuel n0) by assumption.
  set (s0 := InitState (opening v driver_installed num_uart pin_rx pin_tx n0)
                       0 (S n0)).
  destruct (baud_loop_outcome num_uart (ReqRate rate_ms 1 0)
              (ReqPrtUart init_uart) BAUDRATE_UBX_DEFAULT 4 s0)
    as (ok1 & s1 & -> & Hiff1 & Hl1 & Hfail1).
  { intros k Hk. apply Hrun. cbn [looked s0]. lia. }
  cbn [asked looked s0 Nat.add] in Hiff1, Hl1, Hfail1.
  destruct ok1.
  - destruct (init_configure_facts num_uart (legacy_configuration rate_ms) s1)
      as (b & s' & -> & Hb & _).
    rewrite Hrun in Hb by lia. subst b. eexists. split; [reflexivity|].
    split; [|intros _; now exists s'].
    intros _. destruct (proj1 Hiff1 eq_refl) as (j & c & Hj & Hc & Hr).
    exists j, c. split; [lia|]. split; assumption.
  - destruct (Hfail1 eq_refl) as (Ha1 & Hk1 & _).
    destruct (request_sent_baud_probe rate_ms) as (probe & -> & _).
    destruct (baud_loop_outcome num_uart probe probe
                BAUDRATE_UBX_DEFAULT_NEW 4 s1)
      as (ok2 & s2 & -> & Hiff2 & Hl2 & _).
    { intros k Hk. apply Hrun. lia. }
    rewrite Ha1 in Hiff2.
    assert (Hnone : forall j c, (j < 4)%nat -> (c = 0 \/ c = 3 \/ c = 4)%nat ->
                                reply (5 * j + c)%nat = -1).
    { intros j c Hj Hc.
      destruct (Z.eq_dec (reply (5 * j + c)%nat) (-1)) as [E|E];
        [assumption|].
      assert (Hno : false = true); [|discriminate].
      apply Hiff1. exists j, c. auto. }
    destruct ok2.
    + destruct request_sent_m10_config as (config & -> & _).
      destruct (init_configure_facts num_uart [config] s2)
        as (b & s' & -> & Hb & _).
      rewrite Hrun in Hb by lia. subst b. eexists. split; [reflexivity|].
      split; [|intros _; now exists s'].
      intros _. destruct (proj1 Hiff2 eq_refl) as (j & c & Hj & Hc & Hr).
      exists (4 + j)%nat, c. split; [lia|]. split; [assumption|].
      replace (5 * (4 + j) + c)%nat with (5 * 4 + 5 * j + c)%nat by lia.
      assumption.
    + eexists. split; [reflexivity|].
      destruct (init_give_up_facts fuel print num_uart s2)
        as (s' & extra & [Eg|Eg] & _); rewrite Eg.
      all: split; [intros (s & Es); discriminate Es|].
      all: intros (j & c & Hj & Hc & Hr).
      all: destruct (Nat.lt_ge_cases j 4) as [Hlow|Hhigh];
        [exfalso; apply Hr; now apply Hnone|].
      all: assert (Hno : false = true); [|discriminate].
      all: apply Hiff2; exists (j - 4)%nat, c; split; [lia|];
        split; [assumption|].
      all: replace (5 * 4 + 5 * (j - 4) + c)%nat with (5 * j + c)%nat by lia;
        assumption.
Qed.

(** X20. A receiver that never answers, with the receive task seen
    running during the retry rounds: after the opening, [ublox_init]
    issues exactly 40 requests, four rounds of rate, port, port, rate,
    rate followed by four rounds of five value-set requests; it then
    sets [should_terminate] and waits for the receive task, and when the
    flag reads false after [n1] delays it prints the failure message (if
    asked to) and returns false with [m_init_ok] clear.  Neither the
    configuration nor the terminal command is reached. *)
Theorem ublox_init_silent_receiver (fuel n0 n1 : nat) (v : init_vars)
    (driver_installed print : bool) (rate_ms num_uart pin_rx pin_tx : Z) :
  wait_ends rx_running 0 n0 -> (n0 < fuel)%nat ->
  (forall k, (n0 < k <= n0 + 8)%nat -> rx_running k = true) ->
  wait_ends rx_running (n0 + 9) n1 -> (n1 < fuel)%nat ->
  (forall k, reply k = -1) ->
  exists probe s t,
    valset_of 80 (baud_keys rate_ms) = Some probe /\
    ublox_init reply rx_running fuel v driver_installed print rate_ms
               num_uart pin_rx pin_tx
    = Some (Returned false (InitVars false true num_uart) s) /\
    trace s
    = opening v driver_installed num_uart pin_rx pin_tx n0 ++ t
      ++ SetShouldTerminate true :: repeat (VTaskDelay 1) n1
      ++ (if print then [InitPrintf "Could not set baud rate"] else []) /\
    issued t
    = concat (repeat (silent_round (ReqRate rate_ms 1 0)
                                   (ReqPrtUart init_uart)) 4)
      ++ concat (repeat (silent_round probe probe) 4) /\
    length (issued (trace s)) = 40%nat /\
    ~ In TerminalRegisterCommand (trace s).
Proof.
  intros Hw0 Hfuel Hrun Hw1 Hfuel1 Hsilent. unfold ublox_init.
  rewrite (init_open_ends fuel n0) by assumption.
  destruct (opening_facts v driver_installed num_uart pin_rx pin_tx n0 Hw0)
    as (Hi0 & _ & Hn0).
  set (s0 := InitState (opening v driver_installed num_uart pin_rx pin_tx n0)
                       0 (S n0)).
  destruct (baud_loop_outcome num_uart (ReqRate rate_ms 1 0)
              (ReqPrtUart init_uart) BAUDRATE_UBX_DEFAULT 4 s0)
    as (ok1 & s1 & E1 & Hiff1 & _ & Hfail1).
  { intros k Hk. apply Hrun. cbn [looked s0]. lia. }
  destruct ok1.
  { destruct (proj1 Hiff1 eq_refl) as (j & c & _ & _ & Hr).
    exfalso. apply Hr, Hsilent. }
  destruct (Hfail1 eq_refl) as (_ & Hk1 & x1 & Et1 & Ei1 & Hx1).
  cbn [looked trace s0] in Hk1, Et1.
  destruct (request_sent_baud_probe rate_ms) as (probe & Ep & _).
  exists probe. rewrite E1, Ep.
  destruct (baud_loop_outcome num_uart probe probe
              BAUDRATE_UBX_DEFAULT_NEW 4 s1)
    as (ok2 & s2 & E2 & Hiff2 & _ & Hfail2).
  { intros k Hk. apply Hrun. lia. }
  destruct ok2.
  { destruct (proj1 Hiff2 eq_refl) as (j & c & _ & _ & Hr).
    exfalso. apply Hr, Hsilent. }
  destruct (Hfail2 eq_refl) as (_ & Hk2 & x2 & Et2 & Ei2 & Hx2).
  rewrite E2.
  rewrite (init_give_up_ends fuel n1)
    by (try assumption;
        replace (looked s2) with (n0 + 9)%nat by lia; assumption).
  eexists. exists (x1 ++ x2). split; [reflexivity|]. split; [reflexivity|].
  cbn [trace]. rewrite Et2, Et1, <- !app_assoc.
  split; [reflexivity|].
  assert (Hx : forall tail,
             tail = [] \/ tail = [InitPrintf "Could not set baud rate"] ->
             issued (SetShouldTerminate true
                       :: repeat (VTaskDelay 1) n1 ++ tail) = [] /\
             ~ In TerminalRegisterCommand
                  (SetShouldTerminate true
                     :: repeat (VTaskDelay 1) n1 ++ tail)).
  { intros tail Ht.
    change (issued (?x :: ?y)) with (issued [x] ++ issued y).
    rewrite issued_app, issued_delays. split.
    - destruct Ht as [-> | ->]; reflexivity.
    - intros [Hin|Hin]; [discriminate|]. rewrite in_app_iff in Hin.
      destruct Hin as [Hin|Hin];
        [now apply not_registered_delays in Hin|].
      destruct Ht as [-> | ->]; [destruct Hin|].
      destruct Hin as [Hin|[]]. discriminate. }
  destruct (Hx (if print then [InitPrintf "Could not set baud rate"]
                else [])) as (Hxi & Hxn);
    [destruct print; auto|].
  rewrite !issued_app, Hi0, Ei1, Ei2, Hxi, app_nil_r. cbn [app].
  split; [reflexivity|]. split; [reflexivity|].
  rewrite !in_app_iff. tauto.
Qed.

(** X21. When the first rate request is answered (by an ACK or by a NAK)
    and the receive task is seen running, [ublox_init], after its
    opening (with the [n0] delays of the opening wait), changes no baud
    rate and makes no further delay: it issues the rate request, then
    the port request, the rate request, the navigation-engine request,
    the fifteen message-rate requests, the NMEA request and the GNSS
    request in this order, registers the terminal command and returns
    true with [m_init_ok] set, whatever the last twenty requests
    return. *)
Theorem ublox_init_first_probe_answered (fuel n0 : nat) (v : init_vars)
    (driver_installed print : bool) (rate_ms num_uart pin_rx pin_tx : Z) :
  wait_ends rx_running 0 n0 -> (n0 < fuel)%nat ->
  rx_running (n0 + 1)%nat = true -> rx_running (n0 + 2)%nat = true ->
  reply 0%nat <> -1 ->
  exists s,
    ublox_init reply rx_running fuel v driver_installed print rate_ms
               num_uart pin_rx pin_tx
    = Some (Returned true (InitVars true true num_uart) s) /\
    trace s
    = opening v driver_installed num_uart pin_rx pin_tx n0
      ++ Issue (ReqRate rate_ms 1 0)
      :: map Issue (legacy_configuration rate_ms)
      ++ [TerminalRegisterCommand].
Proof.
  intros Hw0 Hfuel Hrun1 Hrun2 Hans. unfold ublox_init.
  rewrite (init_open_ends fuel n0) by assumption.
  rewrite baud_loop_first_answer
    by (cbn [looked asked];
        try (replace (S n0) with (n0 + 1)%nat by lia); assumption).
  cbn [trace asked looked].
  destruct (init_configure_facts num_uart (legacy_configuration rate_ms)
              (InitState (opening v driver_installed num_uart pin_rx pin_tx n0
                          ++ [Issue (ReqRate rate_ms 1 0)]) 1 (S (S n0))))
    as (b & s' & Ec & Hb & _ & Et).
  cbn [looked trace] in Hb, Et.
  replace (S (S n0)) with (n0 + 2)%nat in Hb by lia.
  rewrite Hrun2 in Hb. subst b.
  rewrite Ec. exists s'. split; [reflexivity|].
  rewrite Et, <- app_assoc. reflexivity.
Qed.

(** X23. The opening wait of [ublox_init] has no bound of its own: as long
    as the flag [thd_rx_is_running] reads true, the call is inside
    [while (thd_rx_is_running) { vTaskDelay(1); }], having set
    [should_terminate], made one delay for each read and done nothing
    else; it has not returned, however far the loop is followed. *)
Theorem ublox_init_opening_wait_unbounded (fuel : nat) (v : init_vars)
    (driver_installed print : bool) (rate_ms num_uart pin_rx pin_tx : Z) :
  (forall k, (k < fuel)%nat -> rx_running k = true) ->
  ublox_init reply rx_running fuel v driver_installed print rate_ms
             num_uart pin_rx pin_tx
  = Some (StillWaiting
            (InitState
               ((if sem_init_done v then [] else [XSemaphoreCreateBinary])
                ++ SetShouldTerminate true :: repeat (VTaskDelay 1) fuel)
               0 fuel)).
Proof.
  intros Hrun. unfold ublox_init.
  now rewrite (init_open_spins fuel) by assumption.
Qed.

(** X24. The wait on the failure path has no bound either: with a
    receiver that never answers and a flag [thd_rx_is_running] that
    reads true at every read after the opening wait, [ublox_init] issues
    its 40 requests and is then inside its second
    [while (thd_rx_is_running) { vTaskDelay(1); }]; it has not returned,
    however far the loop is followed. *)
Theorem ublox_init_failure_wait_unbounded (fuel n0 : nat) (v : init_vars)
    (driver_installed print : bool) (rate_ms num_uart pin_rx pin_tx : Z) :
  wait_ends rx_running 0 n0 -> (n0 < fuel)%nat ->
  (forall k, (n0 < k)%nat -> rx_running k = true) ->
  (forall k, reply k = -1) ->
  exists s t,
    ublox_init reply rx_running fuel v driver_installed print rate_ms
               num_uart pin_rx pin_tx = Some (StillWaiting s) /\
    trace s
    = opening v driver_installed num_uart pin_rx pin_tx n0 ++ t
      ++ SetShouldTerminate true :: repeat (VTaskDelay 1) fuel /\
    length (issued t) = 40%nat /\
    looked s = (n0 + 9 + fuel)%nat.
Proof.
  intros Hw0 Hfuel Hrun Hsilent. unfold ublox_init.
  rewrite (init_open_ends fuel n0) by assumption.
  set (s0 := InitState (opening v driver_installed num_uart pin_rx pin_tx n0)
                       0 (S n0)).
  destruct (baud_loop_outcome num_uart (ReqRate rate_ms 1 0)
              (ReqPrtUart init_uart) BAUDRATE_UBX_DEFAULT 4 s0)
    as (ok1 & s1 & E1 & Hiff1 & _ & Hfail1).
  { intros k Hk. apply Hrun. cbn [looked s0]. lia. }
  destruct ok1.
  { destruct (proj1 Hiff1 eq_refl) as (j & c & _ & _ & Hr).
    exfalso. apply Hr, Hsilent. }
  destruct (Hfail1 eq_refl) as (_ & Hk1 & x1 & Et1 & Ei1 & _).
  cbn [looked trace s0] in Hk1, Et1.
  destruct (request_sent_baud_probe rate_ms) as (probe & Ep & _).
  rewrite E1, Ep.
  destruct (baud_loop_outcome num_uart probe probe
              BAUDRATE_UBX_DEFAULT_NEW 4 s1)
    as (ok2 & s2 & E2 & Hiff2 & _ & Hfail2).
  { intros k Hk. apply Hrun. lia. }
  destruct ok2.
  { destruct (proj1 Hiff2 eq_refl) as (j & c & _ & _ & Hr).
    exfalso. apply Hr, Hsilent. }
  destruct (Hfail2 eq_refl) as (_ & Hk2 & x2 & Et2 & Ei2 & _).
  rewrite E2.
  rewrite (init_give_up_spins fuel) by (intros k Hk; apply Hrun; lia).
  eexists. exists (x1 ++ x2). split; [reflexivity|].
  cbn [trace looked]. rewrite Et2, Et1, <- !app_assoc.
  split; [reflexivity|]. rewrite issued_app, Ei1, Ei2. split; [reflexivity|].
  lia.
Qed.

End InitFacts.

Lemma ublox_init_returns_witness :
  exists fuel b s,
    (forall fuel', (fuel <= fuel')%nat ->
       ublox_init (fun _ => 0) (fun k => (0 <? k)%nat && (k <? 3)%nat) fuel'
                  (InitVars false false 0) false true 1000 1 16 17
       = Some (Returned b (InitVars b true 1) s)) /\
    (length (issued (trace s)) <= 41)%nat /\
    (length (filter is_delay (trace s)) <= 40 + looked s)%nat /\
    Forall request_sent (issued (trace s)).
Proof.
  apply (ublox_init_returns (fun _ => 0)
           (fun k => (0 <? k)%nat && (k <? 3)%nat)
           (InitVars false false 0) false true 1000 1 16 17).
  intros k. exists 3%nat. apply andb_false_intro2, Nat.ltb_ge. lia.
Defined.

Lemma ublox_init_succeeds_iff_witness :
  exists r,
    ublox_init (fun k => if (k =? 23)%nat then 1 else -1)
               (fun k => negb (k =? 0)%nat) 1
               (InitVars false false 0) false true 1000 1 16 17 = Some r /\
    ((exists s, r = Returned true (InitVars true true 1) s) <->
     exists j c, (j < 8)%nat /\ (c = 0 \/ c = 3 \/ c = 4)%nat /\
                 (if (5 * j + c =? 23)%nat then 1 else -1) <> -1).
Proof.
  apply (ublox_init_succeeds_iff (fun k => if (k =? 23)%nat then 1 else -1)
           (fun k => negb (k =? 0)%nat) 1 0
           (InitVars false false 0) false true 1000 1 16 17).
  - split; [intros k Hk; lia | reflexivity].
  - lia.
  - intros k Hk. destruct k; [lia | reflexivity].
Defined.

Lemma ublox_init_silent_receiver_witness :
  exists probe s t,
    valset_of 80 (baud_keys 1000) = Some probe /\
    ublox_init (fun _ => -1)
               (fun k => negb (k =? 0)%nat && negb (k =? 11)%nat) 3
               (InitVars false false 0) false true 1000 1 16 17
    = Some (Returned false (InitVars false true 1) s) /\
    trace s
    = opening (InitVars false false 0) false 1 16 17 0 ++ t
      ++ SetShouldTerminate true :: repeat (VTaskDelay 1) 2
      ++ [InitPrintf "Could not set baud rate"] /\
    issued t
    = concat (repeat (silent_round (ReqRate 1000 1 0)
                                   (ReqPrtUart init_uart)) 4)
      ++ concat (repeat (silent_round probe probe) 4) /\
    length (issued (trace s)) = 40%nat /\
    ~ In TerminalRegisterCommand (trace s).
Proof.
  apply (ublox_init_silent_receiver (fun _ => -1)
           (fun k => negb (k =? 0)%nat && negb (k =? 11)%nat) 3 0 2
           (InitVars false false 0) false true 1000 1 16 17).
  - split; [intros k Hk; lia | reflexivity].
  - lia.
  - intros k Hk. apply andb_true_intro.
    split; apply negb_true_iff, Nat.eqb_neq; lia.
  - split; [|reflexivity].
    intros k Hk. destruct k as [|[|k]]; [reflexivity | reflexivity | lia].
  - lia.
  - reflexivity.
Defined.

Lemma ublox_init_first_probe_answered_witness :
  exists s,
    ublox_init (fun _ => 1) (fun k => negb (k =? 1)%nat) 2
               (InitVars false false 0) false true 1000 1 16 17
    = Some (Returned true (InitVars true true 1) s) /\
    trace s
    = opening (InitVars false false 0) false 1 16 17 1
      ++ Issue (ReqRate 1000 1 0)
      :: map Issue (legacy_configuration 1000)
      ++ [TerminalRegisterCommand].
Proof.
  apply (ublox_init_first_probe_answered (fun _ => 1)
           (fun k => negb (k =? 1)%nat) 2 1
           (InitVars false false 0) false true 1000 1 16 17).
  - split; [|reflexivity]. intros k Hk. destruct k; [reflexivity | lia].
  - lia.
  - reflexivity.
  - reflexivity.
  - discriminate.
Defined.

Lemma ublox_init_opening_wait_unbounded_witness :
  ublox_init (fun _ => 0) (fun _ => true) 5
             (InitVars false true 0) false true 1000 1 16 17
  = Some (StillWaiting
            (InitState (SetShouldTerminate true :: repeat (VTaskDelay 1) 5)
                       0 5)).
Proof.
  apply (ublox_init_opening_wait_unbounded (fun _ => 0) (fun _ => true) 5
           (InitVars false true 0) false true 1000 1 16 17).
  reflexivity.
Defined.

Lemma ublox_init_failure_wait_unbounded_witness :
  exists s t,
    ublox_init (fun _ => -1) (fun k => negb (k =? 0)%nat) 4
               (InitVars false false 0) false true 1000 1 16 17
    = Some (StillWaiting s) /\
    trace s
    = opening (InitVars false false 0) false 1 16 17 0 ++ t
      ++ SetShouldTerminate true :: repeat (VTaskDelay 1) 4 /\
    length (issued t) = 40%nat /\
    looked s = (0 + 9 + 4)%nat.
Proof.
  apply (ublox_init_failure_wait_unbounded (fun _ => -1)
           (fun k => negb (k =? 0)%nat) 4 0
           (InitVars false false 0) false true 1000 1 16 17).
  - split; [intros k Hk; lia | reflexivity].
  - lia.
  - intros k Hk. destruct k; [lia | reflexivity].
  - reflexivity.
Defined.

(* ------------------------------------------------------------------ *)
(** ** Floating-point fields *)

Lemma shiftr_bytes8 (v : Z) :
  [v mod 256; Z.shiftr v 8 mod 256; Z.shiftr v 16 mod 256;
   Z.shiftr v 24 mod 256; Z.shiftr v 32 mod 256; Z.shiftr v 40 mod 256;
   Z.shiftr v 48 mod 256; Z.shiftr v 56 mod 256]
  = le_bytes 8 v.
Proof.
  cbn [le_bytes]. rewrite !Z.shiftr_div_pow2 by lia.
  rewrite !Z.div_div by lia. reflexivity.
Qed.

Lemma writes_put_R8 (d : Z) : writes (ubx_put_R8 d) (le_bytes 8 d).
Proof.
  unfold ubx_put_R8. cbv zeta. eapply writes_eq.
  - repeat (apply writes_seq; [apply writes_emit|]). apply writes_emit.
  - cbn [app]. rewrite shiftr_bytes8. unfold to_u64.
    now apply le_bytes_mod.
Qed.

Lemma writes_put_R4 (upper d : Z) :
  writes (ubx_put_R4 upper d) (le_bytes 4 d).
Proof.
  unfold ubx_put_R4. eapply writes_eq; [apply writes_put32|].
  unfold to_u64, to_u32.
  replace 18446744073709551616 with (4294967296 * 4294967296) by reflexivity.
  rewrite (Z.mod_eq (d mod 4294967296 + 4294967296 * upper)) by lia.
  replace (d mod 4294967296 + 4294967296 * upper
           - 4294967296 * 4294967296
             * ((d mod 4294967296 + 4294967296 * upper)
                / (4294967296 * 4294967296)))
    with (d mod 4294967296
          + 256 ^ Z.of_nat 4
            * (upper - 4294967296
                       * ((d mod 4294967296 + 4294967296 * upper)
                          / (4294967296 * 4294967296))))
    by (change (256 ^ Z.of_nat 4) with 4294967296; lia).
  rewrite le_bytes_shift. now apply le_bytes_mod.
Qed.

Ltac pow2_numerals :=
  change (2 ^ 56) with 72057594037927936 in *;
  change (2 ^ 48) with 281474976710656 in *;
  change (2 ^ 40) with 1099511627776 in *;
  change (2 ^ 32) with 4294967296 in *;
  change (2 ^ 24) with 16777216 in *;
  change (2 ^ 16) with 65536 in *;
  change (2 ^ 8) with 256 in *.

Lemma lor_next_byte (hi b n m : Z) :
  0 <= n -> m = n + 8 -> is_byte b ->
  Z.lor (hi * 2 ^ m) (b * 2 ^ n) = (hi * 256 + b) * 2 ^ n.
Proof.
  unfold is_byte. intros Hn -> Hb.
  assert (Hp : 0 < 2 ^ n) by (apply Z.pow_pos_nonneg; lia).
  assert (Hq : 2 ^ (n + 8) = 256 * 2 ^ n)
    by (rewrite Z.pow_add_r by lia; change (2 ^ 8) with 256; lia).
  rewrite lor_scaled; [rewrite Hq; lia | lia |].
  rewrite Hq. nia.
Qed.

Lemma assemble64 (b0 b1 b2 b3 b4 b5 b6 b7 : Z) :
  is_byte b0 -> is_byte b1 -> is_byte b2 -> is_byte b3 ->
  is_byte b4 -> is_byte b5 -> is_byte b6 -> is_byte b7 ->
  Z.lor (Z.lor (Z.lor (Z.lor (Z.lor (Z.lor (Z.lor
    (to_u64 (Z.shiftl (to_u64 b7) 56)) (to_u64 (Z.shiftl (to_u64 b6) 48)))
    (to_u64 (Z.shiftl (to_u64 b5) 40))) (to_u64 (Z.shiftl (to_u64 b4) 32)))
    (to_u64 (Z.shiftl (to_u64 b3) 24))) (to_u64 (Z.shiftl (to_u64 b2) 16)))
    (to_u64 (Z.shiftl (to_u64 b1) 8))) (to_u64 b0)
  = ((((((b7 * 256 + b6) * 256 + b5) * 256 + b4) * 256 + b3) * 256 + b2)
     * 256 + b1) * 256 + b0.
Proof.
  intros H0 H1 H2 H3 H4 H5 H6 H7.
  assert (Hs : forall b n, is_byte b -> 0 <= n <= 56 ->
                 to_u64 (Z.shiftl (to_u64 b) n) = b * 2 ^ n).
  { unfold is_byte, to_u64. intros b n Hb Hn.
    rewrite (Z.mod_small b) by lia. rewrite Z.shiftl_mul_pow2 by lia.
    apply Z.mod_small.
    assert (Hp : 0 < 2 ^ n) by (apply Z.pow_pos_nonneg; lia).
    assert (Hle : 2 ^ n <= 2 ^ 56) by (apply Z.pow_le_mono_r; lia).
    change (2 ^ 56) with 72057594037927936 in Hle. nia. }
  rewrite !Hs by (assumption || lia).
  replace (to_u64 b0) with (b0 * 2 ^ 0)
    by (unfold to_u64, is_byte in *; rewrite Z.mod_small; lia).
  rewrite (lor_next_byte b7 b6 48 56) by (assumption || lia).
  rewrite (lor_next_byte _ b5 40 48) by (assumption || lia).
  rewrite (lor_next_byte _ b4 32 40) by (assumption || lia).
  rewrite (lor_next_byte _ b3 24 32) by (assumption || lia).
  rewrite (lor_next_byte _ b2 16 24) by (assumption || lia).
  rewrite (lor_next_byte _ b1 8 16) by (assumption || lia).
  rewrite (lor_next_byte _ b0 0 8) by (assumption || lia).
  change (2 ^ 0) with 1. lia.
Qed.

Lemma le_sum64 (v : Z) :
  let b (k : nat) := nth k (le_bytes 8 v) 0 in
  ((((((b 7%nat * 256 + b 6%nat) * 256 + b 5%nat) * 256 + b 4%nat) * 256
      + b 3%nat) * 256 + b 2%nat) * 256 + b 1%nat) * 256 + b 0%nat
  = v mod 18446744073709551616.
Proof.
  cbn [le_bytes nth].
  pose proof (Z.div_mod v 256 ltac:(lia)).
  pose proof (Z.div_mod (v / 256) 256 ltac:(lia)).
  pose proof (Z.div_mod (v / 256 / 256) 256 ltac:(lia)).
  pose proof (Z.div_mod (v / 256 / 256 / 256) 256 ltac:(lia)).
  pose proof (Z.div_mod (v / 256 / 256 / 256 / 256) 256 ltac:(lia)).
  pose proof (Z.div_mod (v / 256 / 256 / 256 / 256 / 256) 256 ltac:(lia)).
  pose proof (Z.div_mod (v / 256 / 256 / 256 / 256 / 256 / 256) 256
                ltac:(lia)).
  pose proof (Z.div_mod (v / 256 / 256 / 256 / 256 / 256 / 256 / 256) 256
                ltac:(lia)).
  pose proof (Z.mod_pos_bound v 256 ltac:(lia)).
  pose proof (Z.mod_pos_bound (v / 256) 256 ltac:(lia)).
  pose proof (Z.mod_pos_bound (v / 256 / 256) 256 ltac:(lia)).
  pose proof (Z.mod_pos_bound (v / 256 / 256 / 256) 256 ltac:(lia)).
  pose proof (Z.mod_pos_bound (v / 256 / 256 / 256 / 256) 256 ltac:(lia)).
  pose proof (Z.mod_pos_bound (v / 256 / 256 / 256 / 256 / 256) 256
                ltac:(lia)).
  pose proof (Z.mod_pos_bound (v / 256 / 256 / 256 / 256 / 256 / 256) 256
                ltac:(lia)).
  pose proof (Z.mod_pos_bound (v / 256 / 256 / 256 / 256 / 256 / 256 / 256)
                256 ltac:(lia)).
  apply Z.mod_unique
    with (q := v / 256 / 256 / 256 / 256 / 256 / 256 / 256 / 256); lia.
Qed.

Lemma reads_R4 (d : Z) : reads ubx_get_R4 (le_bytes 4 d) (d mod 4294967296).
Proof. apply reads_X4. Qed.

Lemma reads_R8 (d : Z) :
  reads ubx_get_R8 (le_bytes 8 d) (d mod 18446744073709551616).
Proof.
  intros pre post. unfold ubx_get_R8. cbv zeta. unfold bind.
  pose proof (Forall_le_bytes 8 d) as Hb.
  pose proof (le_sum64 d) as Hsum. cbv zeta in Hsum.
  cbn [le_bytes] in *.
  repeat match goal with
         | |- context [peek ?k (Cursor (pre ++ ?mid ++ post) _)] =>
             let n := eval vm_compute in (Z.to_nat k) in
             rewrite (peek_window pre mid post k (nth n mid 0))
               by (reflexivity || lia)
         end.
  unfold skip, ret. cbn [nth Z.to_nat Pos.to_nat Pos.iter_op Nat.add buf ind
                         length].
  rewrite assemble64;
    repeat match goal with
           | |- is_byte _ => apply mod_byte
           end.
  cbn [nth] in Hsum. rewrite Hsum. reflexivity.
Qed.

(** A field written at a cursor and read back from the same cursor. *)
Lemma codec_round_trip {A} (put : Codec unit) (get : Codec A)
    (bs : list Z) (a : A) (msg : list Z) (i : Z) :
  writes put bs -> reads get bs a ->
  0 <= i -> i + Z.of_nat (length bs) <= Z.of_nat (length msg) ->
  let msg' := firstn (Z.to_nat i) msg ++ bs
              ++ skipn (Z.to_nat (i + Z.of_nat (length bs))) msg in
  put (Cursor msg i) = Some (tt, Cursor msg' (i + Z.of_nat (length bs))) /\
  get (Cursor msg' i) = Some (a, Cursor msg' (i + Z.of_nat (length bs))).
Proof.
  intros Hw Hr Hi Hroom msg'. subst msg'.
  destruct (split_window msg i (Z.of_nat (length bs)))
    as (mid & Hmsg & Hmid & Hpre); try lia.
  remember (firstn (Z.to_nat i) msg) as pre eqn:Epre.
  remember (skipn (Z.to_nat (i + Z.of_nat (length bs))) msg) as post
    eqn:Epost.
  clear Epre Epost. subst msg i. split.
  - apply Hw. lia.
  - apply Hr.
Qed.

(** X17. Round trip of the two floating-point field types through their
    bit patterns: [ubx_put_R4] writes the four little-endian bytes of the
    32-bit pattern, whatever the uninitialised upper half of its union
    holds, and [ubx_get_R4] reads the pattern back; [ubx_put_R8] and
    [ubx_get_R8] do the same with eight bytes for a 64-bit pattern.
    Bytes outside the field are left alone and the cursor advances by
    the size of the field. *)
Theorem real_fields_round_trip (upper bits32 bits64 : Z) (msg : list Z)
    (i : Z) :
  0 <= bits32 < 4294967296 -> 0 <= bits64 < 18446744073709551616 ->
  0 <= i -> i + 8 <= Z.of_nat (length msg) ->
  let m4 := firstn (Z.to_nat i) msg ++ le_bytes 4 bits32
            ++ skipn (Z.to_nat (i + 4)) msg in
  let m8 := firstn (Z.to_nat i) msg ++ le_bytes 8 bits64
            ++ skipn (Z.to_nat (i + 8)) msg in
  ubx_put_R4 upper bits32 (Cursor msg i) = Some (tt, Cursor m4 (i + 4)) /\
  ubx_get_R4 (Cursor m4 i) = Some (bits32, Cursor m4 (i + 4)) /\
  ubx_put_R8 bits64 (Cursor msg i) = Some (tt, Cursor m8 (i + 8)) /\
  ubx_get_R8 (Cursor m8 i) = Some (bits64, Cursor m8 (i + 8)).
Proof.
  intros H32 H64 Hi Hroom m4 m8. subst m4 m8.
  pose proof (codec_round_trip _ _ _ _ msg i (writes_put_R4 upper bits32)
                (reads_R4 bits32) Hi) as R4.
  pose proof (codec_round_trip _ _ _ _ msg i (writes_put_R8 bits64)
                (reads_R8 bits64) Hi) as R8.
  rewrite length_le_bytes in R4, R8.
  change (Z.of_nat 4) with 4 in R4. change (Z.of_nat 8) with 8 in R8.
  cbv zeta in R4, R8.
  rewrite (Z.mod_small bits32) in R4 by lia.
  rewrite (Z.mod_small bits64) in R8 by lia.
  destruct (R4 ltac:(lia)) as [P4 G4]. destruct (R8 ltac:(lia)) as [P8 G8].
  repeat split; assumption.
Qed.

Lemma real_fields_round_trip_witness :
  let msg := [9; 9; 9; 9; 9; 9; 9; 9; 9; 9] in
  let m4 := firstn (Z.to_nat 1) msg ++ le_bytes 4 0x40490FDB
            ++ skipn (Z.to_nat (1 + 4)) msg in
  let m8 := firstn (Z.to_nat 1) msg ++ le_bytes 8 0x400921FB54442D18
            ++ skipn (Z.to_nat (1 + 8)) msg in
  ubx_put_R4 0xDEADBEEF 0x40490FDB (Cursor msg 1)
  = Some (tt, Cursor m4 (1 + 4)) /\
  ubx_get_R4 (Cursor m4 1) = Some (0x40490FDB, Cursor m4 (1 + 4)) /\
  ubx_put_R8 0x400921FB54442D18 (Cursor msg 1)
  = Some (tt, Cursor m8 (1 + 8)) /\
  ubx_get_R8 (Cursor m8 1) = Some (0x400921FB54442D18, Cursor m8 (1 + 8)).
Proof.
  intros msg m4 m8.
  apply (real_fields_round_trip 0xDEADBEEF 0x40490FDB 0x400921FB54442D18
           msg 1); try lia.
  cbn [msg length]. lia.
Defined.

(* ------------------------------------------------------------------ *)
(** ** Value sets, key-value items and the terminal command *)

(** A program that writes [bs], run at index [i] of a buffer with room. *)
Lemma writes_at (put : Codec unit) (bs : list Z) (msg : list Z) (i : Z) :
  writes put bs ->
  0 <= i -> i + Z.of_nat (length bs) <= Z.of_nat (length msg) ->
  put (Cursor msg i)
  = Some (tt, Cursor (firstn (Z.to_nat i) msg ++ bs
                      ++ skipn (Z.to_nat (i + Z.of_nat (length bs))) msg)
                     (i + Z.of_nat (length bs))).
Proof.
  intros Hw Hi Hroom.
  destruct (split_window msg i (Z.of_nat (length bs)))
    as (mid & Hmsg & Hmid & Hpre); try lia.
  remember (firstn (Z.to_nat i) msg) as pre eqn:Epre.
  remember (skipn (Z.to_nat (i + Z.of_nat (length bs))) msg) as post
    eqn:Epost.
  rewrite Hmsg at 1. rewrite <- Hpre. apply Hw. lia.
Qed.

Lemma or_all_mask (ram bbr flash : bool) :
  to_u8 (or_all [flag ram 0; flag bbr 1; flag flash 2])
  = (if ram then 1 else 0) + (if bbr then 2 else 0)
    + (if flash then 4 else 0).
Proof. destruct ram, bbr, flash; reflexivity. Qed.

Section ValsetFacts.
Context {H : ublox_h} {F : c_floating} {R : rtos_wait} {K : ublox_h_keys}.

(** X13. The value-set request: the payload is a zero version byte, the
    layer mask (bit 0 RAM, bit 1 BBR, bit 2 flash), two zero bytes and
    then the first [len] bytes of the key-value buffer, unchanged; one
    frame of class CFG and id VALSET carries it, and the answer is the
    outcome of the wait for the acknowledgement. *)
Theorem ublox_cfg_valset_frame (ubx values : list Z) (len : Z)
    (ram bbr flash : bool) :
  is_byte UBX_CLASS_CFG -> is_byte UBX_CFG_VALSET ->
  0 <= len <= Z.of_nat (length values) ->
  Forall is_byte (firstn (Z.to_nat len) values) ->
  len + 12 <= Z.of_nat (length ubx) ->
  let mask := (if ram then 1 else 0) + (if bbr then 2 else 0)
              + (if flash then 4 else 0) in
  let frame := ubx_frame UBX_CLASS_CFG UBX_CFG_VALSET
                 ([0; mask; 0; 0] ++ firstn (Z.to_nat len) values) in
  ublox_cfg_valset ubx values len ram bbr flash
  = Some (frame ++ skipn (Z.to_nat (len + 12)) ubx, [frame],
          wait_ack_nak CFG_ACK_WAIT_MS).
Proof.
  intros Hcls Hid Hlen Hb Hroom mask frame. subst mask frame.
  unfold ublox_cfg_valset. cbv zeta.
  assert (Hw : writes
    (ubx_put_U1 0 ;;;
     ubx_put_X1 (to_u8 (or_all [flag ram 0; flag bbr 1; flag flash 2])) ;;;
     ubx_put_U1 0 ;;; ubx_put_U1 0 ;;; memcpy_values values len)
    ([0; (if ram then 1 else 0) + (if bbr then 2 else 0)
         + (if flash then 4 else 0); 0; 0]
     ++ firstn (Z.to_nat len) values)).
  { eapply writes_eq.
    - do 4 (eapply writes_seq; [writes_field|]).
      now apply writes_memcpy_values.
    - rewrite or_all_mask. cbn [app]. do 2 f_equal.
      destruct ram, bbr, flash; reflexivity. }
  assert (Hsz : Z.of_nat (length ([0; (if ram then 1 else 0)
                   + (if bbr then 2 else 0) + (if flash then 4 else 0); 0; 0]
                   ++ firstn (Z.to_nat len) values)) = len + 4).
  { rewrite length_app, length_firstn. cbn [length]. lia. }
  rewrite (send_and_await_frame _ _ _ _ _ _ Hw); try assumption; try lia.
  - rewrite Hsz. replace (len + 4 + 8) with (len + 12) by lia. reflexivity.
  - repeat (apply Forall_cons;
            [unfold is_byte; destruct ram, bbr, flash; cbn; lia|]).
    assumption.
Qed.

(** X14. Layout of the key-value appenders: each item is the four
    little-endian bytes of its key followed by the little-endian bytes
    of its value (one for a [U1], two for a rate, four for the baud
    rate); items follow one another without padding, the bytes before
    and after the written window are left alone and the index advances
    by the number of bytes written. *)
Theorem key_value_items_layout (msg : list Z) (i key val baud meas nav : Z) :
  0 <= i -> i + 12 <= Z.of_nat (length msg) ->
  let put_at (item : list Z) :=
    Some (tt, Cursor (firstn (Z.to_nat i) msg ++ item
                      ++ skipn (Z.to_nat (i + Z.of_nat (length item))) msg)
                     (i + Z.of_nat (length item))) in
  ublox_cfg_append_u1 key val (Cursor msg i)
  = put_at (le_bytes 4 key ++ le_bytes 1 val) /\
  ublox_cfg_append_uart1_baud baud (Cursor msg i)
  = put_at (le_bytes 4 CFG_UART1_BAUDRATE ++ le_bytes 4 baud) /\
  ublox_cfg_append_rate meas nav (Cursor msg i)
  = put_at (le_bytes 4 CFG_RATE_MEAS ++ le_bytes 2 meas
            ++ le_bytes 4 CFG_RATE_NAV ++ le_bytes 2 nav).
Proof.
  intros Hi Hroom put_at. subst put_at. cbv beta.
  repeat split.
  - apply writes_at; [|lia|size_of_fields].
    unfold ublox_cfg_append_u1. writes_fields.
  - apply writes_at; [|lia|size_of_fields].
    unfold ublox_cfg_append_uart1_baud. writes_fields.
  - apply writes_at; [|lia|size_of_fields].
    unfold ublox_cfg_append_rate.
    eapply writes_eq; [writes_fields|].
    rewrite <- ?app_assoc. reflexivity.
Qed.

End ValsetFacts.

Lemma ublox_cfg_valset_frame_witness :
  ublox_cfg_valset send_buffer_init [0x01; 0x00; 0x52; 0x40; 0; 0xC2; 1; 0; 7]
    8 true true false
  = Some (ubx_frame UBX_CLASS_CFG UBX_CFG_VALSET
            ([0; 3; 0; 0] ++ [0x01; 0x00; 0x52; 0x40; 0; 0xC2; 1; 0])
            ++ skipn (Z.to_nat (8 + 12)) send_buffer_init,
          [ubx_frame UBX_CLASS_CFG UBX_CFG_VALSET
             ([0; 3; 0; 0] ++ [0x01; 0x00; 0x52; 0x40; 0; 0xC2; 1; 0])],
          wait_ack_nak CFG_ACK_WAIT_MS).
Proof.
  pose proof (ublox_cfg_valset_frame send_buffer_init
                [0x01; 0x00; 0x52; 0x40; 0; 0xC2; 1; 0; 7] 8 true true false)
    as P.
  cbv zeta in P. apply P.
  - unfold is_byte; cbn; lia.
  - unfold is_byte; cbn; lia.
  - cbn [length]; lia.
  - repeat (apply Forall_cons; [unfold is_byte; lia|]). apply Forall_nil.
  - unfold send_buffer_init, UBX_BUFFER_SIZE; rewrite repeat_length; lia.
Defined.

Lemma key_value_items_layout_witness :
  exists item1 item2 item3,
    item1 = [0x01; 0x00; 0x91; 0x20; 1] /\
    item2 = [0x01; 0x00; 0x52; 0x40; 0x00; 0xC2; 0x01; 0x00] /\
    ublox_cfg_append_u1 0x20910001 1 (Cursor (repeat 9 14) 1)
    = Some (tt, Cursor ([9] ++ item1 ++ repeat 9 8) 6) /\
    ublox_cfg_append_uart1_baud 115200 (Cursor (repeat 9 14) 1)
    = Some (tt, Cursor ([9] ++ item2 ++ repeat 9 5) 9) /\
    ublox_cfg_append_rate 200 1 (Cursor (repeat 9 14) 1)
    = Some (tt, Cursor ([9] ++ item3 ++ [9]) 13).
Proof.
  do 3 eexists. split; [reflexivity|]. split; [reflexivity|].
  pose proof (key_value_items_layout (repeat 9 14) 1 0x20910001 1 115200
                200 1) as P.
  cbv zeta in P. apply P; cbn [repeat length]; lia.
Defined.

Lemma request_sends_one_frame_witness :
  exists payload ubx',
    issue send_buffer_init (ReqValset [1; 2; 3; 4; 5] 5 true false false)
    = Some (ubx', [ubx_frame UBX_CLASS_CFG UBX_CFG_VALSET payload],
            wait_ack_nak CFG_ACK_WAIT_MS) /\
    Z.of_nat (length payload) = 9 /\
    Forall is_byte payload.
Proof.
  apply (request_sends_one_frame send_buffer_init
           (ReqValset [1; 2; 3; 4; 5] 5 true false false)).
  - unfold is_byte; cbn; lia.
  - unfold is_byte; cbn; lia.
  - unfold send_buffer_init, UBX_BUFFER_SIZE; rewrite repeat_length; lia.
  - cbn [request_sent length]. unfold UBX_BUFFER_SIZE.
    repeat split; try lia.
    repeat (apply Forall_cons; [unfold is_byte; lia|]). apply Forall_nil.
Defined.

Lemma ublox_poll_some (ubx : list Z) (msg_class id : Z) :
  is_byte msg_class -> is_byte id -> 8 <= Z.of_nat (length ubx) ->
  ublox_poll ubx msg_class id
  = Some (ubx_frame msg_class id [] ++ skipn 8 ubx, ubx_frame msg_class id []).
Proof.
  intros Hc Hi Hroom. unfold ublox_poll.
  rewrite (ubx_encode_send_frame ubx msg_class id [] 0 Hc Hi);
    [reflexivity | cbn [length]; lia | constructor | lia].
Qed.

Section TerminalFacts.
Context {M : ublox_h_messages} {H : ublox_h}.

Lemma poll_branch_some (ubx : list Z) (p : print_flags) (msg_class id : Z) :
  is_byte msg_class -> is_byte id -> 8 <= Z.of_nat (length ubx) ->
  poll_branch ubx p msg_class id
  = Some (p, ubx_frame msg_class id [] ++ skipn 8 ubx,
          [ubx_frame msg_class id []],
          [TerminalPrintf (lines ["OK"%string]) []]).
Proof.
  intros Hc Hi Hroom. unfold poll_branch.
  now rewrite ublox_poll_some.
Qed.

(** X22. The terminal command [ubx_poll]: it always returns and prints
    exactly one line; it never clears a print flag; it transmits exactly
    when it is given one argument that is one of the seven message
    names, and then what it transmits is one eight-byte poll frame (empty
    payload), which is also what the send buffer starts with afterwards,
    a print flag is set and the line printed is "OK"; when nothing is
    transmitted the flags and the send buffer are as before. *)
Theorem terminal_poll_command (ubx : list Z) (p : print_flags)
    (argv : list string) :
  poll_ids_are_bytes -> 8 <= Z.of_nat (length ubx) ->
  exists p' ubx' sent out,
    ubx_terminal_cmd_poll ubx p argv = Some (p', ubx', sent, out) /\
    length out = 1%nat /\
    flags_kept p p' /\
    (sent <> [] <->
     length argv = 2%nat /\ In (nth 1 argv EmptyString) poll_names) /\
    (sent = [] -> p' = p /\ ubx' = ubx) /\
    (forall f, In f sent ->
       sent = [f] /\ (exists c i, f = ubx_frame c i []) /\
       length f = 8%nat /\ firstn 8 ubx' = f /\
       In true (flag_list p') /\
       out = [TerminalPrintf (lines ["OK"%string]) []]).
Proof.
  intros Hb Hroom. unfold poll_ids_are_bytes in Hb.
  repeat match goal with
         | Hb : Forall _ (_ :: _) |- _ =>
             let Hx := fresh "Hx" in
             apply Forall_cons_iff in Hb; destruct Hb as [Hx Hb]
         end.
  clear Hb. unfold ubx_terminal_cmd_poll.
  destruct (Z.eqb_spec (Z.of_nat (length argv)) 2) as [Hargc|Hargc].
  2:{ do 4 eexists. split; [reflexivity|].
      split; [reflexivity|]. split.
      { unfold flags_kept, flag_list.
        repeat (apply Forall2_cons; [auto|]). apply Forall2_nil. }
      split; [split; [congruence | intros [Hl _]; lia]|].
      split; [auto | intros f []]. }
  set (arg := nth 1 argv EmptyString). destruct p as [sol rel rawx svin sat ver gnss].
  assert (Hsent : forall p' c i,
    is_byte c -> is_byte i ->
    In arg poll_names ->
    Forall2 (fun a b : bool => a = true -> b = true)
      (flag_list (PrintFlags sol rel rawx svin sat ver gnss)) (flag_list p') ->
    In true (flag_list p') ->
    exists p'0 ubx' sent out,
      poll_branch ubx p' c i = Some (p'0, ubx', sent, out) /\
      length out = 1%nat /\
      flags_kept (PrintFlags sol rel rawx svin sat ver gnss) p'0 /\
      (sent <> [] <-> length argv = 2%nat /\ In arg poll_names) /\
      (sent = [] ->
       p'0 = PrintFlags sol rel rawx svin sat ver gnss /\ ubx' = ubx) /\
      (forall f, In f sent ->
         sent = [f] /\ (exists c i, f = ubx_frame c i []) /\
         length f = 8%nat /\ firstn 8 ubx' = f /\
         In true (flag_list p'0) /\
         out = [TerminalPrintf (lines ["OK"%string]) []])).
  { intros p' c i Hc Hi Hin Hkept Hset.
    rewrite poll_branch_some by assumption.
    do 4 eexists. split; [reflexivity|]. split; [reflexivity|].
    split; [exact Hkept|].
    split; [split; [intros _; split; [lia | exact Hin] | discriminate]|].
    split; [discriminate|].
    intros f [<-|[]]. split; [reflexivity|].
    split; [now exists c, i|]. split; [reflexivity|].
    split; [reflexivity|]. split; [exact Hset | reflexivity]. }
  unfold poll_names in *.
  repeat match goal with
         | |- context [String.eqb arg ?s] =>
             destruct (String.eqb_spec arg s);
             [ apply Hsent; try assumption;
               [ match goal with e : arg = _ |- _ => rewrite e end;
                 cbn [In]; auto 10
               | unfold flag_list; cbn;
                 repeat (apply Forall2_cons; [auto|]); apply Forall2_nil
               | unfold flag_list; cbn; auto 10 ]
             | ]
         end.
  do 4 eexists. split; [reflexivity|]. split; [reflexivity|]. split.
  { unfold flags_kept, flag_list.
    repeat (apply Forall2_cons; [auto|]). apply Forall2_nil. }
  split; [split; [congruence | intros [_ Hin]; cbn [In] in Hin; intuition congruence]|].
  split; [auto | intros f []].
Qed.

End TerminalFacts.

Lemma terminal_poll_command_witness :
  exists p' ubx' sent out,
    ubx_terminal_cmd_poll send_buffer_init
      (PrintFlags false false false false false false false)
      ["ubx_poll"; "UBX_NAV_SAT"]%string
    = Some (p', ubx', sent, out) /\
    length out = 1%nat /\
    flags_kept (PrintFlags false false false false false false false) p' /\
    (sent <> [] <->
     length ["ubx_poll"; "UBX_NAV_SAT"]%string = 2%nat /\
     In (nth 1 ["ubx_poll"; "UBX_NAV_SAT"]%string EmptyString) poll_names) /\
    (sent = [] ->
     p' = PrintFlags false false false false false false false /\
     ubx' = send_buffer_init) /\
    (forall f, In f sent ->
       sent = [f] /\ (exists c i, f = ubx_frame c i []) /\
       length f = 8%nat /\ firstn 8 ubx' = f /\
       In true (flag_list p') /\
       out = [TerminalPrintf (lines ["OK"%string]) []]).
Proof.
  apply (terminal_poll_command send_buffer_init
           (PrintFlags false false false false false false false)
           ["ubx_poll"; "UBX_NAV_SAT"]%string).
  - unfold poll_ids_are_bytes.
    repeat (apply Forall_cons; [unfold is_byte; cbn; lia|]). apply Forall_nil.
  - unfold send_buffer_init, UBX_BUFFER_SIZE; rewrite repeat_length; lia.
Defined.
